(** * AidlConversion: conversions between the AIDL (wire) and the legacy
      audio descriptors

    A shallow embedding of [media/libaudioclient/AidlConversion.cpp].

    Integers are [Z] together with the C++ type they are held in
    ([IntegralType]); enum values are the [Z] of their underlying type, so a
    value obtained by [static_cast] from a bit index need not be one of the
    named enumerators and reaches the [default] branch of a [switch].  The
    enumerators, typedefs, macros and inline functions that the translation
    unit takes from [system/audio.h] and from the generated AIDL headers are
    not part of the file: they are the fields of the classes gathered in
    [Headers], and every result holds for all their values that a C++
    compiler accepts ([distinct_case_labels], [static_asserts],
    [mask_declarations]).  A legacy union is the storage its members share,
    laid out as on the Android ABIs. *)

From Stdlib Require Import ZArith Lia.
From Stdlib.Strings Require Import Byte.
From stdpp Require Import base tactics option list numbers.

Local Open Scope Z_scope.

(** ** Integral types and casts *)

Record IntegralType := { is_signed : bool; bits : Z }.

Definition int32_t : IntegralType := {| is_signed := true; bits := 32 |}.
Definition int64_t : IntegralType := {| is_signed := true; bits := 64 |}.
Definition uint16_t : IntegralType := {| is_signed := false; bits := 16 |}.
Definition uint32_t : IntegralType := {| is_signed := false; bits := 32 |}.
Definition int : IntegralType := {| is_signed := true; bits := 32 |}.
Definition unsigned : IntegralType := {| is_signed := false; bits := 32 |}.

(** [std::make_unsigned_t<IntegralTypeOf<T>>] *)
Definition make_unsigned (T : IntegralType) : IntegralType :=
  {| is_signed := false; bits := bits T |}.

Definition min_value (T : IntegralType) : Z :=
  if is_signed T then - 2 ^ (bits T - 1) else 0.

Definition max_value (T : IntegralType) : Z :=
  if is_signed T then 2 ^ (bits T - 1) - 1 else 2 ^ bits T - 1.

Definition representable (T : IntegralType) (z : Z) : bool :=
  (min_value T <=? z) && (z <=? max_value T).

(** [static_cast<To>(z)] between integral (or enum) types: the value modulo
    [2 ^ bits To], taken in the range of [To]. *)
Definition static_cast (To : IntegralType) (z : Z) : Z :=
  if is_signed To
  then (z + 2 ^ (bits To - 1)) mod 2 ^ bits To - 2 ^ (bits To - 1)
  else z mod 2 ^ bits To.

(** [a << n] computed in type [T].  C++ leaves the shift undefined when [n]
    is negative or not smaller than the width of [T]; the embedding gives the
    wrapped value of [Z.shiftl] there, and the theorems that go through such
    a shift state the range of [n]. *)
Definition shl (T : IntegralType) (a n : Z) : Z := static_cast T (Z.shiftl a n).

(** ** ConversionResult, VALUE_OR_RETURN, RETURN_IF_ERROR *)

Inductive status_t := OK | BAD_VALUE.

(** The ways a converter leaves without returning a [ConversionResult]. *)
Inductive abnormal := LOG_ALWAYS_FATAL | out_of_bounds.

(** [ConversionResult<T>] is [base::expected<T, status_t>].  The third
    constructor is not a value of the C++ type: it records that the call did
    not return (the process aborted in [LOG_ALWAYS_FATAL]) or left defined
    behaviour (an array indexed outside its bounds). *)
Inductive ConversionResult (T : Type) : Type :=
| Ok (value : T)
| unexpected (error : status_t)
| Abnormal (a : abnormal).
Arguments Ok {T} value.
Arguments unexpected {T} error.
Arguments Abnormal {T} a.

Definition bind {A B} (m : ConversionResult A) (k : A -> ConversionResult B)
  : ConversionResult B :=
  match m with
  | Ok a => k a
  | unexpected e => unexpected e
  | Abnormal a => Abnormal a
  end.

Declare Scope conv_scope.
Delimit Scope conv_scope with conv.
(** [VALUE_OR_RETURN x <- e; k] is [x = VALUE_OR_RETURN(e); k]. *)
Notation "'VALUE_OR_RETURN' x <- e ; k" := (bind e (fun x => k))
  (at level 10, x name, e at level 100, k at level 200) : conv_scope.
Notation "'RETURN_IF_ERROR' s ; k" :=
  (match s with OK => k | BAD_VALUE => unexpected BAD_VALUE end)
  (at level 10, s at level 100, k at level 200) : conv_scope.
Local Open Scope conv_scope.

Definition is_Ok {T} (r : ConversionResult T) : Prop :=
  match r with Ok _ => True | _ => False end.

(** The conversion failed: it returned [unexpected(...)] or did not return. *)
Definition failed {T} (r : ConversionResult T) : Prop := ~ is_Ok r.

(** ** switch *)

(** [switch x [(l1, b1); ...; (ln, bn)] d]: the body of the first case whose
    label equals [x], and [d] (the [default] branch, or the code after the
    switch when every case returns) when there is none.  C++ requires the
    labels of one switch to be distinct, so the order is immaterial there. *)
Fixpoint switch {R} (x : Z) (cases : list (Z * R)) (default : R) : R :=
  match cases with
  | [] => default
  | (label, body) :: rest => if decide (x = label) then body else switch x rest default
  end.

(** ** for loops *)

(** [for (size_t i = start; i < start + n; ++i) s = body(i, s)], leaving at
    the first iteration that does not yield a state. *)
Fixpoint for_loop {S} (n : nat) (start : Z) (body : Z -> S -> ConversionResult S) (s : S)
  : ConversionResult S :=
  match n with
  | O => Ok s
  | Datatypes.S n' => VALUE_OR_RETURN s' <- body start s; for_loop n' (start + 1) body s'
  end.

(** [v[i]] read on a [std::vector] or a C array. *)
Definition at_index {T} (v : list T) (i : Z) : ConversionResult T :=
  match v !! Z.to_nat i with
  | Some x => if decide (0 <= i) then Ok x else Abnormal out_of_bounds
  | None => Abnormal out_of_bounds
  end.

(** [v[i] = x]. *)
Definition set_index {T} (v : list T) (i : Z) (x : T) : ConversionResult (list T) :=
  if decide (0 <= i < Z.of_nat (length v)) then Ok (<[Z.to_nat i := x]> v)
  else Abnormal out_of_bounds.

(** [v.size()], [std::size(a)] *)
Definition size {T} (v : list T) : Z := Z.of_nat (length v).

(** ** Utilities for handling bitmasks *)

Definition index2enum_index (Enum : IntegralType) (index : Z) : Z :=
  static_cast Enum index.

Definition index2enum_bitmask (Enum : IntegralType) (index : Z) : Z :=
  static_cast Enum (shl int 1 index).

Definition enumToMask_bitmask (Mask : IntegralType) (e : Z) : Z :=
  static_cast Mask e.

Definition enumToMask_index (Mask : IntegralType) (e : Z) : Z :=
  static_cast Mask (shl (make_unsigned Mask) 1 (static_cast int e)).

(** The loop of [convertBitmask]: the state is [(dest, usrc, srcBitIndex)];
    [fuel] bounds the number of iterations and is the width of the source
    mask, which the loop never exceeds ([convertBitmask_loop_fuel]). *)
Fixpoint convertBitmask_loop {DestEnum SrcEnum : Type} (UnsignedDestMask : IntegralType)
    (enumConversion : SrcEnum -> ConversionResult DestEnum)
    (srcIndexToEnum : Z -> SrcEnum) (destEnumToMask : DestEnum -> Z)
    (fuel : nat) (dest usrc srcBitIndex : Z) : ConversionResult Z :=
  match fuel with
  | O => Ok dest
  | S fuel' =>
      if decide (usrc = 0) then Ok dest
      else
        VALUE_OR_RETURN dest' <-
          (if decide (Z.land usrc 1 <> 0) then
             let srcEnum := srcIndexToEnum srcBitIndex in
             VALUE_OR_RETURN destEnum <- enumConversion srcEnum;
             let destMask := destEnumToMask destEnum in
             Ok (Z.lor dest (static_cast UnsignedDestMask destMask))
           else Ok dest);
        convertBitmask_loop UnsignedDestMask enumConversion srcIndexToEnum destEnumToMask
          fuel' dest' (Z.shiftr usrc 1) (srcBitIndex + 1)
  end.

Definition convertBitmask {DestEnum SrcEnum : Type} (DestMask SrcMask : IntegralType)
    (src : Z) (enumConversion : SrcEnum -> ConversionResult DestEnum)
    (srcIndexToEnum : Z -> SrcEnum) (destEnumToMask : DestEnum -> Z)
  : ConversionResult Z :=
  let UnsignedDestMask := make_unsigned DestMask in
  let UnsignedSrcMask := make_unsigned SrcMask in
  let dest := static_cast UnsignedDestMask 0 in
  let usrc := static_cast UnsignedSrcMask src in
  VALUE_OR_RETURN dest <-
    (convertBitmask_loop UnsignedDestMask enumConversion srcIndexToEnum destEnumToMask
       (Z.to_nat (bits SrcMask)) dest usrc 0);
  Ok (static_cast DestMask dest).

Definition bitmaskIsSet (Mask : IntegralType) (mask index : Z) : bool :=
  negb (Z.land mask (enumToMask_index Mask index) =? 0).

(** ** convertReinterpret, Direction *)

(** [static_assert(sizeof(From) == sizeof(To))] is part of [static_asserts]. *)
Definition convertReinterpret (To : IntegralType) (from : Z) : ConversionResult Z :=
  Ok (static_cast To from).

Inductive Direction := INPUT | OUTPUT.

(** * The declarations the translation unit includes

    ** The AIDL interface ([android.media], generated headers)

    One class per AIDL enum: its enumerators, and for the enums used as bit
    indices of a mask their underlying integral type. *)

Module media.
Module AudioPortConfigType.
Class enumerators := {
  underlying : IntegralType;
  SAMPLE_RATE : Z;
  CHANNEL_MASK : Z;
  FORMAT : Z;
  GAIN : Z;
  FLAGS : Z
}.
End AudioPortConfigType.
Module AudioIoConfigEvent.
Class enumerators := {
  OUTPUT_REGISTERED : Z;
  OUTPUT_OPENED : Z;
  OUTPUT_CLOSED : Z;
  OUTPUT_CONFIG_CHANGED : Z;
  INPUT_REGISTERED : Z;
  INPUT_OPENED : Z;
  INPUT_CLOSED : Z;
  INPUT_CONFIG_CHANGED : Z;
  CLIENT_STARTED : Z
}.
End AudioIoConfigEvent.
Module AudioPortRole.
Class enumerators := {
  NONE : Z;
  SOURCE : Z;
  SINK : Z
}.
End AudioPortRole.
Module AudioPortType.
Class enumerators := {
  NONE : Z;
  DEVICE : Z;
  MIX : Z;
  SESSION : Z
}.
End AudioPortType.
Module AudioGainMode.
Class enumerators := {
  underlying : IntegralType;
  JOINT : Z;
  CHANNELS : Z;
  RAMP : Z
}.
End AudioGainMode.
Module AudioInputFlags.
Class enumerators := {
  underlying : IntegralType;
  FAST : Z;
  HW_HOTWORD : Z;
  RAW : Z;
  SYNC : Z;
  MMAP_NOIRQ : Z;
  VOIP_TX : Z;
  HW_AV_SYNC : Z;
  DIRECT : Z
}.
End AudioInputFlags.
Module AudioOutputFlags.
Class enumerators := {
  underlying : IntegralType;
  DIRECT : Z;
  PRIMARY : Z;
  FAST : Z;
  DEEP_BUFFER : Z;
  COMPRESS_OFFLOAD : Z;
  NON_BLOCKING : Z;
  HW_AV_SYNC : Z;
  TTS : Z;
  RAW : Z;
  SYNC : Z;
  IEC958_NONAUDIO : Z;
  DIRECT_PCM : Z;
  MMAP_NOIRQ : Z;
  VOIP_RX : Z;
  INCALL_MUSIC : Z
}.
End AudioOutputFlags.
Module AudioStreamType.
Class enumerators := {
  DEFAULT : Z;
  VOICE_CALL : Z;
  SYSTEM : Z;
  RING : Z;
  MUSIC : Z;
  ALARM : Z;
  NOTIFICATION : Z;
  BLUETOOTH_SCO : Z;
  ENFORCED_AUDIBLE : Z;
  DTMF : Z;
  TTS : Z;
  ACCESSIBILITY : Z;
  ASSISTANT : Z;
  REROUTING : Z;
  PATCH : Z;
  CALL_ASSISTANT : Z
}.
End AudioStreamType.
Module AudioSourceType.
Class enumerators := {
  INVALID : Z;
  DEFAULT : Z;
  MIC : Z;
  VOICE_UPLINK : Z;
  VOICE_DOWNLINK : Z;
  VOICE_CALL : Z;
  CAMCORDER : Z;
  VOICE_RECOGNITION : Z;
  VOICE_COMMUNICATION : Z;
  REMOTE_SUBMIX : Z;
  UNPROCESSED : Z;
  VOICE_PERFORMANCE : Z;
  ECHO_REFERENCE : Z;
  FM_TUNER : Z;
  HOTWORD : Z
}.
End AudioSourceType.
Module AudioContentType.
Class enumerators := {
  UNKNOWN : Z;
  SPEECH : Z;
  MUSIC : Z;
  MOVIE : Z;
  SONIFICATION : Z
}.
End AudioContentType.
Module AudioUsage.
Class enumerators := {
  UNKNOWN : Z;
  MEDIA : Z;
  VOICE_COMMUNICATION : Z;
  VOICE_COMMUNICATION_SIGNALLING : Z;
  ALARM : Z;
  NOTIFICATION : Z;
  NOTIFICATION_TELEPHONY_RINGTONE : Z;
  NOTIFICATION_COMMUNICATION_REQUEST : Z;
  NOTIFICATION_COMMUNICATION_INSTANT : Z;
  NOTIFICATION_COMMUNICATION_DELAYED : Z;
  NOTIFICATION_EVENT : Z;
  ASSISTANCE_ACCESSIBILITY : Z;
  ASSISTANCE_NAVIGATION_GUIDANCE : Z;
  ASSISTANCE_SONIFICATION : Z;
  GAME : Z;
  VIRTUAL_SOURCE : Z;
  ASSISTANT : Z;
  CALL_ASSISTANT : Z;
  EMERGENCY : Z;
  SAFETY : Z;
  VEHICLE_STATUS : Z;
  ANNOUNCEMENT : Z
}.
End AudioUsage.
Module AudioFlag.
Class enumerators := {
  underlying : IntegralType;
  AUDIBILITY_ENFORCED : Z;
  SECURE : Z;
  SCO : Z;
  BEACON : Z;
  HW_AV_SYNC : Z;
  HW_HOTWORD : Z;
  BYPASS_INTERRUPTION_POLICY : Z;
  BYPASS_MUTE : Z;
  LOW_LATENCY : Z;
  DEEP_BUFFER : Z;
  NO_MEDIA_PROJECTION : Z;
  MUTE_HAPTIC : Z;
  NO_SYSTEM_CAPTURE : Z;
  CAPTURE_PRIVATE : Z
}.
End AudioFlag.
Module AudioEncapsulationMode.
Class enumerators := {
  NONE : Z;
  ELEMENTARY_STREAM : Z;
  HANDLE : Z
}.
End AudioEncapsulationMode.

Module AudioFormat.
(** [media::audio::common::AudioFormat]: only its underlying type is used. *)
Class enumerators := { underlying : IntegralType }.
End AudioFormat.

(** The parcelables and unions, with the fields the converters use.  A
    union is the sum of its fields: the constructor is the tag. *)
Module AudioGainConfig.
Record t := {
  index : Z; mode : Z; channelMask : Z; values : list Z; rampDurationMs : Z
}.
End AudioGainConfig.
Module AudioIoFlags.
Inductive t := input (v : Z) | output (v : Z).
End AudioIoFlags.
Module AudioPortConfigDeviceExt.
Record t := { hwModule : Z; type : Z; address : list byte }.
End AudioPortConfigDeviceExt.
Module AudioPortConfigMixExtUseCase.
Inductive t := nothing (b : bool) | stream (v : Z) | source (v : Z).
End AudioPortConfigMixExtUseCase.
Module AudioPortConfigMixExt.
Record t := { hwModule : Z; handle : Z; usecase : AudioPortConfigMixExtUseCase.t }.
End AudioPortConfigMixExt.
Module AudioPortConfigSessionExt.
Record t := { session : Z }.
End AudioPortConfigSessionExt.
Module AudioPortConfigExt.
Inductive t :=
| nothing (b : bool)
| device (d : AudioPortConfigDeviceExt.t)
| mix (m : AudioPortConfigMixExt.t)
| session (s : AudioPortConfigSessionExt.t).
End AudioPortConfigExt.
Module AudioPortConfig.
Record t := {
  id : Z; role : Z; type : Z; configMask : Z; sampleRate : Z; channelMask : Z;
  format : Z; gain : AudioGainConfig.t; flags : AudioIoFlags.t;
  ext : AudioPortConfigExt.t
}.
End AudioPortConfig.
Module AudioPatch.
Record t := { id : Z; sinks : list AudioPortConfig.t; sources : list AudioPortConfig.t }.
End AudioPatch.
End media.

(** ** [system/audio.h]

    One class per legacy C enum, with the enumerators the converters name. *)

Class audio_port_config_enumerators := {
  AUDIO_PORT_CONFIG_SAMPLE_RATE : Z;
  AUDIO_PORT_CONFIG_CHANNEL_MASK : Z;
  AUDIO_PORT_CONFIG_FORMAT : Z;
  AUDIO_PORT_CONFIG_GAIN : Z;
  AUDIO_PORT_CONFIG_FLAGS : Z
}.

Class audio_io_config_event_enumerators := {
  AUDIO_OUTPUT_REGISTERED : Z;
  AUDIO_OUTPUT_OPENED : Z;
  AUDIO_OUTPUT_CLOSED : Z;
  AUDIO_OUTPUT_CONFIG_CHANGED : Z;
  AUDIO_INPUT_REGISTERED : Z;
  AUDIO_INPUT_OPENED : Z;
  AUDIO_INPUT_CLOSED : Z;
  AUDIO_INPUT_CONFIG_CHANGED : Z;
  AUDIO_CLIENT_STARTED : Z
}.

Class audio_port_role_t_enumerators := {
  AUDIO_PORT_ROLE_NONE : Z;
  AUDIO_PORT_ROLE_SOURCE : Z;
  AUDIO_PORT_ROLE_SINK : Z
}.

Class audio_port_type_t_enumerators := {
  AUDIO_PORT_TYPE_NONE : Z;
  AUDIO_PORT_TYPE_DEVICE : Z;
  AUDIO_PORT_TYPE_MIX : Z;
  AUDIO_PORT_TYPE_SESSION : Z
}.

Class audio_gain_mode_t_enumerators := {
  AUDIO_GAIN_MODE_JOINT : Z;
  AUDIO_GAIN_MODE_CHANNELS : Z;
  AUDIO_GAIN_MODE_RAMP : Z
}.

Class audio_input_flags_t_enumerators := {
  AUDIO_INPUT_FLAG_FAST : Z;
  AUDIO_INPUT_FLAG_HW_HOTWORD : Z;
  AUDIO_INPUT_FLAG_RAW : Z;
  AUDIO_INPUT_FLAG_SYNC : Z;
  AUDIO_INPUT_FLAG_MMAP_NOIRQ : Z;
  AUDIO_INPUT_FLAG_VOIP_TX : Z;
  AUDIO_INPUT_FLAG_HW_AV_SYNC : Z;
  AUDIO_INPUT_FLAG_DIRECT : Z
}.

Class audio_output_flags_t_enumerators := {
  AUDIO_OUTPUT_FLAG_DIRECT : Z;
  AUDIO_OUTPUT_FLAG_PRIMARY : Z;
  AUDIO_OUTPUT_FLAG_FAST : Z;
  AUDIO_OUTPUT_FLAG_DEEP_BUFFER : Z;
  AUDIO_OUTPUT_FLAG_COMPRESS_OFFLOAD : Z;
  AUDIO_OUTPUT_FLAG_NON_BLOCKING : Z;
  AUDIO_OUTPUT_FLAG_HW_AV_SYNC : Z;
  AUDIO_OUTPUT_FLAG_TTS : Z;
  AUDIO_OUTPUT_FLAG_RAW : Z;
  AUDIO_OUTPUT_FLAG_SYNC : Z;
  AUDIO_OUTPUT_FLAG_IEC958_NONAUDIO : Z;
  AUDIO_OUTPUT_FLAG_DIRECT_PCM : Z;
  AUDIO_OUTPUT_FLAG_MMAP_NOIRQ : Z;
  AUDIO_OUTPUT_FLAG_VOIP_RX : Z;
  AUDIO_OUTPUT_FLAG_INCALL_MUSIC : Z
}.

Class audio_stream_type_t_enumerators := {
  AUDIO_STREAM_DEFAULT : Z;
  AUDIO_STREAM_VOICE_CALL : Z;
  AUDIO_STREAM_SYSTEM : Z;
  AUDIO_STREAM_RING : Z;
  AUDIO_STREAM_MUSIC : Z;
  AUDIO_STREAM_ALARM : Z;
  AUDIO_STREAM_NOTIFICATION : Z;
  AUDIO_STREAM_BLUETOOTH_SCO : Z;
  AUDIO_STREAM_ENFORCED_AUDIBLE : Z;
  AUDIO_STREAM_DTMF : Z;
  AUDIO_STREAM_TTS : Z;
  AUDIO_STREAM_ACCESSIBILITY : Z;
  AUDIO_STREAM_ASSISTANT : Z;
  AUDIO_STREAM_REROUTING : Z;
  AUDIO_STREAM_PATCH : Z;
  AUDIO_STREAM_CALL_ASSISTANT : Z
}.

Class audio_source_t_enumerators := {
  AUDIO_SOURCE_INVALID : Z;
  AUDIO_SOURCE_DEFAULT : Z;
  AUDIO_SOURCE_MIC : Z;
  AUDIO_SOURCE_VOICE_UPLINK : Z;
  AUDIO_SOURCE_VOICE_DOWNLINK : Z;
  AUDIO_SOURCE_VOICE_CALL : Z;
  AUDIO_SOURCE_CAMCORDER : Z;
  AUDIO_SOURCE_VOICE_RECOGNITION : Z;
  AUDIO_SOURCE_VOICE_COMMUNICATION : Z;
  AUDIO_SOURCE_REMOTE_SUBMIX : Z;
  AUDIO_SOURCE_UNPROCESSED : Z;
  AUDIO_SOURCE_VOICE_PERFORMANCE : Z;
  AUDIO_SOURCE_ECHO_REFERENCE : Z;
  AUDIO_SOURCE_FM_TUNER : Z;
  AUDIO_SOURCE_HOTWORD : Z
}.

Class audio_content_type_t_enumerators := {
  AUDIO_CONTENT_TYPE_UNKNOWN : Z;
  AUDIO_CONTENT_TYPE_SPEECH : Z;
  AUDIO_CONTENT_TYPE_MUSIC : Z;
  AUDIO_CONTENT_TYPE_MOVIE : Z;
  AUDIO_CONTENT_TYPE_SONIFICATION : Z
}.

Class audio_usage_t_enumerators := {
  AUDIO_USAGE_UNKNOWN : Z;
  AUDIO_USAGE_MEDIA : Z;
  AUDIO_USAGE_VOICE_COMMUNICATION : Z;
  AUDIO_USAGE_VOICE_COMMUNICATION_SIGNALLING : Z;
  AUDIO_USAGE_ALARM : Z;
  AUDIO_USAGE_NOTIFICATION : Z;
  AUDIO_USAGE_NOTIFICATION_TELEPHONY_RINGTONE : Z;
  AUDIO_USAGE_NOTIFICATION_COMMUNICATION_REQUEST : Z;
  AUDIO_USAGE_NOTIFICATION_COMMUNICATION_INSTANT : Z;
  AUDIO_USAGE_NOTIFICATION_COMMUNICATION_DELAYED : Z;
  AUDIO_USAGE_NOTIFICATION_EVENT : Z;
  AUDIO_USAGE_ASSISTANCE_ACCESSIBILITY : Z;
  AUDIO_USAGE_ASSISTANCE_NAVIGATION_GUIDANCE : Z;
  AUDIO_USAGE_ASSISTANCE_SONIFICATION : Z;
  AUDIO_USAGE_GAME : Z;
  AUDIO_USAGE_VIRTUAL_SOURCE : Z;
  AUDIO_USAGE_ASSISTANT : Z;
  AUDIO_USAGE_CALL_ASSISTANT : Z;
  AUDIO_USAGE_EMERGENCY : Z;
  AUDIO_USAGE_SAFETY : Z;
  AUDIO_USAGE_VEHICLE_STATUS : Z;
  AUDIO_USAGE_ANNOUNCEMENT : Z
}.

Class audio_flags_mask_t_enumerators := {
  AUDIO_FLAG_AUDIBILITY_ENFORCED : Z;
  AUDIO_FLAG_SECURE : Z;
  AUDIO_FLAG_SCO : Z;
  AUDIO_FLAG_BEACON : Z;
  AUDIO_FLAG_HW_AV_SYNC : Z;
  AUDIO_FLAG_HW_HOTWORD : Z;
  AUDIO_FLAG_BYPASS_INTERRUPTION_POLICY : Z;
  AUDIO_FLAG_BYPASS_MUTE : Z;
  AUDIO_FLAG_LOW_LATENCY : Z;
  AUDIO_FLAG_DEEP_BUFFER : Z;
  AUDIO_FLAG_NO_MEDIA_PROJECTION : Z;
  AUDIO_FLAG_MUTE_HAPTIC : Z;
  AUDIO_FLAG_NO_SYSTEM_CAPTURE : Z;
  AUDIO_FLAG_CAPTURE_PRIVATE : Z;
  AUDIO_FLAG_NONE : Z
}.

Class audio_encapsulation_mode_t_enumerators := {
  AUDIO_ENCAPSULATION_MODE_NONE : Z;
  AUDIO_ENCAPSULATION_MODE_ELEMENTARY_STREAM : Z;
  AUDIO_ENCAPSULATION_MODE_HANDLE : Z
}.

(** Integral typedefs (for an enum type, its underlying type), macros, array
    sizes and inline functions. *)
Class system_audio_h := {
  size_t : IntegralType;
  audio_module_handle_t : IntegralType;
  audio_io_handle_t : IntegralType;
  audio_port_handle_t : IntegralType;
  audio_patch_handle_t : IntegralType;
  audio_session_t : IntegralType;
  audio_channel_mask_t : IntegralType;
  audio_devices_t : IntegralType;
  audio_format_t : IntegralType;
  audio_gain_mode_t : IntegralType;
  audio_input_flags_t : IntegralType;
  audio_output_flags_t : IntegralType;
  audio_flags_mask_t : IntegralType;
  AUDIO_PATCH_PORTS_MAX : Z;
  AUDIO_DEVICE_MAX_ADDRESS_LEN : Z;
  (** [std::size(audio_gain_config::values)] *)
  audio_gain_config_values_size : Z;
  audio_channel_count_from_in_mask : Z -> Z;
  audio_channel_count_from_out_mask : Z -> Z
}.

(** The legacy structs.

    A C union is the storage that its members share: it keeps no record of
    the member assigned last, and a member read gives what the storage holds
    at the type of that member, whichever member it was assigned through.
    The handles, masks and enumerations of these structs are 32-bit objects
    (for the handles, the [static_assert]s of [convertReinterpret] say so),
    stored least significant byte first. *)

(** The value of a byte, and the byte made of the low eight bits of an
    integer. *)
Definition byte_value (b : byte) : Z := Z.of_N (Byte.to_N b).

Definition low_byte (z : Z) : byte := default x00 (Byte.of_N (Z.to_N (z mod 256))).

(** The four bytes of a 32-bit object that holds [v]. *)
Definition bytes_of_int (v : Z) : list byte :=
  [low_byte v; low_byte (v / 2 ^ 8); low_byte (v / 2 ^ 16); low_byte (v / 2 ^ 24)].

(** The [int] that four bytes hold; of a shorter list, the [int] that its
    bytes followed by zeroes hold. *)
Definition int_of_bytes (bs : list byte) : Z :=
  static_cast int
    (byte_value (nth 0 bs x00) + 2 ^ 8 * byte_value (nth 1 bs x00)
     + 2 ^ 16 * byte_value (nth 2 bs x00) + 2 ^ 24 * byte_value (nth 3 bs x00)).

Module audio_gain_config.
Record t := {
  index : Z; mode : Z; channel_mask : Z; values : list Z; ramp_duration_ms : Z
}.
End audio_gain_config.
Module audio_io_flags.
(** [union audio_io_flags { audio_input_flags_t input;
                            audio_output_flags_t output; }]: one 32-bit
    object, [storage] being the integer it was last assigned.  [input v]
    is the union after [u.input = v], [output v] the union after
    [u.output = v]: each member takes the whole storage. *)
Record t := { storage : Z }.
Definition input (v : Z) : t := {| storage := v |}.
Definition output (v : Z) : t := {| storage := v |}.
End audio_io_flags.
Module audio_port_config_device_ext.
Record t := { hw_module : Z; type : Z; address : list byte }.
End audio_port_config_device_ext.
Module audio_port_config_mix_ext_usecase.
(** [union { audio_stream_type_t stream; audio_source_t source; } usecase]:
    one 32-bit object.  [stream v] is the union after [u.stream = v],
    [source v] the union after [u.source = v]. *)
Record t := { storage : Z }.
Definition stream (v : Z) : t := {| storage := v |}.
Definition source (v : Z) : t := {| storage := v |}.
End audio_port_config_mix_ext_usecase.
Module audio_port_config_mix_ext.
Record t := { hw_module : Z; handle : Z; usecase : audio_port_config_mix_ext_usecase.t }.
End audio_port_config_mix_ext.
Module audio_port_config_session_ext.
Record t := { session : Z }.
End audio_port_config_session_ext.
Module audio_port_config_ext.
(** [union { struct audio_port_config_device_ext device;
             struct audio_port_config_mix_ext mix;
             struct audio_port_config_session_ext session; } ext]: the
    storage of its largest member, [device].  [hw_module] of [device],
    [hw_module] of [mix] and [session] are at offset 0, [type] and
    [handle] at offset 4, [address] and [usecase] start at offset 8.  The
    three 32-bit objects are kept as the integers they were last assigned,
    what follows them as bytes. *)
Record t := { word_0 : Z; word_4 : Z; word_8 : Z; bytes_12 : list byte }.

(** [u.device = d] overwrites all of the storage. *)
Definition device (d : audio_port_config_device_ext.t) : t :=
  {| word_0 := audio_port_config_device_ext.hw_module d;
     word_4 := audio_port_config_device_ext.type d;
     word_8 := int_of_bytes (take 4 (audio_port_config_device_ext.address d));
     bytes_12 := drop 4 (audio_port_config_device_ext.address d) |}.

(** [u.mix = m] leaves the bytes from offset 12 on as they were in [u]. *)
Definition mix (m : audio_port_config_mix_ext.t) (u : t) : t :=
  {| word_0 := audio_port_config_mix_ext.hw_module m;
     word_4 := audio_port_config_mix_ext.handle m;
     word_8 := audio_port_config_mix_ext_usecase.storage
                 (audio_port_config_mix_ext.usecase m);
     bytes_12 := bytes_12 u |}.

(** [u.session = s] leaves the bytes from offset 4 on as they were in
    [u]. *)
Definition session (s : audio_port_config_session_ext.t) (u : t) : t :=
  {| word_0 := audio_port_config_session_ext.session s;
     word_4 := word_4 u;
     word_8 := word_8 u;
     bytes_12 := bytes_12 u |}.
End audio_port_config_ext.
Module audio_port_config.
Record t := {
  id : Z; role : Z; type : Z; config_mask : Z; sample_rate : Z; channel_mask : Z;
  format : Z; gain : audio_gain_config.t; flags : audio_io_flags.t;
  ext : audio_port_config_ext.t
}.
End audio_port_config.
Module audio_patch.
Record t := {
  id : Z;
  num_sources : Z; sources : list audio_port_config.t;
  num_sinks : Z; sinks : list audio_port_config.t
}.
End audio_patch.

(** What a local variable declared without an initialiser holds: indeterminate
    contents for a legacy C struct, the default-constructed value for a
    generated AIDL class. *)
Class LocalInit (T : Type) := local_init : T.

(** Everything above, gathered. *)
Class Headers := {
  Headers_AudioFormat :: media.AudioFormat.enumerators;
  Headers_system_audio_h :: system_audio_h;
  Headers_audio_gain_config :: LocalInit audio_gain_config.t;
  Headers_audio_io_flags :: LocalInit audio_io_flags.t;
  Headers_audio_port_config_device_ext :: LocalInit audio_port_config_device_ext.t;
  Headers_audio_port_config_mix_ext_usecase ::
    LocalInit audio_port_config_mix_ext_usecase.t;
  Headers_audio_port_config_ext :: LocalInit audio_port_config_ext.t;
  Headers_audio_port_config :: LocalInit audio_port_config.t;
  Headers_audio_patch :: LocalInit audio_patch.t;
  Headers_AudioPortConfig :: LocalInit media.AudioPortConfig.t;
  Headers_AudioPortConfigType :: media.AudioPortConfigType.enumerators;
  Headers_audio_port_config_enumerators :: audio_port_config_enumerators;
  Headers_AudioIoConfigEvent :: media.AudioIoConfigEvent.enumerators;
  Headers_audio_io_config_event_enumerators :: audio_io_config_event_enumerators;
  Headers_AudioPortRole :: media.AudioPortRole.enumerators;
  Headers_audio_port_role_t_enumerators :: audio_port_role_t_enumerators;
  Headers_AudioPortType :: media.AudioPortType.enumerators;
  Headers_audio_port_type_t_enumerators :: audio_port_type_t_enumerators;
  Headers_AudioGainMode :: media.AudioGainMode.enumerators;
  Headers_audio_gain_mode_t_enumerators :: audio_gain_mode_t_enumerators;
  Headers_AudioInputFlags :: media.AudioInputFlags.enumerators;
  Headers_audio_input_flags_t_enumerators :: audio_input_flags_t_enumerators;
  Headers_AudioOutputFlags :: media.AudioOutputFlags.enumerators;
  Headers_audio_output_flags_t_enumerators :: audio_output_flags_t_enumerators;
  Headers_AudioStreamType :: media.AudioStreamType.enumerators;
  Headers_audio_stream_type_t_enumerators :: audio_stream_type_t_enumerators;
  Headers_AudioSourceType :: media.AudioSourceType.enumerators;
  Headers_audio_source_t_enumerators :: audio_source_t_enumerators;
  Headers_AudioContentType :: media.AudioContentType.enumerators;
  Headers_audio_content_type_t_enumerators :: audio_content_type_t_enumerators;
  Headers_AudioUsage :: media.AudioUsage.enumerators;
  Headers_audio_usage_t_enumerators :: audio_usage_t_enumerators;
  Headers_AudioFlag :: media.AudioFlag.enumerators;
  Headers_audio_flags_mask_t_enumerators :: audio_flags_mask_t_enumerators;
  Headers_AudioEncapsulationMode :: media.AudioEncapsulationMode.enumerators;
  Headers_audio_encapsulation_mode_t_enumerators :: audio_encapsulation_mode_t_enumerators
}.

(** * The converters *)

(** Modelled from the spec: [convertIntegral] of [media/AidlConversionUtil.h],
    which is not among the sources.  "For bounded integers, conversion
    narrows/widens with range checking and fails with an out-of-range
    condition if the source value does not fit the destination type"; every
    failure is the one error kind [BAD_VALUE]. *)
Definition convertIntegral (To : IntegralType) (from : Z) : ConversionResult Z :=
  if representable To from then Ok from else unexpected BAD_VALUE.

(** [strnlen] of the C library: the number of bytes before the first NUL
    among the first [maxlen] bytes.  The list is the whole array, so the scan
    also ends where the list ends. *)
Fixpoint strnlen (s : list byte) (maxlen : nat) : nat :=
  match maxlen, s with
  | O, _ => O
  | _, [] => O
  | S maxlen', c :: s' => if Byte.eqb c x00 then O else S (strnlen s' maxlen')
  end.

(** [std::string] built from a C string: the bytes before the first NUL. *)
Fixpoint c_string (s : list byte) : list byte :=
  match s with
  | [] => []
  | c :: s' => if Byte.eqb c x00 then [] else c :: c_string s'
  end.

Section Converters.
Context `{Headers}.

(** [direction(media::AudioPortRole, media::AudioPortType)] *)
Definition direction (role type : Z) : ConversionResult Direction :=
  switch type [
    (media.AudioPortType.DEVICE,
      switch role [
        (media.AudioPortRole.SOURCE, Ok INPUT);
        (media.AudioPortRole.SINK, Ok OUTPUT)
      ] (unexpected BAD_VALUE));
    (media.AudioPortType.MIX,
      switch role [
        (media.AudioPortRole.SOURCE, Ok OUTPUT);
        (media.AudioPortRole.SINK, Ok INPUT)
      ] (unexpected BAD_VALUE))
  ] (unexpected BAD_VALUE).

(** [direction(audio_port_role_t, audio_port_type_t)] *)
Definition direction_legacy (role type : Z) : ConversionResult Direction :=
  switch type [
    (AUDIO_PORT_TYPE_DEVICE,
      switch role [
        (AUDIO_PORT_ROLE_SOURCE, Ok INPUT);
        (AUDIO_PORT_ROLE_SINK, Ok OUTPUT)
      ] (unexpected BAD_VALUE));
    (AUDIO_PORT_TYPE_MIX,
      switch role [
        (AUDIO_PORT_ROLE_SOURCE, Ok OUTPUT);
        (AUDIO_PORT_ROLE_SINK, Ok INPUT)
      ] (unexpected BAD_VALUE))
  ] (unexpected BAD_VALUE).

(** The status and the contents of [dest] on return. *)
Definition aidl2legacy_string (aidl : list byte) (dest : list byte) (maxSize : Z)
  : status_t * list byte :=
  if decide (size aidl > static_cast size_t (maxSize - 1)) then (BAD_VALUE, dest)
  else (OK, aidl ++ x00 :: drop (S (length aidl)) dest).

(** [legacy] is [None] for [nullptr]. *)
Definition legacy2aidl_string (legacy : option (list byte)) (maxSize : Z)
  : ConversionResult (list byte) :=
  match legacy with
  | None => unexpected BAD_VALUE
  | Some chars =>
      if decide (Z.of_nat (strnlen chars (Z.to_nat maxSize)) = maxSize)
      then unexpected BAD_VALUE
      else Ok (c_string chars)
  end.

Definition aidl2legacy_int32_t_audio_module_handle_t (aidl : Z) : ConversionResult Z :=
  convertReinterpret audio_module_handle_t aidl.

Definition legacy2aidl_audio_module_handle_t_int32_t (legacy : Z) : ConversionResult Z :=
  convertReinterpret int32_t legacy.

Definition aidl2legacy_int32_t_audio_io_handle_t (aidl : Z) : ConversionResult Z :=
  convertReinterpret audio_io_handle_t aidl.

Definition legacy2aidl_audio_io_handle_t_int32_t (legacy : Z) : ConversionResult Z :=
  convertReinterpret int32_t legacy.

Definition aidl2legacy_int32_t_audio_port_handle_t (aidl : Z) : ConversionResult Z :=
  convertReinterpret audio_port_handle_t aidl.

Definition legacy2aidl_audio_port_handle_t_int32_t (legacy : Z) : ConversionResult Z :=
  convertReinterpret int32_t legacy.

Definition aidl2legacy_int32_t_audio_patch_handle_t (aidl : Z) : ConversionResult Z :=
  convertReinterpret audio_patch_handle_t aidl.

Definition legacy2aidl_audio_patch_handle_t_int32_t (legacy : Z) : ConversionResult Z :=
  convertReinterpret int32_t legacy.

Definition aidl2legacy_AudioPortConfigType (aidl : Z) : ConversionResult Z :=
  switch aidl [
    (media.AudioPortConfigType.SAMPLE_RATE, Ok AUDIO_PORT_CONFIG_SAMPLE_RATE);
    (media.AudioPortConfigType.CHANNEL_MASK, Ok AUDIO_PORT_CONFIG_CHANNEL_MASK);
    (media.AudioPortConfigType.FORMAT, Ok AUDIO_PORT_CONFIG_FORMAT);
    (media.AudioPortConfigType.FLAGS, Ok AUDIO_PORT_CONFIG_FLAGS)
  ] (unexpected BAD_VALUE).

Definition legacy2aidl_AudioPortConfigType (legacy : Z) : ConversionResult Z :=
  switch legacy [
    (AUDIO_PORT_CONFIG_SAMPLE_RATE, Ok media.AudioPortConfigType.SAMPLE_RATE);
    (AUDIO_PORT_CONFIG_CHANNEL_MASK, Ok media.AudioPortConfigType.CHANNEL_MASK);
    (AUDIO_PORT_CONFIG_FORMAT, Ok media.AudioPortConfigType.FORMAT);
    (AUDIO_PORT_CONFIG_FLAGS, Ok media.AudioPortConfigType.FLAGS)
  ] (unexpected BAD_VALUE).

Definition aidl2legacy_int32_t_config_mask (aidl : Z) : ConversionResult Z :=
  convertBitmask unsigned int32_t
    aidl aidl2legacy_AudioPortConfigType
    (* AudioPortConfigType enum is index-based. *)
    (index2enum_index media.AudioPortConfigType.underlying)
    (* AUDIO_PORT_CONFIG_* flags are mask-based. *)
    (enumToMask_bitmask unsigned).

(** [index2enum_bitmask<unsigned>] is called through a
    [std::function<int(int)>], which converts its result to [int]. *)
Definition legacy2aidl_config_mask_int32_t (legacy : Z) : ConversionResult Z :=
  convertBitmask int32_t unsigned
    legacy legacy2aidl_AudioPortConfigType
    (* AUDIO_PORT_CONFIG_* flags are mask-based. *)
    (fun index => static_cast int (index2enum_bitmask unsigned index))
    (* AudioPortConfigType enum is index-based. *)
    (enumToMask_index int32_t).

Definition aidl2legacy_int32_t_audio_channel_mask_t (aidl : Z) : ConversionResult Z :=
  convertReinterpret audio_channel_mask_t aidl.

Definition legacy2aidl_audio_channel_mask_t_int32_t (legacy : Z) : ConversionResult Z :=
  convertReinterpret int32_t legacy.

Definition aidl2legacy_AudioIoConfigEvent_audio_io_config_event (aidl : Z) : ConversionResult Z :=
  switch aidl [
    (media.AudioIoConfigEvent.OUTPUT_REGISTERED, Ok AUDIO_OUTPUT_REGISTERED);
    (media.AudioIoConfigEvent.OUTPUT_OPENED, Ok AUDIO_OUTPUT_OPENED);
    (media.AudioIoConfigEvent.OUTPUT_CLOSED, Ok AUDIO_OUTPUT_CLOSED);
    (media.AudioIoConfigEvent.OUTPUT_CONFIG_CHANGED, Ok AUDIO_OUTPUT_CONFIG_CHANGED);
    (media.AudioIoConfigEvent.INPUT_REGISTERED, Ok AUDIO_INPUT_REGISTERED);
    (media.AudioIoConfigEvent.INPUT_OPENED, Ok AUDIO_INPUT_OPENED);
    (media.AudioIoConfigEvent.INPUT_CLOSED, Ok AUDIO_INPUT_CLOSED);
    (media.AudioIoConfigEvent.INPUT_CONFIG_CHANGED, Ok AUDIO_INPUT_CONFIG_CHANGED);
    (media.AudioIoConfigEvent.CLIENT_STARTED, Ok AUDIO_CLIENT_STARTED)
  ] (unexpected BAD_VALUE).

Definition legacy2aidl_audio_io_config_event_AudioIoConfigEvent (legacy : Z) : ConversionResult Z :=
  switch legacy [
    (AUDIO_OUTPUT_REGISTERED, Ok media.AudioIoConfigEvent.OUTPUT_REGISTERED);
    (AUDIO_OUTPUT_OPENED, Ok media.AudioIoConfigEvent.OUTPUT_OPENED);
    (AUDIO_OUTPUT_CLOSED, Ok media.AudioIoConfigEvent.OUTPUT_CLOSED);
    (AUDIO_OUTPUT_CONFIG_CHANGED, Ok media.AudioIoConfigEvent.OUTPUT_CONFIG_CHANGED);
    (AUDIO_INPUT_REGISTERED, Ok media.AudioIoConfigEvent.INPUT_REGISTERED);
    (AUDIO_INPUT_OPENED, Ok media.AudioIoConfigEvent.INPUT_OPENED);
    (AUDIO_INPUT_CLOSED, Ok media.AudioIoConfigEvent.INPUT_CLOSED);
    (AUDIO_INPUT_CONFIG_CHANGED, Ok media.AudioIoConfigEvent.INPUT_CONFIG_CHANGED);
    (AUDIO_CLIENT_STARTED, Ok media.AudioIoConfigEvent.CLIENT_STARTED)
  ] (unexpected BAD_VALUE).

Definition aidl2legacy_AudioPortRole_audio_port_role_t (aidl : Z) : ConversionResult Z :=
  switch aidl [
    (media.AudioPortRole.NONE, Ok AUDIO_PORT_ROLE_NONE);
    (media.AudioPortRole.SOURCE, Ok AUDIO_PORT_ROLE_SOURCE);
    (media.AudioPortRole.SINK, Ok AUDIO_PORT_ROLE_SINK)
  ] (unexpected BAD_VALUE).

Definition legacy2aidl_audio_port_role_t_AudioPortRole (legacy : Z) : ConversionResult Z :=
  switch legacy [
    (AUDIO_PORT_ROLE_NONE, Ok media.AudioPortRole.NONE);
    (AUDIO_PORT_ROLE_SOURCE, Ok media.AudioPortRole.SOURCE);
    (AUDIO_PORT_ROLE_SINK, Ok media.AudioPortRole.SINK)
  ] (unexpected BAD_VALUE).

Definition aidl2legacy_AudioPortType_audio_port_type_t (aidl : Z) : ConversionResult Z :=
  switch aidl [
    (media.AudioPortType.NONE, Ok AUDIO_PORT_TYPE_NONE);
    (media.AudioPortType.DEVICE, Ok AUDIO_PORT_TYPE_DEVICE);
    (media.AudioPortType.MIX, Ok AUDIO_PORT_TYPE_MIX);
    (media.AudioPortType.SESSION, Ok AUDIO_PORT_TYPE_SESSION)
  ] (unexpected BAD_VALUE).

Definition legacy2aidl_audio_port_type_t_AudioPortType (legacy : Z) : ConversionResult Z :=
  switch legacy [
    (AUDIO_PORT_TYPE_NONE, Ok media.AudioPortType.NONE);
    (AUDIO_PORT_TYPE_DEVICE, Ok media.AudioPortType.DEVICE);
    (AUDIO_PORT_TYPE_MIX, Ok media.AudioPortType.MIX);
    (AUDIO_PORT_TYPE_SESSION, Ok media.AudioPortType.SESSION)
  ] (unexpected BAD_VALUE).

(** This relies on AudioFormat being kept in sync with audio_format_t. *)
Definition aidl2legacy_AudioFormat_audio_format_t (aidl : Z) : ConversionResult Z :=
  Ok (static_cast audio_format_t aidl).

Definition legacy2aidl_audio_format_t_AudioFormat (legacy : Z) : ConversionResult Z :=
  Ok (static_cast media.AudioFormat.underlying legacy).

Definition aidl2legacy_AudioGainMode_int (aidl : Z) : ConversionResult Z :=
  switch aidl [
    (media.AudioGainMode.JOINT, Ok AUDIO_GAIN_MODE_JOINT);
    (media.AudioGainMode.CHANNELS, Ok AUDIO_GAIN_MODE_CHANNELS);
    (media.AudioGainMode.RAMP, Ok AUDIO_GAIN_MODE_RAMP)
  ] (unexpected BAD_VALUE).

Definition legacy2aidl_int_AudioGainMode (legacy : Z) : ConversionResult Z :=
  switch legacy [
    (AUDIO_GAIN_MODE_JOINT, Ok media.AudioGainMode.JOINT);
    (AUDIO_GAIN_MODE_CHANNELS, Ok media.AudioGainMode.CHANNELS);
    (AUDIO_GAIN_MODE_RAMP, Ok media.AudioGainMode.RAMP)
  ] (unexpected BAD_VALUE).

Definition aidl2legacy_int32_t_audio_gain_mode_t (aidl : Z) : ConversionResult Z :=
  convertBitmask audio_gain_mode_t int32_t
    aidl aidl2legacy_AudioGainMode_int
    (* AudioGainMode is index-based. *)
    (index2enum_index media.AudioGainMode.underlying)
    (* AUDIO_GAIN_MODE_* constants are mask-based. *)
    (enumToMask_bitmask audio_gain_mode_t).

Definition legacy2aidl_audio_gain_mode_t_int32_t (legacy : Z) : ConversionResult Z :=
  convertBitmask int32_t audio_gain_mode_t
    legacy legacy2aidl_int_AudioGainMode
    (* AUDIO_GAIN_MODE_* constants are mask-based. *)
    (index2enum_bitmask int)
    (* AudioGainMode is index-based. *)
    (enumToMask_index int32_t).

Definition aidl2legacy_int32_t_audio_devices_t (aidl : Z) : ConversionResult Z :=
  convertReinterpret audio_devices_t aidl.

Definition legacy2aidl_audio_devices_t_int32_t (legacy : Z) : ConversionResult Z :=
  convertReinterpret int32_t legacy.

(** [numValues] of both gain-config converters. *)
Definition gain_numValues (isJoint isInput : bool) (channel_mask : Z) : Z :=
  if isJoint then 1
  else if isInput then audio_channel_count_from_in_mask channel_mask
       else audio_channel_count_from_out_mask channel_mask.

Definition isInputDirection (d : Direction) : bool :=
  match d with INPUT => true | OUTPUT => false end.

Definition aidl2legacy_AudioGainConfig_audio_gain_config
    (aidl : media.AudioGainConfig.t) (role type : Z)
  : ConversionResult audio_gain_config.t :=
  let legacy : audio_gain_config.t := local_init in
  VALUE_OR_RETURN legacy_index <- convertIntegral int (media.AudioGainConfig.index aidl);
  VALUE_OR_RETURN legacy_mode <-
    aidl2legacy_int32_t_audio_gain_mode_t (media.AudioGainConfig.mode aidl);
  VALUE_OR_RETURN legacy_channel_mask <-
    aidl2legacy_int32_t_audio_channel_mask_t (media.AudioGainConfig.channelMask aidl);
  VALUE_OR_RETURN dir <- direction role type;
  let isInput := isInputDirection dir in
  let isJoint :=
    bitmaskIsSet int32_t (media.AudioGainConfig.mode aidl) media.AudioGainMode.JOINT in
  let numValues := gain_numValues isJoint isInput legacy_channel_mask in
  if decide (size (media.AudioGainConfig.values aidl) <> numValues
             \/ size (media.AudioGainConfig.values aidl) > audio_gain_config_values_size)
  then unexpected BAD_VALUE
  else
    VALUE_OR_RETURN legacy_values <-
      for_loop (Z.to_nat numValues) 0
        (fun i values =>
           VALUE_OR_RETURN aidl_value <- at_index (media.AudioGainConfig.values aidl) i;
           VALUE_OR_RETURN value <- convertIntegral int aidl_value;
           set_index values i value)
        (audio_gain_config.values legacy);
    VALUE_OR_RETURN legacy_ramp_duration_ms <-
      convertIntegral unsigned (media.AudioGainConfig.rampDurationMs aidl);
    Ok {| audio_gain_config.index := legacy_index;
          audio_gain_config.mode := legacy_mode;
          audio_gain_config.channel_mask := legacy_channel_mask;
          audio_gain_config.values := legacy_values;
          audio_gain_config.ramp_duration_ms := legacy_ramp_duration_ms |}.

Definition legacy2aidl_audio_gain_config_AudioGainConfig
    (legacy : audio_gain_config.t) (role type : Z)
  : ConversionResult media.AudioGainConfig.t :=
  VALUE_OR_RETURN aidl_index <- convertIntegral int32_t (audio_gain_config.index legacy);
  VALUE_OR_RETURN aidl_mode <-
    legacy2aidl_audio_gain_mode_t_int32_t (audio_gain_config.mode legacy);
  VALUE_OR_RETURN aidl_channelMask <-
    legacy2aidl_audio_channel_mask_t_int32_t (audio_gain_config.channel_mask legacy);
  VALUE_OR_RETURN dir <- direction_legacy role type;
  let isInput := isInputDirection dir in
  let isJoint :=
    negb (Z.land (audio_gain_config.mode legacy) AUDIO_GAIN_MODE_JOINT =? 0) in
  let numValues :=
    gain_numValues isJoint isInput (audio_gain_config.channel_mask legacy) in
  (* aidl.values.resize(numValues) on the empty vector *)
  let aidl_values0 := replicate (Z.to_nat numValues) 0 in
  VALUE_OR_RETURN aidl_values <-
    for_loop (Z.to_nat numValues) 0
      (fun i values =>
         VALUE_OR_RETURN legacy_value <- at_index (audio_gain_config.values legacy) i;
         VALUE_OR_RETURN value <- convertIntegral int32_t legacy_value;
         set_index values i value)
      aidl_values0;
  VALUE_OR_RETURN aidl_rampDurationMs <-
    convertIntegral int32_t (audio_gain_config.ramp_duration_ms legacy);
  Ok {| media.AudioGainConfig.index := aidl_index;
        media.AudioGainConfig.mode := aidl_mode;
        media.AudioGainConfig.channelMask := aidl_channelMask;
        media.AudioGainConfig.values := aidl_values;
        media.AudioGainConfig.rampDurationMs := aidl_rampDurationMs |}.

Definition aidl2legacy_AudioInputFlags_audio_input_flags_t (aidl : Z) : ConversionResult Z :=
  switch aidl [
    (media.AudioInputFlags.FAST, Ok AUDIO_INPUT_FLAG_FAST);
    (media.AudioInputFlags.HW_HOTWORD, Ok AUDIO_INPUT_FLAG_HW_HOTWORD);
    (media.AudioInputFlags.RAW, Ok AUDIO_INPUT_FLAG_RAW);
    (media.AudioInputFlags.SYNC, Ok AUDIO_INPUT_FLAG_SYNC);
    (media.AudioInputFlags.MMAP_NOIRQ, Ok AUDIO_INPUT_FLAG_MMAP_NOIRQ);
    (media.AudioInputFlags.VOIP_TX, Ok AUDIO_INPUT_FLAG_VOIP_TX);
    (media.AudioInputFlags.HW_AV_SYNC, Ok AUDIO_INPUT_FLAG_HW_AV_SYNC);
    (media.AudioInputFlags.DIRECT, Ok AUDIO_INPUT_FLAG_DIRECT)
  ] (unexpected BAD_VALUE).

Definition legacy2aidl_audio_input_flags_t_AudioInputFlags (legacy : Z) : ConversionResult Z :=
  switch legacy [
    (AUDIO_INPUT_FLAG_FAST, Ok media.AudioInputFlags.FAST);
    (AUDIO_INPUT_FLAG_HW_HOTWORD, Ok media.AudioInputFlags.HW_HOTWORD);
    (AUDIO_INPUT_FLAG_RAW, Ok media.AudioInputFlags.RAW);
    (AUDIO_INPUT_FLAG_SYNC, Ok media.AudioInputFlags.SYNC);
    (AUDIO_INPUT_FLAG_MMAP_NOIRQ, Ok media.AudioInputFlags.MMAP_NOIRQ);
    (AUDIO_INPUT_FLAG_VOIP_TX, Ok media.AudioInputFlags.VOIP_TX);
    (AUDIO_INPUT_FLAG_HW_AV_SYNC, Ok media.AudioInputFlags.HW_AV_SYNC);
    (AUDIO_INPUT_FLAG_DIRECT, Ok media.AudioInputFlags.DIRECT)
  ] (unexpected BAD_VALUE).

Definition aidl2legacy_AudioOutputFlags_audio_output_flags_t (aidl : Z) : ConversionResult Z :=
  switch aidl [
    (media.AudioOutputFlags.DIRECT, Ok AUDIO_OUTPUT_FLAG_DIRECT);
    (media.AudioOutputFlags.PRIMARY, Ok AUDIO_OUTPUT_FLAG_PRIMARY);
    (media.AudioOutputFlags.FAST, Ok AUDIO_OUTPUT_FLAG_FAST);
    (media.AudioOutputFlags.DEEP_BUFFER, Ok AUDIO_OUTPUT_FLAG_DEEP_BUFFER);
    (media.AudioOutputFlags.COMPRESS_OFFLOAD, Ok AUDIO_OUTPUT_FLAG_COMPRESS_OFFLOAD);
    (media.AudioOutputFlags.NON_BLOCKING, Ok AUDIO_OUTPUT_FLAG_NON_BLOCKING);
    (media.AudioOutputFlags.HW_AV_SYNC, Ok AUDIO_OUTPUT_FLAG_HW_AV_SYNC);
    (media.AudioOutputFlags.TTS, Ok AUDIO_OUTPUT_FLAG_TTS);
    (media.AudioOutputFlags.RAW, Ok AUDIO_OUTPUT_FLAG_RAW);
    (media.AudioOutputFlags.SYNC, Ok AUDIO_OUTPUT_FLAG_SYNC);
    (media.AudioOutputFlags.IEC958_NONAUDIO, Ok AUDIO_OUTPUT_FLAG_IEC958_NONAUDIO);
    (media.AudioOutputFlags.DIRECT_PCM, Ok AUDIO_OUTPUT_FLAG_DIRECT_PCM);
    (media.AudioOutputFlags.MMAP_NOIRQ, Ok AUDIO_OUTPUT_FLAG_MMAP_NOIRQ);
    (media.AudioOutputFlags.VOIP_RX, Ok AUDIO_OUTPUT_FLAG_VOIP_RX);
    (media.AudioOutputFlags.INCALL_MUSIC, Ok AUDIO_OUTPUT_FLAG_INCALL_MUSIC)
  ] (unexpected BAD_VALUE).

Definition legacy2aidl_audio_output_flags_t_AudioOutputFlags (legacy : Z) : ConversionResult Z :=
  switch legacy [
    (AUDIO_OUTPUT_FLAG_DIRECT, Ok media.AudioOutputFlags.DIRECT);
    (AUDIO_OUTPUT_FLAG_PRIMARY, Ok media.AudioOutputFlags.PRIMARY);
    (AUDIO_OUTPUT_FLAG_FAST, Ok media.AudioOutputFlags.FAST);
    (AUDIO_OUTPUT_FLAG_DEEP_BUFFER, Ok media.AudioOutputFlags.DEEP_BUFFER);
    (AUDIO_OUTPUT_FLAG_COMPRESS_OFFLOAD, Ok media.AudioOutputFlags.COMPRESS_OFFLOAD);
    (AUDIO_OUTPUT_FLAG_NON_BLOCKING, Ok media.AudioOutputFlags.NON_BLOCKING);
    (AUDIO_OUTPUT_FLAG_HW_AV_SYNC, Ok media.AudioOutputFlags.HW_AV_SYNC);
    (AUDIO_OUTPUT_FLAG_TTS, Ok media.AudioOutputFlags.TTS);
    (AUDIO_OUTPUT_FLAG_RAW, Ok media.AudioOutputFlags.RAW);
    (AUDIO_OUTPUT_FLAG_SYNC, Ok media.AudioOutputFlags.SYNC);
    (AUDIO_OUTPUT_FLAG_IEC958_NONAUDIO, Ok media.AudioOutputFlags.IEC958_NONAUDIO);
    (AUDIO_OUTPUT_FLAG_DIRECT_PCM, Ok media.AudioOutputFlags.DIRECT_PCM);
    (AUDIO_OUTPUT_FLAG_MMAP_NOIRQ, Ok media.AudioOutputFlags.MMAP_NOIRQ);
    (AUDIO_OUTPUT_FLAG_VOIP_RX, Ok media.AudioOutputFlags.VOIP_RX);
    (AUDIO_OUTPUT_FLAG_INCALL_MUSIC, Ok media.AudioOutputFlags.INCALL_MUSIC)
  ] (unexpected BAD_VALUE).

(** [LegacyMask] is [std::underlying_type_t<audio_input_flags_t>], which is
    what [audio_input_flags_t] stands for here. *)
Definition aidl2legacy_audio_input_flags_mask (aidl : Z) : ConversionResult Z :=
  let LegacyMask := audio_input_flags_t in
  VALUE_OR_RETURN converted <-
    convertBitmask LegacyMask int32_t
      aidl aidl2legacy_AudioInputFlags_audio_input_flags_t
      (index2enum_index media.AudioInputFlags.underlying)
      (enumToMask_bitmask LegacyMask);
  Ok (static_cast audio_input_flags_t converted).

Definition legacy2aidl_audio_input_flags_mask (legacy : Z) : ConversionResult Z :=
  let LegacyMask := audio_input_flags_t in
  let legacyMask := static_cast LegacyMask legacy in
  convertBitmask int32_t LegacyMask
    legacyMask legacy2aidl_audio_input_flags_t_AudioInputFlags
    (index2enum_bitmask audio_input_flags_t)
    (enumToMask_index int32_t).

Definition aidl2legacy_audio_output_flags_mask (aidl : Z) : ConversionResult Z :=
  convertBitmask audio_output_flags_t int32_t
    aidl aidl2legacy_AudioOutputFlags_audio_output_flags_t
    (index2enum_index media.AudioOutputFlags.underlying)
    (enumToMask_bitmask audio_output_flags_t).

Definition legacy2aidl_audio_output_flags_mask (legacy : Z) : ConversionResult Z :=
  let LegacyMask := audio_output_flags_t in
  let legacyMask := static_cast LegacyMask legacy in
  convertBitmask int32_t LegacyMask
    legacyMask legacy2aidl_audio_output_flags_t_AudioOutputFlags
    (index2enum_bitmask audio_output_flags_t)
    (enumToMask_index int32_t).

(** [UNION_GET(u, field)]: one function per union and field. *)
Definition UNION_GET_AudioIoFlags_input (u : media.AudioIoFlags.t) : ConversionResult Z :=
  match u with media.AudioIoFlags.input v => Ok v | _ => unexpected BAD_VALUE end.

Definition UNION_GET_AudioIoFlags_output (u : media.AudioIoFlags.t) : ConversionResult Z :=
  match u with media.AudioIoFlags.output v => Ok v | _ => unexpected BAD_VALUE end.

Definition aidl2legacy_AudioIoFlags_audio_io_flags
    (aidl : media.AudioIoFlags.t) (role type : Z) : ConversionResult audio_io_flags.t :=
  let legacy : audio_io_flags.t := local_init in
  VALUE_OR_RETURN dir <- direction role type;
  match dir with
  | INPUT =>
      VALUE_OR_RETURN aidl_input <- UNION_GET_AudioIoFlags_input aidl;
      VALUE_OR_RETURN legacy_input <- aidl2legacy_audio_input_flags_mask aidl_input;
      Ok (audio_io_flags.input legacy_input)
  | OUTPUT =>
      VALUE_OR_RETURN aidl_output <- UNION_GET_AudioIoFlags_output aidl;
      VALUE_OR_RETURN legacy_output <- aidl2legacy_audio_output_flags_mask aidl_output;
      Ok (audio_io_flags.output legacy_output)
  end.

(** [u.input] and [u.output]: the storage, read at the type of the
    member. *)
Definition audio_io_flags_input (u : audio_io_flags.t) : Z :=
  static_cast audio_input_flags_t (audio_io_flags.storage u).

Definition audio_io_flags_output (u : audio_io_flags.t) : Z :=
  static_cast audio_output_flags_t (audio_io_flags.storage u).

Definition legacy2aidl_audio_io_flags_AudioIoFlags
    (legacy : audio_io_flags.t) (role type : Z) : ConversionResult media.AudioIoFlags.t :=
  VALUE_OR_RETURN dir <- direction_legacy role type;
  match dir with
  | INPUT =>
      VALUE_OR_RETURN aidl_input <-
        legacy2aidl_audio_input_flags_mask (audio_io_flags_input legacy);
      Ok (media.AudioIoFlags.input aidl_input)
  | OUTPUT =>
      VALUE_OR_RETURN aidl_output <-
        legacy2aidl_audio_output_flags_mask (audio_io_flags_output legacy);
      Ok (media.AudioIoFlags.output aidl_output)
  end.

Definition aidl2legacy_AudioPortConfigDeviceExt (aidl : media.AudioPortConfigDeviceExt.t)
  : ConversionResult audio_port_config_device_ext.t :=
  let legacy : audio_port_config_device_ext.t := local_init in
  VALUE_OR_RETURN legacy_hw_module <-
    aidl2legacy_int32_t_audio_module_handle_t (media.AudioPortConfigDeviceExt.hwModule aidl);
  VALUE_OR_RETURN legacy_type <-
    aidl2legacy_int32_t_audio_devices_t (media.AudioPortConfigDeviceExt.type aidl);
  let '(status, legacy_address) :=
    aidl2legacy_string (media.AudioPortConfigDeviceExt.address aidl)
      (audio_port_config_device_ext.address legacy) AUDIO_DEVICE_MAX_ADDRESS_LEN in
  RETURN_IF_ERROR status;
  Ok {| audio_port_config_device_ext.hw_module := legacy_hw_module;
        audio_port_config_device_ext.type := legacy_type;
        audio_port_config_device_ext.address := legacy_address |}.

Definition legacy2aidl_AudioPortConfigDeviceExt (legacy : audio_port_config_device_ext.t)
  : ConversionResult media.AudioPortConfigDeviceExt.t :=
  VALUE_OR_RETURN aidl_hwModule <-
    legacy2aidl_audio_module_handle_t_int32_t (audio_port_config_device_ext.hw_module legacy);
  VALUE_OR_RETURN aidl_type <-
    legacy2aidl_audio_devices_t_int32_t (audio_port_config_device_ext.type legacy);
  VALUE_OR_RETURN aidl_address <-
    legacy2aidl_string (Some (audio_port_config_device_ext.address legacy))
      AUDIO_DEVICE_MAX_ADDRESS_LEN;
  Ok {| media.AudioPortConfigDeviceExt.hwModule := aidl_hwModule;
        media.AudioPortConfigDeviceExt.type := aidl_type;
        media.AudioPortConfigDeviceExt.address := aidl_address |}.

Definition aidl2legacy_AudioStreamType_audio_stream_type_t (aidl : Z) : ConversionResult Z :=
  switch aidl [
    (media.AudioStreamType.DEFAULT, Ok AUDIO_STREAM_DEFAULT);
    (media.AudioStreamType.VOICE_CALL, Ok AUDIO_STREAM_VOICE_CALL);
    (media.AudioStreamType.SYSTEM, Ok AUDIO_STREAM_SYSTEM);
    (media.AudioStreamType.RING, Ok AUDIO_STREAM_RING);
    (media.AudioStreamType.MUSIC, Ok AUDIO_STREAM_MUSIC);
    (media.AudioStreamType.ALARM, Ok AUDIO_STREAM_ALARM);
    (media.AudioStreamType.NOTIFICATION, Ok AUDIO_STREAM_NOTIFICATION);
    (media.AudioStreamType.BLUETOOTH_SCO, Ok AUDIO_STREAM_BLUETOOTH_SCO);
    (media.AudioStreamType.ENFORCED_AUDIBLE, Ok AUDIO_STREAM_ENFORCED_AUDIBLE);
    (media.AudioStreamType.DTMF, Ok AUDIO_STREAM_DTMF);
    (media.AudioStreamType.TTS, Ok AUDIO_STREAM_TTS);
    (media.AudioStreamType.ACCESSIBILITY, Ok AUDIO_STREAM_ACCESSIBILITY);
    (media.AudioStreamType.ASSISTANT, Ok AUDIO_STREAM_ASSISTANT);
    (media.AudioStreamType.REROUTING, Ok AUDIO_STREAM_REROUTING);
    (media.AudioStreamType.PATCH, Ok AUDIO_STREAM_PATCH);
    (media.AudioStreamType.CALL_ASSISTANT, Ok AUDIO_STREAM_CALL_ASSISTANT)
  ] (unexpected BAD_VALUE).

Definition legacy2aidl_audio_stream_type_t_AudioStreamType (legacy : Z) : ConversionResult Z :=
  switch legacy [
    (AUDIO_STREAM_DEFAULT, Ok media.AudioStreamType.DEFAULT);
    (AUDIO_STREAM_VOICE_CALL, Ok media.AudioStreamType.VOICE_CALL);
    (AUDIO_STREAM_SYSTEM, Ok media.AudioStreamType.SYSTEM);
    (AUDIO_STREAM_RING, Ok media.AudioStreamType.RING);
    (AUDIO_STREAM_MUSIC, Ok media.AudioStreamType.MUSIC);
    (AUDIO_STREAM_ALARM, Ok media.AudioStreamType.ALARM);
    (AUDIO_STREAM_NOTIFICATION, Ok media.AudioStreamType.NOTIFICATION);
    (AUDIO_STREAM_BLUETOOTH_SCO, Ok media.AudioStreamType.BLUETOOTH_SCO);
    (AUDIO_STREAM_ENFORCED_AUDIBLE, Ok media.AudioStreamType.ENFORCED_AUDIBLE);
    (AUDIO_STREAM_DTMF, Ok media.AudioStreamType.DTMF);
    (AUDIO_STREAM_TTS, Ok media.AudioStreamType.TTS);
    (AUDIO_STREAM_ACCESSIBILITY, Ok media.AudioStreamType.ACCESSIBILITY);
    (AUDIO_STREAM_ASSISTANT, Ok media.AudioStreamType.ASSISTANT);
    (AUDIO_STREAM_REROUTING, Ok media.AudioStreamType.REROUTING);
    (AUDIO_STREAM_PATCH, Ok media.AudioStreamType.PATCH);
    (AUDIO_STREAM_CALL_ASSISTANT, Ok media.AudioStreamType.CALL_ASSISTANT)
  ] (unexpected BAD_VALUE).

Definition aidl2legacy_AudioSourceType_audio_source_t (aidl : Z) : ConversionResult Z :=
  switch aidl [
    (media.AudioSourceType.INVALID, Ok AUDIO_SOURCE_INVALID);
    (media.AudioSourceType.DEFAULT, Ok AUDIO_SOURCE_DEFAULT);
    (media.AudioSourceType.MIC, Ok AUDIO_SOURCE_MIC);
    (media.AudioSourceType.VOICE_UPLINK, Ok AUDIO_SOURCE_VOICE_UPLINK);
    (media.AudioSourceType.VOICE_DOWNLINK, Ok AUDIO_SOURCE_VOICE_DOWNLINK);
    (media.AudioSourceType.VOICE_CALL, Ok AUDIO_SOURCE_VOICE_CALL);
    (media.AudioSourceType.CAMCORDER, Ok AUDIO_SOURCE_CAMCORDER);
    (media.AudioSourceType.VOICE_RECOGNITION, Ok AUDIO_SOURCE_VOICE_RECOGNITION);
    (media.AudioSourceType.VOICE_COMMUNICATION, Ok AUDIO_SOURCE_VOICE_COMMUNICATION);
    (media.AudioSourceType.REMOTE_SUBMIX, Ok AUDIO_SOURCE_REMOTE_SUBMIX);
    (media.AudioSourceType.UNPROCESSED, Ok AUDIO_SOURCE_UNPROCESSED);
    (media.AudioSourceType.VOICE_PERFORMANCE, Ok AUDIO_SOURCE_VOICE_PERFORMANCE);
    (media.AudioSourceType.ECHO_REFERENCE, Ok AUDIO_SOURCE_ECHO_REFERENCE);
    (media.AudioSourceType.FM_TUNER, Ok AUDIO_SOURCE_FM_TUNER);
    (media.AudioSourceType.HOTWORD, Ok AUDIO_SOURCE_HOTWORD)
  ] (unexpected BAD_VALUE).

Definition legacy2aidl_audio_source_t_AudioSourceType (legacy : Z) : ConversionResult Z :=
  switch legacy [
    (AUDIO_SOURCE_INVALID, Ok media.AudioSourceType.INVALID);
    (AUDIO_SOURCE_DEFAULT, Ok media.AudioSourceType.DEFAULT);
    (AUDIO_SOURCE_MIC, Ok media.AudioSourceType.MIC);
    (AUDIO_SOURCE_VOICE_UPLINK, Ok media.AudioSourceType.VOICE_UPLINK);
    (AUDIO_SOURCE_VOICE_DOWNLINK, Ok media.AudioSourceType.VOICE_DOWNLINK);
    (AUDIO_SOURCE_VOICE_CALL, Ok media.AudioSourceType.VOICE_CALL);
    (AUDIO_SOURCE_CAMCORDER, Ok media.AudioSourceType.CAMCORDER);
    (AUDIO_SOURCE_VOICE_RECOGNITION, Ok media.AudioSourceType.VOICE_RECOGNITION);
    (AUDIO_SOURCE_VOICE_COMMUNICATION, Ok media.AudioSourceType.VOICE_COMMUNICATION);
    (AUDIO_SOURCE_REMOTE_SUBMIX, Ok media.AudioSourceType.REMOTE_SUBMIX);
    (AUDIO_SOURCE_UNPROCESSED, Ok media.AudioSourceType.UNPROCESSED);
    (AUDIO_SOURCE_VOICE_PERFORMANCE, Ok media.AudioSourceType.VOICE_PERFORMANCE);
    (AUDIO_SOURCE_ECHO_REFERENCE, Ok media.AudioSourceType.ECHO_REFERENCE);
    (AUDIO_SOURCE_FM_TUNER, Ok media.AudioSourceType.FM_TUNER);
    (AUDIO_SOURCE_HOTWORD, Ok media.AudioSourceType.HOTWORD)
  ] (unexpected BAD_VALUE).

Definition aidl2legacy_int32_t_audio_session_t (aidl : Z) : ConversionResult Z :=
  convertReinterpret audio_session_t aidl.

Definition legacy2aidl_audio_session_t_int32_t (legacy : Z) : ConversionResult Z :=
  convertReinterpret int32_t legacy.

Definition UNION_GET_AudioPortConfigMixExtUseCase_nothing
    (u : media.AudioPortConfigMixExtUseCase.t) : ConversionResult bool :=
  match u with
  | media.AudioPortConfigMixExtUseCase.nothing b => Ok b
  | _ => unexpected BAD_VALUE
  end.

Definition UNION_GET_AudioPortConfigMixExtUseCase_stream
    (u : media.AudioPortConfigMixExtUseCase.t) : ConversionResult Z :=
  match u with
  | media.AudioPortConfigMixExtUseCase.stream v => Ok v
  | _ => unexpected BAD_VALUE
  end.

Definition UNION_GET_AudioPortConfigMixExtUseCase_source
    (u : media.AudioPortConfigMixExtUseCase.t) : ConversionResult Z :=
  match u with
  | media.AudioPortConfigMixExtUseCase.source v => Ok v
  | _ => unexpected BAD_VALUE
  end.

Definition aidl2legacy_AudioPortConfigMixExtUseCase
    (aidl : media.AudioPortConfigMixExtUseCase.t) (role : Z)
  : ConversionResult audio_port_config_mix_ext_usecase.t :=
  let legacy : audio_port_config_mix_ext_usecase.t := local_init in
  switch role [
    (media.AudioPortRole.NONE,
      (* Just verify that the union is empty. *)
      VALUE_OR_RETURN _ <- UNION_GET_AudioPortConfigMixExtUseCase_nothing aidl;
      Ok legacy);
    (media.AudioPortRole.SOURCE,
      (* This is not a bug. A SOURCE role corresponds to the stream field. *)
      VALUE_OR_RETURN aidl_stream <- UNION_GET_AudioPortConfigMixExtUseCase_stream aidl;
      VALUE_OR_RETURN legacy_stream <-
        aidl2legacy_AudioStreamType_audio_stream_type_t aidl_stream;
      Ok (audio_port_config_mix_ext_usecase.stream legacy_stream));
    (media.AudioPortRole.SINK,
      (* This is not a bug. A SINK role corresponds to the source field. *)
      VALUE_OR_RETURN aidl_source <- UNION_GET_AudioPortConfigMixExtUseCase_source aidl;
      VALUE_OR_RETURN legacy_source <- aidl2legacy_AudioSourceType_audio_source_t aidl_source;
      Ok (audio_port_config_mix_ext_usecase.source legacy_source))
  ] (Abnormal LOG_ALWAYS_FATAL).

(** [u.stream] and [u.source].  The converters name no integral type for
    [audio_stream_type_t] and [audio_source_t]; both enumerations have the
    underlying type [int], and either member is read as the integer the
    storage holds. *)
Definition usecase_stream (u : audio_port_config_mix_ext_usecase.t) : Z :=
  audio_port_config_mix_ext_usecase.storage u.

Definition usecase_source (u : audio_port_config_mix_ext_usecase.t) : Z :=
  audio_port_config_mix_ext_usecase.storage u.

Definition legacy2aidl_AudioPortConfigMixExtUseCase
    (legacy : audio_port_config_mix_ext_usecase.t) (role : Z)
  : ConversionResult media.AudioPortConfigMixExtUseCase.t :=
  switch role [
    (AUDIO_PORT_ROLE_NONE, Ok (media.AudioPortConfigMixExtUseCase.nothing false));
    (AUDIO_PORT_ROLE_SOURCE,
      (* This is not a bug. A SOURCE role corresponds to the stream field. *)
      VALUE_OR_RETURN aidl_stream <-
        legacy2aidl_audio_stream_type_t_AudioStreamType (usecase_stream legacy);
      Ok (media.AudioPortConfigMixExtUseCase.stream aidl_stream));
    (AUDIO_PORT_ROLE_SINK,
      (* This is not a bug. A SINK role corresponds to the source field. *)
      VALUE_OR_RETURN aidl_source <-
        legacy2aidl_audio_source_t_AudioSourceType (usecase_source legacy);
      Ok (media.AudioPortConfigMixExtUseCase.source aidl_source))
  ] (Abnormal LOG_ALWAYS_FATAL).

Definition aidl2legacy_AudioPortConfigMixExt (aidl : media.AudioPortConfigMixExt.t) (role : Z)
  : ConversionResult audio_port_config_mix_ext.t :=
  VALUE_OR_RETURN legacy_hw_module <-
    aidl2legacy_int32_t_audio_module_handle_t (media.AudioPortConfigMixExt.hwModule aidl);
  VALUE_OR_RETURN legacy_handle <-
    aidl2legacy_int32_t_audio_io_handle_t (media.AudioPortConfigMixExt.handle aidl);
  VALUE_OR_RETURN legacy_usecase <-
    aidl2legacy_AudioPortConfigMixExtUseCase (media.AudioPortConfigMixExt.usecase aidl) role;
  Ok {| audio_port_config_mix_ext.hw_module := legacy_hw_module;
        audio_port_config_mix_ext.handle := legacy_handle;
        audio_port_config_mix_ext.usecase := legacy_usecase |}.

Definition legacy2aidl_AudioPortConfigMixExt (legacy : audio_port_config_mix_ext.t) (role : Z)
  : ConversionResult media.AudioPortConfigMixExt.t :=
  VALUE_OR_RETURN aidl_hwModule <-
    legacy2aidl_audio_module_handle_t_int32_t (audio_port_config_mix_ext.hw_module legacy);
  VALUE_OR_RETURN aidl_handle <-
    legacy2aidl_audio_io_handle_t_int32_t (audio_port_config_mix_ext.handle legacy);
  VALUE_OR_RETURN aidl_usecase <-
    legacy2aidl_AudioPortConfigMixExtUseCase (audio_port_config_mix_ext.usecase legacy) role;
  Ok {| media.AudioPortConfigMixExt.hwModule := aidl_hwModule;
        media.AudioPortConfigMixExt.handle := aidl_handle;
        media.AudioPortConfigMixExt.usecase := aidl_usecase |}.

Definition aidl2legacy_AudioPortConfigSessionExt (aidl : media.AudioPortConfigSessionExt.t)
  : ConversionResult audio_port_config_session_ext.t :=
  VALUE_OR_RETURN legacy_session <-
    aidl2legacy_int32_t_audio_session_t (media.AudioPortConfigSessionExt.session aidl);
  Ok {| audio_port_config_session_ext.session := legacy_session |}.

Definition legacy2aidl_AudioPortConfigSessionExt (legacy : audio_port_config_session_ext.t)
  : ConversionResult media.AudioPortConfigSessionExt.t :=
  VALUE_OR_RETURN aidl_session <-
    legacy2aidl_audio_session_t_int32_t (audio_port_config_session_ext.session legacy);
  Ok {| media.AudioPortConfigSessionExt.session := aidl_session |}.

Definition UNION_GET_AudioPortConfigExt_nothing (u : media.AudioPortConfigExt.t)
  : ConversionResult bool :=
  match u with media.AudioPortConfigExt.nothing b => Ok b | _ => unexpected BAD_VALUE end.

Definition UNION_GET_AudioPortConfigExt_device (u : media.AudioPortConfigExt.t)
  : ConversionResult media.AudioPortConfigDeviceExt.t :=
  match u with media.AudioPortConfigExt.device d => Ok d | _ => unexpected BAD_VALUE end.

Definition UNION_GET_AudioPortConfigExt_mix (u : media.AudioPortConfigExt.t)
  : ConversionResult media.AudioPortConfigMixExt.t :=
  match u with media.AudioPortConfigExt.mix m => Ok m | _ => unexpected BAD_VALUE end.

Definition UNION_GET_AudioPortConfigExt_session (u : media.AudioPortConfigExt.t)
  : ConversionResult media.AudioPortConfigSessionExt.t :=
  match u with media.AudioPortConfigExt.session s => Ok s | _ => unexpected BAD_VALUE end.

Definition aidl2legacy_AudioPortConfigExt (aidl : media.AudioPortConfigExt.t) (type role : Z)
  : ConversionResult audio_port_config_ext.t :=
  let legacy : audio_port_config_ext.t := local_init in
  switch type [
    (media.AudioPortType.NONE,
      (* Just verify that the union is empty. *)
      VALUE_OR_RETURN _ <- UNION_GET_AudioPortConfigExt_nothing aidl;
      Ok legacy);
    (media.AudioPortType.DEVICE,
      VALUE_OR_RETURN aidl_device <- UNION_GET_AudioPortConfigExt_device aidl;
      VALUE_OR_RETURN legacy_device <- aidl2legacy_AudioPortConfigDeviceExt aidl_device;
      Ok (audio_port_config_ext.device legacy_device));
    (media.AudioPortType.MIX,
      VALUE_OR_RETURN aidl_mix <- UNION_GET_AudioPortConfigExt_mix aidl;
      VALUE_OR_RETURN legacy_mix <- aidl2legacy_AudioPortConfigMixExt aidl_mix role;
      Ok (audio_port_config_ext.mix legacy_mix legacy));
    (media.AudioPortType.SESSION,
      VALUE_OR_RETURN aidl_session <- UNION_GET_AudioPortConfigExt_session aidl;
      VALUE_OR_RETURN legacy_session <- aidl2legacy_AudioPortConfigSessionExt aidl_session;
      Ok (audio_port_config_ext.session legacy_session legacy))
  ] (Abnormal LOG_ALWAYS_FATAL).

(** [u.device], [u.mix] and [u.session]: the fields of the member, read
    from the storage at their offsets and at their types. *)
Definition ext_device (u : audio_port_config_ext.t) : audio_port_config_device_ext.t :=
  {| audio_port_config_device_ext.hw_module :=
       static_cast audio_module_handle_t (audio_port_config_ext.word_0 u);
     audio_port_config_device_ext.type :=
       static_cast audio_devices_t (audio_port_config_ext.word_4 u);
     audio_port_config_device_ext.address :=
       bytes_of_int (audio_port_config_ext.word_8 u) ++ audio_port_config_ext.bytes_12 u |}.

Definition ext_mix (u : audio_port_config_ext.t) : audio_port_config_mix_ext.t :=
  {| audio_port_config_mix_ext.hw_module :=
       static_cast audio_module_handle_t (audio_port_config_ext.word_0 u);
     audio_port_config_mix_ext.handle :=
       static_cast audio_io_handle_t (audio_port_config_ext.word_4 u);
     audio_port_config_mix_ext.usecase :=
       {| audio_port_config_mix_ext_usecase.storage := audio_port_config_ext.word_8 u |} |}.

Definition ext_session (u : audio_port_config_ext.t) : audio_port_config_session_ext.t :=
  {| audio_port_config_session_ext.session :=
       static_cast audio_session_t (audio_port_config_ext.word_0 u) |}.

Definition legacy2aidl_AudioPortConfigExt (legacy : audio_port_config_ext.t) (type role : Z)
  : ConversionResult media.AudioPortConfigExt.t :=
  switch type [
    (AUDIO_PORT_TYPE_NONE, Ok (media.AudioPortConfigExt.nothing false));
    (AUDIO_PORT_TYPE_DEVICE,
      VALUE_OR_RETURN aidl_device <-
        legacy2aidl_AudioPortConfigDeviceExt (ext_device legacy);
      Ok (media.AudioPortConfigExt.device aidl_device));
    (AUDIO_PORT_TYPE_MIX,
      VALUE_OR_RETURN aidl_mix <- legacy2aidl_AudioPortConfigMixExt (ext_mix legacy) role;
      Ok (media.AudioPortConfigExt.mix aidl_mix));
    (AUDIO_PORT_TYPE_SESSION,
      VALUE_OR_RETURN aidl_session <-
        legacy2aidl_AudioPortConfigSessionExt (ext_session legacy);
      Ok (media.AudioPortConfigExt.session aidl_session))
  ] (Abnormal LOG_ALWAYS_FATAL).

(** A field assigned under [if (...)] keeps the contents of the local
    [legacy] (resp. [aidl]) when the condition does not hold. *)
Definition aidl2legacy_AudioPortConfig_audio_port_config (aidl : media.AudioPortConfig.t)
  : ConversionResult audio_port_config.t :=
  let legacy : audio_port_config.t := local_init in
  let configMask := media.AudioPortConfig.configMask aidl in
  VALUE_OR_RETURN legacy_id <-
    aidl2legacy_int32_t_audio_port_handle_t (media.AudioPortConfig.id aidl);
  VALUE_OR_RETURN legacy_role <-
    aidl2legacy_AudioPortRole_audio_port_role_t (media.AudioPortConfig.role aidl);
  VALUE_OR_RETURN legacy_type <-
    aidl2legacy_AudioPortType_audio_port_type_t (media.AudioPortConfig.type aidl);
  VALUE_OR_RETURN legacy_config_mask <- aidl2legacy_int32_t_config_mask configMask;
  VALUE_OR_RETURN legacy_sample_rate <-
    (if bitmaskIsSet int32_t configMask media.AudioPortConfigType.SAMPLE_RATE
     then convertIntegral unsigned (media.AudioPortConfig.sampleRate aidl)
     else Ok (audio_port_config.sample_rate legacy));
  VALUE_OR_RETURN legacy_channel_mask <-
    (if bitmaskIsSet int32_t configMask media.AudioPortConfigType.CHANNEL_MASK
     then aidl2legacy_int32_t_audio_channel_mask_t (media.AudioPortConfig.channelMask aidl)
     else Ok (audio_port_config.channel_mask legacy));
  VALUE_OR_RETURN legacy_format <-
    (if bitmaskIsSet int32_t configMask media.AudioPortConfigType.FORMAT
     then aidl2legacy_AudioFormat_audio_format_t (media.AudioPortConfig.format aidl)
     else Ok (audio_port_config.format legacy));
  VALUE_OR_RETURN legacy_gain <-
    (if bitmaskIsSet int32_t configMask media.AudioPortConfigType.GAIN
     then aidl2legacy_AudioGainConfig_audio_gain_config (media.AudioPortConfig.gain aidl)
            (media.AudioPortConfig.role aidl) (media.AudioPortConfig.type aidl)
     else Ok (audio_port_config.gain legacy));
  VALUE_OR_RETURN legacy_flags <-
    (if bitmaskIsSet int32_t configMask media.AudioPortConfigType.FLAGS
     then aidl2legacy_AudioIoFlags_audio_io_flags (media.AudioPortConfig.flags aidl)
            (media.AudioPortConfig.role aidl) (media.AudioPortConfig.type aidl)
     else Ok (audio_port_config.flags legacy));
  VALUE_OR_RETURN legacy_ext <-
    aidl2legacy_AudioPortConfigExt (media.AudioPortConfig.ext aidl)
      (media.AudioPortConfig.type aidl) (media.AudioPortConfig.role aidl);
  Ok {| audio_port_config.id := legacy_id;
        audio_port_config.role := legacy_role;
        audio_port_config.type := legacy_type;
        audio_port_config.config_mask := legacy_config_mask;
        audio_port_config.sample_rate := legacy_sample_rate;
        audio_port_config.channel_mask := legacy_channel_mask;
        audio_port_config.format := legacy_format;
        audio_port_config.gain := legacy_gain;
        audio_port_config.flags := legacy_flags;
        audio_port_config.ext := legacy_ext |}.

(** [legacy.config_mask & flag] used as a condition. *)
Definition config_mask_has (config_mask flag : Z) : bool :=
  negb (Z.land config_mask flag =? 0).

Definition legacy2aidl_audio_port_config_AudioPortConfig (legacy : audio_port_config.t)
  : ConversionResult media.AudioPortConfig.t :=
  let aidl : media.AudioPortConfig.t := local_init in
  let config_mask := audio_port_config.config_mask legacy in
  VALUE_OR_RETURN aidl_id <-
    legacy2aidl_audio_port_handle_t_int32_t (audio_port_config.id legacy);
  VALUE_OR_RETURN aidl_role <-
    legacy2aidl_audio_port_role_t_AudioPortRole (audio_port_config.role legacy);
  VALUE_OR_RETURN aidl_type <-
    legacy2aidl_audio_port_type_t_AudioPortType (audio_port_config.type legacy);
  VALUE_OR_RETURN aidl_configMask <- legacy2aidl_config_mask_int32_t config_mask;
  VALUE_OR_RETURN aidl_sampleRate <-
    (if config_mask_has config_mask AUDIO_PORT_CONFIG_SAMPLE_RATE
     then convertIntegral int32_t (audio_port_config.sample_rate legacy)
     else Ok (media.AudioPortConfig.sampleRate aidl));
  VALUE_OR_RETURN aidl_channelMask <-
    (if config_mask_has config_mask AUDIO_PORT_CONFIG_CHANNEL_MASK
     then legacy2aidl_audio_channel_mask_t_int32_t (audio_port_config.channel_mask legacy)
     else Ok (media.AudioPortConfig.channelMask aidl));
  VALUE_OR_RETURN aidl_format <-
    (if config_mask_has config_mask AUDIO_PORT_CONFIG_FORMAT
     then legacy2aidl_audio_format_t_AudioFormat (audio_port_config.format legacy)
     else Ok (media.AudioPortConfig.format aidl));
  VALUE_OR_RETURN aidl_gain <-
    (if config_mask_has config_mask AUDIO_PORT_CONFIG_GAIN
     then legacy2aidl_audio_gain_config_AudioGainConfig (audio_port_config.gain legacy)
            (audio_port_config.role legacy) (audio_port_config.type legacy)
     else Ok (media.AudioPortConfig.gain aidl));
  VALUE_OR_RETURN aidl_flags <-
    (if config_mask_has config_mask AUDIO_PORT_CONFIG_FLAGS
     then legacy2aidl_audio_io_flags_AudioIoFlags (audio_port_config.flags legacy)
            (audio_port_config.role legacy) (audio_port_config.type legacy)
     else Ok (media.AudioPortConfig.flags aidl));
  VALUE_OR_RETURN aidl_ext <-
    legacy2aidl_AudioPortConfigExt (audio_port_config.ext legacy)
      (audio_port_config.type legacy) (audio_port_config.role legacy);
  Ok {| media.AudioPortConfig.id := aidl_id;
        media.AudioPortConfig.role := aidl_role;
        media.AudioPortConfig.type := aidl_type;
        media.AudioPortConfig.configMask := aidl_configMask;
        media.AudioPortConfig.sampleRate := aidl_sampleRate;
        media.AudioPortConfig.channelMask := aidl_channelMask;
        media.AudioPortConfig.format := aidl_format;
        media.AudioPortConfig.gain := aidl_gain;
        media.AudioPortConfig.flags := aidl_flags;
        media.AudioPortConfig.ext := aidl_ext |}.

Definition aidl2legacy_AudioPatch_audio_patch (aidl : media.AudioPatch.t)
  : ConversionResult audio_patch.t :=
  let legacy : audio_patch.t := local_init in
  VALUE_OR_RETURN legacy_id <-
    aidl2legacy_int32_t_audio_patch_handle_t (media.AudioPatch.id aidl);
  VALUE_OR_RETURN legacy_num_sinks <-
    convertIntegral unsigned (size (media.AudioPatch.sinks aidl));
  if decide (legacy_num_sinks > AUDIO_PATCH_PORTS_MAX) then unexpected BAD_VALUE
  else
    VALUE_OR_RETURN legacy_sinks <-
      for_loop (Z.to_nat legacy_num_sinks) 0
        (fun i sinks =>
           VALUE_OR_RETURN aidl_sink <- at_index (media.AudioPatch.sinks aidl) i;
           VALUE_OR_RETURN sink <- aidl2legacy_AudioPortConfig_audio_port_config aidl_sink;
           set_index sinks i sink)
        (audio_patch.sinks legacy);
    VALUE_OR_RETURN legacy_num_sources <-
      convertIntegral unsigned (size (media.AudioPatch.sources aidl));
    if decide (legacy_num_sources > AUDIO_PATCH_PORTS_MAX) then unexpected BAD_VALUE
    else
      VALUE_OR_RETURN legacy_sources <-
        for_loop (Z.to_nat legacy_num_sources) 0
          (fun i sources =>
             VALUE_OR_RETURN aidl_source <- at_index (media.AudioPatch.sources aidl) i;
             VALUE_OR_RETURN source <-
               aidl2legacy_AudioPortConfig_audio_port_config aidl_source;
             set_index sources i source)
          (audio_patch.sources legacy);
      Ok {| audio_patch.id := legacy_id;
            audio_patch.num_sources := legacy_num_sources;
            audio_patch.sources := legacy_sources;
            audio_patch.num_sinks := legacy_num_sinks;
            audio_patch.sinks := legacy_sinks |}.

Definition legacy2aidl_audio_patch_AudioPatch (legacy : audio_patch.t)
  : ConversionResult media.AudioPatch.t :=
  VALUE_OR_RETURN aidl_id <-
    legacy2aidl_audio_patch_handle_t_int32_t (audio_patch.id legacy);
  if decide (audio_patch.num_sinks legacy > AUDIO_PATCH_PORTS_MAX) then unexpected BAD_VALUE
  else
    VALUE_OR_RETURN aidl_sinks <-
      for_loop (Z.to_nat (audio_patch.num_sinks legacy)) 0
        (fun i sinks =>
           VALUE_OR_RETURN legacy_sink <- at_index (audio_patch.sinks legacy) i;
           VALUE_OR_RETURN sink <- legacy2aidl_audio_port_config_AudioPortConfig legacy_sink;
           (* push_back *)
           Ok (sinks ++ [sink]))
        [];
    if decide (audio_patch.num_sources legacy > AUDIO_PATCH_PORTS_MAX)
    then unexpected BAD_VALUE
    else
      VALUE_OR_RETURN aidl_sources <-
        for_loop (Z.to_nat (audio_patch.num_sources legacy)) 0
          (fun i sources =>
             VALUE_OR_RETURN legacy_source <- at_index (audio_patch.sources legacy) i;
             VALUE_OR_RETURN source <-
               legacy2aidl_audio_port_config_AudioPortConfig legacy_source;
             Ok (sources ++ [source]))
          [];
      Ok {| media.AudioPatch.id := aidl_id;
            media.AudioPatch.sinks := aidl_sinks;
            media.AudioPatch.sources := aidl_sources |}.

Definition aidl2legacy_AudioContentType_audio_content_type_t (aidl : Z) : ConversionResult Z :=
  switch aidl [
    (media.AudioContentType.UNKNOWN, Ok AUDIO_CONTENT_TYPE_UNKNOWN);
    (media.AudioContentType.SPEECH, Ok AUDIO_CONTENT_TYPE_SPEECH);
    (media.AudioContentType.MUSIC, Ok AUDIO_CONTENT_TYPE_MUSIC);
    (media.AudioContentType.MOVIE, Ok AUDIO_CONTENT_TYPE_MOVIE);
    (media.AudioContentType.SONIFICATION, Ok AUDIO_CONTENT_TYPE_SONIFICATION)
  ] (unexpected BAD_VALUE).

Definition legacy2aidl_audio_content_type_t_AudioContentType (legacy : Z) : ConversionResult Z :=
  switch legacy [
    (AUDIO_CONTENT_TYPE_UNKNOWN, Ok media.AudioContentType.UNKNOWN);
    (AUDIO_CONTENT_TYPE_SPEECH, Ok media.AudioContentType.SPEECH);
    (AUDIO_CONTENT_TYPE_MUSIC, Ok media.AudioContentType.MUSIC);
    (AUDIO_CONTENT_TYPE_MOVIE, Ok media.AudioContentType.MOVIE);
    (AUDIO_CONTENT_TYPE_SONIFICATION, Ok media.AudioContentType.SONIFICATION)
  ] (unexpected BAD_VALUE).

Definition aidl2legacy_AudioUsage_audio_usage_t (aidl : Z) : ConversionResult Z :=
  switch aidl [
    (media.AudioUsage.UNKNOWN, Ok AUDIO_USAGE_UNKNOWN);
    (media.AudioUsage.MEDIA, Ok AUDIO_USAGE_MEDIA);
    (media.AudioUsage.VOICE_COMMUNICATION, Ok AUDIO_USAGE_VOICE_COMMUNICATION);
    (media.AudioUsage.VOICE_COMMUNICATION_SIGNALLING, Ok AUDIO_USAGE_VOICE_COMMUNICATION_SIGNALLING);
    (media.AudioUsage.ALARM, Ok AUDIO_USAGE_ALARM);
    (media.AudioUsage.NOTIFICATION, Ok AUDIO_USAGE_NOTIFICATION);
    (media.AudioUsage.NOTIFICATION_TELEPHONY_RINGTONE, Ok AUDIO_USAGE_NOTIFICATION_TELEPHONY_RINGTONE);
    (media.AudioUsage.NOTIFICATION_COMMUNICATION_REQUEST, Ok AUDIO_USAGE_NOTIFICATION_COMMUNICATION_REQUEST);
    (media.AudioUsage.NOTIFICATION_COMMUNICATION_INSTANT, Ok AUDIO_USAGE_NOTIFICATION_COMMUNICATION_INSTANT);
    (media.AudioUsage.NOTIFICATION_COMMUNICATION_DELAYED, Ok AUDIO_USAGE_NOTIFICATION_COMMUNICATION_DELAYED);
    (media.AudioUsage.NOTIFICATION_EVENT, Ok AUDIO_USAGE_NOTIFICATION_EVENT);
    (media.AudioUsage.ASSISTANCE_ACCESSIBILITY, Ok AUDIO_USAGE_ASSISTANCE_ACCESSIBILITY);
    (media.AudioUsage.ASSISTANCE_NAVIGATION_GUIDANCE, Ok AUDIO_USAGE_ASSISTANCE_NAVIGATION_GUIDANCE);
    (media.AudioUsage.ASSISTANCE_SONIFICATION, Ok AUDIO_USAGE_ASSISTANCE_SONIFICATION);
    (media.AudioUsage.GAME, Ok AUDIO_USAGE_GAME);
    (media.AudioUsage.VIRTUAL_SOURCE, Ok AUDIO_USAGE_VIRTUAL_SOURCE);
    (media.AudioUsage.ASSISTANT, Ok AUDIO_USAGE_ASSISTANT);
    (media.AudioUsage.CALL_ASSISTANT, Ok AUDIO_USAGE_CALL_ASSISTANT);
    (media.AudioUsage.EMERGENCY, Ok AUDIO_USAGE_EMERGENCY);
    (media.AudioUsage.SAFETY, Ok AUDIO_USAGE_SAFETY);
    (media.AudioUsage.VEHICLE_STATUS, Ok AUDIO_USAGE_VEHICLE_STATUS);
    (media.AudioUsage.ANNOUNCEMENT, Ok AUDIO_USAGE_ANNOUNCEMENT)
  ] (unexpected BAD_VALUE).

Definition legacy2aidl_audio_usage_t_AudioUsage (legacy : Z) : ConversionResult Z :=
  switch legacy [
    (AUDIO_USAGE_UNKNOWN, Ok media.AudioUsage.UNKNOWN);
    (AUDIO_USAGE_MEDIA, Ok media.AudioUsage.MEDIA);
    (AUDIO_USAGE_VOICE_COMMUNICATION, Ok media.AudioUsage.VOICE_COMMUNICATION);
    (AUDIO_USAGE_VOICE_COMMUNICATION_SIGNALLING, Ok media.AudioUsage.VOICE_COMMUNICATION_SIGNALLING);
    (AUDIO_USAGE_ALARM, Ok media.AudioUsage.ALARM);
    (AUDIO_USAGE_NOTIFICATION, Ok media.AudioUsage.NOTIFICATION);
    (AUDIO_USAGE_NOTIFICATION_TELEPHONY_RINGTONE, Ok media.AudioUsage.NOTIFICATION_TELEPHONY_RINGTONE);
    (AUDIO_USAGE_NOTIFICATION_COMMUNICATION_REQUEST, Ok media.AudioUsage.NOTIFICATION_COMMUNICATION_REQUEST);
    (AUDIO_USAGE_NOTIFICATION_COMMUNICATION_INSTANT, Ok media.AudioUsage.NOTIFICATION_COMMUNICATION_INSTANT);
    (AUDIO_USAGE_NOTIFICATION_COMMUNICATION_DELAYED, Ok media.AudioUsage.NOTIFICATION_COMMUNICATION_DELAYED);
    (AUDIO_USAGE_NOTIFICATION_EVENT, Ok media.AudioUsage.NOTIFICATION_EVENT);
    (AUDIO_USAGE_ASSISTANCE_ACCESSIBILITY, Ok media.AudioUsage.ASSISTANCE_ACCESSIBILITY);
    (AUDIO_USAGE_ASSISTANCE_NAVIGATION_GUIDANCE, Ok media.AudioUsage.ASSISTANCE_NAVIGATION_GUIDANCE);
    (AUDIO_USAGE_ASSISTANCE_SONIFICATION, Ok media.AudioUsage.ASSISTANCE_SONIFICATION);
    (AUDIO_USAGE_GAME, Ok media.AudioUsage.GAME);
    (AUDIO_USAGE_VIRTUAL_SOURCE, Ok media.AudioUsage.VIRTUAL_SOURCE);
    (AUDIO_USAGE_ASSISTANT, Ok media.AudioUsage.ASSISTANT);
    (AUDIO_USAGE_CALL_ASSISTANT, Ok media.AudioUsage.CALL_ASSISTANT);
    (AUDIO_USAGE_EMERGENCY, Ok media.AudioUsage.EMERGENCY);
    (AUDIO_USAGE_SAFETY, Ok media.AudioUsage.SAFETY);
    (AUDIO_USAGE_VEHICLE_STATUS, Ok media.AudioUsage.VEHICLE_STATUS);
    (AUDIO_USAGE_ANNOUNCEMENT, Ok media.AudioUsage.ANNOUNCEMENT)
  ] (unexpected BAD_VALUE).

Definition aidl2legacy_AudioFlag_audio_flags_mask_t (aidl : Z) : ConversionResult Z :=
  switch aidl [
    (media.AudioFlag.AUDIBILITY_ENFORCED, Ok AUDIO_FLAG_AUDIBILITY_ENFORCED);
    (media.AudioFlag.SECURE, Ok AUDIO_FLAG_SECURE);
    (media.AudioFlag.SCO, Ok AUDIO_FLAG_SCO);
    (media.AudioFlag.BEACON, Ok AUDIO_FLAG_BEACON);
    (media.AudioFlag.HW_AV_SYNC, Ok AUDIO_FLAG_HW_AV_SYNC);
    (media.AudioFlag.HW_HOTWORD, Ok AUDIO_FLAG_HW_HOTWORD);
    (media.AudioFlag.BYPASS_INTERRUPTION_POLICY, Ok AUDIO_FLAG_BYPASS_INTERRUPTION_POLICY);
    (media.AudioFlag.BYPASS_MUTE, Ok AUDIO_FLAG_BYPASS_MUTE);
    (media.AudioFlag.LOW_LATENCY, Ok AUDIO_FLAG_LOW_LATENCY);
    (media.AudioFlag.DEEP_BUFFER, Ok AUDIO_FLAG_DEEP_BUFFER);
    (media.AudioFlag.NO_MEDIA_PROJECTION, Ok AUDIO_FLAG_NO_MEDIA_PROJECTION);
    (media.AudioFlag.MUTE_HAPTIC, Ok AUDIO_FLAG_MUTE_HAPTIC);
    (media.AudioFlag.NO_SYSTEM_CAPTURE, Ok AUDIO_FLAG_NO_SYSTEM_CAPTURE);
    (media.AudioFlag.CAPTURE_PRIVATE, Ok AUDIO_FLAG_CAPTURE_PRIVATE)
  ] (unexpected BAD_VALUE).

Definition legacy2aidl_audio_flags_mask_t_AudioFlag (legacy : Z) : ConversionResult Z :=
  switch legacy [
    (AUDIO_FLAG_NONE, unexpected BAD_VALUE);
    (AUDIO_FLAG_AUDIBILITY_ENFORCED, Ok media.AudioFlag.AUDIBILITY_ENFORCED);
    (AUDIO_FLAG_SECURE, Ok media.AudioFlag.SECURE);
    (AUDIO_FLAG_SCO, Ok media.AudioFlag.SCO);
    (AUDIO_FLAG_BEACON, Ok media.AudioFlag.BEACON);
    (AUDIO_FLAG_HW_AV_SYNC, Ok media.AudioFlag.HW_AV_SYNC);
    (AUDIO_FLAG_HW_HOTWORD, Ok media.AudioFlag.HW_HOTWORD);
    (AUDIO_FLAG_BYPASS_INTERRUPTION_POLICY, Ok media.AudioFlag.BYPASS_INTERRUPTION_POLICY);
    (AUDIO_FLAG_BYPASS_MUTE, Ok media.AudioFlag.BYPASS_MUTE);
    (AUDIO_FLAG_LOW_LATENCY, Ok media.AudioFlag.LOW_LATENCY);
    (AUDIO_FLAG_DEEP_BUFFER, Ok media.AudioFlag.DEEP_BUFFER);
    (AUDIO_FLAG_NO_MEDIA_PROJECTION, Ok media.AudioFlag.NO_MEDIA_PROJECTION);
    (AUDIO_FLAG_MUTE_HAPTIC, Ok media.AudioFlag.MUTE_HAPTIC);
    (AUDIO_FLAG_NO_SYSTEM_CAPTURE, Ok media.AudioFlag.NO_SYSTEM_CAPTURE);
    (AUDIO_FLAG_CAPTURE_PRIVATE, Ok media.AudioFlag.CAPTURE_PRIVATE)
  ] (unexpected BAD_VALUE).

Definition aidl2legacy_int32_t_audio_flags_mask_t_mask (aidl : Z) : ConversionResult Z :=
  convertBitmask audio_flags_mask_t int32_t
    aidl aidl2legacy_AudioFlag_audio_flags_mask_t
    (index2enum_index media.AudioFlag.underlying)
    (enumToMask_bitmask audio_flags_mask_t).

Definition legacy2aidl_audio_flags_mask_t_int32_t_mask (legacy : Z) : ConversionResult Z :=
  convertBitmask int32_t audio_flags_mask_t
    legacy legacy2aidl_audio_flags_mask_t_AudioFlag
    (index2enum_bitmask audio_flags_mask_t)
    (enumToMask_index int32_t).

Definition aidl2legacy_audio_encapsulation_mode_t_AudioEncapsulationMode (aidl : Z) : ConversionResult Z :=
  switch aidl [
    (media.AudioEncapsulationMode.NONE, Ok AUDIO_ENCAPSULATION_MODE_NONE);
    (media.AudioEncapsulationMode.ELEMENTARY_STREAM, Ok AUDIO_ENCAPSULATION_MODE_ELEMENTARY_STREAM);
    (media.AudioEncapsulationMode.HANDLE, Ok AUDIO_ENCAPSULATION_MODE_HANDLE)
  ] (unexpected BAD_VALUE).

Definition legacy2aidl_AudioEncapsulationMode_audio_encapsulation_mode_t (legacy : Z) : ConversionResult Z :=
  switch legacy [
    (AUDIO_ENCAPSULATION_MODE_NONE, Ok media.AudioEncapsulationMode.NONE);
    (AUDIO_ENCAPSULATION_MODE_ELEMENTARY_STREAM, Ok media.AudioEncapsulationMode.ELEMENTARY_STREAM);
    (AUDIO_ENCAPSULATION_MODE_HANDLE, Ok media.AudioEncapsulationMode.HANDLE)
  ] (unexpected BAD_VALUE).
End Converters.

(** * What the compiler checks of the declarations

    The labels of one [switch] are pairwise distinct (the program is
    ill-formed otherwise). *)
Record distinct_case_labels `{Headers} : Prop := {
  labels_aidl2legacy_AudioPortConfigType :
    NoDup [media.AudioPortConfigType.SAMPLE_RATE; media.AudioPortConfigType.CHANNEL_MASK; media.AudioPortConfigType.FORMAT; media.AudioPortConfigType.FLAGS];
  labels_legacy2aidl_AudioPortConfigType :
    NoDup [AUDIO_PORT_CONFIG_SAMPLE_RATE; AUDIO_PORT_CONFIG_CHANNEL_MASK; AUDIO_PORT_CONFIG_FORMAT; AUDIO_PORT_CONFIG_FLAGS];
  labels_aidl2legacy_AudioIoConfigEvent_audio_io_config_event :
    NoDup [media.AudioIoConfigEvent.OUTPUT_REGISTERED; media.AudioIoConfigEvent.OUTPUT_OPENED; media.AudioIoConfigEvent.OUTPUT_CLOSED; media.AudioIoConfigEvent.OUTPUT_CONFIG_CHANGED; media.AudioIoConfigEvent.INPUT_REGISTERED; media.AudioIoConfigEvent.INPUT_OPENED; media.AudioIoConfigEvent.INPUT_CLOSED; media.AudioIoConfigEvent.INPUT_CONFIG_CHANGED; media.AudioIoConfigEvent.CLIENT_STARTED];
  labels_legacy2aidl_audio_io_config_event_AudioIoConfigEvent :
    NoDup [AUDIO_OUTPUT_REGISTERED; AUDIO_OUTPUT_OPENED; AUDIO_OUTPUT_CLOSED; AUDIO_OUTPUT_CONFIG_CHANGED; AUDIO_INPUT_REGISTERED; AUDIO_INPUT_OPENED; AUDIO_INPUT_CLOSED; AUDIO_INPUT_CONFIG_CHANGED; AUDIO_CLIENT_STARTED];
  labels_aidl2legacy_AudioPortRole_audio_port_role_t :
    NoDup [media.AudioPortRole.NONE; media.AudioPortRole.SOURCE; media.AudioPortRole.SINK];
  labels_legacy2aidl_audio_port_role_t_AudioPortRole :
    NoDup [AUDIO_PORT_ROLE_NONE; AUDIO_PORT_ROLE_SOURCE; AUDIO_PORT_ROLE_SINK];
  labels_aidl2legacy_AudioPortType_audio_port_type_t :
    NoDup [media.AudioPortType.NONE; media.AudioPortType.DEVICE; media.AudioPortType.MIX; media.AudioPortType.SESSION];
  labels_legacy2aidl_audio_port_type_t_AudioPortType :
    NoDup [AUDIO_PORT_TYPE_NONE; AUDIO_PORT_TYPE_DEVICE; AUDIO_PORT_TYPE_MIX; AUDIO_PORT_TYPE_SESSION];
  labels_aidl2legacy_AudioGainMode_int :
    NoDup [media.AudioGainMode.JOINT; media.AudioGainMode.CHANNELS; media.AudioGainMode.RAMP];
  labels_legacy2aidl_int_AudioGainMode :
    NoDup [AUDIO_GAIN_MODE_JOINT; AUDIO_GAIN_MODE_CHANNELS; AUDIO_GAIN_MODE_RAMP];
  labels_aidl2legacy_AudioInputFlags_audio_input_flags_t :
    NoDup [media.AudioInputFlags.FAST; media.AudioInputFlags.HW_HOTWORD; media.AudioInputFlags.RAW; media.AudioInputFlags.SYNC; media.AudioInputFlags.MMAP_NOIRQ; media.AudioInputFlags.VOIP_TX; media.AudioInputFlags.HW_AV_SYNC; media.AudioInputFlags.DIRECT];
  labels_legacy2aidl_audio_input_flags_t_AudioInputFlags :
    NoDup [AUDIO_INPUT_FLAG_FAST; AUDIO_INPUT_FLAG_HW_HOTWORD; AUDIO_INPUT_FLAG_RAW; AUDIO_INPUT_FLAG_SYNC; AUDIO_INPUT_FLAG_MMAP_NOIRQ; AUDIO_INPUT_FLAG_VOIP_TX; AUDIO_INPUT_FLAG_HW_AV_SYNC; AUDIO_INPUT_FLAG_DIRECT];
  labels_aidl2legacy_AudioOutputFlags_audio_output_flags_t :
    NoDup [media.AudioOutputFlags.DIRECT; media.AudioOutputFlags.PRIMARY; media.AudioOutputFlags.FAST; media.AudioOutputFlags.DEEP_BUFFER; media.AudioOutputFlags.COMPRESS_OFFLOAD; media.AudioOutputFlags.NON_BLOCKING; media.AudioOutputFlags.HW_AV_SYNC; media.AudioOutputFlags.TTS; media.AudioOutputFlags.RAW; media.AudioOutputFlags.SYNC; media.AudioOutputFlags.IEC958_NONAUDIO; media.AudioOutputFlags.DIRECT_PCM; media.AudioOutputFlags.MMAP_NOIRQ; media.AudioOutputFlags.VOIP_RX; media.AudioOutputFlags.INCALL_MUSIC];
  labels_legacy2aidl_audio_output_flags_t_AudioOutputFlags :
    NoDup [AUDIO_OUTPUT_FLAG_DIRECT; AUDIO_OUTPUT_FLAG_PRIMARY; AUDIO_OUTPUT_FLAG_FAST; AUDIO_OUTPUT_FLAG_DEEP_BUFFER; AUDIO_OUTPUT_FLAG_COMPRESS_OFFLOAD; AUDIO_OUTPUT_FLAG_NON_BLOCKING; AUDIO_OUTPUT_FLAG_HW_AV_SYNC; AUDIO_OUTPUT_FLAG_TTS; AUDIO_OUTPUT_FLAG_RAW; AUDIO_OUTPUT_FLAG_SYNC; AUDIO_OUTPUT_FLAG_IEC958_NONAUDIO; AUDIO_OUTPUT_FLAG_DIRECT_PCM; AUDIO_OUTPUT_FLAG_MMAP_NOIRQ; AUDIO_OUTPUT_FLAG_VOIP_RX; AUDIO_OUTPUT_FLAG_INCALL_MUSIC];
  labels_aidl2legacy_AudioStreamType_audio_stream_type_t :
    NoDup [media.AudioStreamType.DEFAULT; media.AudioStreamType.VOICE_CALL; media.AudioStreamType.SYSTEM; media.AudioStreamType.RING; media.AudioStreamType.MUSIC; media.AudioStreamType.ALARM; media.AudioStreamType.NOTIFICATION; media.AudioStreamType.BLUETOOTH_SCO; media.AudioStreamType.ENFORCED_AUDIBLE; media.AudioStreamType.DTMF; media.AudioStreamType.TTS; media.AudioStreamType.ACCESSIBILITY; media.AudioStreamType.ASSISTANT; media.AudioStreamType.REROUTING; media.AudioStreamType.PATCH; media.AudioStreamType.CALL_ASSISTANT];
  labels_legacy2aidl_audio_stream_type_t_AudioStreamType :
    NoDup [AUDIO_STREAM_DEFAULT; AUDIO_STREAM_VOICE_CALL; AUDIO_STREAM_SYSTEM; AUDIO_STREAM_RING; AUDIO_STREAM_MUSIC; AUDIO_STREAM_ALARM; AUDIO_STREAM_NOTIFICATION; AUDIO_STREAM_BLUETOOTH_SCO; AUDIO_STREAM_ENFORCED_AUDIBLE; AUDIO_STREAM_DTMF; AUDIO_STREAM_TTS; AUDIO_STREAM_ACCESSIBILITY; AUDIO_STREAM_ASSISTANT; AUDIO_STREAM_REROUTING; AUDIO_STREAM_PATCH; AUDIO_STREAM_CALL_ASSISTANT];
  labels_aidl2legacy_AudioSourceType_audio_source_t :
    NoDup [media.AudioSourceType.INVALID; media.AudioSourceType.DEFAULT; media.AudioSourceType.MIC; media.AudioSourceType.VOICE_UPLINK; media.AudioSourceType.VOICE_DOWNLINK; media.AudioSourceType.VOICE_CALL; media.AudioSourceType.CAMCORDER; media.AudioSourceType.VOICE_RECOGNITION; media.AudioSourceType.VOICE_COMMUNICATION; media.AudioSourceType.REMOTE_SUBMIX; media.AudioSourceType.UNPROCESSED; media.AudioSourceType.VOICE_PERFORMANCE; media.AudioSourceType.ECHO_REFERENCE; media.AudioSourceType.FM_TUNER; media.AudioSourceType.HOTWORD];
  labels_legacy2aidl_audio_source_t_AudioSourceType :
    NoDup [AUDIO_SOURCE_INVALID; AUDIO_SOURCE_DEFAULT; AUDIO_SOURCE_MIC; AUDIO_SOURCE_VOICE_UPLINK; AUDIO_SOURCE_VOICE_DOWNLINK; AUDIO_SOURCE_VOICE_CALL; AUDIO_SOURCE_CAMCORDER; AUDIO_SOURCE_VOICE_RECOGNITION; AUDIO_SOURCE_VOICE_COMMUNICATION; AUDIO_SOURCE_REMOTE_SUBMIX; AUDIO_SOURCE_UNPROCESSED; AUDIO_SOURCE_VOICE_PERFORMANCE; AUDIO_SOURCE_ECHO_REFERENCE; AUDIO_SOURCE_FM_TUNER; AUDIO_SOURCE_HOTWORD];
  labels_aidl2legacy_AudioContentType_audio_content_type_t :
    NoDup [media.AudioContentType.UNKNOWN; media.AudioContentType.SPEECH; media.AudioContentType.MUSIC; media.AudioContentType.MOVIE; media.AudioContentType.SONIFICATION];
  labels_legacy2aidl_audio_content_type_t_AudioContentType :
    NoDup [AUDIO_CONTENT_TYPE_UNKNOWN; AUDIO_CONTENT_TYPE_SPEECH; AUDIO_CONTENT_TYPE_MUSIC; AUDIO_CONTENT_TYPE_MOVIE; AUDIO_CONTENT_TYPE_SONIFICATION];
  labels_aidl2legacy_AudioUsage_audio_usage_t :
    NoDup [media.AudioUsage.UNKNOWN; media.AudioUsage.MEDIA; media.AudioUsage.VOICE_COMMUNICATION; media.AudioUsage.VOICE_COMMUNICATION_SIGNALLING; media.AudioUsage.ALARM; media.AudioUsage.NOTIFICATION; media.AudioUsage.NOTIFICATION_TELEPHONY_RINGTONE; media.AudioUsage.NOTIFICATION_COMMUNICATION_REQUEST; media.AudioUsage.NOTIFICATION_COMMUNICATION_INSTANT; media.AudioUsage.NOTIFICATION_COMMUNICATION_DELAYED; media.AudioUsage.NOTIFICATION_EVENT; media.AudioUsage.ASSISTANCE_ACCESSIBILITY; media.AudioUsage.ASSISTANCE_NAVIGATION_GUIDANCE; media.AudioUsage.ASSISTANCE_SONIFICATION; media.AudioUsage.GAME; media.AudioUsage.VIRTUAL_SOURCE; media.AudioUsage.ASSISTANT; media.AudioUsage.CALL_ASSISTANT; media.AudioUsage.EMERGENCY; media.AudioUsage.SAFETY; media.AudioUsage.VEHICLE_STATUS; media.AudioUsage.ANNOUNCEMENT];
  labels_legacy2aidl_audio_usage_t_AudioUsage :
    NoDup [AUDIO_USAGE_UNKNOWN; AUDIO_USAGE_MEDIA; AUDIO_USAGE_VOICE_COMMUNICATION; AUDIO_USAGE_VOICE_COMMUNICATION_SIGNALLING; AUDIO_USAGE_ALARM; AUDIO_USAGE_NOTIFICATION; AUDIO_USAGE_NOTIFICATION_TELEPHONY_RINGTONE; AUDIO_USAGE_NOTIFICATION_COMMUNICATION_REQUEST; AUDIO_USAGE_NOTIFICATION_COMMUNICATION_INSTANT; AUDIO_USAGE_NOTIFICATION_COMMUNICATION_DELAYED; AUDIO_USAGE_NOTIFICATION_EVENT; AUDIO_USAGE_ASSISTANCE_ACCESSIBILITY; AUDIO_USAGE_ASSISTANCE_NAVIGATION_GUIDANCE; AUDIO_USAGE_ASSISTANCE_SONIFICATION; AUDIO_USAGE_GAME; AUDIO_USAGE_VIRTUAL_SOURCE; AUDIO_USAGE_ASSISTANT; AUDIO_USAGE_CALL_ASSISTANT; AUDIO_USAGE_EMERGENCY; AUDIO_USAGE_SAFETY; AUDIO_USAGE_VEHICLE_STATUS; AUDIO_USAGE_ANNOUNCEMENT];
  labels_aidl2legacy_AudioFlag_audio_flags_mask_t :
    NoDup [media.AudioFlag.AUDIBILITY_ENFORCED; media.AudioFlag.SECURE; media.AudioFlag.SCO; media.AudioFlag.BEACON; media.AudioFlag.HW_AV_SYNC; media.AudioFlag.HW_HOTWORD; media.AudioFlag.BYPASS_INTERRUPTION_POLICY; media.AudioFlag.BYPASS_MUTE; media.AudioFlag.LOW_LATENCY; media.AudioFlag.DEEP_BUFFER; media.AudioFlag.NO_MEDIA_PROJECTION; media.AudioFlag.MUTE_HAPTIC; media.AudioFlag.NO_SYSTEM_CAPTURE; media.AudioFlag.CAPTURE_PRIVATE];
  labels_legacy2aidl_audio_flags_mask_t_AudioFlag :
    NoDup [AUDIO_FLAG_NONE; AUDIO_FLAG_AUDIBILITY_ENFORCED; AUDIO_FLAG_SECURE; AUDIO_FLAG_SCO; AUDIO_FLAG_BEACON; AUDIO_FLAG_HW_AV_SYNC; AUDIO_FLAG_HW_HOTWORD; AUDIO_FLAG_BYPASS_INTERRUPTION_POLICY; AUDIO_FLAG_BYPASS_MUTE; AUDIO_FLAG_LOW_LATENCY; AUDIO_FLAG_DEEP_BUFFER; AUDIO_FLAG_NO_MEDIA_PROJECTION; AUDIO_FLAG_MUTE_HAPTIC; AUDIO_FLAG_NO_SYSTEM_CAPTURE; AUDIO_FLAG_CAPTURE_PRIVATE];
  labels_aidl2legacy_audio_encapsulation_mode_t_AudioEncapsulationMode :
    NoDup [media.AudioEncapsulationMode.NONE; media.AudioEncapsulationMode.ELEMENTARY_STREAM; media.AudioEncapsulationMode.HANDLE];
  labels_legacy2aidl_AudioEncapsulationMode_audio_encapsulation_mode_t :
    NoDup [AUDIO_ENCAPSULATION_MODE_NONE; AUDIO_ENCAPSULATION_MODE_ELEMENTARY_STREAM; AUDIO_ENCAPSULATION_MODE_HANDLE]
}.

(** The [static_assert]s of [convertReinterpret] and of the AudioFormat
    converters, on the types they are instantiated with ([int32_t] on the
    AIDL side). *)
Record static_asserts `{Headers} : Prop := {
  sizeof_audio_module_handle_t : bits audio_module_handle_t = bits int32_t;
  sizeof_audio_io_handle_t : bits audio_io_handle_t = bits int32_t;
  sizeof_audio_port_handle_t : bits audio_port_handle_t = bits int32_t;
  sizeof_audio_patch_handle_t : bits audio_patch_handle_t = bits int32_t;
  sizeof_audio_session_t : bits audio_session_t = bits int32_t;
  sizeof_audio_channel_mask_t : bits audio_channel_mask_t = bits int32_t;
  sizeof_audio_devices_t : bits audio_devices_t = bits int32_t;
  sizeof_audio_format_t : bits audio_format_t = bits media.AudioFormat.underlying;
  width_audio_format_t : 0 < bits audio_format_t
}.

(** The masks: the legacy mask types are as wide as the [int32_t] of the
    AIDL side, and the enumerators of an index-based AIDL enum are bit
    positions of an [int32_t] (the shift of [enumToMask_index] is undefined
    for any other value), which the enum's underlying type can hold. *)
Definition bit_indices (Enum : IntegralType) (enumerators : list Z) : Prop :=
  6 <= bits Enum /\ Forall (fun e => 0 <= e < 32) enumerators.

Record mask_declarations `{Headers} : Prop := {
  width_audio_gain_mode_t : bits audio_gain_mode_t = 32;
  width_audio_input_flags_t : bits audio_input_flags_t = 32;
  width_audio_output_flags_t : bits audio_output_flags_t = 32;
  width_audio_flags_mask_t : bits audio_flags_mask_t = 32;
  indices_AudioPortConfigType :
    bit_indices media.AudioPortConfigType.underlying
      [media.AudioPortConfigType.SAMPLE_RATE; media.AudioPortConfigType.CHANNEL_MASK; media.AudioPortConfigType.FORMAT; media.AudioPortConfigType.GAIN; media.AudioPortConfigType.FLAGS];
  indices_AudioGainMode :
    bit_indices media.AudioGainMode.underlying
      [media.AudioGainMode.JOINT; media.AudioGainMode.CHANNELS; media.AudioGainMode.RAMP];
  indices_AudioInputFlags :
    bit_indices media.AudioInputFlags.underlying
      [media.AudioInputFlags.FAST; media.AudioInputFlags.HW_HOTWORD; media.AudioInputFlags.RAW; media.AudioInputFlags.SYNC; media.AudioInputFlags.MMAP_NOIRQ; media.AudioInputFlags.VOIP_TX; media.AudioInputFlags.HW_AV_SYNC; media.AudioInputFlags.DIRECT];
  indices_AudioOutputFlags :
    bit_indices media.AudioOutputFlags.underlying
      [media.AudioOutputFlags.DIRECT; media.AudioOutputFlags.PRIMARY; media.AudioOutputFlags.FAST; media.AudioOutputFlags.DEEP_BUFFER; media.AudioOutputFlags.COMPRESS_OFFLOAD; media.AudioOutputFlags.NON_BLOCKING; media.AudioOutputFlags.HW_AV_SYNC; media.AudioOutputFlags.TTS; media.AudioOutputFlags.RAW; media.AudioOutputFlags.SYNC; media.AudioOutputFlags.IEC958_NONAUDIO; media.AudioOutputFlags.DIRECT_PCM; media.AudioOutputFlags.MMAP_NOIRQ; media.AudioOutputFlags.VOIP_RX; media.AudioOutputFlags.INCALL_MUSIC];
  indices_AudioFlag :
    bit_indices media.AudioFlag.underlying
      [media.AudioFlag.AUDIBILITY_ENFORCED; media.AudioFlag.SECURE; media.AudioFlag.SCO; media.AudioFlag.BEACON; media.AudioFlag.HW_AV_SYNC; media.AudioFlag.HW_HOTWORD; media.AudioFlag.BYPASS_INTERRUPTION_POLICY; media.AudioFlag.BYPASS_MUTE; media.AudioFlag.LOW_LATENCY; media.AudioFlag.DEEP_BUFFER; media.AudioFlag.NO_MEDIA_PROJECTION; media.AudioFlag.MUTE_HAPTIC; media.AudioFlag.NO_SYSTEM_CAPTURE; media.AudioFlag.CAPTURE_PRIVATE]
}.

(** * An instance of the declarations

    The enumerator values, types, sizes and channel-count functions of the
    Android headers this file was written against, with zeroes for the
    contents of uninitialised locals.  The theorems do not depend on it; it
    serves to run the converters on concrete inputs. *)
Module aosp.
Definition AudioPortConfigType : media.AudioPortConfigType.enumerators :=
  {| media.AudioPortConfigType.underlying := int32_t;
     media.AudioPortConfigType.SAMPLE_RATE := 0;
     media.AudioPortConfigType.CHANNEL_MASK := 1;
     media.AudioPortConfigType.FORMAT := 2;
     media.AudioPortConfigType.GAIN := 3;
     media.AudioPortConfigType.FLAGS := 4 |}.
Definition audio_port_config_enumerators : audio_port_config_enumerators :=
  {| AUDIO_PORT_CONFIG_SAMPLE_RATE := 1;
     AUDIO_PORT_CONFIG_CHANNEL_MASK := 2;
     AUDIO_PORT_CONFIG_FORMAT := 4;
     AUDIO_PORT_CONFIG_GAIN := 8;
     AUDIO_PORT_CONFIG_FLAGS := 16 |}.
Definition AudioIoConfigEvent : media.AudioIoConfigEvent.enumerators :=
  {| media.AudioIoConfigEvent.OUTPUT_REGISTERED := 0;
     media.AudioIoConfigEvent.OUTPUT_OPENED := 1;
     media.AudioIoConfigEvent.OUTPUT_CLOSED := 2;
     media.AudioIoConfigEvent.OUTPUT_CONFIG_CHANGED := 3;
     media.AudioIoConfigEvent.INPUT_REGISTERED := 4;
     media.AudioIoConfigEvent.INPUT_OPENED := 5;
     media.AudioIoConfigEvent.INPUT_CLOSED := 6;
     media.AudioIoConfigEvent.INPUT_CONFIG_CHANGED := 7;
     media.AudioIoConfigEvent.CLIENT_STARTED := 8 |}.
Definition audio_io_config_event_enumerators : audio_io_config_event_enumerators :=
  {| AUDIO_OUTPUT_REGISTERED := 0;
     AUDIO_OUTPUT_OPENED := 1;
     AUDIO_OUTPUT_CLOSED := 2;
     AUDIO_OUTPUT_CONFIG_CHANGED := 3;
     AUDIO_INPUT_REGISTERED := 4;
     AUDIO_INPUT_OPENED := 5;
     AUDIO_INPUT_CLOSED := 6;
     AUDIO_INPUT_CONFIG_CHANGED := 7;
     AUDIO_CLIENT_STARTED := 8 |}.
Definition AudioPortRole : media.AudioPortRole.enumerators :=
  {| media.AudioPortRole.NONE := 0;
     media.AudioPortRole.SOURCE := 1;
     media.AudioPortRole.SINK := 2 |}.
Definition audio_port_role_t_enumerators : audio_port_role_t_enumerators :=
  {| AUDIO_PORT_ROLE_NONE := 0;
     AUDIO_PORT_ROLE_SOURCE := 1;
     AUDIO_PORT_ROLE_SINK := 2 |}.
Definition AudioPortType : media.AudioPortType.enumerators :=
  {| media.AudioPortType.NONE := 0;
     media.AudioPortType.DEVICE := 1;
     media.AudioPortType.MIX := 2;
     media.AudioPortType.SESSION := 3 |}.
Definition audio_port_type_t_enumerators : audio_port_type_t_enumerators :=
  {| AUDIO_PORT_TYPE_NONE := 0;
     AUDIO_PORT_TYPE_DEVICE := 1;
     AUDIO_PORT_TYPE_MIX := 2;
     AUDIO_PORT_TYPE_SESSION := 3 |}.
Definition AudioGainMode : media.AudioGainMode.enumerators :=
  {| media.AudioGainMode.underlying := int32_t;
     media.AudioGainMode.JOINT := 0;
     media.AudioGainMode.CHANNELS := 1;
     media.AudioGainMode.RAMP := 2 |}.
Definition audio_gain_mode_t_enumerators : audio_gain_mode_t_enumerators :=
  {| AUDIO_GAIN_MODE_JOINT := 1;
     AUDIO_GAIN_MODE_CHANNELS := 2;
     AUDIO_GAIN_MODE_RAMP := 4 |}.
Definition AudioInputFlags : media.AudioInputFlags.enumerators :=
  {| media.AudioInputFlags.underlying := int32_t;
     media.AudioInputFlags.FAST := 0;
     media.AudioInputFlags.HW_HOTWORD := 1;
     media.AudioInputFlags.RAW := 2;
     media.AudioInputFlags.SYNC := 3;
     media.AudioInputFlags.MMAP_NOIRQ := 4;
     media.AudioInputFlags.VOIP_TX := 5;
     media.AudioInputFlags.HW_AV_SYNC := 6;
     media.AudioInputFlags.DIRECT := 7 |}.
Definition audio_input_flags_t_enumerators : audio_input_flags_t_enumerators :=
  {| AUDIO_INPUT_FLAG_FAST := 1;
     AUDIO_INPUT_FLAG_HW_HOTWORD := 2;
     AUDIO_INPUT_FLAG_RAW := 4;
     AUDIO_INPUT_FLAG_SYNC := 8;
     AUDIO_INPUT_FLAG_MMAP_NOIRQ := 16;
     AUDIO_INPUT_FLAG_VOIP_TX := 32;
     AUDIO_INPUT_FLAG_HW_AV_SYNC := 64;
     AUDIO_INPUT_FLAG_DIRECT := 128 |}.
Definition AudioOutputFlags : media.AudioOutputFlags.enumerators :=
  {| media.AudioOutputFlags.underlying := int32_t;
     media.AudioOutputFlags.DIRECT := 0;
     media.AudioOutputFlags.PRIMARY := 1;
     media.AudioOutputFlags.FAST := 2;
     media.AudioOutputFlags.DEEP_BUFFER := 3;
     media.AudioOutputFlags.COMPRESS_OFFLOAD := 4;
     media.AudioOutputFlags.NON_BLOCKING := 5;
     media.AudioOutputFlags.HW_AV_SYNC := 6;
     media.AudioOutputFlags.TTS := 7;
     media.AudioOutputFlags.RAW := 8;
     media.AudioOutputFlags.SYNC := 9;
     media.AudioOutputFlags.IEC958_NONAUDIO := 10;
     media.AudioOutputFlags.DIRECT_PCM := 11;
     media.AudioOutputFlags.MMAP_NOIRQ := 12;
     media.AudioOutputFlags.VOIP_RX := 13;
     media.AudioOutputFlags.INCALL_MUSIC := 14 |}.
Definition audio_output_flags_t_enumerators : audio_output_flags_t_enumerators :=
  {| AUDIO_OUTPUT_FLAG_DIRECT := 1;
     AUDIO_OUTPUT_FLAG_PRIMARY := 2;
     AUDIO_OUTPUT_FLAG_FAST := 4;
     AUDIO_OUTPUT_FLAG_DEEP_BUFFER := 8;
     AUDIO_OUTPUT_FLAG_COMPRESS_OFFLOAD := 16;
     AUDIO_OUTPUT_FLAG_NON_BLOCKING := 32;
     AUDIO_OUTPUT_FLAG_HW_AV_SYNC := 64;
     AUDIO_OUTPUT_FLAG_TTS := 128;
     AUDIO_OUTPUT_FLAG_RAW := 256;
     AUDIO_OUTPUT_FLAG_SYNC := 512;
     AUDIO_OUTPUT_FLAG_IEC958_NONAUDIO := 1024;
     AUDIO_OUTPUT_FLAG_DIRECT_PCM := 8192;
     AUDIO_OUTPUT_FLAG_MMAP_NOIRQ := 16384;
     AUDIO_OUTPUT_FLAG_VOIP_RX := 32768;
     AUDIO_OUTPUT_FLAG_INCALL_MUSIC := 65536 |}.
Definition AudioStreamType : media.AudioStreamType.enumerators :=
  {| media.AudioStreamType.DEFAULT := (-1);
     media.AudioStreamType.VOICE_CALL := 0;
     media.AudioStreamType.SYSTEM := 1;
     media.AudioStreamType.RING := 2;
     media.AudioStreamType.MUSIC := 3;
     media.AudioStreamType.ALARM := 4;
     media.AudioStreamType.NOTIFICATION := 5;
     media.AudioStreamType.BLUETOOTH_SCO := 6;
     media.AudioStreamType.ENFORCED_AUDIBLE := 7;
     media.AudioStreamType.DTMF := 8;
     media.AudioStreamType.TTS := 9;
     media.AudioStreamType.ACCESSIBILITY := 10;
     media.AudioStreamType.ASSISTANT := 11;
     media.AudioStreamType.REROUTING := 12;
     media.AudioStreamType.PATCH := 13;
     media.AudioStreamType.CALL_ASSISTANT := 14 |}.
Definition audio_stream_type_t_enumerators : audio_stream_type_t_enumerators :=
  {| AUDIO_STREAM_DEFAULT := (-1);
     AUDIO_STREAM_VOICE_CALL := 0;
     AUDIO_STREAM_SYSTEM := 1;
     AUDIO_STREAM_RING := 2;
     AUDIO_STREAM_MUSIC := 3;
     AUDIO_STREAM_ALARM := 4;
     AUDIO_STREAM_NOTIFICATION := 5;
     AUDIO_STREAM_BLUETOOTH_SCO := 6;
     AUDIO_STREAM_ENFORCED_AUDIBLE := 7;
     AUDIO_STREAM_DTMF := 8;
     AUDIO_STREAM_TTS := 9;
     AUDIO_STREAM_ACCESSIBILITY := 10;
     AUDIO_STREAM_ASSISTANT := 11;
     AUDIO_STREAM_REROUTING := 12;
     AUDIO_STREAM_PATCH := 13;
     AUDIO_STREAM_CALL_ASSISTANT := 14 |}.
Definition AudioSourceType : media.AudioSourceType.enumerators :=
  {| media.AudioSourceType.INVALID := (-1);
     media.AudioSourceType.DEFAULT := 0;
     media.AudioSourceType.MIC := 1;
     media.AudioSourceType.VOICE_UPLINK := 2;
     media.AudioSourceType.VOICE_DOWNLINK := 3;
     media.AudioSourceType.VOICE_CALL := 4;
     media.AudioSourceType.CAMCORDER := 5;
     media.AudioSourceType.VOICE_RECOGNITION := 6;
     media.AudioSourceType.VOICE_COMMUNICATION := 7;
     media.AudioSourceType.REMOTE_SUBMIX := 8;
     media.AudioSourceType.UNPROCESSED := 9;
     media.AudioSourceType.VOICE_PERFORMANCE := 10;
     media.AudioSourceType.ECHO_REFERENCE := 1997;
     media.AudioSourceType.FM_TUNER := 1998;
     media.AudioSourceType.HOTWORD := 1999 |}.
Definition audio_source_t_enumerators : audio_source_t_enumerators :=
  {| AUDIO_SOURCE_INVALID := (-1);
     AUDIO_SOURCE_DEFAULT := 0;
     AUDIO_SOURCE_MIC := 1;
     AUDIO_SOURCE_VOICE_UPLINK := 2;
     AUDIO_SOURCE_VOICE_DOWNLINK := 3;
     AUDIO_SOURCE_VOICE_CALL := 4;
     AUDIO_SOURCE_CAMCORDER := 5;
     AUDIO_SOURCE_VOICE_RECOGNITION := 6;
     AUDIO_SOURCE_VOICE_COMMUNICATION := 7;
     AUDIO_SOURCE_REMOTE_SUBMIX := 8;
     AUDIO_SOURCE_UNPROCESSED := 9;
     AUDIO_SOURCE_VOICE_PERFORMANCE := 10;
     AUDIO_SOURCE_ECHO_REFERENCE := 1997;
     AUDIO_SOURCE_FM_TUNER := 1998;
     AUDIO_SOURCE_HOTWORD := 1999 |}.
Definition AudioContentType : media.AudioContentType.enumerators :=
  {| media.AudioContentType.UNKNOWN := 0;
     media.AudioContentType.SPEECH := 1;
     media.AudioContentType.MUSIC := 2;
     media.AudioContentType.MOVIE := 3;
     media.AudioContentType.SONIFICATION := 4 |}.
Definition audio_content_type_t_enumerators : audio_content_type_t_enumerators :=
  {| AUDIO_CONTENT_TYPE_UNKNOWN := 0;
     AUDIO_CONTENT_TYPE_SPEECH := 1;
     AUDIO_CONTENT_TYPE_MUSIC := 2;
     AUDIO_CONTENT_TYPE_MOVIE := 3;
     AUDIO_CONTENT_TYPE_SONIFICATION := 4 |}.
Definition AudioUsage : media.AudioUsage.enumerators :=
  {| media.AudioUsage.UNKNOWN := 0;
     media.AudioUsage.MEDIA := 1;
     media.AudioUsage.VOICE_COMMUNICATION := 2;
     media.AudioUsage.VOICE_COMMUNICATION_SIGNALLING := 3;
     media.AudioUsage.ALARM := 4;
     media.AudioUsage.NOTIFICATION := 5;
     media.AudioUsage.NOTIFICATION_TELEPHONY_RINGTONE := 6;
     media.AudioUsage.NOTIFICATION_COMMUNICATION_REQUEST := 7;
     media.AudioUsage.NOTIFICATION_COMMUNICATION_INSTANT := 8;
     media.AudioUsage.NOTIFICATION_COMMUNICATION_DELAYED := 9;
     media.AudioUsage.NOTIFICATION_EVENT := 10;
     media.AudioUsage.ASSISTANCE_ACCESSIBILITY := 11;
     media.AudioUsage.ASSISTANCE_NAVIGATION_GUIDANCE := 12;
     media.AudioUsage.ASSISTANCE_SONIFICATION := 13;
     media.AudioUsage.GAME := 14;
     media.AudioUsage.VIRTUAL_SOURCE := 15;
     media.AudioUsage.ASSISTANT := 16;
     media.AudioUsage.CALL_ASSISTANT := 17;
     media.AudioUsage.EMERGENCY := 1000;
     media.AudioUsage.SAFETY := 1001;
     media.AudioUsage.VEHICLE_STATUS := 1002;
     media.AudioUsage.ANNOUNCEMENT := 1003 |}.
Definition audio_usage_t_enumerators : audio_usage_t_enumerators :=
  {| AUDIO_USAGE_UNKNOWN := 0;
     AUDIO_USAGE_MEDIA := 1;
     AUDIO_USAGE_VOICE_COMMUNICATION := 2;
     AUDIO_USAGE_VOICE_COMMUNICATION_SIGNALLING := 3;
     AUDIO_USAGE_ALARM := 4;
     AUDIO_USAGE_NOTIFICATION := 5;
     AUDIO_USAGE_NOTIFICATION_TELEPHONY_RINGTONE := 6;
     AUDIO_USAGE_NOTIFICATION_COMMUNICATION_REQUEST := 7;
     AUDIO_USAGE_NOTIFICATION_COMMUNICATION_INSTANT := 8;
     AUDIO_USAGE_NOTIFICATION_COMMUNICATION_DELAYED := 9;
     AUDIO_USAGE_NOTIFICATION_EVENT := 10;
     AUDIO_USAGE_ASSISTANCE_ACCESSIBILITY := 11;
     AUDIO_USAGE_ASSISTANCE_NAVIGATION_GUIDANCE := 12;
     AUDIO_USAGE_ASSISTANCE_SONIFICATION := 13;
     AUDIO_USAGE_GAME := 14;
     AUDIO_USAGE_VIRTUAL_SOURCE := 15;
     AUDIO_USAGE_ASSISTANT := 16;
     AUDIO_USAGE_CALL_ASSISTANT := 17;
     AUDIO_USAGE_EMERGENCY := 1000;
     AUDIO_USAGE_SAFETY := 1001;
     AUDIO_USAGE_VEHICLE_STATUS := 1002;
     AUDIO_USAGE_ANNOUNCEMENT := 1003 |}.
Definition AudioFlag : media.AudioFlag.enumerators :=
  {| media.AudioFlag.underlying := int32_t;
     media.AudioFlag.AUDIBILITY_ENFORCED := 0;
     media.AudioFlag.SECURE := 1;
     media.AudioFlag.SCO := 2;
     media.AudioFlag.BEACON := 3;
     media.AudioFlag.HW_AV_SYNC := 4;
     media.AudioFlag.HW_HOTWORD := 5;
     media.AudioFlag.BYPASS_INTERRUPTION_POLICY := 6;
     media.AudioFlag.BYPASS_MUTE := 7;
     media.AudioFlag.LOW_LATENCY := 8;
     media.AudioFlag.DEEP_BUFFER := 9;
     media.AudioFlag.NO_MEDIA_PROJECTION := 10;
     media.AudioFlag.MUTE_HAPTIC := 11;
     media.AudioFlag.NO_SYSTEM_CAPTURE := 12;
     media.AudioFlag.CAPTURE_PRIVATE := 13 |}.
Definition audio_flags_mask_t_enumerators : audio_flags_mask_t_enumerators :=
  {| AUDIO_FLAG_AUDIBILITY_ENFORCED := 1;
     AUDIO_FLAG_SECURE := 2;
     AUDIO_FLAG_SCO := 4;
     AUDIO_FLAG_BEACON := 8;
     AUDIO_FLAG_HW_AV_SYNC := 16;
     AUDIO_FLAG_HW_HOTWORD := 32;
     AUDIO_FLAG_BYPASS_INTERRUPTION_POLICY := 64;
     AUDIO_FLAG_BYPASS_MUTE := 128;
     AUDIO_FLAG_LOW_LATENCY := 256;
     AUDIO_FLAG_DEEP_BUFFER := 512;
     AUDIO_FLAG_NO_MEDIA_PROJECTION := 1024;
     AUDIO_FLAG_MUTE_HAPTIC := 2048;
     AUDIO_FLAG_NO_SYSTEM_CAPTURE := 4096;
     AUDIO_FLAG_CAPTURE_PRIVATE := 8192;
     AUDIO_FLAG_NONE := 0 |}.
Definition AudioEncapsulationMode : media.AudioEncapsulationMode.enumerators :=
  {| media.AudioEncapsulationMode.NONE := 0;
     media.AudioEncapsulationMode.ELEMENTARY_STREAM := 1;
     media.AudioEncapsulationMode.HANDLE := 2 |}.
Definition audio_encapsulation_mode_t_enumerators : audio_encapsulation_mode_t_enumerators :=
  {| AUDIO_ENCAPSULATION_MODE_NONE := 0;
     AUDIO_ENCAPSULATION_MODE_ELEMENTARY_STREAM := 1;
     AUDIO_ENCAPSULATION_MODE_HANDLE := 2 |}.
Definition AudioFormat : media.AudioFormat.enumerators :=
  {| media.AudioFormat.underlying := int32_t |}.

Module audio_h.
Fixpoint popcount (p : positive) : Z :=
  match p with
  | xH => 1
  | xO p' => popcount p'
  | xI p' => 1 + popcount p'
  end.

Definition builtin_popcount (x : Z) : Z :=
  match x with Zpos p => popcount p | _ => 0 end.

(** [audio_channel_count_from_in_mask] and
    [audio_channel_count_from_out_mask] of [system/audio.h].  Bits 30 and
    31 of a channel mask are its representation: a position mask (0)
    counts those of its low 30 bits that are channels of the direction
    ([AUDIO_CHANNEL_IN_ALL], [AUDIO_CHANNEL_OUT_ALL]), an index mask (2)
    counts its low 30 bits, and any other representation counts 0. *)
Definition AUDIO_CHANNEL_COUNT_MAX : Z := 30.
Definition AUDIO_CHANNEL_REPRESENTATION_LOG2 : Z := 2.
Definition AUDIO_CHANNEL_REPRESENTATION_POSITION : Z := 0.
Definition AUDIO_CHANNEL_REPRESENTATION_INDEX : Z := 2.
Definition AUDIO_CHANNEL_IN_ALL : Z := 0x77FFFC.
Definition AUDIO_CHANNEL_OUT_ALL : Z := 0x300FFFFF.

Definition audio_channel_mask_get_bits (channel : Z) : Z :=
  Z.land channel (Z.shiftl 1 AUDIO_CHANNEL_COUNT_MAX - 1).

Definition audio_channel_mask_get_representation (channel : Z) : Z :=
  Z.land (Z.shiftr channel AUDIO_CHANNEL_COUNT_MAX)
    (Z.shiftl 1 AUDIO_CHANNEL_REPRESENTATION_LOG2 - 1).

Definition audio_channel_count_from_in_mask (channel : Z) : Z :=
  let bits := audio_channel_mask_get_bits channel in
  switch (audio_channel_mask_get_representation channel) [
    (AUDIO_CHANNEL_REPRESENTATION_POSITION,
      builtin_popcount (Z.land bits AUDIO_CHANNEL_IN_ALL));
    (AUDIO_CHANNEL_REPRESENTATION_INDEX, builtin_popcount bits)
  ] 0.

Definition audio_channel_count_from_out_mask (channel : Z) : Z :=
  let bits := audio_channel_mask_get_bits channel in
  switch (audio_channel_mask_get_representation channel) [
    (AUDIO_CHANNEL_REPRESENTATION_POSITION,
      builtin_popcount (Z.land bits AUDIO_CHANNEL_OUT_ALL));
    (AUDIO_CHANNEL_REPRESENTATION_INDEX, builtin_popcount bits)
  ] 0.
End audio_h.

Definition system_audio : system_audio_h :=
  {| size_t := {| is_signed := false; bits := 64 |};
     audio_module_handle_t := int;
     audio_io_handle_t := int;
     audio_port_handle_t := int;
     audio_patch_handle_t := int;
     audio_session_t := int;
     audio_channel_mask_t := uint32_t;
     audio_devices_t := uint32_t;
     audio_format_t := uint32_t;
     audio_gain_mode_t := uint32_t;
     audio_input_flags_t := uint32_t;
     audio_output_flags_t := uint32_t;
     audio_flags_mask_t := uint32_t;
     AUDIO_PATCH_PORTS_MAX := 16;
     AUDIO_DEVICE_MAX_ADDRESS_LEN := 32;
     audio_gain_config_values_size := 32;
     audio_channel_count_from_in_mask := audio_h.audio_channel_count_from_in_mask;
     audio_channel_count_from_out_mask := audio_h.audio_channel_count_from_out_mask |}.

Definition zero_audio_gain_config : audio_gain_config.t :=
  {| audio_gain_config.index := 0; audio_gain_config.mode := 0;
     audio_gain_config.channel_mask := 0; audio_gain_config.values := replicate 32 0;
     audio_gain_config.ramp_duration_ms := 0 |}.

Definition zero_audio_port_config_device_ext : audio_port_config_device_ext.t :=
  {| audio_port_config_device_ext.hw_module := 0; audio_port_config_device_ext.type := 0;
     audio_port_config_device_ext.address := replicate 32 x00 |}.

Definition zero_audio_io_flags : audio_io_flags.t :=
  {| audio_io_flags.storage := 0 |}.

Definition zero_audio_port_config_mix_ext_usecase : audio_port_config_mix_ext_usecase.t :=
  {| audio_port_config_mix_ext_usecase.storage := 0 |}.

Definition zero_audio_port_config_ext : audio_port_config_ext.t :=
  {| audio_port_config_ext.word_0 := 0; audio_port_config_ext.word_4 := 0;
     audio_port_config_ext.word_8 := 0;
     audio_port_config_ext.bytes_12 := replicate 28 x00 |}.

Definition zero_audio_port_config : audio_port_config.t :=
  {| audio_port_config.id := 0; audio_port_config.role := 0; audio_port_config.type := 0;
     audio_port_config.config_mask := 0; audio_port_config.sample_rate := 0;
     audio_port_config.channel_mask := 0; audio_port_config.format := 0;
     audio_port_config.gain := zero_audio_gain_config;
     audio_port_config.flags := zero_audio_io_flags;
     audio_port_config.ext := zero_audio_port_config_ext |}.

Definition zero_audio_patch : audio_patch.t :=
  {| audio_patch.id := 0;
     audio_patch.num_sources := 0; audio_patch.sources := replicate 16 zero_audio_port_config;
     audio_patch.num_sinks := 0; audio_patch.sinks := replicate 16 zero_audio_port_config |}.

Definition default_AudioPortConfig : media.AudioPortConfig.t :=
  {| media.AudioPortConfig.id := 0; media.AudioPortConfig.role := 0;
     media.AudioPortConfig.type := 0; media.AudioPortConfig.configMask := 0;
     media.AudioPortConfig.sampleRate := 0; media.AudioPortConfig.channelMask := 0;
     media.AudioPortConfig.format := 0;
     media.AudioPortConfig.gain :=
       {| media.AudioGainConfig.index := 0; media.AudioGainConfig.mode := 0;
          media.AudioGainConfig.channelMask := 0; media.AudioGainConfig.values := [];
          media.AudioGainConfig.rampDurationMs := 0 |};
     media.AudioPortConfig.flags := media.AudioIoFlags.input 0;
     media.AudioPortConfig.ext := media.AudioPortConfigExt.nothing false |}.

Definition headers : Headers :=
  {| Headers_AudioFormat := AudioFormat;
     Headers_system_audio_h := system_audio;
     Headers_audio_gain_config := zero_audio_gain_config;
     Headers_audio_io_flags := zero_audio_io_flags;
     Headers_audio_port_config_device_ext := zero_audio_port_config_device_ext;
     Headers_audio_port_config_mix_ext_usecase := zero_audio_port_config_mix_ext_usecase;
     Headers_audio_port_config_ext := zero_audio_port_config_ext;
     Headers_audio_port_config := zero_audio_port_config;
     Headers_audio_patch := zero_audio_patch;
     Headers_AudioPortConfig := default_AudioPortConfig;
     Headers_AudioPortConfigType := AudioPortConfigType;
     Headers_audio_port_config_enumerators := audio_port_config_enumerators;
     Headers_AudioIoConfigEvent := AudioIoConfigEvent;
     Headers_audio_io_config_event_enumerators := audio_io_config_event_enumerators;
     Headers_AudioPortRole := AudioPortRole;
     Headers_audio_port_role_t_enumerators := audio_port_role_t_enumerators;
     Headers_AudioPortType := AudioPortType;
     Headers_audio_port_type_t_enumerators := audio_port_type_t_enumerators;
     Headers_AudioGainMode := AudioGainMode;
     Headers_audio_gain_mode_t_enumerators := audio_gain_mode_t_enumerators;
     Headers_AudioInputFlags := AudioInputFlags;
     Headers_audio_input_flags_t_enumerators := audio_input_flags_t_enumerators;
     Headers_AudioOutputFlags := AudioOutputFlags;
     Headers_audio_output_flags_t_enumerators := audio_output_flags_t_enumerators;
     Headers_AudioStreamType := AudioStreamType;
     Headers_audio_stream_type_t_enumerators := audio_stream_type_t_enumerators;
     Headers_AudioSourceType := AudioSourceType;
     Headers_audio_source_t_enumerators := audio_source_t_enumerators;
     Headers_AudioContentType := AudioContentType;
     Headers_audio_content_type_t_enumerators := audio_content_type_t_enumerators;
     Headers_AudioUsage := AudioUsage;
     Headers_audio_usage_t_enumerators := audio_usage_t_enumerators;
     Headers_AudioFlag := AudioFlag;
     Headers_audio_flags_mask_t_enumerators := audio_flags_mask_t_enumerators;
     Headers_AudioEncapsulationMode := AudioEncapsulationMode;
     Headers_audio_encapsulation_mode_t_enumerators := audio_encapsulation_mode_t_enumerators |}.
End aosp.

(** * The remaining descriptors

    ** Declarations *)

Module media_more.
Module AudioConfigBase.
Record t := { sampleRate : Z; channelMask : Z; format : Z }.
End AudioConfigBase.
Module AudioOffloadInfo.
Record t := {
  version : Z; config : AudioConfigBase.t; streamType : Z; bitRate : Z;
  durationUs : Z; hasVideo : bool; isStreaming : bool; bitWidth : Z;
  offloadBufferSize : Z; usage : Z; encapsulationMode : Z; contentId : Z;
  syncId : Z
}.
End AudioOffloadInfo.
Module AudioConfig.
Record t := {
  sampleRate : Z; channelMask : Z; format : Z; offloadInfo : AudioOffloadInfo.t;
  frameCount : Z
}.
End AudioConfig.
Module AudioAttributesInternal.
Record t := { contentType : Z; usage : Z; source : Z; flags : Z; tags : list byte }.
End AudioAttributesInternal.
Module AudioIoDescriptor.
Record t := {
  ioHandle : Z; patch : media.AudioPatch.t; samplingRate : Z; format : Z;
  channelMask : Z; frameCount : Z; frameCountHAL : Z; latency : Z; portId : Z
}.
End AudioIoDescriptor.
End media_more.

Module audio_config_base_t.
Record t := { sample_rate : Z; channel_mask : Z; format : Z }.
End audio_config_base_t.
Module audio_offload_info_t.
Record t := {
  version : Z; size : Z; sample_rate : Z; channel_mask : Z; format : Z;
  stream_type : Z; bit_rate : Z; duration_us : Z; has_video : bool;
  is_streaming : bool; bit_width : Z; offload_buffer_size : Z; usage : Z;
  encapsulation_mode : Z; content_id : Z; sync_id : Z
}.
End audio_offload_info_t.
Module audio_config_t.
Record t := {
  sample_rate : Z; channel_mask : Z; format : Z; offload_info : audio_offload_info_t.t;
  frame_count : Z
}.
End audio_config_t.
Module audio_attributes_t.
Record t := { content_type : Z; usage : Z; source : Z; flags : Z; tags : list byte }.
End audio_attributes_t.
(** The object behind a [sp<AudioIoDescriptor>]. *)
Module AudioIoDescriptor.
Record t := {
  mIoHandle : Z; mPatch : audio_patch.t; mSamplingRate : Z; mFormat : Z;
  mChannelMask : Z; mFrameCount : Z; mFrameCountHAL : Z; mLatency : Z; mPortId : Z
}.
End AudioIoDescriptor.

(** What these converters take from [system/audio.h] and the C library
    beyond [system_audio_h]: three more typedefs, the size of the [tags]
    array, and the sizes and version that gate the fields of an offload
    info ([offload_info_size_0_1] is [offsetof(audio_offload_info_t, usage) +
    sizeof(audio_offload_info_t::usage)], [offload_info_size_0_2] the same
    for [sync_id]). *)
Class offload_attributes_h := {
  audio_unique_id_t : IntegralType;
  pid_t : IntegralType;
  uid_t : IntegralType;
  sizeof_audio_attributes_tags : Z;
  sizeof_audio_offload_info_t : Z;
  offload_info_size_0_1 : Z;
  offload_info_size_0_2 : Z;
  AUDIO_OFFLOAD_INFO_VERSION_0_2 : Z;
  local_audio_attributes_t :: LocalInit audio_attributes_t.t;
  local_AudioOffloadInfo :: LocalInit media_more.AudioOffloadInfo.t
}.

(** ** Converters *)

Section MoreConverters.
Context `{Headers} `{offload_attributes_h}.

Definition aidl2legacy_int32_t_audio_unique_id_t (aidl : Z) : ConversionResult Z :=
  convertReinterpret audio_unique_id_t aidl.

Definition legacy2aidl_audio_unique_id_t_int32_t (legacy : Z) : ConversionResult Z :=
  convertReinterpret int32_t legacy.

Definition aidl2legacy_int32_t_pid_t (aidl : Z) : ConversionResult Z :=
  convertReinterpret pid_t aidl.

Definition legacy2aidl_pid_t_int32_t (legacy : Z) : ConversionResult Z :=
  convertReinterpret int32_t legacy.

Definition aidl2legacy_int32_t_uid_t (aidl : Z) : ConversionResult Z :=
  convertReinterpret uid_t aidl.

Definition legacy2aidl_uid_t_int32_t (legacy : Z) : ConversionResult Z :=
  convertReinterpret int32_t legacy.

Definition aidl2legacy_AudioIoDescriptor_AudioIoDescriptor
    (aidl : media_more.AudioIoDescriptor.t) : ConversionResult AudioIoDescriptor.t :=
  VALUE_OR_RETURN mIoHandle <-
    aidl2legacy_int32_t_audio_io_handle_t (media_more.AudioIoDescriptor.ioHandle aidl);
  VALUE_OR_RETURN mPatch <-
    aidl2legacy_AudioPatch_audio_patch (media_more.AudioIoDescriptor.patch aidl);
  VALUE_OR_RETURN mSamplingRate <-
    convertIntegral uint32_t (media_more.AudioIoDescriptor.samplingRate aidl);
  VALUE_OR_RETURN mFormat <-
    aidl2legacy_AudioFormat_audio_format_t (media_more.AudioIoDescriptor.format aidl);
  VALUE_OR_RETURN mChannelMask <-
    aidl2legacy_int32_t_audio_channel_mask_t (media_more.AudioIoDescriptor.channelMask aidl);
  VALUE_OR_RETURN mFrameCount <-
    convertIntegral size_t (media_more.AudioIoDescriptor.frameCount aidl);
  VALUE_OR_RETURN mFrameCountHAL <-
    convertIntegral size_t (media_more.AudioIoDescriptor.frameCountHAL aidl);
  VALUE_OR_RETURN mLatency <-
    convertIntegral uint32_t (media_more.AudioIoDescriptor.latency aidl);
  VALUE_OR_RETURN mPortId <-
    aidl2legacy_int32_t_audio_port_handle_t (media_more.AudioIoDescriptor.portId aidl);
  Ok {| AudioIoDescriptor.mIoHandle := mIoHandle;
        AudioIoDescriptor.mPatch := mPatch;
        AudioIoDescriptor.mSamplingRate := mSamplingRate;
        AudioIoDescriptor.mFormat := mFormat;
        AudioIoDescriptor.mChannelMask := mChannelMask;
        AudioIoDescriptor.mFrameCount := mFrameCount;
        AudioIoDescriptor.mFrameCountHAL := mFrameCountHAL;
        AudioIoDescriptor.mLatency := mLatency;
        AudioIoDescriptor.mPortId := mPortId |}.

Definition legacy2aidl_AudioIoDescriptor_AudioIoDescriptor (legacy : AudioIoDescriptor.t)
  : ConversionResult media_more.AudioIoDescriptor.t :=
  VALUE_OR_RETURN ioHandle <-
    legacy2aidl_audio_io_handle_t_int32_t (AudioIoDescriptor.mIoHandle legacy);
  VALUE_OR_RETURN patch <-
    legacy2aidl_audio_patch_AudioPatch (AudioIoDescriptor.mPatch legacy);
  VALUE_OR_RETURN samplingRate <-
    convertIntegral int32_t (AudioIoDescriptor.mSamplingRate legacy);
  VALUE_OR_RETURN format <-
    legacy2aidl_audio_format_t_AudioFormat (AudioIoDescriptor.mFormat legacy);
  VALUE_OR_RETURN channelMask <-
    legacy2aidl_audio_channel_mask_t_int32_t (AudioIoDescriptor.mChannelMask legacy);
  VALUE_OR_RETURN frameCount <-
    convertIntegral int64_t (AudioIoDescriptor.mFrameCount legacy);
  VALUE_OR_RETURN frameCountHAL <-
    convertIntegral int64_t (AudioIoDescriptor.mFrameCountHAL legacy);
  VALUE_OR_RETURN latency <- convertIntegral int32_t (AudioIoDescriptor.mLatency legacy);
  VALUE_OR_RETURN portId <-
    legacy2aidl_audio_port_handle_t_int32_t (AudioIoDescriptor.mPortId legacy);
  Ok {| media_more.AudioIoDescriptor.ioHandle := ioHandle;
        media_more.AudioIoDescriptor.patch := patch;
        media_more.AudioIoDescriptor.samplingRate := samplingRate;
        media_more.AudioIoDescriptor.format := format;
        media_more.AudioIoDescriptor.channelMask := channelMask;
        media_more.AudioIoDescriptor.frameCount := frameCount;
        media_more.AudioIoDescriptor.frameCountHAL := frameCountHAL;
        media_more.AudioIoDescriptor.latency := latency;
        media_more.AudioIoDescriptor.portId := portId |}.

Definition aidl2legacy_AudioAttributesInternal_audio_attributes_t
    (aidl : media_more.AudioAttributesInternal.t) : ConversionResult audio_attributes_t.t :=
  let legacy : audio_attributes_t.t := local_init in
  VALUE_OR_RETURN content_type <-
    aidl2legacy_AudioContentType_audio_content_type_t
      (media_more.AudioAttributesInternal.contentType aidl);
  VALUE_OR_RETURN usage <-
    aidl2legacy_AudioUsage_audio_usage_t (media_more.AudioAttributesInternal.usage aidl);
  VALUE_OR_RETURN source <-
    aidl2legacy_AudioSourceType_audio_source_t
      (media_more.AudioAttributesInternal.source aidl);
  VALUE_OR_RETURN flags <-
    aidl2legacy_int32_t_audio_flags_mask_t_mask
      (media_more.AudioAttributesInternal.flags aidl);
  let '(status, tags) :=
    aidl2legacy_string (media_more.AudioAttributesInternal.tags aidl)
      (audio_attributes_t.tags legacy) sizeof_audio_attributes_tags in
  RETURN_IF_ERROR status;
  Ok {| audio_attributes_t.content_type := content_type;
        audio_attributes_t.usage := usage;
        audio_attributes_t.source := source;
        audio_attributes_t.flags := flags;
        audio_attributes_t.tags := tags |}.

Definition legacy2aidl_audio_attributes_t_AudioAttributesInternal
    (legacy : audio_attributes_t.t) : ConversionResult media_more.AudioAttributesInternal.t :=
  VALUE_OR_RETURN contentType <-
    legacy2aidl_audio_content_type_t_AudioContentType
      (audio_attributes_t.content_type legacy);
  VALUE_OR_RETURN usage <-
    legacy2aidl_audio_usage_t_AudioUsage (audio_attributes_t.usage legacy);
  VALUE_OR_RETURN source <-
    legacy2aidl_audio_source_t_AudioSourceType (audio_attributes_t.source legacy);
  VALUE_OR_RETURN flags <-
    legacy2aidl_audio_flags_mask_t_int32_t_mask (audio_attributes_t.flags legacy);
  VALUE_OR_RETURN tags <-
    legacy2aidl_string (Some (audio_attributes_t.tags legacy)) sizeof_audio_attributes_tags;
  Ok {| media_more.AudioAttributesInternal.contentType := contentType;
        media_more.AudioAttributesInternal.usage := usage;
        media_more.AudioAttributesInternal.source := source;
        media_more.AudioAttributesInternal.flags := flags;
        media_more.AudioAttributesInternal.tags := tags |}.

Definition aidl2legacy_AudioConfigBase_audio_config_base_t
    (aidl : media_more.AudioConfigBase.t) : ConversionResult audio_config_base_t.t :=
  VALUE_OR_RETURN sample_rate <-
    convertIntegral uint32_t (media_more.AudioConfigBase.sampleRate aidl);
  VALUE_OR_RETURN channel_mask <-
    aidl2legacy_int32_t_audio_channel_mask_t (media_more.AudioConfigBase.channelMask aidl);
  VALUE_OR_RETURN format <-
    aidl2legacy_AudioFormat_audio_format_t (media_more.AudioConfigBase.format aidl);
  Ok {| audio_config_base_t.sample_rate := sample_rate;
        audio_config_base_t.channel_mask := channel_mask;
        audio_config_base_t.format := format |}.

Definition legacy2aidl_audio_config_base_t_AudioConfigBase
    (legacy : audio_config_base_t.t) : ConversionResult media_more.AudioConfigBase.t :=
  VALUE_OR_RETURN sampleRate <-
    convertIntegral int32_t (audio_config_base_t.sample_rate legacy);
  VALUE_OR_RETURN channelMask <-
    legacy2aidl_audio_channel_mask_t_int32_t (audio_config_base_t.channel_mask legacy);
  VALUE_OR_RETURN format <-
    legacy2aidl_audio_format_t_AudioFormat (audio_config_base_t.format legacy);
  Ok {| media_more.AudioConfigBase.sampleRate := sampleRate;
        media_more.AudioConfigBase.channelMask := channelMask;
        media_more.AudioConfigBase.format := format |}.

Definition aidl2legacy_AudioOffloadInfo_audio_offload_info_t
    (aidl : media_more.AudioOffloadInfo.t) : ConversionResult audio_offload_info_t.t :=
  VALUE_OR_RETURN version <-
    convertIntegral uint16_t (media_more.AudioOffloadInfo.version aidl);
  let size := static_cast uint16_t sizeof_audio_offload_info_t in
  VALUE_OR_RETURN config <-
    aidl2legacy_AudioConfigBase_audio_config_base_t (media_more.AudioOffloadInfo.config aidl);
  VALUE_OR_RETURN stream_type <-
    aidl2legacy_AudioStreamType_audio_stream_type_t
      (media_more.AudioOffloadInfo.streamType aidl);
  VALUE_OR_RETURN bit_rate <-
    convertIntegral uint32_t (media_more.AudioOffloadInfo.bitRate aidl);
  VALUE_OR_RETURN duration_us <-
    convertIntegral int64_t (media_more.AudioOffloadInfo.durationUs aidl);
  VALUE_OR_RETURN bit_width <-
    convertIntegral uint32_t (media_more.AudioOffloadInfo.bitWidth aidl);
  VALUE_OR_RETURN offload_buffer_size <-
    convertIntegral uint32_t (media_more.AudioOffloadInfo.offloadBufferSize aidl);
  VALUE_OR_RETURN usage <-
    aidl2legacy_AudioUsage_audio_usage_t (media_more.AudioOffloadInfo.usage aidl);
  VALUE_OR_RETURN encapsulation_mode <-
    aidl2legacy_audio_encapsulation_mode_t_AudioEncapsulationMode
      (media_more.AudioOffloadInfo.encapsulationMode aidl);
  VALUE_OR_RETURN content_id <-
    convertReinterpret int32_t (media_more.AudioOffloadInfo.contentId aidl);
  VALUE_OR_RETURN sync_id <-
    convertReinterpret int32_t (media_more.AudioOffloadInfo.syncId aidl);
  Ok {| audio_offload_info_t.version := version;
        audio_offload_info_t.size := size;
        audio_offload_info_t.sample_rate := audio_config_base_t.sample_rate config;
        audio_offload_info_t.channel_mask := audio_config_base_t.channel_mask config;
        audio_offload_info_t.format := audio_config_base_t.format config;
        audio_offload_info_t.stream_type := stream_type;
        audio_offload_info_t.bit_rate := bit_rate;
        audio_offload_info_t.duration_us := duration_us;
        audio_offload_info_t.has_video := media_more.AudioOffloadInfo.hasVideo aidl;
        audio_offload_info_t.is_streaming := media_more.AudioOffloadInfo.isStreaming aidl;
        audio_offload_info_t.bit_width := bit_width;
        audio_offload_info_t.offload_buffer_size := offload_buffer_size;
        audio_offload_info_t.usage := usage;
        audio_offload_info_t.encapsulation_mode := encapsulation_mode;
        audio_offload_info_t.content_id := content_id;
        audio_offload_info_t.sync_id := sync_id |}.

(** The three fields of version 0.2, as a triple: converted under
    [legacy.version >= AUDIO_OFFLOAD_INFO_VERSION_0_2], those of the
    default-constructed [aidl] otherwise. *)
Definition legacy2aidl_audio_offload_info_t_AudioOffloadInfo
    (legacy : audio_offload_info_t.t) : ConversionResult media_more.AudioOffloadInfo.t :=
  let aidl : media_more.AudioOffloadInfo.t := local_init in
  (* Version 0.1 fields. *)
  if decide (audio_offload_info_t.size legacy < offload_info_size_0_1)
  then unexpected BAD_VALUE
  else
    VALUE_OR_RETURN version <- convertIntegral int32_t (audio_offload_info_t.version legacy);
    VALUE_OR_RETURN sampleRate <-
      convertIntegral int32_t (audio_offload_info_t.sample_rate legacy);
    VALUE_OR_RETURN channelMask <-
      legacy2aidl_audio_channel_mask_t_int32_t (audio_offload_info_t.channel_mask legacy);
    VALUE_OR_RETURN format <-
      legacy2aidl_audio_format_t_AudioFormat (audio_offload_info_t.format legacy);
    VALUE_OR_RETURN streamType <-
      legacy2aidl_audio_stream_type_t_AudioStreamType
        (audio_offload_info_t.stream_type legacy);
    VALUE_OR_RETURN bitRate <- convertIntegral int32_t (audio_offload_info_t.bit_rate legacy);
    VALUE_OR_RETURN durationUs <-
      convertIntegral int64_t (audio_offload_info_t.duration_us legacy);
    VALUE_OR_RETURN bitWidth <-
      convertIntegral int32_t (audio_offload_info_t.bit_width legacy);
    VALUE_OR_RETURN offloadBufferSize <-
      convertIntegral int32_t (audio_offload_info_t.offload_buffer_size legacy);
    VALUE_OR_RETURN usage <-
      legacy2aidl_audio_usage_t_AudioUsage (audio_offload_info_t.usage legacy);
    (* Version 0.2 fields. *)
    VALUE_OR_RETURN version_0_2 <-
      (if decide (audio_offload_info_t.version legacy >= AUDIO_OFFLOAD_INFO_VERSION_0_2)
       then
         if decide (audio_offload_info_t.size legacy < offload_info_size_0_2)
         then unexpected BAD_VALUE
         else
           VALUE_OR_RETURN encapsulationMode <-
             legacy2aidl_AudioEncapsulationMode_audio_encapsulation_mode_t
               (audio_offload_info_t.encapsulation_mode legacy);
           VALUE_OR_RETURN contentId <-
             convertReinterpret int32_t (audio_offload_info_t.content_id legacy);
           VALUE_OR_RETURN syncId <-
             convertReinterpret int32_t (audio_offload_info_t.sync_id legacy);
           Ok (encapsulationMode, contentId, syncId)
       else Ok (media_more.AudioOffloadInfo.encapsulationMode aidl,
                media_more.AudioOffloadInfo.contentId aidl,
                media_more.AudioOffloadInfo.syncId aidl));
    Ok {| media_more.AudioOffloadInfo.version := version;
          media_more.AudioOffloadInfo.config :=
            {| media_more.AudioConfigBase.sampleRate := sampleRate;
               media_more.AudioConfigBase.channelMask := channelMask;
               media_more.AudioConfigBase.format := format |};
          media_more.AudioOffloadInfo.streamType := streamType;
          media_more.AudioOffloadInfo.bitRate := bitRate;
          media_more.AudioOffloadInfo.durationUs := durationUs;
          media_more.AudioOffloadInfo.hasVideo := audio_offload_info_t.has_video legacy;
          media_more.AudioOffloadInfo.isStreaming := audio_offload_info_t.is_streaming legacy;
          media_more.AudioOffloadInfo.bitWidth := bitWidth;
          media_more.AudioOffloadInfo.offloadBufferSize := offloadBufferSize;
          media_more.AudioOffloadInfo.usage := usage;
          media_more.AudioOffloadInfo.encapsulationMode := version_0_2.1.1;
          media_more.AudioOffloadInfo.contentId := version_0_2.1.2;
          media_more.AudioOffloadInfo.syncId := version_0_2.2 |}.

Definition aidl2legacy_AudioConfig_audio_config_t (aidl : media_more.AudioConfig.t)
  : ConversionResult audio_config_t.t :=
  VALUE_OR_RETURN sample_rate <-
    convertIntegral uint32_t (media_more.AudioConfig.sampleRate aidl);
  VALUE_OR_RETURN channel_mask <-
    aidl2legacy_int32_t_audio_channel_mask_t (media_more.AudioConfig.channelMask aidl);
  VALUE_OR_RETURN format <-
    aidl2legacy_AudioFormat_audio_format_t (media_more.AudioConfig.format aidl);
  VALUE_OR_RETURN offload_info <-
    aidl2legacy_AudioOffloadInfo_audio_offload_info_t
      (media_more.AudioConfig.offloadInfo aidl);
  VALUE_OR_RETURN frame_count <-
    convertIntegral uint32_t (media_more.AudioConfig.frameCount aidl);
  Ok {| audio_config_t.sample_rate := sample_rate;
        audio_config_t.channel_mask := channel_mask;
        audio_config_t.format := format;
        audio_config_t.offload_info := offload_info;
        audio_config_t.frame_count := frame_count |}.

Definition legacy2aidl_audio_config_t_AudioConfig (legacy : audio_config_t.t)
  : ConversionResult media_more.AudioConfig.t :=
  VALUE_OR_RETURN sampleRate <- convertIntegral int32_t (audio_config_t.sample_rate legacy);
  VALUE_OR_RETURN channelMask <-
    legacy2aidl_audio_channel_mask_t_int32_t (audio_config_t.channel_mask legacy);
  VALUE_OR_RETURN format <-
    legacy2aidl_audio_format_t_AudioFormat (audio_config_t.format legacy);
  VALUE_OR_RETURN offloadInfo <-
    legacy2aidl_audio_offload_info_t_AudioOffloadInfo (audio_config_t.offload_info legacy);
  VALUE_OR_RETURN frameCount <- convertIntegral int64_t (audio_config_t.frame_count legacy);
  Ok {| media_more.AudioConfig.sampleRate := sampleRate;
        media_more.AudioConfig.channelMask := channelMask;
        media_more.AudioConfig.format := format;
        media_more.AudioConfig.offloadInfo := offloadInfo;
        media_more.AudioConfig.frameCount := frameCount |}.
End MoreConverters.

(** The instance, continued. *)
Module aosp_more.
Definition default_AudioOffloadInfo : media_more.AudioOffloadInfo.t :=
  {| media_more.AudioOffloadInfo.version := 0;
     media_more.AudioOffloadInfo.config :=
       {| media_more.AudioConfigBase.sampleRate := 0;
          media_more.AudioConfigBase.channelMask := 0;
          media_more.AudioConfigBase.format := 0 |};
     media_more.AudioOffloadInfo.streamType := 0;
     media_more.AudioOffloadInfo.bitRate := 0;
     media_more.AudioOffloadInfo.durationUs := 0;
     media_more.AudioOffloadInfo.hasVideo := false;
     media_more.AudioOffloadInfo.isStreaming := false;
     media_more.AudioOffloadInfo.bitWidth := 0;
     media_more.AudioOffloadInfo.offloadBufferSize := 0;
     media_more.AudioOffloadInfo.usage := 0;
     media_more.AudioOffloadInfo.encapsulationMode := 0;
     media_more.AudioOffloadInfo.contentId := 0;
     media_more.AudioOffloadInfo.syncId := 0 |}.

Definition zero_audio_attributes_t : audio_attributes_t.t :=
  {| audio_attributes_t.content_type := 0; audio_attributes_t.usage := 0;
     audio_attributes_t.source := 0; audio_attributes_t.flags := 0;
     audio_attributes_t.tags := replicate 256 x00 |}.

Definition declarations : offload_attributes_h :=
  {| audio_unique_id_t := int;
     pid_t := int;
     uid_t := unsigned;
     sizeof_audio_attributes_tags := 256;
     sizeof_audio_offload_info_t := 64;
     offload_info_size_0_1 := 48;
     offload_info_size_0_2 := 60;
     AUDIO_OFFLOAD_INFO_VERSION_0_2 := 2;
     local_audio_attributes_t := zero_audio_attributes_t;
     local_AudioOffloadInfo := default_AudioOffloadInfo |}.
End aosp_more.

(** * Vocabulary of the statements *)

Section BitmaskVocabulary.
Context {DestEnum SrcEnum : Type}.
Variable UnsignedDestMask : IntegralType.
Variable enumConversion : SrcEnum -> ConversionResult DestEnum.
Variable srcIndexToEnum : Z -> SrcEnum.
Variable destEnumToMask : DestEnum -> Z.

(** The source bit [i] of the current [usrc] is bit [srcBitIndex + i] of
    the mask the loop started from; the image of a source bit is the mask
    of its converted enumerator, as the unsigned accumulator sees it. *)
Definition bit_image (usrc srcBitIndex : Z) (fuel : nat) (k : Z) : Prop :=
  exists i destEnum,
    0 <= i < Z.of_nat fuel /\ Z.testbit usrc i = true /\
    enumConversion (srcIndexToEnum (srcBitIndex + i)) = Ok destEnum /\
    Z.testbit (static_cast UnsignedDestMask (destEnumToMask destEnum)) k = true.

(** Every set bit among the next [fuel] source bits converts. *)
Definition bits_convert (usrc srcBitIndex : Z) (fuel : nat) : Prop :=
  forall i, 0 <= i < Z.of_nat fuel -> Z.testbit usrc i = true ->
    is_Ok (enumConversion (srcIndexToEnum (srcBitIndex + i))).

End BitmaskVocabulary.

(** A legacy value that [legacy2aidl] accepts comes back from [aidl2legacy]. *)
Definition enum_roundtrip (legacy2aidl aidl2legacy : Z -> ConversionResult Z) : Prop :=
  forall legacy aidl, legacy2aidl legacy = Ok aidl -> aidl2legacy aidl = Ok legacy.

(** [recognized i]: bit [i] of a legacy mask is one the per-bit conversion
    accepts.  A legacy mask made of recognized bits converts and comes back;
    one with a bit that is not recognized does not convert. *)
Definition mask_roundtrip (LegacyMask : IntegralType)
    (legacy2aidl aidl2legacy : Z -> ConversionResult Z) (recognized : Z -> Prop) : Prop :=
  forall legacy, representable LegacyMask legacy = true ->
    ((forall i, 0 <= i < bits LegacyMask -> Z.testbit legacy i = true -> recognized i) ->
     exists aidl, legacy2aidl legacy = Ok aidl /\ aidl2legacy aidl = Ok legacy) /\
    (forall i, 0 <= i < bits LegacyMask -> Z.testbit legacy i = true -> ~ recognized i ->
     failed (legacy2aidl legacy)).

(** [direction_of SOURCE SINK DEVICE MIX role type d]: [(role, type)] is one of the four pairs that have
    a direction, and [d] is that direction. *)
Definition direction_of (SOURCE SINK DEVICE MIX : Z) (role type : Z) (d : Direction)
  : Prop :=
  (role = SOURCE /\ type = DEVICE /\ d = INPUT) \/
  (role = SINK /\ type = DEVICE /\ d = OUTPUT) \/
  (role = SOURCE /\ type = MIX /\ d = OUTPUT) \/
  (role = SINK /\ type = MIX /\ d = INPUT).

(** [direction_table direction SOURCE SINK NONE_role DEVICE MIX NONE_type
    SESSION]: the function has a direction for the four pairs of
    [direction_of] and answers BAD_VALUE for every other role and type. *)
Definition direction_table (direction : Z -> Z -> ConversionResult Direction)
    (SOURCE SINK NONE_role DEVICE MIX NONE_type SESSION : Z) : Prop :=
  direction SOURCE DEVICE = Ok INPUT /\
  direction SINK DEVICE = Ok OUTPUT /\
  direction SOURCE MIX = Ok OUTPUT /\
  direction SINK MIX = Ok INPUT /\
  (forall role type d,
     direction role type = Ok d -> direction_of SOURCE SINK DEVICE MIX role type d) /\
  (forall role type,
     ~ ((role = SOURCE \/ role = SINK) /\ (type = DEVICE \/ type = MIX)) ->
     direction role type = unexpected BAD_VALUE) /\
  (forall role, direction role NONE_type = unexpected BAD_VALUE) /\
  (forall role, direction role SESSION = unexpected BAD_VALUE) /\
  (forall type, direction NONE_role type = unexpected BAD_VALUE).

(** [aidl] with another gain field. *)
Definition AudioPortConfig_with_gain (aidl : media.AudioPortConfig.t)
    (gain : media.AudioGainConfig.t) : media.AudioPortConfig.t :=
  {| media.AudioPortConfig.id := media.AudioPortConfig.id aidl;
     media.AudioPortConfig.role := media.AudioPortConfig.role aidl;
     media.AudioPortConfig.type := media.AudioPortConfig.type aidl;
     media.AudioPortConfig.configMask := media.AudioPortConfig.configMask aidl;
     media.AudioPortConfig.sampleRate := media.AudioPortConfig.sampleRate aidl;
     media.AudioPortConfig.channelMask := media.AudioPortConfig.channelMask aidl;
     media.AudioPortConfig.format := media.AudioPortConfig.format aidl;
     media.AudioPortConfig.gain := gain;
     media.AudioPortConfig.flags := media.AudioPortConfig.flags aidl;
     media.AudioPortConfig.ext := media.AudioPortConfig.ext aidl |}.

Section ConverterVocabulary.
Context `{Headers}.

(** The number of values [aidl2legacy_AudioGainConfig_audio_gain_config]
    computes for a wire gain config, once the direction is known. *)
Definition expected_numValues (aidl : media.AudioGainConfig.t) (dir : Direction) : Z :=
  gain_numValues
    (bitmaskIsSet int32_t (media.AudioGainConfig.mode aidl) media.AudioGainMode.JOINT)
    (isInputDirection dir)
    (static_cast audio_channel_mask_t (media.AudioGainConfig.channelMask aidl)).

(** The GAIN bit of the wire config mask, as the converter tests it. *)
Definition has_GAIN (aidl : media.AudioPortConfig.t) : bool :=
  bitmaskIsSet int32_t (media.AudioPortConfig.configMask aidl)
    media.AudioPortConfigType.GAIN.

End ConverterVocabulary.

(** Inputs on which the theorems are run, over the instance [aosp.headers]. *)
Section Samples.
#[local] Existing Instance aosp.headers.

Definition joint_gain : media.AudioGainConfig.t :=
  {| media.AudioGainConfig.index := 0;
     media.AudioGainConfig.mode := 1;
     media.AudioGainConfig.channelMask := 3;
     media.AudioGainConfig.values := [5];
     media.AudioGainConfig.rampDurationMs := 0 |}.

Definition gain_33_values : media.AudioGainConfig.t :=
  {| media.AudioGainConfig.index := 0;
     media.AudioGainConfig.mode := 1;
     media.AudioGainConfig.channelMask := 0;
     media.AudioGainConfig.values := replicate 33 0;
     media.AudioGainConfig.rampDurationMs := 0 |}.

Definition device_port (configMask : Z) (gain : media.AudioGainConfig.t)
  : media.AudioPortConfig.t :=
  {| media.AudioPortConfig.id := 1;
     media.AudioPortConfig.role := media.AudioPortRole.SOURCE;
     media.AudioPortConfig.type := media.AudioPortType.DEVICE;
     media.AudioPortConfig.configMask := configMask;
     media.AudioPortConfig.sampleRate := 48000;
     media.AudioPortConfig.channelMask := 3;
     media.AudioPortConfig.format := 1;
     media.AudioPortConfig.gain := gain;
     media.AudioPortConfig.flags := media.AudioIoFlags.input 0;
     media.AudioPortConfig.ext :=
       media.AudioPortConfigExt.device
         {| media.AudioPortConfigDeviceExt.hwModule := 1;
            media.AudioPortConfigDeviceExt.type := 4;
            media.AudioPortConfigDeviceExt.address := [] |} |}.

Definition patch_17_sinks : media.AudioPatch.t :=
  {| media.AudioPatch.id := 1;
     media.AudioPatch.sinks := replicate 17 (device_port 1 joint_gain);
     media.AudioPatch.sources := [] |}.
End Samples.

(** The call returned to its caller, with a value or with BAD_VALUE (the
    one error the converters construct): it neither aborted nor left defined
    behaviour. *)
Definition returns_normally {T} (r : ConversionResult T) : Prop :=
  is_Ok r \/ r = unexpected BAD_VALUE.

Section LoopVocabulary.
Context {A B : Type}.
Variable convert : A -> ConversionResult B.

(** What the loop [dest[i] = VALUE_OR_RETURN(convert(src[i]))] over the
    first [n] indices leaves in the array [dest], which held [init]: the
    converted elements at these indices, and the old contents after
    them. *)
Definition converted_into (n : nat) (src : list A) (init dest : list B) : Prop :=
  length dest = length init /\
  (forall i, (i < n)%nat ->
     exists x y, src !! i = Some x /\ convert x = Ok y /\ dest !! i = Some y) /\
  (forall i, (n <= i)%nat -> dest !! i = init !! i).

(** What the loop [dest.push_back(VALUE_OR_RETURN(convert(src[i])))] over
    the first [n] indices leaves in the vector [dest], empty before. *)
Definition converted_prefix (n : nat) (src : list A) (dest : list B) : Prop :=
  length dest = n /\
  (forall i, (i < n)%nat ->
     exists x y, src !! i = Some x /\ convert x = Ok y /\ dest !! i = Some y).
End LoopVocabulary.

(** The fields hold values of their declared type [int32_t]. *)
Definition int32_fields (fields : list Z) : Prop :=
  Forall (fun x => representable int32_t x = true) fields.

Section OffloadVocabulary.
Context `{offload_attributes_h}.

(** A wire offload info with the three fields of version 0.2 as a
    default-constructed [media::AudioOffloadInfo] has them. *)
Definition without_version_0_2_fields (aidl : media_more.AudioOffloadInfo.t)
  : media_more.AudioOffloadInfo.t :=
  {| media_more.AudioOffloadInfo.version := media_more.AudioOffloadInfo.version aidl;
     media_more.AudioOffloadInfo.config := media_more.AudioOffloadInfo.config aidl;
     media_more.AudioOffloadInfo.streamType := media_more.AudioOffloadInfo.streamType aidl;
     media_more.AudioOffloadInfo.bitRate := media_more.AudioOffloadInfo.bitRate aidl;
     media_more.AudioOffloadInfo.durationUs := media_more.AudioOffloadInfo.durationUs aidl;
     media_more.AudioOffloadInfo.hasVideo := media_more.AudioOffloadInfo.hasVideo aidl;
     media_more.AudioOffloadInfo.isStreaming := media_more.AudioOffloadInfo.isStreaming aidl;
     media_more.AudioOffloadInfo.bitWidth := media_more.AudioOffloadInfo.bitWidth aidl;
     media_more.AudioOffloadInfo.offloadBufferSize :=
       media_more.AudioOffloadInfo.offloadBufferSize aidl;
     media_more.AudioOffloadInfo.usage := media_more.AudioOffloadInfo.usage aidl;
     media_more.AudioOffloadInfo.encapsulationMode :=
       media_more.AudioOffloadInfo.encapsulationMode local_init;
     media_more.AudioOffloadInfo.contentId :=
       media_more.AudioOffloadInfo.contentId local_init;
     media_more.AudioOffloadInfo.syncId := media_more.AudioOffloadInfo.syncId local_init |}.
End OffloadVocabulary.

(** The legacy enumerators of the five masks are single bits, below the sign
    bit: the values [1 << j] that the bit-by-bit conversion enumerates. *)
Definition single_bits (enumerators : list Z) : Prop :=
  Forall (fun e => exists j, 0 <= j < 31 /\ e = 2 ^ j) enumerators.

Record flag_declarations `{Headers} : Prop := {
  bits_audio_port_config :
    single_bits
      [AUDIO_PORT_CONFIG_SAMPLE_RATE; AUDIO_PORT_CONFIG_CHANNEL_MASK; AUDIO_PORT_CONFIG_FORMAT; AUDIO_PORT_CONFIG_FLAGS];
  bits_audio_gain_mode_t :
    single_bits
      [AUDIO_GAIN_MODE_JOINT; AUDIO_GAIN_MODE_CHANNELS; AUDIO_GAIN_MODE_RAMP];
  bits_audio_input_flags_t :
    single_bits
      [AUDIO_INPUT_FLAG_FAST; AUDIO_INPUT_FLAG_HW_HOTWORD; AUDIO_INPUT_FLAG_RAW; AUDIO_INPUT_FLAG_SYNC; AUDIO_INPUT_FLAG_MMAP_NOIRQ; AUDIO_INPUT_FLAG_VOIP_TX; AUDIO_INPUT_FLAG_HW_AV_SYNC; AUDIO_INPUT_FLAG_DIRECT];
  bits_audio_output_flags_t :
    single_bits
      [AUDIO_OUTPUT_FLAG_DIRECT; AUDIO_OUTPUT_FLAG_PRIMARY; AUDIO_OUTPUT_FLAG_FAST; AUDIO_OUTPUT_FLAG_DEEP_BUFFER; AUDIO_OUTPUT_FLAG_COMPRESS_OFFLOAD; AUDIO_OUTPUT_FLAG_NON_BLOCKING; AUDIO_OUTPUT_FLAG_HW_AV_SYNC; AUDIO_OUTPUT_FLAG_TTS; AUDIO_OUTPUT_FLAG_RAW; AUDIO_OUTPUT_FLAG_SYNC; AUDIO_OUTPUT_FLAG_IEC958_NONAUDIO; AUDIO_OUTPUT_FLAG_DIRECT_PCM; AUDIO_OUTPUT_FLAG_MMAP_NOIRQ; AUDIO_OUTPUT_FLAG_VOIP_RX; AUDIO_OUTPUT_FLAG_INCALL_MUSIC];
  bits_audio_flags_mask_t :
    single_bits
      [AUDIO_FLAG_AUDIBILITY_ENFORCED; AUDIO_FLAG_SECURE; AUDIO_FLAG_SCO; AUDIO_FLAG_BEACON; AUDIO_FLAG_HW_AV_SYNC; AUDIO_FLAG_HW_HOTWORD; AUDIO_FLAG_BYPASS_INTERRUPTION_POLICY; AUDIO_FLAG_BYPASS_MUTE; AUDIO_FLAG_LOW_LATENCY; AUDIO_FLAG_DEEP_BUFFER; AUDIO_FLAG_NO_MEDIA_PROJECTION; AUDIO_FLAG_MUTE_HAPTIC; AUDIO_FLAG_NO_SYSTEM_CAPTURE; AUDIO_FLAG_CAPTURE_PRIVATE]
}.

(** A 32-bit wire value that [aidl2legacy] accepts comes back from
    [legacy2aidl]. *)
Definition wire_roundtrip (aidl2legacy legacy2aidl : Z -> ConversionResult Z) : Prop :=
  forall aidl legacy, representable int32_t aidl = true ->
    aidl2legacy aidl = Ok legacy -> legacy2aidl legacy = Ok aidl.

(** ** Wire values and what comes back of them *)

(** The 32-bit fields of a wire union or struct hold values of their type,
    and a string no NUL byte. *)
Definition io_flags_wire_values (flags : media.AudioIoFlags.t) : Prop :=
  match flags with
  | media.AudioIoFlags.input v | media.AudioIoFlags.output v => int32_fields [v]
  end.

Definition ext_wire_values (ext : media.AudioPortConfigExt.t) : Prop :=
  match ext with
  | media.AudioPortConfigExt.nothing _ => True
  | media.AudioPortConfigExt.device d =>
      int32_fields [media.AudioPortConfigDeviceExt.hwModule d;
                    media.AudioPortConfigDeviceExt.type d] /\
      x00 ∉ media.AudioPortConfigDeviceExt.address d
  | media.AudioPortConfigExt.mix m =>
      int32_fields [media.AudioPortConfigMixExt.hwModule m;
                    media.AudioPortConfigMixExt.handle m]
  | media.AudioPortConfigExt.session s =>
      int32_fields [media.AudioPortConfigSessionExt.session s]
  end.

(** The [nothing] member comes back as [false], whatever it held. *)
Definition usecase_image (usecase : media.AudioPortConfigMixExtUseCase.t)
  : media.AudioPortConfigMixExtUseCase.t :=
  match usecase with
  | media.AudioPortConfigMixExtUseCase.nothing _ =>
      media.AudioPortConfigMixExtUseCase.nothing false
  | _ => usecase
  end.

Definition ext_image (ext : media.AudioPortConfigExt.t) : media.AudioPortConfigExt.t :=
  match ext with
  | media.AudioPortConfigExt.nothing _ => media.AudioPortConfigExt.nothing false
  | media.AudioPortConfigExt.mix m =>
      media.AudioPortConfigExt.mix
        {| media.AudioPortConfigMixExt.hwModule := media.AudioPortConfigMixExt.hwModule m;
           media.AudioPortConfigMixExt.handle := media.AudioPortConfigMixExt.handle m;
           media.AudioPortConfigMixExt.usecase :=
             usecase_image (media.AudioPortConfigMixExt.usecase m) |}
  | _ => ext
  end.

Section PortConfigVocabulary.
Context `{Headers}.

Definition port_config_wire_values (aidl : media.AudioPortConfig.t) : Prop :=
  int32_fields [media.AudioPortConfig.id aidl; media.AudioPortConfig.configMask aidl;
                media.AudioPortConfig.sampleRate aidl;
                media.AudioPortConfig.channelMask aidl] /\
  representable media.AudioFormat.underlying (media.AudioPortConfig.format aidl) = true /\
  io_flags_wire_values (media.AudioPortConfig.flags aidl) /\
  ext_wire_values (media.AudioPortConfig.ext aidl).

(** What comes back of a wire port config: the fields that its config mask
    selects, the ones of a default-constructed [media::AudioPortConfig] for
    the others, and the extension. *)
Definition port_config_image (aidl : media.AudioPortConfig.t) : media.AudioPortConfig.t :=
  let selects := bitmaskIsSet int32_t (media.AudioPortConfig.configMask aidl) in
  let default : media.AudioPortConfig.t := local_init in
  {| media.AudioPortConfig.id := media.AudioPortConfig.id aidl;
     media.AudioPortConfig.role := media.AudioPortConfig.role aidl;
     media.AudioPortConfig.type := media.AudioPortConfig.type aidl;
     media.AudioPortConfig.configMask := media.AudioPortConfig.configMask aidl;
     media.AudioPortConfig.sampleRate :=
       if selects media.AudioPortConfigType.SAMPLE_RATE
       then media.AudioPortConfig.sampleRate aidl
       else media.AudioPortConfig.sampleRate default;
     media.AudioPortConfig.channelMask :=
       if selects media.AudioPortConfigType.CHANNEL_MASK
       then media.AudioPortConfig.channelMask aidl
       else media.AudioPortConfig.channelMask default;
     media.AudioPortConfig.format :=
       if selects media.AudioPortConfigType.FORMAT
       then media.AudioPortConfig.format aidl
       else media.AudioPortConfig.format default;
     media.AudioPortConfig.gain := media.AudioPortConfig.gain default;
     media.AudioPortConfig.flags :=
       if selects media.AudioPortConfigType.FLAGS
       then media.AudioPortConfig.flags aidl
       else media.AudioPortConfig.flags default;
     media.AudioPortConfig.ext := ext_image (media.AudioPortConfig.ext aidl) |}.
End PortConfigVocabulary.


(** Further inputs on which the theorems are run, over the instances
    [aosp.headers] and [aosp_more.declarations]. *)
Section FurtherSamples.
#[local] Existing Instance aosp.headers.
#[local] Existing Instance aosp_more.declarations.

(** "mic" *)
Definition mic_address : list byte := [x6d; x69; x63].

(** A buffer of 32 bytes, none of them NUL. *)
Definition stale_buffer : list byte := replicate 32 xff.

(** A microphone: a device source, with every field but the gain
    selected. *)
Definition mic_port : media.AudioPortConfig.t :=
  {| media.AudioPortConfig.id := 11;
     media.AudioPortConfig.role := media.AudioPortRole.SOURCE;
     media.AudioPortConfig.type := media.AudioPortType.DEVICE;
     media.AudioPortConfig.configMask := 23;
     media.AudioPortConfig.sampleRate := 48000;
     media.AudioPortConfig.channelMask := 12;
     media.AudioPortConfig.format := 1;
     media.AudioPortConfig.gain := joint_gain;
     media.AudioPortConfig.flags := media.AudioIoFlags.input 5;
     media.AudioPortConfig.ext :=
       media.AudioPortConfigExt.device
         {| media.AudioPortConfigDeviceExt.hwModule := 6;
            media.AudioPortConfigDeviceExt.type := -2147483644;
            media.AudioPortConfigDeviceExt.address := mic_address |} |}.

(** The mix that records from it: a mix sink, with the sample rate and
    the channel mask selected. *)
Definition record_mix_port : media.AudioPortConfig.t :=
  {| media.AudioPortConfig.id := 12;
     media.AudioPortConfig.role := media.AudioPortRole.SINK;
     media.AudioPortConfig.type := media.AudioPortType.MIX;
     media.AudioPortConfig.configMask := 3;
     media.AudioPortConfig.sampleRate := 16000;
     media.AudioPortConfig.channelMask := 16;
     media.AudioPortConfig.format := 1;
     media.AudioPortConfig.gain := joint_gain;
     media.AudioPortConfig.flags := media.AudioIoFlags.input 0;
     media.AudioPortConfig.ext :=
       media.AudioPortConfigExt.mix
         {| media.AudioPortConfigMixExt.hwModule := 6;
            media.AudioPortConfigMixExt.handle := 13;
            media.AudioPortConfigMixExt.usecase :=
              media.AudioPortConfigMixExtUseCase.source media.AudioSourceType.MIC |} |}.

Definition recording_patch : media.AudioPatch.t :=
  {| media.AudioPatch.id := 7;
     media.AudioPatch.sinks := [record_mix_port];
     media.AudioPatch.sources := [mic_port] |}.

Definition recording_descriptor : media_more.AudioIoDescriptor.t :=
  {| media_more.AudioIoDescriptor.ioHandle := 13;
     media_more.AudioIoDescriptor.patch := recording_patch;
     media_more.AudioIoDescriptor.samplingRate := 16000;
     media_more.AudioIoDescriptor.format := 1;
     media_more.AudioIoDescriptor.channelMask := 16;
     media_more.AudioIoDescriptor.frameCount := 960;
     media_more.AudioIoDescriptor.frameCountHAL := 320;
     media_more.AudioIoDescriptor.latency := 20;
     media_more.AudioIoDescriptor.portId := 12 |}.

Definition media_attributes : media_more.AudioAttributesInternal.t :=
  {| media_more.AudioAttributesInternal.contentType := media.AudioContentType.MUSIC;
     media_more.AudioAttributesInternal.usage := media.AudioUsage.MEDIA;
     media_more.AudioAttributesInternal.source := media.AudioSourceType.DEFAULT;
     media_more.AudioAttributesInternal.flags := 258;
     media_more.AudioAttributesInternal.tags := mic_address |}.

Definition music_config_base : media_more.AudioConfigBase.t :=
  {| media_more.AudioConfigBase.sampleRate := 44100;
     media_more.AudioConfigBase.channelMask := 3;
     media_more.AudioConfigBase.format := 1 |}.

(** An offload info of the given version, with an encapsulation mode, a
    content id and a sync id that are not the default ones. *)
Definition music_offload_info (version : Z) : media_more.AudioOffloadInfo.t :=
  {| media_more.AudioOffloadInfo.version := version;
     media_more.AudioOffloadInfo.config := music_config_base;
     media_more.AudioOffloadInfo.streamType := media.AudioStreamType.MUSIC;
     media_more.AudioOffloadInfo.bitRate := 128000;
     media_more.AudioOffloadInfo.durationUs := 180000000;
     media_more.AudioOffloadInfo.hasVideo := false;
     media_more.AudioOffloadInfo.isStreaming := true;
     media_more.AudioOffloadInfo.bitWidth := 16;
     media_more.AudioOffloadInfo.offloadBufferSize := 32768;
     media_more.AudioOffloadInfo.usage := media.AudioUsage.MEDIA;
     media_more.AudioOffloadInfo.encapsulationMode :=
       media.AudioEncapsulationMode.ELEMENTARY_STREAM;
     media_more.AudioOffloadInfo.contentId := 42;
     media_more.AudioOffloadInfo.syncId := 43 |}.

Definition music_config (version : Z) : media_more.AudioConfig.t :=
  {| media_more.AudioConfig.sampleRate := 44100;
     media_more.AudioConfig.channelMask := 3;
     media_more.AudioConfig.format := 1;
     media_more.AudioConfig.offloadInfo := music_offload_info version;
     media_more.AudioConfig.frameCount := 4096 |}.

(** A legacy offload info that declares 10 bytes. *)
Definition short_offload_info : audio_offload_info_t.t :=
  {| audio_offload_info_t.version := 1; audio_offload_info_t.size := 10;
     audio_offload_info_t.sample_rate := 44100; audio_offload_info_t.channel_mask := 3;
     audio_offload_info_t.format := 1; audio_offload_info_t.stream_type := 3;
     audio_offload_info_t.bit_rate := 0; audio_offload_info_t.duration_us := 0;
     audio_offload_info_t.has_video := false; audio_offload_info_t.is_streaming := false;
     audio_offload_info_t.bit_width := 16; audio_offload_info_t.offload_buffer_size := 0;
     audio_offload_info_t.usage := 1; audio_offload_info_t.encapsulation_mode := 0;
     audio_offload_info_t.content_id := 0; audio_offload_info_t.sync_id := 0 |}.
End FurtherSamples.
(** * Results

    ** The result monad *)

Lemma bind_Ok {A B} (m : ConversionResult A) (k : A -> ConversionResult B) (b : B) :
  bind m k = Ok b <-> exists a, m = Ok a /\ k a = Ok b.
Proof.
  destruct m as [a|e|a]; simpl; split; try (intros (a' & Hm & _); discriminate);
    try discriminate.
  - intros Hk. exists a. auto.
  - intros (a' & Hm & Hk). inversion Hm; subst. exact Hk.
Qed.

Lemma bind_is_Ok {A B} (m : ConversionResult A) (k : A -> ConversionResult B) :
  is_Ok (bind m k) -> is_Ok m.
Proof. destruct m; simpl; auto. Qed.

Lemma is_Ok_exists {T} (r : ConversionResult T) : is_Ok r <-> exists v, r = Ok v.
Proof.
  destruct r; simpl; split; try tauto; try (intros [v Hv]; discriminate); eauto.
Qed.

Lemma failed_bind {A B} (m : ConversionResult A) (k : A -> ConversionResult B) :
  failed m -> failed (bind m k).
Proof. unfold failed. intros Hm Hb. apply Hm. eapply bind_is_Ok, Hb. Qed.

Lemma failed_unexpected {T} (e : status_t) : failed (@unexpected T e).
Proof. unfold failed. simpl. tauto. Qed.

Lemma failed_not_Ok {T} (r : ConversionResult T) : failed r <-> forall v, r <> Ok v.
Proof.
  unfold failed. rewrite is_Ok_exists. split.
  - intros Hn v Hv. apply Hn. eauto.
  - intros Hn [v Hv]. exact (Hn v Hv).
Qed.

(** ** Casts keep the low bits *)

Lemma static_cast_mod (T : IntegralType) (z : Z) :
  0 < bits T -> static_cast T z mod 2 ^ bits T = z mod 2 ^ bits T.
Proof.
  intros Hb. unfold static_cast. destruct (is_signed T).
  - assert (2 ^ bits T = 2 * 2 ^ (bits T - 1)) as Hp.
    { rewrite <- Z.pow_succ_r by lia. f_equal. lia. }
    assert (0 < 2 ^ (bits T - 1)) by (apply Z.pow_pos_nonneg; lia).
    rewrite Zminus_mod_idemp_l.
    replace (z + 2 ^ (bits T - 1) - 2 ^ (bits T - 1)) with z by lia. reflexivity.
  - apply Z.mod_mod. apply Z.pow_nonzero; lia.
Qed.

Lemma static_cast_testbit (T : IntegralType) (z i : Z) :
  0 <= i < bits T -> Z.testbit (static_cast T z) i = Z.testbit z i.
Proof.
  intros Hi.
  rewrite <- (Z.mod_pow2_bits_low (static_cast T z) (bits T) i) by lia.
  rewrite static_cast_mod by lia. apply Z.mod_pow2_bits_low. lia.
Qed.

Lemma static_cast_unsigned_range (T : IntegralType) (z : Z) :
  0 <= bits T -> is_signed T = false -> 0 <= static_cast T z < 2 ^ bits T.
Proof.
  intros Hb Hs. unfold static_cast. rewrite Hs. apply Z.mod_pos_bound.
  apply Z.pow_pos_nonneg; lia.
Qed.

(** ** The bitmask transcoder *)

Section ConvertBitmask.
Context {DestEnum SrcEnum : Type}.
Variable UnsignedDestMask : IntegralType.
Variable enumConversion : SrcEnum -> ConversionResult DestEnum.
Variable srcIndexToEnum : Z -> SrcEnum.
Variable destEnumToMask : DestEnum -> Z.

Local Abbreviation loop :=
  (convertBitmask_loop UnsignedDestMask enumConversion srcIndexToEnum destEnumToMask).

Local Abbreviation bit_image :=
  (bit_image UnsignedDestMask enumConversion srcIndexToEnum destEnumToMask).
Local Abbreviation bits_convert := (bits_convert enumConversion srcIndexToEnum).

Lemma lowest_bit (usrc : Z) : Z.land usrc 1 <> 0 <-> Z.testbit usrc 0 = true.
Proof.
  change 1 with (Z.ones 1). rewrite Z.land_ones by lia.
  change (2 ^ 1) with 2. rewrite <- Z.bit0_mod.
  destruct (Z.testbit usrc 0); simpl; split; (lia || congruence || auto).
Qed.

Lemma bit_image_step usrc srcBitIndex fuel k :
  bit_image usrc srcBitIndex (S fuel) k <->
  (Z.testbit usrc 0 = true /\
   exists destEnum, enumConversion (srcIndexToEnum srcBitIndex) = Ok destEnum /\
     Z.testbit (static_cast UnsignedDestMask (destEnumToMask destEnum)) k = true)
  \/ bit_image (Z.shiftr usrc 1) (srcBitIndex + 1) fuel k.
Proof.
  unfold bit_image. split.
  - intros (i & d & Hi & Hbit & Hconv & Hk).
    destruct (decide (i = 0)) as [->|Hne].
    + left. rewrite Z.add_0_r in Hconv. eauto.
    + right. exists (i - 1), d. rewrite Z.shiftr_spec by lia.
      replace (i - 1 + 1) with i by lia.
      replace (srcBitIndex + 1 + (i - 1)) with (srcBitIndex + i) by lia.
      repeat split; auto; lia.
  - intros [(Hbit & d & Hconv & Hk)|(i & d & Hi & Hbit & Hconv & Hk)].
    + exists 0, d. rewrite Z.add_0_r. repeat split; auto; lia.
    + exists (i + 1), d. rewrite Z.shiftr_spec in Hbit by lia.
      replace (srcBitIndex + 1 + i) with (srcBitIndex + (i + 1)) in Hconv by lia.
      repeat split; auto; lia.
Qed.

Lemma bits_convert_step usrc srcBitIndex fuel :
  bits_convert usrc srcBitIndex (S fuel) <->
  (Z.testbit usrc 0 = true -> is_Ok (enumConversion (srcIndexToEnum srcBitIndex)))
  /\ bits_convert (Z.shiftr usrc 1) (srcBitIndex + 1) fuel.
Proof.
  unfold bits_convert. split.
  - intros Hall. split.
    + intros Hbit. specialize (Hall 0). rewrite Z.add_0_r in Hall. apply Hall; [lia|done].
    + intros i Hi Hbit. rewrite Z.shiftr_spec in Hbit by lia.
      replace (srcBitIndex + 1 + i) with (srcBitIndex + (i + 1)) by lia.
      apply Hall; [lia|done].
  - intros [H0 Hrest] i Hi Hbit.
    destruct (decide (i = 0)) as [->|Hne].
    + rewrite Z.add_0_r. auto.
    + replace (srcBitIndex + i) with (srcBitIndex + 1 + (i - 1)) by lia.
      apply Hrest; [lia|]. rewrite Z.shiftr_spec by lia.
      replace (i - 1 + 1) with i by lia. done.
Qed.

(** When the loop returns a mask, every set source bit was converted, and
    the bits of the mask are those of the initial accumulator and the
    images of the set source bits. *)
Lemma convertBitmask_loop_Ok fuel : forall dest usrc srcBitIndex r,
  loop fuel dest usrc srcBitIndex = Ok r ->
  bits_convert usrc srcBitIndex fuel /\
  forall k, Z.testbit r k = true <->
            Z.testbit dest k = true \/ bit_image usrc srcBitIndex fuel k.
Proof.
  induction fuel as [|fuel IH]; intros dest usrc srcBitIndex r Hr; simpl in Hr.
  - inversion Hr; subst r. split; [intros i; lia|].
    intros k. split; [auto|]. intros [?|(i & d & ? & _)]; [done|lia].
  - destruct (decide (usrc = 0)) as [->|Hnz].
    + inversion Hr; subst r. split.
      * intros i _ Hbit. rewrite Z.bits_0 in Hbit. done.
      * intros k. split; [auto|].
        intros [?|(i & d & _ & Hbit & _)]; [done|]. rewrite Z.bits_0 in Hbit. done.
    + apply bind_Ok in Hr as (dest' & Hdest' & Hr).
      apply IH in Hr as [Hconv Hbits].
      rewrite bits_convert_step. setoid_rewrite bit_image_step.
      destruct (decide (Z.land usrc 1 <> 0)) as [Hbit|Hbit]; rewrite lowest_bit in Hbit.
      * apply bind_Ok in Hdest' as (d & Hd & Hdest'). simpl in Hdest'.
        inversion Hdest'; subst dest'. split.
        { split; [intros _; rewrite Hd; exact I|done]. }
        intros k. rewrite Hbits, Z.lor_spec, orb_true_iff. split.
        -- intros [[?|?]|?]; [left; done| |right; right; done].
           right; left. split; [done|]. exists d. done.
        -- intros [?|[(_ & d' & Hd' & Hk)|?]]; auto.
           rewrite Hd in Hd'. inversion Hd'; subst d'. auto.
      * inversion Hdest'; subst dest'. split.
        { split; [intros Hbit'; done|done]. }
        intros k. rewrite Hbits. split; [tauto|].
        intros [?|[(Hbit' & _)|?]]; auto.
Qed.

(** Conversely the loop returns a mask as soon as every set source bit
    converts. *)
Lemma convertBitmask_loop_total fuel : forall dest usrc srcBitIndex,
  bits_convert usrc srcBitIndex fuel ->
  is_Ok (loop fuel dest usrc srcBitIndex).
Proof.
  induction fuel as [|fuel IH]; intros dest usrc srcBitIndex Hall; simpl; [exact I|].
  destruct (decide (usrc = 0)); [exact I|].
  apply bits_convert_step in Hall as [H0 Hrest].
  destruct (decide (Z.land usrc 1 <> 0)) as [Hbit|Hbit]; simpl.
  - apply lowest_bit in Hbit. apply H0, is_Ok_exists in Hbit as [d Hd].
    rewrite Hd. simpl. apply IH, Hrest.
  - apply IH, Hrest.
Qed.

(** The width of the source mask is fuel enough: the loop has left through
    [usrc == 0] by then. *)
Lemma convertBitmask_loop_fuel fuel : forall dest usrc srcBitIndex,
  0 <= usrc < 2 ^ Z.of_nat fuel ->
  loop (S fuel) dest usrc srcBitIndex = loop fuel dest usrc srcBitIndex.
Proof.
  induction fuel as [|fuel IH]; intros dest usrc srcBitIndex Hu.
  - simpl in *. destruct (decide (usrc = 0)); [done|lia].
  - change (loop (S (S fuel)) dest usrc srcBitIndex)
      with (if decide (usrc = 0) then Ok dest else
              bind (if decide (Z.land usrc 1 <> 0) then
                      bind (enumConversion (srcIndexToEnum srcBitIndex))
                        (fun destEnum =>
                           Ok (Z.lor dest
                                 (static_cast UnsignedDestMask (destEnumToMask destEnum))))
                    else Ok dest)
                (fun dest' => loop (S fuel) dest' (Z.shiftr usrc 1) (srcBitIndex + 1))).
    simpl. destruct (decide (usrc = 0)); [done|].
    assert (0 <= Z.shiftr usrc 1 < 2 ^ Z.of_nat fuel) as Hs.
    { rewrite Z.shiftr_div_pow2 by lia. change (2 ^ 1) with 2.
      rewrite Nat2Z.inj_succ, Z.pow_succ_r in Hu by lia.
      split; [apply Z.div_pos; lia|apply Z.div_lt_upper_bound; lia]. }
    destruct (decide (Z.land usrc 1 <> 0)); simpl.
    + destruct (enumConversion (srcIndexToEnum srcBitIndex)); simpl; auto.
      apply IH, Hs.
    + apply IH, Hs.
Qed.
End ConvertBitmask.

Lemma static_cast_0 (T : IntegralType) : static_cast T 0 = 0.
Proof.
  unfold static_cast. destruct (is_signed T); [|reflexivity].
  destruct (Z_lt_le_dec (bits T) 1) as [Hsmall|Hbig].
  - destruct (Z_lt_le_dec (bits T) 0) as [Hneg|Hnn].
    + rewrite !Z.pow_neg_r by lia. reflexivity.
    + replace (bits T) with 0 by lia. simpl. reflexivity.
  - assert (2 ^ bits T = 2 * 2 ^ (bits T - 1)) as Hp.
    { rewrite <- Z.pow_succ_r by lia. f_equal. lia. }
    assert (0 < 2 ^ (bits T - 1)) by (apply Z.pow_pos_nonneg; lia).
    rewrite Z.add_0_l, Z.mod_small by lia. lia.
Qed.

Section ConvertBitmaskSpec.
Context {DestEnum SrcEnum : Type}.
Variables DestMask SrcMask : IntegralType.
Variable enumConversion : SrcEnum -> ConversionResult DestEnum.
Variable srcIndexToEnum : Z -> SrcEnum.
Variable destEnumToMask : DestEnum -> Z.

Local Abbreviation convert src :=
  (convertBitmask DestMask SrcMask src enumConversion srcIndexToEnum destEnumToMask).

Lemma fuel_width : Z.of_nat (Z.to_nat (bits SrcMask)) = Z.max 0 (bits SrcMask).
Proof. lia. Qed.

Lemma convertBitmask_Ok src dest :
  convert src = Ok dest ->
  (forall i, 0 <= i < bits SrcMask -> Z.testbit src i = true ->
     is_Ok (enumConversion (srcIndexToEnum i))) /\
  (forall k, 0 <= k < bits DestMask ->
     (Z.testbit dest k = true <->
      exists i destEnum, 0 <= i < bits SrcMask /\ Z.testbit src i = true /\
        enumConversion (srcIndexToEnum i) = Ok destEnum /\
        Z.testbit (destEnumToMask destEnum) k = true)).
Proof.
  unfold convertBitmask. intros Hc. apply bind_Ok in Hc as (r & Hloop & Hr).
  inversion Hr; subst dest; clear Hr.
  apply convertBitmask_loop_Ok in Hloop as [Hconv Hbits]. split.
  - intros i Hi Hbit. specialize (Hconv i). rewrite Z.add_0_l in Hconv.
    apply Hconv; [lia|]. rewrite static_cast_testbit by (simpl; lia). done.
  - intros k Hk. rewrite static_cast_testbit by lia. rewrite Hbits.
    rewrite static_cast_0, Z.bits_0. split.
    + intros [?|(i & d & Hi & Hbit & Hd & Hdk)]; [done|].
      rewrite Z.add_0_l in Hd.
      rewrite static_cast_testbit in Hbit by (simpl; lia).
      rewrite static_cast_testbit in Hdk by (simpl; lia).
      exists i, d. repeat split; auto; lia.
    + intros (i & d & Hi & Hbit & Hd & Hdk). right. exists i, d.
      rewrite Z.add_0_l. rewrite !static_cast_testbit by (simpl; lia).
      repeat split; auto; lia.
Qed.

Lemma convertBitmask_total src :
  (forall i, 0 <= i < bits SrcMask -> Z.testbit src i = true ->
     is_Ok (enumConversion (srcIndexToEnum i))) ->
  is_Ok (convert src).
Proof.
  intros Hall. unfold convertBitmask.
  match goal with |- is_Ok (bind ?m _) => assert (is_Ok m) as Hm end.
  { apply convertBitmask_loop_total. intros i Hi Hbit. rewrite Z.add_0_l.
    rewrite static_cast_testbit in Hbit by (simpl; lia). apply Hall; [lia|done]. }
  apply is_Ok_exists in Hm as [r Hr]. rewrite Hr. exact I.
Qed.

(** C1. For every source mask: if a set bit of the source does not pass
    the per-bit enum conversion, the whole conversion fails (no mask is
    returned); and when a mask is returned, each of its set bits is a bit of
    the destination mask of the converted enumerator of some set bit of the
    source. *)
Theorem convertBitmask_all_or_nothing (src : Z) :
  (forall i, 0 <= i < bits SrcMask -> Z.testbit src i = true ->
     failed (enumConversion (srcIndexToEnum i)) -> failed (convert src)) /\
  (forall dest, convert src = Ok dest ->
     forall k, 0 <= k < bits DestMask -> Z.testbit dest k = true ->
       exists i destEnum, 0 <= i < bits SrcMask /\ Z.testbit src i = true /\
         enumConversion (srcIndexToEnum i) = Ok destEnum /\
         Z.testbit (destEnumToMask destEnum) k = true).
Proof.
  split.
  - intros i Hi Hbit Hfail Hok. apply is_Ok_exists in Hok as [dest Hdest].
    apply convertBitmask_Ok in Hdest as [Hconv _]. exact (Hfail (Hconv i Hi Hbit)).
  - intros dest Hdest k Hk Hbit.
    apply convertBitmask_Ok in Hdest as [_ Hbits]. apply Hbits; done.
Qed.
End ConvertBitmaskSpec.

(** ** switch *)

Lemma switch_inv {R} (x : Z) (cases : list (Z * R)) (d r : R) :
  switch x cases d = r -> (x, r) ∈ cases \/ r = d.
Proof.
  induction cases as [|[label body] rest IH]; simpl; [auto|].
  destruct (decide (x = label)) as [->|Hne].
  - intros <-. left. apply list_elem_of_here.
  - intros Hr. destruct (IH Hr); [left; apply list_elem_of_further|right]; done.
Qed.

Lemma switch_elem_of {R} (x : Z) (body : R) (cases : list (Z * R)) (d : R) :
  NoDup (cases.*1) -> (x, body) ∈ cases -> switch x cases d = body.
Proof.
  induction cases as [|[label body'] rest IH]; simpl; intros Hnd Hin.
  - apply elem_of_nil in Hin. done.
  - pose proof (NoDup_cons_1_1 _ _ Hnd) as Hnotin. apply NoDup_cons_1_2 in Hnd.
    apply elem_of_cons in Hin as [Heq|Hin].
    + inversion Heq; subst. destruct (decide (label = label)); done.
    + destruct (decide (x = label)) as [->|Hne]; [|auto].
      exfalso. apply Hnotin. apply list_elem_of_fmap. exists (label, body). done.
Qed.

Lemma switch_default {R} (x : Z) (cases : list (Z * R)) (d : R) :
  x ∉ cases.*1 -> switch x cases d = d.
Proof.
  induction cases as [|[label body] rest IH]; simpl; [done|].
  intros Hnotin. apply not_elem_of_cons in Hnotin as [Hne Hnotin].
  destruct (decide (x = label)); [done|auto].
Qed.

Lemma switch_head {R} (x : Z) (body : R) (rest : list (Z * R)) (d : R) :
  switch x ((x, body) :: rest) d = body.
Proof. simpl. destruct (decide (x = x)); done. Qed.

(** ** Enum converters *)

Ltac prove_elem_of :=
  repeat first [apply list_elem_of_here | apply list_elem_of_further].

(** The two switches of a pair list the same correspondences: an accepted
    value is the label of one case of the first, and the switch on the
    returned enumerator, whose labels are distinct, takes the mirrored case. *)
Ltac prove_enum_roundtrip Hlabels :=
  let legacy := fresh "legacy" in
  let aidl := fresh "aidl" in
  let Hl := fresh "Hl" in
  let Heq := fresh "Heq" in
  intros legacy aidl Hl;
  apply switch_inv in Hl as [Hl|Hl]; [|discriminate];
  repeat (apply elem_of_cons in Hl as [Heq|Hl];
          [inversion Heq; subst; clear Heq;
           apply switch_elem_of; first [exact Hlabels|prove_elem_of]|]);
  apply elem_of_nil in Hl; destruct Hl.

Lemma static_cast_congr (T : IntegralType) (a b : Z) :
  a mod 2 ^ bits T = b mod 2 ^ bits T -> static_cast T a = static_cast T b.
Proof.
  intros Hab. unfold static_cast. destruct (is_signed T); [|done].
  destruct (Z_lt_le_dec (bits T) 0).
  - rewrite Z.pow_neg_r in Hab by lia. rewrite !Z.mod_0_r in Hab. subst. done.
  - f_equal. rewrite (Z.add_mod a), (Z.add_mod b) by (apply Z.pow_nonzero; lia).
    rewrite Hab. done.
Qed.

Lemma static_cast_representable (T : IntegralType) (z : Z) :
  0 < bits T -> representable T z = true -> static_cast T z = z.
Proof.
  unfold representable, static_cast, min_value, max_value. intros Hb Hr.
  apply andb_true_iff in Hr as [Hmin Hmax].
  apply Z.leb_le in Hmin. apply Z.leb_le in Hmax.
  assert (2 ^ bits T = 2 * 2 ^ (bits T - 1)) as Hp.
  { rewrite <- Z.pow_succ_r by lia. f_equal. lia. }
  assert (0 < 2 ^ (bits T - 1)) by (apply Z.pow_pos_nonneg; lia).
  destruct (is_signed T); rewrite Z.mod_small by lia; lia.
Qed.

Lemma static_cast_static_cast (T T' : IntegralType) (z : Z) :
  0 < bits T -> bits T = bits T' ->
  static_cast T (static_cast T' z) = static_cast T z.
Proof.
  intros Hb Heq. apply static_cast_congr. rewrite Heq.
  apply static_cast_mod. lia.
Qed.

Section EnumRoundTrip.
Context `{Headers}.
Hypothesis labels : distinct_case_labels.
Hypothesis asserts : static_asserts.

Lemma roundtrip_AudioPortConfigType :
  enum_roundtrip legacy2aidl_AudioPortConfigType aidl2legacy_AudioPortConfigType.
Proof. prove_enum_roundtrip (labels_aidl2legacy_AudioPortConfigType labels). Qed.

Lemma roundtrip_AudioIoConfigEvent :
  enum_roundtrip legacy2aidl_audio_io_config_event_AudioIoConfigEvent
    aidl2legacy_AudioIoConfigEvent_audio_io_config_event.
Proof.
  prove_enum_roundtrip (labels_aidl2legacy_AudioIoConfigEvent_audio_io_config_event labels).
Qed.

Lemma roundtrip_AudioPortRole :
  enum_roundtrip legacy2aidl_audio_port_role_t_AudioPortRole
    aidl2legacy_AudioPortRole_audio_port_role_t.
Proof. prove_enum_roundtrip (labels_aidl2legacy_AudioPortRole_audio_port_role_t labels). Qed.

Lemma roundtrip_AudioPortType :
  enum_roundtrip legacy2aidl_audio_port_type_t_AudioPortType
    aidl2legacy_AudioPortType_audio_port_type_t.
Proof. prove_enum_roundtrip (labels_aidl2legacy_AudioPortType_audio_port_type_t labels). Qed.

Lemma roundtrip_AudioGainMode :
  enum_roundtrip legacy2aidl_int_AudioGainMode aidl2legacy_AudioGainMode_int.
Proof. prove_enum_roundtrip (labels_aidl2legacy_AudioGainMode_int labels). Qed.

Lemma roundtrip_AudioInputFlags :
  enum_roundtrip legacy2aidl_audio_input_flags_t_AudioInputFlags
    aidl2legacy_AudioInputFlags_audio_input_flags_t.
Proof.
  prove_enum_roundtrip (labels_aidl2legacy_AudioInputFlags_audio_input_flags_t labels).
Qed.

Lemma roundtrip_AudioOutputFlags :
  enum_roundtrip legacy2aidl_audio_output_flags_t_AudioOutputFlags
    aidl2legacy_AudioOutputFlags_audio_output_flags_t.
Proof.
  prove_enum_roundtrip (labels_aidl2legacy_AudioOutputFlags_audio_output_flags_t labels).
Qed.

Lemma roundtrip_AudioStreamType :
  enum_roundtrip legacy2aidl_audio_stream_type_t_AudioStreamType
    aidl2legacy_AudioStreamType_audio_stream_type_t.
Proof.
  prove_enum_roundtrip (labels_aidl2legacy_AudioStreamType_audio_stream_type_t labels).
Qed.

Lemma roundtrip_AudioSourceType :
  enum_roundtrip legacy2aidl_audio_source_t_AudioSourceType
    aidl2legacy_AudioSourceType_audio_source_t.
Proof. prove_enum_roundtrip (labels_aidl2legacy_AudioSourceType_audio_source_t labels). Qed.

Lemma roundtrip_AudioContentType :
  enum_roundtrip legacy2aidl_audio_content_type_t_AudioContentType
    aidl2legacy_AudioContentType_audio_content_type_t.
Proof.
  prove_enum_roundtrip (labels_aidl2legacy_AudioContentType_audio_content_type_t labels).
Qed.

Lemma roundtrip_AudioUsage :
  enum_roundtrip legacy2aidl_audio_usage_t_AudioUsage aidl2legacy_AudioUsage_audio_usage_t.
Proof. prove_enum_roundtrip (labels_aidl2legacy_AudioUsage_audio_usage_t labels). Qed.

Lemma roundtrip_AudioFlag :
  enum_roundtrip legacy2aidl_audio_flags_mask_t_AudioFlag
    aidl2legacy_AudioFlag_audio_flags_mask_t.
Proof. prove_enum_roundtrip (labels_aidl2legacy_AudioFlag_audio_flags_mask_t labels). Qed.

Lemma roundtrip_AudioEncapsulationMode :
  enum_roundtrip legacy2aidl_AudioEncapsulationMode_audio_encapsulation_mode_t
    aidl2legacy_audio_encapsulation_mode_t_AudioEncapsulationMode.
Proof.
  prove_enum_roundtrip
    (labels_aidl2legacy_audio_encapsulation_mode_t_AudioEncapsulationMode labels).
Qed.

(** The AudioFormat pair is a cast each way. *)
Lemma roundtrip_AudioFormat (legacy aidl : Z) :
  representable audio_format_t legacy = true ->
  legacy2aidl_audio_format_t_AudioFormat legacy = Ok aidl ->
  aidl2legacy_AudioFormat_audio_format_t aidl = Ok legacy.
Proof.
  unfold legacy2aidl_audio_format_t_AudioFormat, aidl2legacy_AudioFormat_audio_format_t.
  intros Hr Hl. inversion Hl; subst aidl. f_equal.
  rewrite static_cast_static_cast
    by (first [apply (width_audio_format_t asserts)|apply (sizeof_audio_format_t asserts)]).
  apply static_cast_representable; [apply (width_audio_format_t asserts)|done].
Qed.

(** The legacy "no flag" value has no AIDL counterpart. *)
Lemma legacy2aidl_AUDIO_FLAG_NONE :
  legacy2aidl_audio_flags_mask_t_AudioFlag AUDIO_FLAG_NONE = unexpected BAD_VALUE.
Proof. apply switch_head. Qed.
End EnumRoundTrip.

(** ** Direction *)

Lemma NoDup_3 (a b c : Z) : NoDup [a; b; c] -> a <> b /\ a <> c /\ b <> c.
Proof. rewrite !list.NoDup_cons, !elem_of_cons, !elem_of_nil. intuition congruence. Qed.

Lemma NoDup_4 (a b c d : Z) :
  NoDup [a; b; c; d] -> a <> b /\ a <> c /\ a <> d /\ b <> c /\ b <> d /\ c <> d.
Proof. rewrite !list.NoDup_cons, !elem_of_cons, !elem_of_nil. intuition congruence. Qed.

Ltac case_switch :=
  unfold switch; repeat (case_decide; try congruence); try reflexivity.

Section DirectionTable.
Context `{Headers}.
Hypothesis labels : distinct_case_labels.

Lemma direction_spec (role type : Z) :
  (forall d, direction role type = Ok d <->
     direction_of media.AudioPortRole.SOURCE media.AudioPortRole.SINK
       media.AudioPortType.DEVICE media.AudioPortType.MIX role type d) /\
  (direction role type = unexpected BAD_VALUE \/ is_Ok (direction role type)).
Proof.
  destruct (NoDup_3 _ _ _ (labels_aidl2legacy_AudioPortRole_audio_port_role_t labels))
    as (? & ? & ?).
  destruct (NoDup_4 _ _ _ _ (labels_aidl2legacy_AudioPortType_audio_port_type_t labels))
    as (? & ? & ? & ? & ? & ?).
  unfold direction_of, direction, switch. split.
  - intros d. repeat case_decide; subst; split;
      solve [ intros Hd; inversion Hd; tauto
            | intros [(?&?&?)|[(?&?&?)|[(?&?&?)|(?&?&?)]]]; congruence ].
  - repeat case_decide; simpl; auto.
Qed.

Lemma direction_legacy_spec (role type : Z) :
  (forall d, direction_legacy role type = Ok d <->
     direction_of AUDIO_PORT_ROLE_SOURCE AUDIO_PORT_ROLE_SINK
       AUDIO_PORT_TYPE_DEVICE AUDIO_PORT_TYPE_MIX role type d) /\
  (direction_legacy role type = unexpected BAD_VALUE \/ is_Ok (direction_legacy role type)).
Proof.
  destruct (NoDup_3 _ _ _ (labels_legacy2aidl_audio_port_role_t_AudioPortRole labels))
    as (? & ? & ?).
  destruct (NoDup_4 _ _ _ _ (labels_legacy2aidl_audio_port_type_t_AudioPortType labels))
    as (? & ? & ? & ? & ? & ?).
  unfold direction_of, direction_legacy, switch. split.
  - intros d. repeat case_decide; subst; split;
      solve [ intros Hd; inversion Hd; tauto
            | intros [(?&?&?)|[(?&?&?)|[(?&?&?)|(?&?&?)]]]; congruence ].
  - repeat case_decide; simpl; auto.
Qed.
End DirectionTable.

(** ** Gain config *)

Section GainConfig.
Context `{Headers}.

(** What a successful conversion of a gain config says of its input. *)
Lemma aidl2legacy_AudioGainConfig_Ok aidl role type legacy :
  aidl2legacy_AudioGainConfig_audio_gain_config aidl role type = Ok legacy ->
  exists dir,
    direction role type = Ok dir /\
    size (media.AudioGainConfig.values aidl) = expected_numValues aidl dir /\
    size (media.AudioGainConfig.values aidl) <= audio_gain_config_values_size.
Proof.
  unfold aidl2legacy_AudioGainConfig_audio_gain_config, expected_numValues.
  cbv zeta. intros Hok.
  apply bind_Ok in Hok as (legacy_index & _ & Hok).
  apply bind_Ok in Hok as (legacy_mode & _ & Hok).
  apply bind_Ok in Hok as (legacy_channel_mask & Hcm & Hok).
  apply bind_Ok in Hok as (dir & Hdir & Hok).
  inversion Hcm; subst legacy_channel_mask.
  exists dir. split; [done|].
  case_decide as Hsize; [discriminate|]. lia.
Qed.

(** C5. With the joint bit set in the mode and a role and type that have a
    direction, the computed number of values is 1 whatever the channel
    mask; the conversion returns a legacy gain config only for a sequence
    of exactly one value, and fails when the length of the sequence is not
    the computed number or this number exceeds the capacity of the legacy
    array. *)
Theorem joint_gain_config_one_value aidl role type dir :
  direction role type = Ok dir ->
  bitmaskIsSet int32_t (media.AudioGainConfig.mode aidl) media.AudioGainMode.JOINT = true ->
  expected_numValues aidl dir = 1 /\
  (forall legacy,
     aidl2legacy_AudioGainConfig_audio_gain_config aidl role type = Ok legacy ->
     length (media.AudioGainConfig.values aidl) = 1%nat) /\
  (size (media.AudioGainConfig.values aidl) <> expected_numValues aidl dir \/
   expected_numValues aidl dir > audio_gain_config_values_size ->
   failed (aidl2legacy_AudioGainConfig_audio_gain_config aidl role type)).
Proof.
  intros Hdir Hjoint.
  assert (expected_numValues aidl dir = 1) as Hone.
  { unfold expected_numValues. rewrite Hjoint. reflexivity. }
  split; [exact Hone|]. split.
  - intros legacy Hok.
    apply aidl2legacy_AudioGainConfig_Ok in Hok as (dir' & Hdir' & Hsize & _).
    rewrite Hdir in Hdir'. inversion Hdir'; subst dir'.
    unfold size in Hsize. lia.
  - intros Hbad Hok. apply is_Ok_exists in Hok as [legacy Hok].
    apply aidl2legacy_AudioGainConfig_Ok in Hok as (dir' & Hdir' & Hsize & Hcap).
    rewrite Hdir in Hdir'. inversion Hdir'; subst dir'. lia.
Qed.
End GainConfig.

(** ** Values of an integral type and their bits *)

Lemma static_cast_is_representable (T : IntegralType) (z : Z) :
  0 < bits T -> representable T (static_cast T z) = true.
Proof.
  intros Hb. unfold representable, static_cast, min_value, max_value.
  assert (2 ^ bits T = 2 * 2 ^ (bits T - 1)) as Hp.
  { rewrite <- Z.pow_succ_r by lia. f_equal. lia. }
  assert (0 < 2 ^ (bits T - 1)) by (apply Z.pow_pos_nonneg; lia).
  apply andb_true_iff. rewrite !Z.leb_le.
  destruct (is_signed T).
  - pose proof (Z.mod_pos_bound (z + 2 ^ (bits T - 1)) (2 ^ bits T)). lia.
  - pose proof (Z.mod_pos_bound z (2 ^ bits T)). lia.
Qed.

Lemma mod_pow2_bits_inj (a b n : Z) :
  0 <= n -> (forall j, 0 <= j < n -> Z.testbit a j = Z.testbit b j) ->
  a mod 2 ^ n = b mod 2 ^ n.
Proof.
  intros Hn Hbits. apply Z.bits_inj'. intros j Hj.
  destruct (Z_lt_le_dec j n).
  - rewrite !Z.mod_pow2_bits_low by lia. apply Hbits. lia.
  - rewrite !Z.mod_pow2_bits_high by lia. reflexivity.
Qed.

Lemma representable_bits_inj (T : IntegralType) (a b : Z) :
  0 < bits T -> representable T a = true -> representable T b = true ->
  (forall j, 0 <= j < bits T -> Z.testbit a j = Z.testbit b j) -> a = b.
Proof.
  intros Hb Ha Hrb Hbits.
  rewrite <- (static_cast_representable T a), <- (static_cast_representable T b) by done.
  apply static_cast_congr, mod_pow2_bits_inj; [lia|done].
Qed.

Lemma convertBitmask_representable {DestEnum SrcEnum : Type} (DestMask SrcMask : IntegralType)
    (enumConversion : SrcEnum -> ConversionResult DestEnum)
    (srcIndexToEnum : Z -> SrcEnum) (destEnumToMask : DestEnum -> Z) (src dest : Z) :
  0 < bits DestMask ->
  convertBitmask DestMask SrcMask src enumConversion srcIndexToEnum destEnumToMask = Ok dest ->
  representable DestMask dest = true.
Proof.
  unfold convertBitmask. intros Hb Hc. apply bind_Ok in Hc as (r & _ & Hr).
  inversion Hr. apply static_cast_is_representable, Hb.
Qed.

(** The single bit of [1 << index], through the casts of the adapters. *)
Lemma shl_1_testbit (T : IntegralType) (index k : Z) :
  0 <= index -> 0 <= k < bits T ->
  Z.testbit (shl T 1 index) k = bool_decide (k = index).
Proof.
  intros Hi Hk. unfold shl. rewrite static_cast_testbit by lia.
  rewrite Z.shiftl_1_l, Z.pow2_bits_eqb by lia.
  destruct (Z.eqb_spec index k); case_bool_decide; congruence.
Qed.

Lemma index2enum_bitmask_testbit (Enum : IntegralType) (index k : Z) :
  bits Enum = 32 -> 0 <= index -> 0 <= k < 32 ->
  Z.testbit (index2enum_bitmask Enum index) k = bool_decide (k = index).
Proof.
  intros HE Hi Hk. unfold index2enum_bitmask.
  rewrite static_cast_testbit by lia. apply shl_1_testbit; [done|simpl; lia].
Qed.

Lemma enumToMask_index_testbit (e k : Z) :
  0 <= e < 32 -> 0 <= k < 32 ->
  Z.testbit (enumToMask_index int32_t e) k = bool_decide (k = e).
Proof.
  intros He Hk. unfold enumToMask_index.
  rewrite static_cast_testbit by (simpl; lia).
  rewrite (static_cast_representable int e).
  - apply shl_1_testbit; [lia|simpl; lia].
  - simpl; lia.
  - unfold representable, min_value, max_value; simpl. apply andb_true_iff.
    rewrite !Z.leb_le. lia.
Qed.

Lemma index2enum_index_small (Enum : IntegralType) (index : Z) :
  6 <= bits Enum -> 0 <= index < 32 -> index2enum_index Enum index = index.
Proof.
  intros HE Hi. unfold index2enum_index. apply static_cast_representable; [lia|].
  unfold representable, min_value, max_value. apply andb_true_iff. rewrite !Z.leb_le.
  assert (2 ^ 5 <= 2 ^ (bits Enum - 1)) by (apply Z.pow_le_mono_r; lia).
  assert (2 ^ 5 <= 2 ^ bits Enum) by (apply Z.pow_le_mono_r; lia).
  change (2 ^ 5) with 32 in *.
  destruct (is_signed Enum); lia.
Qed.

(** ** Round trip of a mask through two transcodings *)

Section MaskRoundTrip.
Variable LegacyMask : IntegralType.
Variable AidlEnum : IntegralType.
Variables legacy2aidl_enum aidl2legacy_enum : Z -> ConversionResult Z.
Variable legacyIndexToEnum : Z -> Z.

Hypothesis width_LegacyMask : bits LegacyMask = 32.
Hypothesis width_AidlEnum : 6 <= bits AidlEnum.
Hypothesis roundtrip_enum : enum_roundtrip legacy2aidl_enum aidl2legacy_enum.
Hypothesis aidl_indices :
  forall legacy aidl, legacy2aidl_enum legacy = Ok aidl -> 0 <= aidl < 32.
Hypothesis legacy_single_bit :
  forall i k, 0 <= i < 32 -> 0 <= k < 32 ->
    Z.testbit (enumToMask_bitmask LegacyMask (legacyIndexToEnum i)) k = bool_decide (k = i).

(** The two transcodings, and the converters built on them. *)
Let transcode_legacy (legacy : Z) : ConversionResult Z :=
  convertBitmask int32_t LegacyMask legacy legacy2aidl_enum legacyIndexToEnum
    (enumToMask_index int32_t).

Let transcode_aidl (aidl : Z) : ConversionResult Z :=
  convertBitmask LegacyMask int32_t aidl aidl2legacy_enum (index2enum_index AidlEnum)
    (enumToMask_bitmask LegacyMask).

Variables legacy2aidl aidl2legacy : Z -> ConversionResult Z.
Hypothesis legacy2aidl_transcodes :
  forall legacy, representable LegacyMask legacy = true ->
    legacy2aidl legacy = transcode_legacy legacy.
Hypothesis aidl2legacy_transcodes :
  forall aidl legacy, transcode_aidl aidl = Ok legacy -> aidl2legacy aidl = Ok legacy.

(** The set bits of the converted mask are the indices the set legacy
    bits convert to. *)
Lemma transcode_legacy_bits legacy aidl k :
  transcode_legacy legacy = Ok aidl -> 0 <= k < 32 ->
  Z.testbit aidl k = true <->
  exists i, 0 <= i < 32 /\ Z.testbit legacy i = true /\
            legacy2aidl_enum (legacyIndexToEnum i) = Ok k.
Proof.
  intros Hl Hk. apply convertBitmask_Ok in Hl as [_ Hbits].
  rewrite Hbits by (simpl; lia). rewrite width_LegacyMask. split.
  - intros (i & d & Hi & Hbit & Hd & Hdk). exists i.
    rewrite enumToMask_index_testbit in Hdk by eauto.
    apply bool_decide_eq_true in Hdk. subst d. done.
  - intros (i & Hi & Hbit & Hd). exists i, k.
    rewrite enumToMask_index_testbit by eauto.
    repeat split; auto; try lia. apply bool_decide_eq_true. done.
Qed.

Lemma mask_roundtrip_generic :
  mask_roundtrip LegacyMask legacy2aidl aidl2legacy
    (fun i => is_Ok (legacy2aidl_enum (legacyIndexToEnum i))).
Proof.
  intros legacy Hrep. rewrite (legacy2aidl_transcodes legacy Hrep). split.
  - intros Hrec.
    assert (is_Ok (transcode_legacy legacy)) as Hfwd
      by (apply convertBitmask_total, Hrec).
    apply is_Ok_exists in Hfwd as [aidl Hfwd]. exists aidl. split; [done|].
    apply aidl2legacy_transcodes.
    assert (is_Ok (transcode_aidl aidl)) as Hbwd.
    { apply convertBitmask_total. simpl. intros k Hk Hbit.
      apply (transcode_legacy_bits _ _ _ Hfwd) in Hbit as (i & Hi & _ & Hd); [|done].
      rewrite index2enum_index_small by done.
      rewrite (roundtrip_enum _ _ Hd). exact I. }
    apply is_Ok_exists in Hbwd as [r Hbwd]. rewrite Hbwd. f_equal.
    apply (representable_bits_inj LegacyMask); [lia| |done|].
    { eapply convertBitmask_representable; [|exact Hbwd]. lia. }
    intros j Hj. rewrite width_LegacyMask in Hj.
    apply convertBitmask_Ok in Hbwd as [_ Hbits].
    apply eq_true_iff_eq. rewrite Hbits by lia. simpl. split.
    + intros (k & e & Hk & Hbit & He & Hej).
      apply (transcode_legacy_bits _ _ _ Hfwd) in Hbit as (i & Hi & Hlegacy & Hd); [|done].
      rewrite index2enum_index_small in He by done.
      rewrite (roundtrip_enum _ _ Hd) in He. inversion He; subst e.
      rewrite legacy_single_bit in Hej by done.
      apply bool_decide_eq_true in Hej. subst j. done.
    + intros Hlegacy.
      assert (is_Ok (legacy2aidl_enum (legacyIndexToEnum j))) as Hd
        by (apply Hrec; [lia|done]).
      apply is_Ok_exists in Hd as [k Hd].
      pose proof (aidl_indices _ _ Hd) as Hk.
      exists k, (legacyIndexToEnum j). split; [done|]. split.
      { apply (transcode_legacy_bits _ _ _ Hfwd); [done|]. exists j. done. }
      split.
      { rewrite index2enum_index_small by done. apply (roundtrip_enum _ _ Hd). }
      rewrite legacy_single_bit by done. apply bool_decide_eq_true. done.
  - intros i Hi Hbit Hnot Hok. apply is_Ok_exists in Hok as [aidl Hok].
    apply convertBitmask_Ok in Hok as [Hconv _]. exact (Hnot (Hconv i Hi Hbit)).
Qed.
End MaskRoundTrip.

Ltac prove_aidl_indices Hindices :=
  let legacy := fresh "legacy" in
  let aidl := fresh "aidl" in
  let Hl := fresh "Hl" in
  let Heq := fresh "Heq" in
  let Hall := fresh "Hall" in
  intros legacy aidl Hl;
  apply switch_inv in Hl as [Hl|Hl]; [|discriminate];
  pose proof (proj1 (list.Forall_forall _ _) (proj2 Hindices)) as Hall;
  repeat (apply elem_of_cons in Hl as [Heq|Hl];
          [inversion Heq; subst; clear Heq; apply Hall; prove_elem_of|]);
  apply elem_of_nil in Hl; destruct Hl.

Section MaskPairs.
Context `{Headers}.
Hypothesis labels : distinct_case_labels.
Hypothesis masks : mask_declarations.

Lemma legacy_bit (Mask Enum : IntegralType) (i k : Z) :
  bits Mask = 32 -> bits Enum = 32 -> 0 <= i < 32 -> 0 <= k < 32 ->
  Z.testbit (enumToMask_bitmask Mask (index2enum_bitmask Enum i)) k = bool_decide (k = i).
Proof.
  intros HM HE Hi Hk. unfold enumToMask_bitmask.
  rewrite static_cast_testbit by lia. apply index2enum_bitmask_testbit; [done|lia|done].
Qed.

Lemma mask_roundtrip_config_mask :
  mask_roundtrip unsigned legacy2aidl_config_mask_int32_t aidl2legacy_int32_t_config_mask
    (fun i => is_Ok (legacy2aidl_AudioPortConfigType
                       (static_cast int (index2enum_bitmask unsigned i)))).
Proof.
  refine (mask_roundtrip_generic unsigned media.AudioPortConfigType.underlying
            legacy2aidl_AudioPortConfigType aidl2legacy_AudioPortConfigType
            (fun i => static_cast int (index2enum_bitmask unsigned i)) _ _ _ _ _
            legacy2aidl_config_mask_int32_t aidl2legacy_int32_t_config_mask _ _).
  - reflexivity.
  - apply (indices_AudioPortConfigType masks).
  - apply roundtrip_AudioPortConfigType, labels.
  - prove_aidl_indices (indices_AudioPortConfigType masks).
  - intros i k Hi Hk. unfold enumToMask_bitmask.
    rewrite (static_cast_testbit unsigned) by (change (bits unsigned) with 32; lia).
    rewrite (static_cast_testbit int) by (change (bits int) with 32; lia).
    apply index2enum_bitmask_testbit; [reflexivity|lia|done].
  - intros legacy _. reflexivity.
  - intros aidl legacy Hok. exact Hok.
Qed.

Lemma mask_roundtrip_gain_mode :
  mask_roundtrip audio_gain_mode_t legacy2aidl_audio_gain_mode_t_int32_t
    aidl2legacy_int32_t_audio_gain_mode_t
    (fun i => is_Ok (legacy2aidl_int_AudioGainMode (index2enum_bitmask int i))).
Proof.
  refine (mask_roundtrip_generic audio_gain_mode_t media.AudioGainMode.underlying
            legacy2aidl_int_AudioGainMode aidl2legacy_AudioGainMode_int
            (index2enum_bitmask int) _ _ _ _ _
            legacy2aidl_audio_gain_mode_t_int32_t aidl2legacy_int32_t_audio_gain_mode_t
            _ _).
  - apply (width_audio_gain_mode_t masks).
  - apply (indices_AudioGainMode masks).
  - apply roundtrip_AudioGainMode, labels.
  - prove_aidl_indices (indices_AudioGainMode masks).
  - intros i k Hi Hk.
    apply legacy_bit; [apply (width_audio_gain_mode_t masks)|reflexivity|done|done].
  - intros legacy _. reflexivity.
  - intros aidl legacy Hok. exact Hok.
Qed.

Lemma mask_roundtrip_input_flags :
  mask_roundtrip audio_input_flags_t legacy2aidl_audio_input_flags_mask
    aidl2legacy_audio_input_flags_mask
    (fun i => is_Ok (legacy2aidl_audio_input_flags_t_AudioInputFlags
                       (index2enum_bitmask audio_input_flags_t i))).
Proof.
  pose proof (width_audio_input_flags_t masks) as Hw.
  refine (mask_roundtrip_generic audio_input_flags_t media.AudioInputFlags.underlying
            legacy2aidl_audio_input_flags_t_AudioInputFlags
            aidl2legacy_AudioInputFlags_audio_input_flags_t
            (index2enum_bitmask audio_input_flags_t) _ _ _ _ _
            legacy2aidl_audio_input_flags_mask aidl2legacy_audio_input_flags_mask _ _).
  - exact Hw.
  - apply (indices_AudioInputFlags masks).
  - apply roundtrip_AudioInputFlags, labels.
  - prove_aidl_indices (indices_AudioInputFlags masks).
  - intros i k Hi Hk. apply legacy_bit; done.
  - intros legacy Hrep. unfold legacy2aidl_audio_input_flags_mask. cbv zeta.
    rewrite (static_cast_representable _ legacy) by (done || lia). reflexivity.
  - intros aidl legacy Hok. unfold aidl2legacy_audio_input_flags_mask. cbv zeta.
    rewrite Hok. simpl. f_equal. apply static_cast_representable; [lia|].
    eapply convertBitmask_representable; [|exact Hok]. lia.
Qed.

Lemma mask_roundtrip_output_flags :
  mask_roundtrip audio_output_flags_t legacy2aidl_audio_output_flags_mask
    aidl2legacy_audio_output_flags_mask
    (fun i => is_Ok (legacy2aidl_audio_output_flags_t_AudioOutputFlags
                       (index2enum_bitmask audio_output_flags_t i))).
Proof.
  pose proof (width_audio_output_flags_t masks) as Hw.
  refine (mask_roundtrip_generic audio_output_flags_t media.AudioOutputFlags.underlying
            legacy2aidl_audio_output_flags_t_AudioOutputFlags
            aidl2legacy_AudioOutputFlags_audio_output_flags_t
            (index2enum_bitmask audio_output_flags_t) _ _ _ _ _
            legacy2aidl_audio_output_flags_mask aidl2legacy_audio_output_flags_mask _ _).
  - exact Hw.
  - apply (indices_AudioOutputFlags masks).
  - apply roundtrip_AudioOutputFlags, labels.
  - prove_aidl_indices (indices_AudioOutputFlags masks).
  - intros i k Hi Hk. apply legacy_bit; done.
  - intros legacy Hrep. unfold legacy2aidl_audio_output_flags_mask. cbv zeta.
    rewrite (static_cast_representable _ legacy) by (done || lia). reflexivity.
  - intros aidl legacy Hok. exact Hok.
Qed.

Lemma mask_roundtrip_audio_flags :
  mask_roundtrip audio_flags_mask_t legacy2aidl_audio_flags_mask_t_int32_t_mask
    aidl2legacy_int32_t_audio_flags_mask_t_mask
    (fun i => is_Ok (legacy2aidl_audio_flags_mask_t_AudioFlag
                       (index2enum_bitmask audio_flags_mask_t i))).
Proof.
  pose proof (width_audio_flags_mask_t masks) as Hw.
  refine (mask_roundtrip_generic audio_flags_mask_t media.AudioFlag.underlying
            legacy2aidl_audio_flags_mask_t_AudioFlag aidl2legacy_AudioFlag_audio_flags_mask_t
            (index2enum_bitmask audio_flags_mask_t) _ _ _ _ _
            legacy2aidl_audio_flags_mask_t_int32_t_mask
            aidl2legacy_int32_t_audio_flags_mask_t_mask _ _).
  - exact Hw.
  - apply (indices_AudioFlag masks).
  - apply roundtrip_AudioFlag, labels.
  - prove_aidl_indices (indices_AudioFlag masks).
  - intros i k Hi Hk. apply legacy_bit; done.
  - intros legacy _. reflexivity.
  - intros aidl legacy Hok. exact Hok.
Qed.
End MaskPairs.

(** ** Mix-extension use case *)

Section MixExtUseCase.
Context `{Headers}.
Hypothesis labels : distinct_case_labels.

Lemma aidl2legacy_usecase_SOURCE aidl :
  aidl2legacy_AudioPortConfigMixExtUseCase aidl media.AudioPortRole.SOURCE =
  (VALUE_OR_RETURN aidl_stream <- UNION_GET_AudioPortConfigMixExtUseCase_stream aidl;
   VALUE_OR_RETURN legacy_stream <-
     aidl2legacy_AudioStreamType_audio_stream_type_t aidl_stream;
   Ok (audio_port_config_mix_ext_usecase.stream legacy_stream)).
Proof.
  apply switch_elem_of;
    [exact (labels_aidl2legacy_AudioPortRole_audio_port_role_t labels)|prove_elem_of].
Qed.

Lemma aidl2legacy_usecase_SINK aidl :
  aidl2legacy_AudioPortConfigMixExtUseCase aidl media.AudioPortRole.SINK =
  (VALUE_OR_RETURN aidl_source <- UNION_GET_AudioPortConfigMixExtUseCase_source aidl;
   VALUE_OR_RETURN legacy_source <- aidl2legacy_AudioSourceType_audio_source_t aidl_source;
   Ok (audio_port_config_mix_ext_usecase.source legacy_source)).
Proof.
  apply switch_elem_of;
    [exact (labels_aidl2legacy_AudioPortRole_audio_port_role_t labels)|prove_elem_of].
Qed.

Lemma legacy2aidl_usecase_SOURCE legacy :
  legacy2aidl_AudioPortConfigMixExtUseCase legacy AUDIO_PORT_ROLE_SOURCE =
  (VALUE_OR_RETURN aidl_stream <-
     legacy2aidl_audio_stream_type_t_AudioStreamType (usecase_stream legacy);
   Ok (media.AudioPortConfigMixExtUseCase.stream aidl_stream)).
Proof.
  apply switch_elem_of;
    [exact (labels_legacy2aidl_audio_port_role_t_AudioPortRole labels)|prove_elem_of].
Qed.

Lemma legacy2aidl_usecase_SINK legacy :
  legacy2aidl_AudioPortConfigMixExtUseCase legacy AUDIO_PORT_ROLE_SINK =
  (VALUE_OR_RETURN aidl_source <-
     legacy2aidl_audio_source_t_AudioSourceType (usecase_source legacy);
   Ok (media.AudioPortConfigMixExtUseCase.source aidl_source)).
Proof.
  apply switch_elem_of;
    [exact (labels_legacy2aidl_audio_port_role_t_AudioPortRole labels)|prove_elem_of].
Qed.

(** C6. Both use-case converters pair the SOURCE role with the stream
    members and the SINK role with the source members: with role SOURCE the
    wire union must hold [stream], its value goes through the stream-type
    table and the result is the legacy union with [stream] written; back,
    what the legacy union holds is read through [stream] (the legacy union
    has no discriminant, so the read is not checked), goes through the
    stream-type table and the wire union is set to [stream].  With role
    SINK the same holds of [source] and the source-type table. *)
Theorem usecase_role_selects_member :
  (forall aidl legacy,
     aidl2legacy_AudioPortConfigMixExtUseCase aidl media.AudioPortRole.SOURCE = Ok legacy <->
     exists aidl_stream legacy_stream,
       aidl = media.AudioPortConfigMixExtUseCase.stream aidl_stream /\
       aidl2legacy_AudioStreamType_audio_stream_type_t aidl_stream = Ok legacy_stream /\
       legacy = audio_port_config_mix_ext_usecase.stream legacy_stream) /\
  (forall aidl legacy,
     aidl2legacy_AudioPortConfigMixExtUseCase aidl media.AudioPortRole.SINK = Ok legacy <->
     exists aidl_source legacy_source,
       aidl = media.AudioPortConfigMixExtUseCase.source aidl_source /\
       aidl2legacy_AudioSourceType_audio_source_t aidl_source = Ok legacy_source /\
       legacy = audio_port_config_mix_ext_usecase.source legacy_source) /\
  (forall legacy aidl,
     legacy2aidl_AudioPortConfigMixExtUseCase legacy AUDIO_PORT_ROLE_SOURCE = Ok aidl <->
     exists aidl_stream,
       legacy2aidl_audio_stream_type_t_AudioStreamType (usecase_stream legacy)
         = Ok aidl_stream /\
       aidl = media.AudioPortConfigMixExtUseCase.stream aidl_stream) /\
  (forall legacy aidl,
     legacy2aidl_AudioPortConfigMixExtUseCase legacy AUDIO_PORT_ROLE_SINK = Ok aidl <->
     exists aidl_source,
       legacy2aidl_audio_source_t_AudioSourceType (usecase_source legacy)
         = Ok aidl_source /\
       aidl = media.AudioPortConfigMixExtUseCase.source aidl_source) /\
  (forall v,
     usecase_stream (audio_port_config_mix_ext_usecase.stream v) = v /\
     usecase_source (audio_port_config_mix_ext_usecase.source v) = v).
Proof.
  repeat split.
  - rewrite aidl2legacy_usecase_SOURCE. intros Hok.
    apply bind_Ok in Hok as (v & Hv & Hok). apply bind_Ok in Hok as (s & Hs & Hok).
    destruct aidl; try discriminate. inversion Hv; inversion Hok; subst. eauto.
  - intros (v & s & -> & Hs & ->). rewrite aidl2legacy_usecase_SOURCE. simpl.
    rewrite Hs. reflexivity.
  - rewrite aidl2legacy_usecase_SINK. intros Hok.
    apply bind_Ok in Hok as (v & Hv & Hok). apply bind_Ok in Hok as (s & Hs & Hok).
    destruct aidl; try discriminate. inversion Hv; inversion Hok; subst. eauto.
  - intros (v & s & -> & Hs & ->). rewrite aidl2legacy_usecase_SINK. simpl.
    rewrite Hs. reflexivity.
  - rewrite legacy2aidl_usecase_SOURCE. intros Hok.
    apply bind_Ok in Hok as (v & Hv & Hok). inversion Hok; subst. eauto.
  - intros (v & Hv & ->). rewrite legacy2aidl_usecase_SOURCE, Hv. reflexivity.
  - rewrite legacy2aidl_usecase_SINK. intros Hok.
    apply bind_Ok in Hok as (v & Hv & Hok). inversion Hok; subst. eauto.
  - intros (v & Hv & ->). rewrite legacy2aidl_usecase_SINK, Hv. reflexivity.
Qed.
End MixExtUseCase.

(** ** Port config *)

Section PortConfig.
Context `{Headers}.

(** The gain field of a converted port config: the converted wire gain
    under the GAIN bit, the contents of the uninitialised local without. *)
Lemma aidl2legacy_AudioPortConfig_gain aidl legacy :
  aidl2legacy_AudioPortConfig_audio_port_config aidl = Ok legacy ->
  if has_GAIN aidl
  then aidl2legacy_AudioGainConfig_audio_gain_config (media.AudioPortConfig.gain aidl)
         (media.AudioPortConfig.role aidl) (media.AudioPortConfig.type aidl)
       = Ok (audio_port_config.gain legacy)
  else audio_port_config.gain legacy = audio_port_config.gain local_init.
Proof.
  unfold aidl2legacy_AudioPortConfig_audio_port_config, has_GAIN. cbv zeta. intros Hok.
  apply bind_Ok in Hok as (legacy_id & _ & Hok).
  apply bind_Ok in Hok as (legacy_role & _ & Hok).
  apply bind_Ok in Hok as (legacy_type & _ & Hok).
  apply bind_Ok in Hok as (legacy_config_mask & _ & Hok).
  apply bind_Ok in Hok as (legacy_sample_rate & _ & Hok).
  apply bind_Ok in Hok as (legacy_channel_mask & _ & Hok).
  apply bind_Ok in Hok as (legacy_format & _ & Hok).
  apply bind_Ok in Hok as (legacy_gain & Hgain & Hok).
  apply bind_Ok in Hok as (legacy_flags & _ & Hok).
  apply bind_Ok in Hok as (legacy_ext & _ & Hok).
  inversion Hok; subst legacy; simpl.
  destruct (bitmaskIsSet int32_t _ media.AudioPortConfigType.GAIN); [done|].
  inversion Hgain; done.
Qed.

(** C7. A wire port config whose config mask has the GAIN bit and whose
    gain has a number of values out of range (more than the legacy array
    holds, or not the number computed for its direction) does not convert.
    Without the GAIN bit the gain is not converted: the result does not
    depend on the wire gain field, and the legacy gain field is left as the
    local was declared. *)
Theorem port_config_gain_gated (aidl : media.AudioPortConfig.t) :
  (has_GAIN aidl = true ->
   (size (media.AudioGainConfig.values (media.AudioPortConfig.gain aidl))
      > audio_gain_config_values_size \/
    exists dir,
      direction (media.AudioPortConfig.role aidl) (media.AudioPortConfig.type aidl) = Ok dir /\
      size (media.AudioGainConfig.values (media.AudioPortConfig.gain aidl))
        <> expected_numValues (media.AudioPortConfig.gain aidl) dir) ->
   failed (aidl2legacy_AudioPortConfig_audio_port_config aidl)) /\
  (has_GAIN aidl = false ->
   (forall gain,
      aidl2legacy_AudioPortConfig_audio_port_config (AudioPortConfig_with_gain aidl gain) =
      aidl2legacy_AudioPortConfig_audio_port_config aidl) /\
   (forall legacy, aidl2legacy_AudioPortConfig_audio_port_config aidl = Ok legacy ->
      audio_port_config.gain legacy = audio_port_config.gain local_init)).
Proof.
  split.
  - intros Hbit Hrange Hok. apply is_Ok_exists in Hok as [legacy Hok].
    apply aidl2legacy_AudioPortConfig_gain in Hok. rewrite Hbit in Hok.
    apply aidl2legacy_AudioGainConfig_Ok in Hok as (dir & Hdir & Hsize & Hcap).
    destruct Hrange as [Hbig|(dir' & Hdir' & Hne)]; [lia|].
    rewrite Hdir in Hdir'. inversion Hdir'; subst dir'. done.
  - intros Hbit. split.
    + intros gain. unfold has_GAIN in Hbit.
      unfold aidl2legacy_AudioPortConfig_audio_port_config, AudioPortConfig_with_gain.
      cbv zeta. cbn [media.AudioPortConfig.id media.AudioPortConfig.role
        media.AudioPortConfig.type media.AudioPortConfig.configMask
        media.AudioPortConfig.sampleRate media.AudioPortConfig.channelMask
        media.AudioPortConfig.format media.AudioPortConfig.gain
        media.AudioPortConfig.flags media.AudioPortConfig.ext].
      rewrite Hbit. reflexivity.
    + intros legacy Hok. apply aidl2legacy_AudioPortConfig_gain in Hok.
      rewrite Hbit in Hok. exact Hok.
Qed.
End PortConfig.

(** ** Patch *)

Lemma convertIntegral_Ok (To : IntegralType) (from v : Z) :
  convertIntegral To from = Ok v -> v = from /\ representable To from = true.
Proof.
  unfold convertIntegral. destruct (representable To from); [|discriminate].
  intros Hv. inversion Hv. done.
Qed.

Section Patch.
Context `{Headers}.

(** C8. A wire patch with more sinks, or more sources, than
    [AUDIO_PATCH_PORTS_MAX] does not convert, and neither does a legacy
    patch whose [num_sinks] or [num_sources] exceeds it: no patch with the
    ports cut down to the maximum is returned. *)
Theorem patch_ports_max :
  (forall aidl,
     size (media.AudioPatch.sinks aidl) > AUDIO_PATCH_PORTS_MAX \/
     size (media.AudioPatch.sources aidl) > AUDIO_PATCH_PORTS_MAX ->
     failed (aidl2legacy_AudioPatch_audio_patch aidl)) /\
  (forall legacy,
     audio_patch.num_sinks legacy > AUDIO_PATCH_PORTS_MAX \/
     audio_patch.num_sources legacy > AUDIO_PATCH_PORTS_MAX ->
     failed (legacy2aidl_audio_patch_AudioPatch legacy)).
Proof.
  split.
  - intros aidl Hmax Hok. apply is_Ok_exists in Hok as [legacy Hok].
    unfold aidl2legacy_AudioPatch_audio_patch in Hok. cbv zeta in Hok.
    apply bind_Ok in Hok as (legacy_id & _ & Hok).
    apply bind_Ok in Hok as (num_sinks & Hsinks & Hok).
    apply convertIntegral_Ok in Hsinks as [-> _].
    case_decide as Hsinks_max; [discriminate|].
    apply bind_Ok in Hok as (legacy_sinks & _ & Hok).
    apply bind_Ok in Hok as (num_sources & Hsources & Hok).
    apply convertIntegral_Ok in Hsources as [-> _].
    case_decide as Hsources_max; [discriminate|]. lia.
  - intros legacy Hmax Hok. apply is_Ok_exists in Hok as [aidl Hok].
    unfold legacy2aidl_audio_patch_AudioPatch in Hok.
    apply bind_Ok in Hok as (aidl_id & _ & Hok).
    case_decide as Hsinks_max; [discriminate|].
    apply bind_Ok in Hok as (aidl_sinks & _ & Hok).
    case_decide as Hsources_max; [discriminate|]. lia.
Qed.
End Patch.

(** ** Strings *)

Lemma strnlen_no_NUL (chars : list byte) (maxlen : nat) :
  x00 ∉ chars -> strnlen chars maxlen = Nat.min maxlen (length chars).
Proof.
  revert maxlen. induction chars as [|c chars IH]; intros maxlen Hnul.
  - destruct maxlen; reflexivity.
  - apply not_elem_of_cons in Hnul as [Hc Hnul].
    destruct maxlen as [|maxlen]; [reflexivity|]. simpl.
    destruct (Byte.eqb c x00) eqn:Heq.
    + apply Byte.byte_dec_bl in Heq. congruence.
    + rewrite IH by done. reflexivity.
Qed.

Section Strings.
Context `{Headers}.

(** C9. A legacy character buffer of [maxSize] bytes none of which is NUL
    does not convert: [legacy2aidl_string] returns BAD_VALUE.  So does the
    device extension of a port config whose address fills its buffer of
    [AUDIO_DEVICE_MAX_ADDRESS_LEN] bytes without a terminator. *)
Theorem legacy2aidl_string_unterminated :
  (forall chars maxSize,
     size chars = maxSize -> x00 ∉ chars ->
     legacy2aidl_string (Some chars) maxSize = unexpected BAD_VALUE) /\
  (forall legacy,
     size (audio_port_config_device_ext.address legacy) = AUDIO_DEVICE_MAX_ADDRESS_LEN ->
     x00 ∉ audio_port_config_device_ext.address legacy ->
     legacy2aidl_AudioPortConfigDeviceExt legacy = unexpected BAD_VALUE).
Proof.
  assert (forall chars maxSize,
     size chars = maxSize -> x00 ∉ chars ->
     legacy2aidl_string (Some chars) maxSize = unexpected BAD_VALUE) as Hstring.
  { intros chars maxSize Hsize Hnul. unfold legacy2aidl_string, size in *.
    rewrite strnlen_no_NUL by done.
    case_decide as Hlen; [reflexivity|]. lia. }
  split; [exact Hstring|].
  intros legacy Hsize Hnul. unfold legacy2aidl_AudioPortConfigDeviceExt.
  rewrite (Hstring _ _ Hsize Hnul). reflexivity.
Qed.
End Strings.

(** * The claims on masks, enums and directions *)

Section Claims.
Context `{Headers}.

(** C2. For each of the five mask pairs (port-config mask, gain mode,
    input flags, output flags, audio flags): a legacy mask all of whose set
    bits the per-bit enum conversion accepts converts to a wire mask that
    converts back to it, and a legacy mask with a set bit that the per-bit
    conversion rejects does not convert. *)
Theorem legacy_masks_roundtrip :
  distinct_case_labels -> mask_declarations ->
  mask_roundtrip unsigned legacy2aidl_config_mask_int32_t aidl2legacy_int32_t_config_mask
    (fun i => is_Ok (legacy2aidl_AudioPortConfigType
                       (static_cast int (index2enum_bitmask unsigned i)))) /\
  mask_roundtrip audio_gain_mode_t legacy2aidl_audio_gain_mode_t_int32_t
    aidl2legacy_int32_t_audio_gain_mode_t
    (fun i => is_Ok (legacy2aidl_int_AudioGainMode (index2enum_bitmask int i))) /\
  mask_roundtrip audio_input_flags_t legacy2aidl_audio_input_flags_mask
    aidl2legacy_audio_input_flags_mask
    (fun i => is_Ok (legacy2aidl_audio_input_flags_t_AudioInputFlags
                       (index2enum_bitmask audio_input_flags_t i))) /\
  mask_roundtrip audio_output_flags_t legacy2aidl_audio_output_flags_mask
    aidl2legacy_audio_output_flags_mask
    (fun i => is_Ok (legacy2aidl_audio_output_flags_t_AudioOutputFlags
                       (index2enum_bitmask audio_output_flags_t i))) /\
  mask_roundtrip audio_flags_mask_t legacy2aidl_audio_flags_mask_t_int32_t_mask
    aidl2legacy_int32_t_audio_flags_mask_t_mask
    (fun i => is_Ok (legacy2aidl_audio_flags_mask_t_AudioFlag
                       (index2enum_bitmask audio_flags_mask_t i))).
Proof.
  intros labels masks. repeat split.
  all: first [ apply mask_roundtrip_config_mask | apply mask_roundtrip_gain_mode
             | apply mask_roundtrip_input_flags | apply mask_roundtrip_output_flags
             | apply mask_roundtrip_audio_flags ]; done.
Qed.

(** C3, amended. For each enum pair, a legacy value that [legacy2aidl]
    accepts is returned by [aidl2legacy] on the converted value (for
    AudioFormat, whose converters are casts, every value of
    [audio_format_t]).  The legacy AUDIO_FLAG_NONE is not such a value:
    [legacy2aidl_audio_flags_mask_t_AudioFlag] answers BAD_VALUE on it. *)
Theorem legacy_enums_roundtrip :
  distinct_case_labels -> static_asserts ->
  enum_roundtrip legacy2aidl_AudioPortConfigType aidl2legacy_AudioPortConfigType /\
  enum_roundtrip legacy2aidl_audio_io_config_event_AudioIoConfigEvent
    aidl2legacy_AudioIoConfigEvent_audio_io_config_event /\
  enum_roundtrip legacy2aidl_audio_port_role_t_AudioPortRole
    aidl2legacy_AudioPortRole_audio_port_role_t /\
  enum_roundtrip legacy2aidl_audio_port_type_t_AudioPortType
    aidl2legacy_AudioPortType_audio_port_type_t /\
  enum_roundtrip legacy2aidl_int_AudioGainMode aidl2legacy_AudioGainMode_int /\
  enum_roundtrip legacy2aidl_audio_input_flags_t_AudioInputFlags
    aidl2legacy_AudioInputFlags_audio_input_flags_t /\
  enum_roundtrip legacy2aidl_audio_output_flags_t_AudioOutputFlags
    aidl2legacy_AudioOutputFlags_audio_output_flags_t /\
  enum_roundtrip legacy2aidl_audio_stream_type_t_AudioStreamType
    aidl2legacy_AudioStreamType_audio_stream_type_t /\
  enum_roundtrip legacy2aidl_audio_source_t_AudioSourceType
    aidl2legacy_AudioSourceType_audio_source_t /\
  enum_roundtrip legacy2aidl_audio_content_type_t_AudioContentType
    aidl2legacy_AudioContentType_audio_content_type_t /\
  enum_roundtrip legacy2aidl_audio_usage_t_AudioUsage aidl2legacy_AudioUsage_audio_usage_t /\
  enum_roundtrip legacy2aidl_audio_flags_mask_t_AudioFlag
    aidl2legacy_AudioFlag_audio_flags_mask_t /\
  enum_roundtrip legacy2aidl_AudioEncapsulationMode_audio_encapsulation_mode_t
    aidl2legacy_audio_encapsulation_mode_t_AudioEncapsulationMode /\
  (forall legacy aidl,
     representable audio_format_t legacy = true ->
     legacy2aidl_audio_format_t_AudioFormat legacy = Ok aidl ->
     aidl2legacy_AudioFormat_audio_format_t aidl = Ok legacy) /\
  legacy2aidl_audio_flags_mask_t_AudioFlag AUDIO_FLAG_NONE = unexpected BAD_VALUE.
Proof.
  intros labels asserts.
  repeat (split; [first
    [ apply roundtrip_AudioPortConfigType | apply roundtrip_AudioIoConfigEvent
    | apply roundtrip_AudioPortRole | apply roundtrip_AudioPortType
    | apply roundtrip_AudioGainMode | apply roundtrip_AudioInputFlags
    | apply roundtrip_AudioOutputFlags | apply roundtrip_AudioStreamType
    | apply roundtrip_AudioSourceType | apply roundtrip_AudioContentType
    | apply roundtrip_AudioUsage | apply roundtrip_AudioFlag
    | apply roundtrip_AudioEncapsulationMode ]; exact labels|]).
  split; [intros legacy aidl; apply roundtrip_AudioFormat, asserts|].
  apply legacy2aidl_AUDIO_FLAG_NONE.
Qed.

(** C4, amended. SOURCE with MIX is one of the four pairs that have a
    direction: both overloads of [direction] return OUTPUT for it. *)
Theorem direction_SOURCE_MIX :
  distinct_case_labels ->
  direction media.AudioPortRole.SOURCE media.AudioPortType.MIX = Ok OUTPUT /\
  direction_legacy AUDIO_PORT_ROLE_SOURCE AUDIO_PORT_TYPE_MIX = Ok OUTPUT.
Proof.
  intros labels. split.
  - apply (direction_spec labels). unfold direction_of. tauto.
  - apply (direction_legacy_spec labels). unfold direction_of. tauto.
Qed.

Lemma direction_table_intro (f : Z -> Z -> ConversionResult Direction)
    (SOURCE SINK NONE_role DEVICE MIX NONE_type SESSION : Z) :
  NoDup [NONE_role; SOURCE; SINK] -> NoDup [NONE_type; DEVICE; MIX; SESSION] ->
  (forall role type,
     (forall d, f role type = Ok d <-> direction_of SOURCE SINK DEVICE MIX role type d) /\
     (f role type = unexpected BAD_VALUE \/ is_Ok (f role type))) ->
  direction_table f SOURCE SINK NONE_role DEVICE MIX NONE_type SESSION.
Proof.
  intros Hroles Htypes Hspec.
  apply NoDup_3 in Hroles as (? & ? & ?).
  apply NoDup_4 in Htypes as (? & ? & ? & ? & ? & ?).
  assert (forall role type,
     ~ ((role = SOURCE \/ role = SINK) /\ (type = DEVICE \/ type = MIX)) ->
     f role type = unexpected BAD_VALUE) as Hother.
  { intros role type Hnot. destruct (Hspec role type) as [Hiff [Herr|Hok]]; [done|].
    apply is_Ok_exists in Hok as [d Hd]. apply Hiff in Hd.
    unfold direction_of in Hd. exfalso. apply Hnot. intuition. }
  unfold direction_table. repeat split.
  1-4: apply Hspec; unfold direction_of; tauto.
  - intros role type d Hd. apply Hspec, Hd.
  - exact Hother.
  - intros role. apply Hother. intuition congruence.
  - intros role. apply Hother. intuition congruence.
  - intros type. apply Hother. intuition congruence.
Qed.

(** C10. Each overload of [direction] returns INPUT for (SOURCE, DEVICE)
    and (SINK, MIX), OUTPUT for (SINK, DEVICE) and (SOURCE, MIX), and
    BAD_VALUE for every other role and type, among them any role with type
    NONE or SESSION and role NONE with any type. *)
Theorem direction_total_mapping :
  distinct_case_labels ->
  direction_table direction
    media.AudioPortRole.SOURCE media.AudioPortRole.SINK media.AudioPortRole.NONE
    media.AudioPortType.DEVICE media.AudioPortType.MIX media.AudioPortType.NONE
    media.AudioPortType.SESSION /\
  direction_table direction_legacy
    AUDIO_PORT_ROLE_SOURCE AUDIO_PORT_ROLE_SINK AUDIO_PORT_ROLE_NONE
    AUDIO_PORT_TYPE_DEVICE AUDIO_PORT_TYPE_MIX AUDIO_PORT_TYPE_NONE
    AUDIO_PORT_TYPE_SESSION.
Proof.
  intros labels. split; apply direction_table_intro.
  - exact (labels_aidl2legacy_AudioPortRole_audio_port_role_t labels).
  - exact (labels_aidl2legacy_AudioPortType_audio_port_type_t labels).
  - apply direction_spec, labels.
  - exact (labels_legacy2aidl_audio_port_role_t_AudioPortRole labels).
  - exact (labels_legacy2aidl_audio_port_type_t_AudioPortType labels).
  - apply direction_legacy_spec, labels.
Qed.
End Claims.

(** * The instance satisfies the declarations' conditions *)

Section Instance.
#[local] Existing Instance aosp.headers.

Lemma aosp_distinct_case_labels : distinct_case_labels.
Proof. split; vm_compute; apply (bool_decide_unpack _); vm_compute; exact I. Qed.

Lemma aosp_static_asserts : static_asserts.
Proof. split; vm_compute; reflexivity. Qed.

Lemma aosp_mask_declarations : mask_declarations.
Proof.
  split; try reflexivity.
  all: split; [vm_compute; discriminate|].
  all: repeat (apply List.Forall_cons;
               [split; [vm_compute; discriminate|vm_compute; reflexivity]|]).
  all: apply List.Forall_nil.
Qed.
End Instance.

(** * The theorems on concrete inputs *)

Ltac each_bit i Hi :=
  let Hcases := fresh "Hcases" in
  assert (i = 0 \/ i = 1 \/ i = 2 \/ i = 3 \/ i = 4 \/ i = 5 \/ i = 6 \/ i = 7 \/
          i = 8 \/ i = 9 \/ i = 10 \/ i = 11 \/ i = 12 \/ i = 13 \/ i = 14 \/ i = 15 \/
          i = 16 \/ i = 17 \/ i = 18 \/ i = 19 \/ i = 20 \/ i = 21 \/ i = 22 \/ i = 23 \/
          i = 24 \/ i = 25 \/ i = 26 \/ i = 27 \/ i = 28 \/ i = 29 \/ i = 30 \/ i = 31)
    as Hcases by (change (bits _) with 32 in Hi; lia);
  clear Hi; repeat (destruct Hcases as [->|Hcases]); [..|subst i].

Section Witnesses.
#[local] Existing Instance aosp.headers.

(** The legacy config mask 0x8 (the GAIN flag, which
    [legacy2aidl_AudioPortConfigType] does not list) does not convert. *)
Lemma convertBitmask_all_or_nothing_witness :
  failed (legacy2aidl_config_mask_int32_t 8).
Proof.
  refine (proj1 (convertBitmask_all_or_nothing int32_t unsigned
                   legacy2aidl_AudioPortConfigType
                   (fun index => static_cast int (index2enum_bitmask unsigned index))
                   (enumToMask_index int32_t) 8) 3 _ _ _).
  - vm_compute. split; [discriminate|reflexivity].
  - reflexivity.
  - vm_compute. exact (fun x => x).
Defined.

(** The legacy config mask 0x17 (sample rate, channel mask, format, flags)
    converts and comes back. *)
Lemma legacy_masks_roundtrip_witness :
  distinct_case_labels /\ mask_declarations /\
  exists aidl, legacy2aidl_config_mask_int32_t 23 = Ok aidl /\
               aidl2legacy_int32_t_config_mask aidl = Ok 23.
Proof.
  split; [exact aosp_distinct_case_labels|]. split; [exact aosp_mask_declarations|].
  refine (proj1 (proj1 (legacy_masks_roundtrip aosp_distinct_case_labels
                          aosp_mask_declarations) 23 _) _).
  - reflexivity.
  - intros i Hi Hbit. each_bit i Hi; vm_compute in Hbit |- *; (discriminate || exact I).
Defined.

Lemma legacy_enums_roundtrip_witness :
  distinct_case_labels /\ static_asserts /\
  (legacy2aidl_audio_flags_mask_t_AudioFlag AUDIO_FLAG_SECURE
     = Ok media.AudioFlag.SECURE ->
   aidl2legacy_AudioFlag_audio_flags_mask_t media.AudioFlag.SECURE
     = Ok AUDIO_FLAG_SECURE).
Proof.
  split; [exact aosp_distinct_case_labels|]. split; [exact aosp_static_asserts|].
  pose proof (legacy_enums_roundtrip aosp_distinct_case_labels aosp_static_asserts)
    as (_ & _ & _ & _ & _ & _ & _ & _ & _ & _ & _ & Hflag & _).
  exact (Hflag AUDIO_FLAG_SECURE media.AudioFlag.SECURE).
Defined.

(** C3 as stated fails on AUDIO_FLAG_NONE: no wire value comes out of
    [legacy2aidl], so none comes back as AUDIO_FLAG_NONE. *)
Lemma audio_flag_none_does_not_roundtrip :
  ~ exists aidl,
      legacy2aidl_audio_flags_mask_t_AudioFlag AUDIO_FLAG_NONE = Ok aidl /\
      aidl2legacy_AudioFlag_audio_flags_mask_t aidl = Ok AUDIO_FLAG_NONE.
Proof. intros (aidl & Hl & _). vm_compute in Hl. discriminate. Qed.

Lemma direction_SOURCE_MIX_witness :
  distinct_case_labels /\
  direction media.AudioPortRole.SOURCE media.AudioPortType.MIX = Ok OUTPUT /\
  direction_legacy AUDIO_PORT_ROLE_SOURCE AUDIO_PORT_TYPE_MIX = Ok OUTPUT.
Proof.
  split; [exact aosp_distinct_case_labels|].
  exact (direction_SOURCE_MIX aosp_distinct_case_labels).
Defined.

(** C4 as stated fails: neither overload fails on (SOURCE, MIX). *)
Lemma direction_SOURCE_MIX_does_not_fail :
  ~ (failed (direction media.AudioPortRole.SOURCE media.AudioPortType.MIX) \/
     failed (direction_legacy AUDIO_PORT_ROLE_SOURCE AUDIO_PORT_TYPE_MIX)).
Proof. vm_compute. intros [Hf|Hf]; apply Hf; exact I. Qed.

Lemma joint_gain_config_one_value_witness :
  direction media.AudioPortRole.SOURCE media.AudioPortType.DEVICE = Ok INPUT /\
  bitmaskIsSet int32_t (media.AudioGainConfig.mode joint_gain) media.AudioGainMode.JOINT
    = true /\
  expected_numValues joint_gain INPUT = 1 /\
  is_Ok (aidl2legacy_AudioGainConfig_audio_gain_config joint_gain
           media.AudioPortRole.SOURCE media.AudioPortType.DEVICE).
Proof.
  assert (direction media.AudioPortRole.SOURCE media.AudioPortType.DEVICE = Ok INPUT)
    as Hdir by reflexivity.
  assert (bitmaskIsSet int32_t (media.AudioGainConfig.mode joint_gain)
            media.AudioGainMode.JOINT = true) as Hjoint by reflexivity.
  split; [exact Hdir|]. split; [exact Hjoint|].
  split; [exact (proj1 (joint_gain_config_one_value joint_gain _ _ INPUT Hdir Hjoint))|].
  vm_compute. exact I.
Defined.

(** The wire [stream] MUSIC converts under SOURCE to the legacy union with
    [stream] written, which converts back to it; and a legacy union
    written through [source] (MIC, 1) is read through [stream] under
    SOURCE all the same, as the stream type 1 (SYSTEM). *)
Lemma usecase_role_selects_member_witness :
  distinct_case_labels /\
  aidl2legacy_AudioPortConfigMixExtUseCase
    (media.AudioPortConfigMixExtUseCase.stream media.AudioStreamType.MUSIC)
    media.AudioPortRole.SOURCE
  = Ok (audio_port_config_mix_ext_usecase.stream AUDIO_STREAM_MUSIC) /\
  legacy2aidl_AudioPortConfigMixExtUseCase
    (audio_port_config_mix_ext_usecase.stream AUDIO_STREAM_MUSIC) AUDIO_PORT_ROLE_SOURCE
  = Ok (media.AudioPortConfigMixExtUseCase.stream media.AudioStreamType.MUSIC) /\
  legacy2aidl_AudioPortConfigMixExtUseCase
    (audio_port_config_mix_ext_usecase.source AUDIO_SOURCE_MIC) AUDIO_PORT_ROLE_SOURCE
  = Ok (media.AudioPortConfigMixExtUseCase.stream media.AudioStreamType.SYSTEM).
Proof.
  pose proof (usecase_role_selects_member aosp_distinct_case_labels)
    as (Hstream & _ & Hback & _).
  split; [exact aosp_distinct_case_labels|]. split; [|split].
  - apply Hstream. exists media.AudioStreamType.MUSIC, AUDIO_STREAM_MUSIC. repeat split.
  - apply Hback. exists media.AudioStreamType.MUSIC. split; reflexivity.
  - apply Hback. exists media.AudioStreamType.SYSTEM. split; reflexivity.
Defined.

(** With the GAIN bit (0x8) and 33 gain values the port config does not
    convert; with the sample-rate bit only (0x1) it converts, whatever the
    gain field holds, and the legacy gain is the one of the local. *)
Lemma port_config_gain_gated_witness :
  failed (aidl2legacy_AudioPortConfig_audio_port_config (device_port 8 gain_33_values)) /\
  aidl2legacy_AudioPortConfig_audio_port_config (device_port 1 gain_33_values) =
  aidl2legacy_AudioPortConfig_audio_port_config (device_port 1 joint_gain) /\
  is_Ok (aidl2legacy_AudioPortConfig_audio_port_config (device_port 1 gain_33_values)).
Proof.
  split; [|split].
  - apply (proj1 (port_config_gain_gated (device_port 8 gain_33_values))).
    + reflexivity.
    + left. vm_compute. reflexivity.
  - exact (proj1 (proj2 (port_config_gain_gated (device_port 1 joint_gain)) eq_refl)
             gain_33_values).
  - vm_compute. exact I.
Defined.

Lemma patch_ports_max_witness :
  size (media.AudioPatch.sinks patch_17_sinks) > AUDIO_PATCH_PORTS_MAX /\
  failed (aidl2legacy_AudioPatch_audio_patch patch_17_sinks).
Proof.
  assert (size (media.AudioPatch.sinks patch_17_sinks) > AUDIO_PATCH_PORTS_MAX) as Hmax
    by reflexivity.
  split; [exact Hmax|].
  exact (proj1 patch_ports_max patch_17_sinks (or_introl Hmax)).
Defined.

Lemma legacy2aidl_string_unterminated_witness :
  legacy2aidl_string (Some (replicate 32 "a"%byte)) 32 = unexpected BAD_VALUE.
Proof.
  apply (proj1 legacy2aidl_string_unterminated).
  - reflexivity.
  - intros Hin. apply elem_of_replicate in Hin as [Heq _]. discriminate.
Defined.

Lemma direction_total_mapping_witness :
  distinct_case_labels /\
  direction media.AudioPortRole.NONE media.AudioPortType.DEVICE = unexpected BAD_VALUE /\
  direction_legacy AUDIO_PORT_ROLE_SINK AUDIO_PORT_TYPE_MIX = Ok INPUT.
Proof.
  split; [exact aosp_distinct_case_labels|].
  pose proof (direction_total_mapping aosp_distinct_case_labels) as [Haidl Hlegacy].
  split.
  - apply Haidl.
  - apply Hlegacy.
Defined.
End Witnesses.

(** * Further properties of the converters

    ** Enum pairs, from the wire side *)

Section AidlEnumRoundTrip.
Context `{Headers}.
Hypothesis labels : distinct_case_labels.
Hypothesis asserts : static_asserts.

(** The mirror image of the [roundtrip_] lemmas: the accepted wire value is
    the label of one case of [aidl2legacy], and the [legacy2aidl] switch on
    the returned enumerator, whose labels are distinct, takes the mirrored
    case. *)
Lemma aidl_roundtrip_AudioPortConfigType :
  enum_roundtrip aidl2legacy_AudioPortConfigType legacy2aidl_AudioPortConfigType.
Proof. prove_enum_roundtrip (labels_legacy2aidl_AudioPortConfigType labels). Qed.

Lemma aidl_roundtrip_AudioIoConfigEvent :
  enum_roundtrip aidl2legacy_AudioIoConfigEvent_audio_io_config_event
    legacy2aidl_audio_io_config_event_AudioIoConfigEvent.
Proof. prove_enum_roundtrip (labels_legacy2aidl_audio_io_config_event_AudioIoConfigEvent labels). Qed.

Lemma aidl_roundtrip_AudioPortRole :
  enum_roundtrip aidl2legacy_AudioPortRole_audio_port_role_t
    legacy2aidl_audio_port_role_t_AudioPortRole.
Proof. prove_enum_roundtrip (labels_legacy2aidl_audio_port_role_t_AudioPortRole labels). Qed.

Lemma aidl_roundtrip_AudioPortType :
  enum_roundtrip aidl2legacy_AudioPortType_audio_port_type_t
    legacy2aidl_audio_port_type_t_AudioPortType.
Proof. prove_enum_roundtrip (labels_legacy2aidl_audio_port_type_t_AudioPortType labels). Qed.

Lemma aidl_roundtrip_AudioGainMode :
  enum_roundtrip aidl2legacy_AudioGainMode_int legacy2aidl_int_AudioGainMode.
Proof. prove_enum_roundtrip (labels_legacy2aidl_int_AudioGainMode labels). Qed.

Lemma aidl_roundtrip_AudioInputFlags :
  enum_roundtrip aidl2legacy_AudioInputFlags_audio_input_flags_t
    legacy2aidl_audio_input_flags_t_AudioInputFlags.
Proof. prove_enum_roundtrip (labels_legacy2aidl_audio_input_flags_t_AudioInputFlags labels). Qed.

Lemma aidl_roundtrip_AudioOutputFlags :
  enum_roundtrip aidl2legacy_AudioOutputFlags_audio_output_flags_t
    legacy2aidl_audio_output_flags_t_AudioOutputFlags.
Proof. prove_enum_roundtrip (labels_legacy2aidl_audio_output_flags_t_AudioOutputFlags labels). Qed.

Lemma aidl_roundtrip_AudioStreamType :
  enum_roundtrip aidl2legacy_AudioStreamType_audio_stream_type_t
    legacy2aidl_audio_stream_type_t_AudioStreamType.
Proof. prove_enum_roundtrip (labels_legacy2aidl_audio_stream_type_t_AudioStreamType labels). Qed.

Lemma aidl_roundtrip_AudioSourceType :
  enum_roundtrip aidl2legacy_AudioSourceType_audio_source_t
    legacy2aidl_audio_source_t_AudioSourceType.
Proof. prove_enum_roundtrip (labels_legacy2aidl_audio_source_t_AudioSourceType labels). Qed.

Lemma aidl_roundtrip_AudioContentType :
  enum_roundtrip aidl2legacy_AudioContentType_audio_content_type_t
    legacy2aidl_audio_content_type_t_AudioContentType.
Proof. prove_enum_roundtrip (labels_legacy2aidl_audio_content_type_t_AudioContentType labels). Qed.

Lemma aidl_roundtrip_AudioUsage :
  enum_roundtrip aidl2legacy_AudioUsage_audio_usage_t
    legacy2aidl_audio_usage_t_AudioUsage.
Proof. prove_enum_roundtrip (labels_legacy2aidl_audio_usage_t_AudioUsage labels). Qed.

Lemma aidl_roundtrip_AudioFlag :
  enum_roundtrip aidl2legacy_AudioFlag_audio_flags_mask_t
    legacy2aidl_audio_flags_mask_t_AudioFlag.
Proof. prove_enum_roundtrip (labels_legacy2aidl_audio_flags_mask_t_AudioFlag labels). Qed.

Lemma aidl_roundtrip_AudioEncapsulationMode :
  enum_roundtrip aidl2legacy_audio_encapsulation_mode_t_AudioEncapsulationMode
    legacy2aidl_AudioEncapsulationMode_audio_encapsulation_mode_t.
Proof. prove_enum_roundtrip (labels_legacy2aidl_AudioEncapsulationMode_audio_encapsulation_mode_t labels). Qed.

Lemma aidl_roundtrip_AudioFormat (aidl legacy : Z) :
  representable media.AudioFormat.underlying aidl = true ->
  aidl2legacy_AudioFormat_audio_format_t aidl = Ok legacy ->
  legacy2aidl_audio_format_t_AudioFormat legacy = Ok aidl.
Proof.
  unfold legacy2aidl_audio_format_t_AudioFormat, aidl2legacy_AudioFormat_audio_format_t.
  intros Hr Hl. inversion Hl; subst legacy. f_equal.
  pose proof (width_audio_format_t asserts) as Hw.
  pose proof (sizeof_audio_format_t asserts) as Hs.
  rewrite static_cast_static_cast by lia.
  apply static_cast_representable; [lia|done].
Qed.

(** X1. For each enum pair, a wire value that [aidl2legacy] accepts is
    returned by [legacy2aidl] on the converted value; this direction has no
    exception, as no [aidl2legacy] switch returns AUDIO_FLAG_NONE.  For
    AudioFormat, every value of the AIDL enum's underlying type comes
    back. *)
Theorem aidl_enums_roundtrip :
  enum_roundtrip aidl2legacy_AudioPortConfigType legacy2aidl_AudioPortConfigType /\
  enum_roundtrip aidl2legacy_AudioIoConfigEvent_audio_io_config_event
    legacy2aidl_audio_io_config_event_AudioIoConfigEvent /\
  enum_roundtrip aidl2legacy_AudioPortRole_audio_port_role_t
    legacy2aidl_audio_port_role_t_AudioPortRole /\
  enum_roundtrip aidl2legacy_AudioPortType_audio_port_type_t
    legacy2aidl_audio_port_type_t_AudioPortType /\
  enum_roundtrip aidl2legacy_AudioGainMode_int legacy2aidl_int_AudioGainMode /\
  enum_roundtrip aidl2legacy_AudioInputFlags_audio_input_flags_t
    legacy2aidl_audio_input_flags_t_AudioInputFlags /\
  enum_roundtrip aidl2legacy_AudioOutputFlags_audio_output_flags_t
    legacy2aidl_audio_output_flags_t_AudioOutputFlags /\
  enum_roundtrip aidl2legacy_AudioStreamType_audio_stream_type_t
    legacy2aidl_audio_stream_type_t_AudioStreamType /\
  enum_roundtrip aidl2legacy_AudioSourceType_audio_source_t
    legacy2aidl_audio_source_t_AudioSourceType /\
  enum_roundtrip aidl2legacy_AudioContentType_audio_content_type_t
    legacy2aidl_audio_content_type_t_AudioContentType /\
  enum_roundtrip aidl2legacy_AudioUsage_audio_usage_t
    legacy2aidl_audio_usage_t_AudioUsage /\
  enum_roundtrip aidl2legacy_AudioFlag_audio_flags_mask_t
    legacy2aidl_audio_flags_mask_t_AudioFlag /\
  enum_roundtrip aidl2legacy_audio_encapsulation_mode_t_AudioEncapsulationMode
    legacy2aidl_AudioEncapsulationMode_audio_encapsulation_mode_t /\
  (forall aidl legacy,
     representable media.AudioFormat.underlying aidl = true ->
     aidl2legacy_AudioFormat_audio_format_t aidl = Ok legacy ->
     legacy2aidl_audio_format_t_AudioFormat legacy = Ok aidl).
Proof.
  split; [exact aidl_roundtrip_AudioPortConfigType|].
  split; [exact aidl_roundtrip_AudioIoConfigEvent|].
  split; [exact aidl_roundtrip_AudioPortRole|].
  split; [exact aidl_roundtrip_AudioPortType|].
  split; [exact aidl_roundtrip_AudioGainMode|].
  split; [exact aidl_roundtrip_AudioInputFlags|].
  split; [exact aidl_roundtrip_AudioOutputFlags|].
  split; [exact aidl_roundtrip_AudioStreamType|].
  split; [exact aidl_roundtrip_AudioSourceType|].
  split; [exact aidl_roundtrip_AudioContentType|].
  split; [exact aidl_roundtrip_AudioUsage|].
  split; [exact aidl_roundtrip_AudioFlag|].
  split; [exact aidl_roundtrip_AudioEncapsulationMode|].
  exact aidl_roundtrip_AudioFormat.
Qed.
End AidlEnumRoundTrip.

(** ** The two overloads of [direction] *)

Section DirectionOverloads.
Context `{Headers}.
Hypothesis labels : distinct_case_labels.

Ltac each_role_and_type Hrole Htype :=
  apply switch_inv in Hrole as [Hrole|Hrole]; [|discriminate];
  apply switch_inv in Htype as [Htype|Htype]; [|discriminate];
  repeat (apply elem_of_cons in Hrole as [Hrole|Hrole];
          [inversion Hrole; subst; clear Hrole|]);
  try (apply elem_of_nil in Hrole; destruct Hrole);
  repeat (apply elem_of_cons in Htype as [Htype|Htype];
          [inversion Htype; subst; clear Htype|]);
  try (apply elem_of_nil in Htype; destruct Htype).

Lemma direction_tables :
  direction_table direction
    media.AudioPortRole.SOURCE media.AudioPortRole.SINK media.AudioPortRole.NONE
    media.AudioPortType.DEVICE media.AudioPortType.MIX media.AudioPortType.NONE
    media.AudioPortType.SESSION /\
  direction_table direction_legacy
    AUDIO_PORT_ROLE_SOURCE AUDIO_PORT_ROLE_SINK AUDIO_PORT_ROLE_NONE
    AUDIO_PORT_TYPE_DEVICE AUDIO_PORT_TYPE_MIX AUDIO_PORT_TYPE_NONE
    AUDIO_PORT_TYPE_SESSION.
Proof.
  split.
  - exact (direction_table_intro direction _ _ _ _ _ _ _
             (labels_aidl2legacy_AudioPortRole_audio_port_role_t labels)
             (labels_aidl2legacy_AudioPortType_audio_port_type_t labels)
             (direction_spec labels)).
  - exact (direction_table_intro direction_legacy _ _ _ _ _ _ _
             (labels_legacy2aidl_audio_port_role_t_AudioPortRole labels)
             (labels_legacy2aidl_audio_port_type_t_AudioPortType labels)
             (direction_legacy_spec labels)).
Qed.

Lemma direction_legacy_converted role type legacy_role legacy_type :
  aidl2legacy_AudioPortRole_audio_port_role_t role = Ok legacy_role ->
  aidl2legacy_AudioPortType_audio_port_type_t type = Ok legacy_type ->
  direction_legacy legacy_role legacy_type = direction role type.
Proof.
  destruct direction_tables as
    [(Ha1 & Ha2 & Ha3 & Ha4 & _ & _ & Ha5 & Ha6 & Ha7)
     (Hl1 & Hl2 & Hl3 & Hl4 & _ & _ & Hl5 & Hl6 & Hl7)].
  intros Hrole Htype. each_role_and_type Hrole Htype. all: congruence.
Qed.

Lemma direction_converted legacy_role legacy_type role type :
  legacy2aidl_audio_port_role_t_AudioPortRole legacy_role = Ok role ->
  legacy2aidl_audio_port_type_t_AudioPortType legacy_type = Ok type ->
  direction role type = direction_legacy legacy_role legacy_type.
Proof.
  destruct direction_tables as
    [(Ha1 & Ha2 & Ha3 & Ha4 & _ & _ & Ha5 & Ha6 & Ha7)
     (Hl1 & Hl2 & Hl3 & Hl4 & _ & _ & Hl5 & Hl6 & Hl7)].
  intros Hrole Htype. each_role_and_type Hrole Htype. all: congruence.
Qed.

(** X2. The overloads agree through the role and type converters: when a wire
    role and type convert, the legacy overload gives on the converted pair
    what the wire overload gives on the original one (a direction or
    BAD_VALUE), and the same from the legacy side. *)
Theorem direction_overloads_agree :
  (forall role type legacy_role legacy_type,
     aidl2legacy_AudioPortRole_audio_port_role_t role = Ok legacy_role ->
     aidl2legacy_AudioPortType_audio_port_type_t type = Ok legacy_type ->
     direction_legacy legacy_role legacy_type = direction role type) /\
  (forall legacy_role legacy_type role type,
     legacy2aidl_audio_port_role_t_AudioPortRole legacy_role = Ok role ->
     legacy2aidl_audio_port_type_t_AudioPortType legacy_type = Ok type ->
     direction role type = direction_legacy legacy_role legacy_type).
Proof. split; [exact direction_legacy_converted|exact direction_converted]. Qed.
End DirectionOverloads.

(** ** Strings and character buffers *)

Lemma c_string_app_NUL (s rest : list byte) : c_string (s ++ x00 :: rest) = c_string s.
Proof.
  induction s as [|c s IH]; simpl; [reflexivity|].
  destruct (Byte.eqb c x00); [reflexivity|]. f_equal. exact IH.
Qed.

Lemma c_string_no_NUL (s : list byte) : x00 ∉ s -> c_string s = s.
Proof.
  induction s as [|c s IH]; [reflexivity|]. intros Hnul.
  apply not_elem_of_cons in Hnul as [Hc Hnul]. simpl.
  destruct (Byte.eqb c x00) eqn:Heq.
  - apply Byte.byte_dec_bl in Heq. congruence.
  - f_equal. auto.
Qed.

Lemma strnlen_app_NUL (s rest : list byte) (maxlen : nat) :
  (length s < maxlen)%nat -> (strnlen (s ++ x00 :: rest) maxlen <= length s)%nat.
Proof.
  revert maxlen. induction s as [|c s IH]; intros maxlen Hlen; simpl in *.
  - destruct maxlen; simpl; lia.
  - destruct maxlen as [|maxlen]; [lia|]. simpl.
    destruct (Byte.eqb c x00); [lia|]. specialize (IH maxlen). lia.
Qed.

Section StringBuffers.
Context `{Headers}.
Hypothesis width_size_t : 0 < bits size_t.

Lemma aidl2legacy_string_OK aidl dest maxSize dest' :
  1 <= maxSize -> representable size_t (maxSize - 1) = true ->
  aidl2legacy_string aidl dest maxSize = (OK, dest') ->
  size aidl < maxSize /\ dest' = aidl ++ x00 :: drop (S (length aidl)) dest.
Proof.
  intros Hmax Hrep. unfold aidl2legacy_string.
  rewrite static_cast_representable by done.
  destruct (decide (size aidl > maxSize - 1)); intros Heq; inversion Heq.
  split; [lia|reflexivity].
Qed.

(** X3. With a buffer of [maxSize] bytes, [aidl2legacy_string] rejects a
    string of [maxSize] bytes or more and leaves the buffer as it was;
    a shorter string is written at the start of the buffer and followed by
    a NUL, the buffer keeps its size and the bytes after the NUL. *)
Theorem aidl2legacy_string_bounds aidl dest maxSize :
  1 <= maxSize -> representable size_t (maxSize - 1) = true -> size dest = maxSize ->
  (maxSize <= size aidl -> aidl2legacy_string aidl dest maxSize = (BAD_VALUE, dest)) /\
  (size aidl < maxSize ->
   exists dest',
     aidl2legacy_string aidl dest maxSize = (OK, dest') /\
     length dest' = length dest /\
     take (length aidl) dest' = aidl /\
     dest' !! length aidl = Some x00 /\
     drop (S (length aidl)) dest' = drop (S (length aidl)) dest).
Proof.
  intros Hmax Hrep Hdest. unfold aidl2legacy_string, size in *.
  rewrite static_cast_representable by done. split.
  - intros Hlong. destruct (decide _); [reflexivity|lia].
  - intros Hshort. destruct (decide _); [lia|].
    eexists. split; [reflexivity|]. repeat split.
    + rewrite length_app. simpl. rewrite length_drop. lia.
    + rewrite take_app_length. reflexivity.
    + apply list_lookup_middle. reflexivity.
    + rewrite cons_middle, app_assoc. rewrite drop_app_length'; [reflexivity|].
      rewrite length_app. simpl. lia.
Qed.

Lemma legacy2aidl_string_written aidl dest maxSize dest' :
  1 <= maxSize -> representable size_t (maxSize - 1) = true ->
  aidl2legacy_string aidl dest maxSize = (OK, dest') ->
  legacy2aidl_string (Some dest') maxSize = Ok (c_string aidl).
Proof.
  intros Hmax Hrep Hok.
  destruct (aidl2legacy_string_OK _ _ _ _ Hmax Hrep Hok) as [Hlen ->].
  unfold legacy2aidl_string, size in *.
  pose proof (strnlen_app_NUL aidl (drop (S (length aidl)) dest) (Z.to_nat maxSize)).
  destruct (decide _) as [Heq|_]; [lia|]. rewrite c_string_app_NUL. reflexivity.
Qed.

(** X4. What [aidl2legacy_string] wrote, [legacy2aidl_string] reads back as
    the string up to its first NUL: the string itself when it holds no
    NUL byte. *)
Theorem string_roundtrip aidl dest maxSize dest' :
  1 <= maxSize -> representable size_t (maxSize - 1) = true ->
  aidl2legacy_string aidl dest maxSize = (OK, dest') ->
  legacy2aidl_string (Some dest') maxSize = Ok (c_string aidl) /\
  (x00 ∉ aidl -> legacy2aidl_string (Some dest') maxSize = Ok aidl).
Proof.
  intros Hmax Hrep Hok.
  pose proof (legacy2aidl_string_written _ _ _ _ Hmax Hrep Hok) as Hback.
  split; [exact Hback|]. intros Hnul. rewrite Hback, c_string_no_NUL; done.
Qed.
End StringBuffers.

(** ** Handles *)

Lemma convertReinterpret_roundtrip (From To : IntegralType) (from : Z) :
  0 < bits From -> bits To = bits From -> representable From from = true ->
  (VALUE_OR_RETURN to <- convertReinterpret To from; convertReinterpret From to) = Ok from.
Proof.
  intros Hw Hs Hr. unfold convertReinterpret. simpl. f_equal.
  rewrite static_cast_static_cast by lia. apply static_cast_representable; done.
Qed.

Section Handles.
Context `{Headers}.
Hypothesis asserts : static_asserts.

(** X5. Each of the seven [convertReinterpret] pairs on handles, sessions,
    channel masks and devices is lossless in both directions: a 32-bit wire
    value converted to the legacy type and back is itself, and a value of
    the legacy type converted to [int32_t] and back is itself. *)
Theorem handles_roundtrip :
  let pair (legacy_t : IntegralType)
           (aidl2legacy legacy2aidl : Z -> ConversionResult Z) :=
    (forall aidl, representable int32_t aidl = true ->
       (VALUE_OR_RETURN legacy <- aidl2legacy aidl; legacy2aidl legacy) = Ok aidl) /\
    (forall legacy, representable legacy_t legacy = true ->
       (VALUE_OR_RETURN aidl <- legacy2aidl legacy; aidl2legacy aidl) = Ok legacy) in
  pair audio_module_handle_t aidl2legacy_int32_t_audio_module_handle_t
    legacy2aidl_audio_module_handle_t_int32_t /\
  pair audio_io_handle_t aidl2legacy_int32_t_audio_io_handle_t
    legacy2aidl_audio_io_handle_t_int32_t /\
  pair audio_port_handle_t aidl2legacy_int32_t_audio_port_handle_t
    legacy2aidl_audio_port_handle_t_int32_t /\
  pair audio_patch_handle_t aidl2legacy_int32_t_audio_patch_handle_t
    legacy2aidl_audio_patch_handle_t_int32_t /\
  pair audio_session_t aidl2legacy_int32_t_audio_session_t
    legacy2aidl_audio_session_t_int32_t /\
  pair audio_channel_mask_t aidl2legacy_int32_t_audio_channel_mask_t
    legacy2aidl_audio_channel_mask_t_int32_t /\
  pair audio_devices_t aidl2legacy_int32_t_audio_devices_t
    legacy2aidl_audio_devices_t_int32_t.
Proof.
  destruct asserts. cbv zeta.
  repeat split; intros v Hv;
    apply convertReinterpret_roundtrip; simpl in *; (lia || done).
Qed.
End Handles.

(** ** Testing a bit of a wire mask *)

Lemma int32_t_sign_bits (a k : Z) :
  representable int32_t a = true -> 31 <= k -> Z.testbit a k = Z.testbit a 31.
Proof.
  intros Hr Hk. unfold representable, min_value, max_value in Hr. simpl in Hr.
  apply andb_true_iff in Hr as [Hmin Hmax]. apply Z.leb_le in Hmin. apply Z.leb_le in Hmax.
  assert (forall j, 31 <= j -> Z.testbit a j = negb (0 <=? a)) as Hsign.
  { intros j Hj. destruct (Z.leb_spec 0 a) as [Hpos|Hneg]; simpl.
    - destruct (decide (a = 0)) as [->|Hnz]; [apply Z.bits_0|].
      apply Z.bits_above_log2; [done|].
      assert (Z.log2 a < 31) by (apply Z.log2_lt_pow2; lia). lia.
    - apply Z.bits_above_log2_neg; [done|].
      destruct (decide (Z.pred (- a) = 0)) as [Hz|Hnz]; [rewrite Hz; simpl; lia|].
      assert (Z.log2 (Z.pred (- a)) < 31) by (apply Z.log2_lt_pow2; lia). lia. }
  rewrite (Hsign k), (Hsign 31) by lia. reflexivity.
Qed.

(** [bitmaskIsSet] on a 32-bit mask and one of its bit positions reads that
    bit, the sign bit included. *)
Lemma bitmaskIsSet_testbit (mask e : Z) :
  representable int32_t mask = true -> 0 <= e < 32 ->
  bitmaskIsSet int32_t mask e = Z.testbit mask e.
Proof.
  intros Hr He. unfold bitmaskIsSet.
  assert (representable int32_t (enumToMask_index int32_t e) = true) as Hre
    by (apply static_cast_is_representable; simpl; lia).
  pose proof (enumToMask_index_testbit e) as Hbit.
  destruct (Z.testbit mask e) eqn:Hm.
  - apply negb_true_iff, Z.eqb_neq. intros Hz.
    assert (Z.testbit (Z.land mask (enumToMask_index int32_t e)) e = true) as Hl.
    { rewrite Z.land_spec, Hm, Hbit by lia. rewrite bool_decide_eq_true_2; done. }
    rewrite Hz, Z.bits_0 in Hl. discriminate.
  - apply negb_false_iff, Z.eqb_eq, Z.bits_inj'. intros k Hk.
    rewrite Z.bits_0, Z.land_spec.
    destruct (Z_lt_le_dec k 32) as [Hlow|Hhigh].
    + rewrite Hbit by lia. case_bool_decide; [subst k; rewrite Hm|]; auto using andb_false_r.
    + rewrite (int32_t_sign_bits mask k), (int32_t_sign_bits _ k) by (done || lia).
      rewrite Hbit by lia. case_bool_decide; [subst e; rewrite Hm|]; auto using andb_false_r.
Qed.

(** X6. [bitmaskIsSet] on a 32-bit wire mask and a bit position of it is that
    bit of the mask: [enumToMask_index] turns the position into the mask
    [1 << e], and for position 31, where the mask is [INT32_MIN], the test
    still reads bit 31 alone. *)
Theorem bitmaskIsSet_reads_bit (mask e : Z) :
  representable int32_t mask = true -> 0 <= e < 32 ->
  bitmaskIsSet int32_t mask e = Z.testbit mask e.
Proof. exact (bitmaskIsSet_testbit mask e). Qed.

(** ** The GAIN bit of a port-config mask *)

Section GainBit.
Context `{Headers}.
Hypothesis masks : mask_declarations.

Lemma GAIN_index : 0 <= media.AudioPortConfigType.GAIN < 32.
Proof.
  destruct (indices_AudioPortConfigType masks) as [_ Hall].
  rewrite list.Forall_forall in Hall. apply Hall. prove_elem_of.
Qed.

Lemma aidl2legacy_config_mask_GAIN (aidl : Z) :
  media.AudioPortConfigType.GAIN ∉
    [media.AudioPortConfigType.SAMPLE_RATE; media.AudioPortConfigType.CHANNEL_MASK;
     media.AudioPortConfigType.FORMAT; media.AudioPortConfigType.FLAGS] ->
  Z.testbit aidl media.AudioPortConfigType.GAIN = true ->
  failed (aidl2legacy_int32_t_config_mask aidl).
Proof.
  intros Hgain Hbit Hok. apply is_Ok_exists in Hok as [legacy Hok].
  apply convertBitmask_Ok in Hok as [Hall _].
  pose proof GAIN_index as Hg.
  specialize (Hall media.AudioPortConfigType.GAIN Hg Hbit).
  rewrite index2enum_index_small in Hall
    by (done || exact (proj1 (indices_AudioPortConfigType masks))).
  unfold aidl2legacy_AudioPortConfigType in Hall.
  rewrite switch_default in Hall by exact Hgain. exact Hall.
Qed.

Lemma legacy2aidl_config_mask_GAIN (legacy g : Z) :
  0 <= g < 31 -> AUDIO_PORT_CONFIG_GAIN = 2 ^ g ->
  AUDIO_PORT_CONFIG_GAIN ∉
    [AUDIO_PORT_CONFIG_SAMPLE_RATE; AUDIO_PORT_CONFIG_CHANNEL_MASK;
     AUDIO_PORT_CONFIG_FORMAT; AUDIO_PORT_CONFIG_FLAGS] ->
  Z.testbit legacy g = true ->
  failed (legacy2aidl_config_mask_int32_t legacy).
Proof.
  intros Hg Hpow Hgain Hbit Hok. apply is_Ok_exists in Hok as [aidl Hok].
  apply convertBitmask_Ok in Hok as [Hall _].
  assert (0 <= g < bits unsigned) as Hgw by (change (bits unsigned) with 32; lia).
  specialize (Hall g Hgw Hbit). cbv beta in Hall.
  assert (2 ^ g < 2 ^ 31) by (apply Z.pow_lt_mono_r; lia).
  assert (0 < 2 ^ g) by (apply Z.pow_pos_nonneg; lia).
  assert (static_cast int (index2enum_bitmask unsigned g) = AUDIO_PORT_CONFIG_GAIN) as Heq.
  { unfold index2enum_bitmask, shl. rewrite Z.shiftl_1_l, Hpow.
    assert (forall T, T = int \/ T = unsigned -> representable T (2 ^ g) = true) as Hr.
    { intros T [->| ->]; apply andb_true_iff; rewrite !Z.leb_le;
        change (2 ^ 31) with 2147483648 in *; cbn; lia. }
    rewrite (static_cast_representable int (2 ^ g)) by (auto || reflexivity).
    rewrite (static_cast_representable unsigned (2 ^ g)) by (auto || reflexivity).
    rewrite (static_cast_representable int (2 ^ g)) by (auto || reflexivity).
    reflexivity. }
  rewrite Heq in Hall. unfold legacy2aidl_AudioPortConfigType in Hall.
  rewrite switch_default in Hall by exact Hgain. exact Hall.
Qed.

(** X7. Neither [AudioPortConfigType] switch has a case for GAIN, so the mask
    conversion rejects every mask with the GAIN bit: a port config with the
    GAIN bit in its config mask converts in neither direction, and the
    gain-config branch of the two port-config converters is never taken on
    a conversion that succeeds. *)
Theorem gain_bit_never_converts :
  (media.AudioPortConfigType.GAIN ∉
     [media.AudioPortConfigType.SAMPLE_RATE; media.AudioPortConfigType.CHANNEL_MASK;
      media.AudioPortConfigType.FORMAT; media.AudioPortConfigType.FLAGS] ->
   forall aidl,
     representable int32_t (media.AudioPortConfig.configMask aidl) = true ->
     has_GAIN aidl = true ->
     failed (aidl2legacy_AudioPortConfig_audio_port_config aidl)) /\
  (forall g, 0 <= g < 31 -> AUDIO_PORT_CONFIG_GAIN = 2 ^ g ->
   AUDIO_PORT_CONFIG_GAIN ∉
     [AUDIO_PORT_CONFIG_SAMPLE_RATE; AUDIO_PORT_CONFIG_CHANNEL_MASK;
      AUDIO_PORT_CONFIG_FORMAT; AUDIO_PORT_CONFIG_FLAGS] ->
   forall legacy,
     config_mask_has (audio_port_config.config_mask legacy) AUDIO_PORT_CONFIG_GAIN = true ->
     failed (legacy2aidl_audio_port_config_AudioPortConfig legacy)).
Proof.
  split.
  - intros Hgain aidl Hrep Hhas Hok. unfold has_GAIN in Hhas.
    rewrite bitmaskIsSet_testbit in Hhas by (done || exact GAIN_index).
    apply is_Ok_exists in Hok as [legacy Hok].
    unfold aidl2legacy_AudioPortConfig_audio_port_config in Hok. cbv zeta in Hok.
    apply bind_Ok in Hok as (legacy_id & _ & Hok).
    apply bind_Ok in Hok as (legacy_role & _ & Hok).
    apply bind_Ok in Hok as (legacy_type & _ & Hok).
    apply bind_Ok in Hok as (legacy_config_mask & Hmask & _).
    apply (aidl2legacy_config_mask_GAIN _ Hgain Hhas). rewrite Hmask. exact I.
  - intros g Hg Hpow Hgain legacy Hhas Hok. unfold config_mask_has in Hhas.
    apply is_Ok_exists in Hok as [aidl Hok].
    unfold legacy2aidl_audio_port_config_AudioPortConfig in Hok. cbv zeta in Hok.
    apply bind_Ok in Hok as (aidl_id & _ & Hok).
    apply bind_Ok in Hok as (aidl_role & _ & Hok).
    apply bind_Ok in Hok as (aidl_type & _ & Hok).
    apply bind_Ok in Hok as (aidl_configMask & Hmask & _).
    apply (legacy2aidl_config_mask_GAIN (audio_port_config.config_mask legacy) g
             Hg Hpow Hgain).
    + apply negb_true_iff, Z.eqb_neq in Hhas.
      destruct (Z.testbit (audio_port_config.config_mask legacy) g) eqn:Hbit; [done|].
      exfalso. apply Hhas, Z.bits_inj'. intros k Hk.
      rewrite Z.bits_0, Z.land_spec, Hpow, Z.pow2_bits_eqb by lia.
      destruct (Z.eqb_spec g k); [subst k; rewrite Hbit|]; auto using andb_false_r.
    + rewrite Hmask. exact I.
Qed.
End GainBit.

(** ** Unions: the member read is the one the direction or the type selects *)

Lemma static_cast_idempotent (T : IntegralType) (z : Z) :
  static_cast T (static_cast T z) = static_cast T z.
Proof.
  unfold static_cast. destruct (is_signed T).
  - replace ((z + 2 ^ (bits T - 1)) mod 2 ^ bits T - 2 ^ (bits T - 1) + 2 ^ (bits T - 1))
      with ((z + 2 ^ (bits T - 1)) mod 2 ^ bits T) by lia.
    rewrite Zmod_mod. reflexivity.
  - apply Zmod_mod.
Qed.

Section UnionMembers.
Context `{Headers}.

(** The mask converters cast their argument to the legacy mask type, which
    is the type the member of the union is read at. *)
Lemma legacy2aidl_audio_input_flags_mask_cast v :
  legacy2aidl_audio_input_flags_mask (static_cast audio_input_flags_t v) =
  legacy2aidl_audio_input_flags_mask v.
Proof.
  unfold legacy2aidl_audio_input_flags_mask. cbv zeta.
  rewrite static_cast_idempotent. reflexivity.
Qed.

Lemma legacy2aidl_audio_output_flags_mask_cast v :
  legacy2aidl_audio_output_flags_mask (static_cast audio_output_flags_t v) =
  legacy2aidl_audio_output_flags_mask v.
Proof.
  unfold legacy2aidl_audio_output_flags_mask. cbv zeta.
  rewrite static_cast_idempotent. reflexivity.
Qed.

(** X8. [aidl2legacy_AudioIoFlags_audio_io_flags] converts exactly the wire
    unions whose member is the one of the direction ([input] for INPUT,
    [output] for OUTPUT), into the same member of the legacy union; a wire
    union holding the other member is BAD_VALUE.  The legacy converter reads
    the member of the direction without a check, the legacy union having
    no discriminant: what the union holds is converted as input flags for
    INPUT and as output flags for OUTPUT, also when it was assigned
    through the other member. *)
Theorem io_flags_member_follows_direction :
  (forall aidl role type legacy,
     aidl2legacy_AudioIoFlags_audio_io_flags aidl role type = Ok legacy <->
     (direction role type = Ok INPUT /\
      exists aidl_input legacy_input,
        aidl = media.AudioIoFlags.input aidl_input /\
        aidl2legacy_audio_input_flags_mask aidl_input = Ok legacy_input /\
        legacy = audio_io_flags.input legacy_input) \/
     (direction role type = Ok OUTPUT /\
      exists aidl_output legacy_output,
        aidl = media.AudioIoFlags.output aidl_output /\
        aidl2legacy_audio_output_flags_mask aidl_output = Ok legacy_output /\
        legacy = audio_io_flags.output legacy_output)) /\
  (forall role type v,
     (direction role type = Ok INPUT ->
      aidl2legacy_AudioIoFlags_audio_io_flags (media.AudioIoFlags.output v) role type
      = unexpected BAD_VALUE) /\
     (direction role type = Ok OUTPUT ->
      aidl2legacy_AudioIoFlags_audio_io_flags (media.AudioIoFlags.input v) role type
      = unexpected BAD_VALUE)) /\
  (forall legacy role type aidl,
     legacy2aidl_audio_io_flags_AudioIoFlags legacy role type = Ok aidl <->
     (direction_legacy role type = Ok INPUT /\
      exists aidl_input,
        legacy2aidl_audio_input_flags_mask (audio_io_flags_input legacy) = Ok aidl_input /\
        aidl = media.AudioIoFlags.input aidl_input) \/
     (direction_legacy role type = Ok OUTPUT /\
      exists aidl_output,
        legacy2aidl_audio_output_flags_mask (audio_io_flags_output legacy)
          = Ok aidl_output /\
        aidl = media.AudioIoFlags.output aidl_output)) /\
  (forall role type v,
     (direction_legacy role type = Ok INPUT ->
      legacy2aidl_audio_io_flags_AudioIoFlags (audio_io_flags.output v) role type =
      (VALUE_OR_RETURN aidl_input <- legacy2aidl_audio_input_flags_mask v;
       Ok (media.AudioIoFlags.input aidl_input))) /\
     (direction_legacy role type = Ok OUTPUT ->
      legacy2aidl_audio_io_flags_AudioIoFlags (audio_io_flags.input v) role type =
      (VALUE_OR_RETURN aidl_output <- legacy2aidl_audio_output_flags_mask v;
       Ok (media.AudioIoFlags.output aidl_output)))).
Proof.
  split; [|split; [|split]].
  - intros aidl role type legacy. unfold aidl2legacy_AudioIoFlags_audio_io_flags.
    cbv zeta. split.
    + intros Hok. apply bind_Ok in Hok as ([|] & Hdir & Hok); [left|right];
        (split; [exact Hdir|]);
        apply bind_Ok in Hok as (v & Hget & Hok);
        apply bind_Ok in Hok as (v' & Hconv & Hok);
        destruct aidl; try discriminate; inversion Hget; inversion Hok; subst; eauto.
    + intros [(Hdir & v & v' & -> & Hconv & ->)|(Hdir & v & v' & -> & Hconv & ->)];
        rewrite Hdir; simpl; rewrite Hconv; reflexivity.
  - intros role type v. unfold aidl2legacy_AudioIoFlags_audio_io_flags. cbv zeta.
    split; intros ->; reflexivity.
  - intros legacy role type aidl. unfold legacy2aidl_audio_io_flags_AudioIoFlags.
    split.
    + intros Hok. apply bind_Ok in Hok as ([|] & Hdir & Hok); [left|right];
        (split; [exact Hdir|]);
        apply bind_Ok in Hok as (v & Hconv & Hok); inversion Hok; subst; eauto.
    + intros [(Hdir & v & Hconv & ->)|(Hdir & v & Hconv & ->)];
        rewrite Hdir; cbn [bind]; rewrite Hconv; reflexivity.
  - intros role type v. unfold legacy2aidl_audio_io_flags_AudioIoFlags.
    split; intros ->; cbn [bind]; unfold audio_io_flags_input, audio_io_flags_output;
      cbn [audio_io_flags.storage audio_io_flags.input audio_io_flags.output].
    + rewrite legacy2aidl_audio_input_flags_mask_cast. reflexivity.
    + rewrite legacy2aidl_audio_output_flags_mask_cast. reflexivity.
Qed.

Hypothesis labels : distinct_case_labels.

(** X9. The member of the wire extension that is read follows the port type:
    [device] for DEVICE, [mix] for MIX, [session] for SESSION, and for NONE
    the union has to hold [nothing] and the legacy extension is left
    unwritten ([mix] and [session] leave the storage behind them
    unwritten).  A wire union holding another member than the one of the
    type is BAD_VALUE, and a type that is none of the four enumerators
    ends the call in [LOG_ALWAYS_FATAL]. *)
Theorem ext_member_follows_type (aidl : media.AudioPortConfigExt.t) (role : Z) :
  (forall legacy,
     aidl2legacy_AudioPortConfigExt aidl media.AudioPortType.NONE role = Ok legacy <->
     (exists b, aidl = media.AudioPortConfigExt.nothing b) /\
     legacy = local_init) /\
  (forall legacy,
     aidl2legacy_AudioPortConfigExt aidl media.AudioPortType.DEVICE role = Ok legacy <->
     exists aidl_device legacy_device,
       aidl = media.AudioPortConfigExt.device aidl_device /\
       aidl2legacy_AudioPortConfigDeviceExt aidl_device = Ok legacy_device /\
       legacy = audio_port_config_ext.device legacy_device) /\
  (forall legacy,
     aidl2legacy_AudioPortConfigExt aidl media.AudioPortType.MIX role = Ok legacy <->
     exists aidl_mix legacy_mix,
       aidl = media.AudioPortConfigExt.mix aidl_mix /\
       aidl2legacy_AudioPortConfigMixExt aidl_mix role = Ok legacy_mix /\
       legacy = audio_port_config_ext.mix legacy_mix local_init) /\
  (forall legacy,
     aidl2legacy_AudioPortConfigExt aidl media.AudioPortType.SESSION role = Ok legacy <->
     exists aidl_session legacy_session,
       aidl = media.AudioPortConfigExt.session aidl_session /\
       aidl2legacy_AudioPortConfigSessionExt aidl_session = Ok legacy_session /\
       legacy = audio_port_config_ext.session legacy_session local_init) /\
  (forall type,
     type ∉ [media.AudioPortType.NONE; media.AudioPortType.DEVICE;
             media.AudioPortType.MIX; media.AudioPortType.SESSION] ->
     aidl2legacy_AudioPortConfigExt aidl type role = Abnormal LOG_ALWAYS_FATAL).
Proof.
  pose proof (labels_aidl2legacy_AudioPortType_audio_port_type_t labels) as Htypes.
  unfold aidl2legacy_AudioPortConfigExt. cbv zeta.
  split; [|split; [|split; [|split]]].
  - intros legacy. erewrite switch_elem_of; [|exact Htypes|prove_elem_of].
    rewrite bind_Ok. split.
    + intros (b & Hget & Hok). destruct aidl; try discriminate.
      inversion Hok. eauto.
    + intros [[b ->] ->]. exists b. done.
  - intros legacy. erewrite switch_elem_of; [|exact Htypes|prove_elem_of].
    rewrite bind_Ok. split.
    + intros (d & Hget & Hok). apply bind_Ok in Hok as (d' & Hconv & Hok).
      destruct aidl; try discriminate. inversion Hget; inversion Hok; subst. eauto.
    + intros (d & d' & -> & Hconv & ->). exists d. split; [done|].
      rewrite Hconv. reflexivity.
  - intros legacy. erewrite switch_elem_of; [|exact Htypes|prove_elem_of].
    rewrite bind_Ok. split.
    + intros (d & Hget & Hok). apply bind_Ok in Hok as (d' & Hconv & Hok).
      destruct aidl; try discriminate. inversion Hget; inversion Hok; subst. eauto.
    + intros (d & d' & -> & Hconv & ->). exists d. split; [done|].
      rewrite Hconv. reflexivity.
  - intros legacy. erewrite switch_elem_of; [|exact Htypes|prove_elem_of].
    rewrite bind_Ok. split.
    + intros (d & Hget & Hok). apply bind_Ok in Hok as (d' & Hconv & Hok).
      destruct aidl; try discriminate. inversion Hget; inversion Hok; subst. eauto.
    + intros (d & d' & -> & Hconv & ->). exists d. split; [done|].
      rewrite Hconv. reflexivity.
  - intros type Hnone. apply switch_default. exact Hnone.
Qed.
End UnionMembers.

(** ** Calls that return *)

Lemma returns_Ok {T} (v : T) : returns_normally (Ok v).
Proof. left. exact I. Qed.

Lemma returns_BAD_VALUE {T} : returns_normally (@unexpected T BAD_VALUE).
Proof. right. reflexivity. Qed.

Lemma returns_bind {A B} (m : ConversionResult A) (k : A -> ConversionResult B) :
  returns_normally m -> (forall a, m = Ok a -> returns_normally (k a)) ->
  returns_normally (bind m k).
Proof.
  intros [Hm| ->] Hk; [|right; reflexivity].
  apply is_Ok_exists in Hm as [a ->]. simpl. auto.
Qed.

Lemma returns_switch {R} (x : Z) (cases : list (Z * ConversionResult R))
    (d : ConversionResult R) :
  Forall (fun c => returns_normally c.2) cases -> returns_normally d ->
  returns_normally (switch x cases d).
Proof.
  intros Hcases Hd. destruct (switch_inv x cases d _ eq_refl) as [Hin| ->]; [|done].
  rewrite list.Forall_forall in Hcases. exact (Hcases _ Hin).
Qed.

Lemma returns_convertIntegral (To : IntegralType) (from : Z) :
  returns_normally (convertIntegral To from).
Proof.
  unfold convertIntegral. destruct (representable To from);
    [apply returns_Ok|apply returns_BAD_VALUE].
Qed.

Lemma returns_convertBitmask {DestEnum SrcEnum : Type} (DestMask SrcMask : IntegralType)
    (src : Z) (enumConversion : SrcEnum -> ConversionResult DestEnum)
    (srcIndexToEnum : Z -> SrcEnum) (destEnumToMask : DestEnum -> Z) :
  (forall e, returns_normally (enumConversion e)) ->
  returns_normally
    (convertBitmask DestMask SrcMask src enumConversion srcIndexToEnum destEnumToMask).
Proof.
  intros Henum. unfold convertBitmask. cbv zeta.
  apply returns_bind; [|intros; apply returns_Ok].
  generalize (static_cast (make_unsigned DestMask) 0) as dest.
  generalize (static_cast (make_unsigned SrcMask) src) as usrc.
  generalize 0 as srcBitIndex.
  induction (Z.to_nat (bits SrcMask)) as [|fuel IH]; intros srcBitIndex usrc dest; simpl;
    [apply returns_Ok|].
  destruct (decide (usrc = 0)); [apply returns_Ok|].
  apply returns_bind; [|intros; apply IH].
  destruct (decide (Z.land usrc 1 <> 0)); [|apply returns_Ok].
  apply returns_bind; [apply Henum|intros; apply returns_Ok].
Qed.

(** A loop whose body returns, and keeps an invariant, returns and
    establishes the invariant. *)
Lemma for_loop_invariant {S} (P : Z -> S -> Prop) (n : nat) (start : Z)
    (body : Z -> S -> ConversionResult S) (s : S) :
  P start s ->
  (forall i s, start <= i < start + Z.of_nat n -> P i s ->
     returns_normally (body i s) /\ forall s', body i s = Ok s' -> P (i + 1) s') ->
  returns_normally (for_loop n start body s) /\
  forall s', for_loop n start body s = Ok s' -> P (start + Z.of_nat n) s'.
Proof.
  revert start s. induction n as [|n IH]; intros start s Hs Hbody; simpl for_loop.
  - split; [apply returns_Ok|]. intros s' Heq. inversion Heq; subst.
    replace (start + Z.of_nat 0) with start by lia. exact Hs.
  - destruct (Hbody start s ltac:(lia) Hs) as [Hret Hnext].
    assert (forall s1, body start s = Ok s1 ->
              returns_normally (for_loop n (start + 1) body s1) /\
              forall s', for_loop n (start + 1) body s1 = Ok s' ->
                         P (start + 1 + Z.of_nat n) s') as Hrest.
    { intros s1 Hs1. apply IH; [auto|]. intros i s2 Hi. apply Hbody. lia. }
    split.
    + apply returns_bind; [exact Hret|]. intros s1 Hs1. apply (Hrest s1 Hs1).
    + intros s' Hok. apply bind_Ok in Hok as (s1 & Hs1 & Hok).
      replace (start + Z.of_nat (Datatypes.S n)) with (start + 1 + Z.of_nat n) by lia.
      apply (Hrest s1 Hs1). exact Hok.
Qed.

Lemma at_index_Ok {T} (v : list T) (i : Z) :
  0 <= i < size v -> exists x, at_index v i = Ok x /\ v !! Z.to_nat i = Some x.
Proof.
  unfold size, at_index. intros Hi.
  destruct (lookup_lt_is_Some_2 v (Z.to_nat i) ltac:(lia)) as [x Hx].
  exists x. rewrite Hx. destruct (decide (0 <= i)); [done|lia].
Qed.

Lemma set_index_Ok {T} (v : list T) (i : Z) (x : T) :
  0 <= i < size v -> set_index v i x = Ok (<[Z.to_nat i := x]> v).
Proof. unfold size, set_index. intros Hi. destruct (decide _); [done|lia]. Qed.

Ltac returns_step :=
  apply returns_bind;
  [first [apply returns_Ok | apply returns_BAD_VALUE | apply returns_convertIntegral]|].

Section Returns.
Context `{Headers}.
Hypothesis labels : distinct_case_labels.
Hypothesis gain_values_array :
  size (audio_gain_config.values local_init) = audio_gain_config_values_size.

Ltac returns_enum_switch :=
  apply returns_switch;
  [repeat (apply List.Forall_cons; [apply returns_Ok|]); apply List.Forall_nil
  |first [apply returns_BAD_VALUE | apply returns_Ok]].

Lemma returns_direction role type : returns_normally (direction role type).
Proof.
  unfold direction. apply returns_switch; [|apply returns_BAD_VALUE].
  repeat (apply List.Forall_cons; [cbn [snd]; returns_enum_switch|]). apply List.Forall_nil.
Qed.

Lemma returns_aidl2legacy_AudioGainConfig aidl role type :
  returns_normally (aidl2legacy_AudioGainConfig_audio_gain_config aidl role type).
Proof.
  unfold aidl2legacy_AudioGainConfig_audio_gain_config. cbv zeta.
  returns_step. intros legacy_index _.
  apply returns_bind.
  { apply returns_convertBitmask. intros e. unfold aidl2legacy_AudioGainMode_int.
    returns_enum_switch. }
  intros legacy_mode _. returns_step. intros legacy_channel_mask _.
  apply returns_bind; [apply returns_direction|]. intros dir _.
  destruct (decide _) as [Hbad|Hgood]; [apply returns_BAD_VALUE|].
  set (numValues := gain_numValues _ _ _) in *.
  apply returns_bind; [|intros legacy_values _; returns_step; intros; apply returns_Ok].
  refine (proj1 (for_loop_invariant
                   (fun _ values => size values = audio_gain_config_values_size)
                   _ 0 _ _ gain_values_array _)).
  intros i values Hi Hlen.
  destruct (at_index_Ok (media.AudioGainConfig.values aidl) i ltac:(lia))
    as (aidl_value & -> & _).
  simpl. split.
  - returns_step. intros value _. rewrite set_index_Ok by lia. apply returns_Ok.
  - intros values' Hok. apply bind_Ok in Hok as (value & _ & Hok).
    rewrite set_index_Ok in Hok by lia. inversion Hok. unfold size in *.
    rewrite length_insert. exact Hlen.
Qed.

Lemma returns_aidl2legacy_AudioIoFlags aidl role type :
  returns_normally (aidl2legacy_AudioIoFlags_audio_io_flags aidl role type).
Proof.
  unfold aidl2legacy_AudioIoFlags_audio_io_flags. cbv zeta.
  apply returns_bind; [apply returns_direction|]. intros [|] _.
  - apply returns_bind; [destruct aidl; [apply returns_Ok|apply returns_BAD_VALUE]|].
    intros v _. apply returns_bind; [|intros; apply returns_Ok].
    unfold aidl2legacy_audio_input_flags_mask. cbv zeta.
    apply returns_bind; [|intros; apply returns_Ok].
    apply returns_convertBitmask. intros e.
    unfold aidl2legacy_AudioInputFlags_audio_input_flags_t. returns_enum_switch.
  - apply returns_bind; [destruct aidl; [apply returns_BAD_VALUE|apply returns_Ok]|].
    intros v _. apply returns_bind; [|intros; apply returns_Ok].
    apply returns_convertBitmask. intros e.
    unfold aidl2legacy_AudioOutputFlags_audio_output_flags_t. returns_enum_switch.
Qed.

Lemma returns_aidl2legacy_AudioPortConfigDeviceExt aidl :
  returns_normally (aidl2legacy_AudioPortConfigDeviceExt aidl).
Proof.
  unfold aidl2legacy_AudioPortConfigDeviceExt. cbv zeta.
  returns_step. intros hw _. returns_step. intros type _.
  destruct (aidl2legacy_string _ _ _) as [[|] address];
    [apply returns_Ok|apply returns_BAD_VALUE].
Qed.

(** The role has been accepted by [aidl2legacy_AudioPortRole_audio_port_role_t]. *)
Lemma returns_aidl2legacy_AudioPortConfigMixExt aidl role legacy_role :
  aidl2legacy_AudioPortRole_audio_port_role_t role = Ok legacy_role ->
  returns_normally (aidl2legacy_AudioPortConfigMixExt aidl role).
Proof.
  intros Hrole. unfold aidl2legacy_AudioPortConfigMixExt.
  returns_step. intros hw _. returns_step. intros handle _.
  apply returns_bind; [|intros; apply returns_Ok].
  unfold aidl2legacy_AudioPortConfigMixExtUseCase. cbv zeta.
  apply switch_inv in Hrole as [Hrole|Hrole]; [|discriminate].
  repeat (apply elem_of_cons in Hrole as [Hrole|Hrole];
          [inversion Hrole; subst; clear Hrole;
           erewrite switch_elem_of;
           [|exact (labels_aidl2legacy_AudioPortRole_audio_port_role_t labels)
            |prove_elem_of]|]);
    [..|apply elem_of_nil in Hrole; destruct Hrole].
  - apply returns_bind; [|intros; apply returns_Ok].
    destruct (media.AudioPortConfigMixExt.usecase aidl);
      first [apply returns_Ok|apply returns_BAD_VALUE].
  - apply returns_bind;
      [destruct (media.AudioPortConfigMixExt.usecase aidl);
       first [apply returns_Ok|apply returns_BAD_VALUE]|].
    intros v _. apply returns_bind; [|intros; apply returns_Ok].
    unfold aidl2legacy_AudioStreamType_audio_stream_type_t. returns_enum_switch.
  - apply returns_bind;
      [destruct (media.AudioPortConfigMixExt.usecase aidl);
       first [apply returns_Ok|apply returns_BAD_VALUE]|].
    intros v _. apply returns_bind; [|intros; apply returns_Ok].
    unfold aidl2legacy_AudioSourceType_audio_source_t. returns_enum_switch.
Qed.

Lemma returns_aidl2legacy_AudioPortConfigExt aidl type role legacy_type legacy_role :
  aidl2legacy_AudioPortType_audio_port_type_t type = Ok legacy_type ->
  aidl2legacy_AudioPortRole_audio_port_role_t role = Ok legacy_role ->
  returns_normally (aidl2legacy_AudioPortConfigExt aidl type role).
Proof.
  intros Htype Hrole. unfold aidl2legacy_AudioPortConfigExt. cbv zeta.
  apply switch_inv in Htype as [Htype|Htype]; [|discriminate].
  repeat (apply elem_of_cons in Htype as [Htype|Htype];
          [inversion Htype; subst; clear Htype;
           erewrite switch_elem_of;
           [|exact (labels_aidl2legacy_AudioPortType_audio_port_type_t labels)
            |prove_elem_of]|]);
    [..|apply elem_of_nil in Htype; destruct Htype].
  - apply returns_bind; [|intros; apply returns_Ok].
    destruct aidl; first [apply returns_Ok|apply returns_BAD_VALUE].
  - apply returns_bind;
      [destruct aidl; first [apply returns_Ok|apply returns_BAD_VALUE]|].
    intros d _. apply returns_bind; [|intros; apply returns_Ok].
    apply returns_aidl2legacy_AudioPortConfigDeviceExt.
  - apply returns_bind;
      [destruct aidl; first [apply returns_Ok|apply returns_BAD_VALUE]|].
    intros m _. apply returns_bind; [|intros; apply returns_Ok].
    eapply returns_aidl2legacy_AudioPortConfigMixExt, Hrole.
  - apply returns_bind;
      [destruct aidl; first [apply returns_Ok|apply returns_BAD_VALUE]|].
    intros s _. apply returns_bind; [|intros; apply returns_Ok].
    unfold aidl2legacy_AudioPortConfigSessionExt. returns_step. intros; apply returns_Ok.
Qed.

Lemma returns_aidl2legacy_AudioPortConfig aidl :
  returns_normally (aidl2legacy_AudioPortConfig_audio_port_config aidl).
Proof.
  unfold aidl2legacy_AudioPortConfig_audio_port_config. cbv zeta.
  returns_step. intros legacy_id _.
  apply returns_bind;
    [unfold aidl2legacy_AudioPortRole_audio_port_role_t; returns_enum_switch|].
  intros legacy_role Hrole.
  apply returns_bind;
    [unfold aidl2legacy_AudioPortType_audio_port_type_t; returns_enum_switch|].
  intros legacy_type Htype.
  apply returns_bind.
  { apply returns_convertBitmask. intros e. unfold aidl2legacy_AudioPortConfigType.
    returns_enum_switch. }
  intros legacy_config_mask _.
  apply returns_bind;
    [destruct (bitmaskIsSet _ _ _); [apply returns_convertIntegral|apply returns_Ok]|].
  intros legacy_sample_rate _.
  apply returns_bind; [destruct (bitmaskIsSet _ _ _); apply returns_Ok|].
  intros legacy_channel_mask _.
  apply returns_bind; [destruct (bitmaskIsSet _ _ _); apply returns_Ok|].
  intros legacy_format _.
  apply returns_bind;
    [destruct (bitmaskIsSet _ _ _);
     [apply returns_aidl2legacy_AudioGainConfig|apply returns_Ok]|].
  intros legacy_gain _.
  apply returns_bind;
    [destruct (bitmaskIsSet _ _ _);
     [apply returns_aidl2legacy_AudioIoFlags|apply returns_Ok]|].
  intros legacy_flags _.
  apply returns_bind; [|intros; apply returns_Ok].
  eapply returns_aidl2legacy_AudioPortConfigExt; [exact Htype|exact Hrole].
Qed.

(** X10. [aidl2legacy_AudioPortConfig_audio_port_config] returns on every
    wire port config, with a value or with BAD_VALUE: the role and the type
    are validated before they select a union member, so neither
    [LOG_ALWAYS_FATAL] is reached, and the gain values are written inside
    the array.  Called on its own, the extension converter aborts on a type
    that is no enumerator. *)
Theorem port_config_conversion_returns :
  (forall aidl, returns_normally (aidl2legacy_AudioPortConfig_audio_port_config aidl)) /\
  (forall aidl type role,
     type ∉ [media.AudioPortType.NONE; media.AudioPortType.DEVICE;
             media.AudioPortType.MIX; media.AudioPortType.SESSION] ->
     ~ returns_normally (aidl2legacy_AudioPortConfigExt aidl type role)).
Proof.
  split; [exact returns_aidl2legacy_AudioPortConfig|].
  intros aidl type role Hnone. unfold aidl2legacy_AudioPortConfigExt. cbv zeta.
  rewrite switch_default by exact Hnone. intros [Hok|Heq]; [exact Hok|discriminate].
Qed.
End Returns.

(** ** Loops over arrays and vectors *)

Lemma for_loop_Ok_invariant {S} (P : Z -> S -> Prop) (n : nat) (start : Z)
    (body : Z -> S -> ConversionResult S) (s s' : S) :
  P start s ->
  (forall i s s', start <= i < start + Z.of_nat n -> P i s -> body i s = Ok s' ->
     P (i + 1) s') ->
  for_loop n start body s = Ok s' -> P (start + Z.of_nat n) s'.
Proof.
  revert start s. induction n as [|n IH]; intros start s Hs Hbody; simpl for_loop.
  - intros Heq. inversion Heq; subst.
    replace (start + Z.of_nat 0) with start by lia. exact Hs.
  - intros Hok. apply bind_Ok in Hok as (s1 & Hs1 & Hok).
    replace (start + Z.of_nat (Datatypes.S n)) with (start + 1 + Z.of_nat n) by lia.
    apply (IH (start + 1) s1); [apply (Hbody start s s1); (lia || done)| |exact Hok].
    intros i s2 s3 Hi. apply Hbody. lia.
Qed.

Lemma at_index_inv {T} (v : list T) (i : Z) (x : T) :
  at_index v i = Ok x -> 0 <= i /\ v !! Z.to_nat i = Some x.
Proof.
  unfold at_index. destruct (v !! Z.to_nat i) as [y|]; [|discriminate].
  destruct (decide (0 <= i)); [|discriminate]. intros Heq. inversion Heq. done.
Qed.

Lemma set_index_inv {T} (v v' : list T) (i : Z) (x : T) :
  set_index v i x = Ok v' -> 0 <= i < size v /\ v' = <[Z.to_nat i := x]> v.
Proof.
  unfold set_index, size. destruct (decide _); [|discriminate].
  intros Heq. inversion Heq. done.
Qed.

Section ArrayLoops.
Context {A B : Type}.
Variable convert : A -> ConversionResult B.

Local Abbreviation array_loop n src :=
  (for_loop n 0
     (fun i dest =>
        VALUE_OR_RETURN x <- at_index src i;
        VALUE_OR_RETURN y <- convert x;
        set_index dest i y)).

Local Abbreviation vector_loop n src :=
  (for_loop n 0
     (fun i dest =>
        VALUE_OR_RETURN x <- at_index src i;
        VALUE_OR_RETURN y <- convert x;
        Ok (dest ++ [y]))).

Lemma array_loop_Ok (n : nat) (src : list A) (init dest : list B) :
  array_loop n src init = Ok dest -> converted_into convert n src init dest.
Proof.
  intros Hok.
  pose (P := fun (i : Z) (s : list B) =>
    0 <= i /\ length s = length init /\
    (forall j, (j < Z.to_nat i)%nat ->
       exists x y, src !! j = Some x /\ convert x = Ok y /\ s !! j = Some y) /\
    (forall j, (Z.to_nat i <= j)%nat -> s !! j = init !! j)).
  assert (P (0 + Z.of_nat n) dest) as (_ & Hlen & Hconv & Hrest).
  { apply (for_loop_Ok_invariant P _ _ _ _ _) with (3 := Hok).
    - repeat split; (lia || done).
    - intros i s s' Hi (_ & Hlen & Hconv & Hrest) Hbody.
      apply bind_Ok in Hbody as (x & Hx & Hbody). apply at_index_inv in Hx as [_ Hx].
      apply bind_Ok in Hbody as (y & Hy & Hbody).
      apply set_index_inv in Hbody as [Hin ->]. unfold size in Hin.
      repeat split.
      + lia.
      + rewrite length_insert. exact Hlen.
      + intros j Hj. destruct (decide (j = Z.to_nat i)) as [->|Hne].
        * exists x, y. rewrite list_lookup_insert_eq by lia. done.
        * rewrite list_lookup_insert_ne by done. apply Hconv. lia.
      + intros j Hj. rewrite list_lookup_insert_ne by lia. apply Hrest. lia. }
  repeat split.
  - exact Hlen.
  - intros i Hi. apply Hconv. lia.
  - intros i Hi. apply Hrest. lia.
Qed.

Lemma array_loop_returns (n : nat) (src : list A) (init : list B) :
  (forall x, returns_normally (convert x)) ->
  (n <= length src)%nat -> (n <= length init)%nat ->
  returns_normally (array_loop n src init).
Proof.
  intros Hconvert Hsrc Hfits.
  refine (proj1 (for_loop_invariant (fun _ s => length s = length init) _ 0 _ _ eq_refl _)).
  intros i s Hi Hlen.
  destruct (at_index_Ok src i ltac:(unfold size; lia)) as (x & -> & _). simpl.
  split.
  - apply returns_bind; [apply Hconvert|]. intros y _.
    rewrite set_index_Ok by (unfold size; lia). apply returns_Ok.
  - intros s' Hok. apply bind_Ok in Hok as (y & _ & Hok).
    apply set_index_inv in Hok as [_ ->]. rewrite length_insert. exact Hlen.
Qed.

Lemma vector_loop_Ok (n : nat) (src : list A) (dest : list B) :
  vector_loop n src [] = Ok dest -> converted_prefix convert n src dest.
Proof.
  intros Hok.
  pose (P := fun (i : Z) (s : list B) =>
    0 <= i /\ length s = Z.to_nat i /\
    (forall j, (j < Z.to_nat i)%nat ->
       exists x y, src !! j = Some x /\ convert x = Ok y /\ s !! j = Some y)).
  assert (P (0 + Z.of_nat n) dest) as (_ & Hlen & Hconv).
  { apply (for_loop_Ok_invariant P _ _ _ _ _) with (3 := Hok).
    - repeat split; [lia|]. intros j Hj. simpl in Hj. lia.
    - intros i s s' Hi (_ & Hlen & Hconv) Hbody.
      apply bind_Ok in Hbody as (x & Hx & Hbody). apply at_index_inv in Hx as [_ Hx].
      apply bind_Ok in Hbody as (y & Hy & Hbody). inversion Hbody; subst s'.
      repeat split.
      + lia.
      + rewrite length_app. simpl. lia.
      + intros j Hj. destruct (decide (j = Z.to_nat i)) as [->|Hne].
        * exists x, y. repeat split; [done..|].
          rewrite lookup_app_r by lia. rewrite Hlen, Nat.sub_diag. reflexivity.
        * destruct (Hconv j ltac:(lia)) as (x' & y' & ? & ? & ?).
          exists x', y'. repeat split; [done..|].
          rewrite lookup_app_l by lia. done. }
  split; [lia|]. intros i Hi. apply Hconv. lia.
Qed.

Lemma vector_loop_returns (n : nat) (src : list A) :
  (forall x, returns_normally (convert x)) -> (n <= length src)%nat ->
  returns_normally (vector_loop n src []).
Proof.
  intros Hconvert Hfits.
  refine (proj1 (for_loop_invariant (fun _ _ => True) _ 0 _ _ I _)).
  intros i s Hi _.
  destruct (at_index_Ok src i ltac:(unfold size; lia)) as (x & -> & _). simpl.
  split; [|done]. apply returns_bind; [apply Hconvert|]. intros; apply returns_Ok.
Qed.
End ArrayLoops.

(** ** Patches *)

Section PatchPorts.
Context `{Headers}.

(** X11. A converted patch holds, at the indices of the wire sinks and
    sources, their conversions, and counts them in [num_sinks] and
    [num_sources]; the entries of the two arrays after them are those of
    the uninitialised local.  In the other direction the vectors of the
    wire patch are the conversions of the first [num_sinks] and
    [num_sources] entries of the arrays. *)
Theorem patch_converts_elementwise :
  (forall aidl legacy,
     aidl2legacy_AudioPatch_audio_patch aidl = Ok legacy ->
     audio_patch.num_sinks legacy = size (media.AudioPatch.sinks aidl) /\
     audio_patch.num_sources legacy = size (media.AudioPatch.sources aidl) /\
     converted_into aidl2legacy_AudioPortConfig_audio_port_config
       (length (media.AudioPatch.sinks aidl))
       (media.AudioPatch.sinks aidl) (audio_patch.sinks local_init)
       (audio_patch.sinks legacy) /\
     converted_into aidl2legacy_AudioPortConfig_audio_port_config
       (length (media.AudioPatch.sources aidl))
       (media.AudioPatch.sources aidl) (audio_patch.sources local_init)
       (audio_patch.sources legacy)) /\
  (forall legacy aidl,
     legacy2aidl_audio_patch_AudioPatch legacy = Ok aidl ->
     converted_prefix legacy2aidl_audio_port_config_AudioPortConfig
       (Z.to_nat (audio_patch.num_sinks legacy)) (audio_patch.sinks legacy)
       (media.AudioPatch.sinks aidl) /\
     converted_prefix legacy2aidl_audio_port_config_AudioPortConfig
       (Z.to_nat (audio_patch.num_sources legacy)) (audio_patch.sources legacy)
       (media.AudioPatch.sources aidl)).
Proof.
  split.
  - intros aidl legacy Hok. unfold aidl2legacy_AudioPatch_audio_patch in Hok.
    cbv zeta in Hok.
    apply bind_Ok in Hok as (legacy_id & _ & Hok).
    apply bind_Ok in Hok as (num_sinks & Hsinks & Hok).
    apply convertIntegral_Ok in Hsinks as [-> _].
    destruct (decide _); [discriminate|].
    apply bind_Ok in Hok as (legacy_sinks & Hloop_sinks & Hok).
    apply bind_Ok in Hok as (num_sources & Hsources & Hok).
    apply convertIntegral_Ok in Hsources as [-> _].
    destruct (decide _); [discriminate|].
    apply bind_Ok in Hok as (legacy_sources & Hloop_sources & Hok).
    inversion Hok; subst legacy; simpl. unfold size in *.
    rewrite Nat2Z.id in Hloop_sinks, Hloop_sources.
    split; [reflexivity|]. split; [reflexivity|]. split; apply array_loop_Ok; done.
  - intros legacy aidl Hok. unfold legacy2aidl_audio_patch_AudioPatch in Hok.
    apply bind_Ok in Hok as (aidl_id & _ & Hok).
    destruct (decide _); [discriminate|].
    apply bind_Ok in Hok as (aidl_sinks & Hloop_sinks & Hok).
    destruct (decide _); [discriminate|].
    apply bind_Ok in Hok as (aidl_sources & Hloop_sources & Hok).
    inversion Hok; subst aidl; simpl.
    split; apply vector_loop_Ok; done.
Qed.

Hypothesis labels : distinct_case_labels.
Hypothesis gain_values_array :
  size (audio_gain_config.values local_init) = audio_gain_config_values_size.
Hypothesis sinks_array : size (audio_patch.sinks local_init) = AUDIO_PATCH_PORTS_MAX.
Hypothesis sources_array : size (audio_patch.sources local_init) = AUDIO_PATCH_PORTS_MAX.

Lemma patch_conversion_returns_lemma (aidl : media.AudioPatch.t) :
  returns_normally (aidl2legacy_AudioPatch_audio_patch aidl).
Proof.
  unfold aidl2legacy_AudioPatch_audio_patch. cbv zeta.
  returns_step. intros legacy_id _.
  returns_step. intros num_sinks Hsinks.
  apply convertIntegral_Ok in Hsinks as [-> _].
  destruct (decide _); [apply returns_BAD_VALUE|].
  apply returns_bind.
  { unfold size in *. rewrite Nat2Z.id. apply array_loop_returns; [|lia|lia].
    apply returns_aidl2legacy_AudioPortConfig; done. }
  intros legacy_sinks _. returns_step. intros num_sources Hsources.
  apply convertIntegral_Ok in Hsources as [-> _].
  destruct (decide _); [apply returns_BAD_VALUE|].
  apply returns_bind; [|intros; apply returns_Ok].
  unfold size in *. rewrite Nat2Z.id. apply array_loop_returns; [|lia|lia].
  apply returns_aidl2legacy_AudioPortConfig; done.
Qed.

(** X12. [aidl2legacy_AudioPatch_audio_patch] returns on every wire patch, with
    a value or with BAD_VALUE: the two counts are checked against
    [AUDIO_PATCH_PORTS_MAX] before the loops, which therefore stay inside
    the vectors they read and the arrays they write. *)
Theorem patch_conversion_returns (aidl : media.AudioPatch.t) :
  returns_normally (aidl2legacy_AudioPatch_audio_patch aidl).
Proof. exact (patch_conversion_returns_lemma aidl). Qed.
End PatchPorts.

(** ** Gain values *)

Lemma converted_into_length {A B} (convert : A -> ConversionResult B) (n : nat)
    (src : list A) (init dest : list B) :
  converted_into convert n src init dest ->
  (n <= length src)%nat /\ (n <= length init)%nat.
Proof.
  intros (Hlen & Hconv & _). destruct n as [|n]; [lia|].
  destruct (Hconv n ltac:(lia)) as (x & y & Hx & _ & Hy).
  apply lookup_lt_Some in Hx. apply lookup_lt_Some in Hy. lia.
Qed.

(** With [convertIntegral] as element conversion the elements are copied. *)
Lemma converted_into_convertIntegral (T : IntegralType) (n : nat) (src init dest : list Z) :
  converted_into (convertIntegral T) n src init dest ->
  dest = take n src ++ drop n init /\
  Forall (fun x => representable T x = true) (take n src).
Proof.
  intros Hinto. pose proof (converted_into_length _ _ _ _ _ Hinto) as [Hsrc Hinit].
  destruct Hinto as (Hlen & Hconv & Hrest). split.
  - apply list_eq. intros i. destruct (decide (i < n)%nat) as [Hi|Hi].
    + destruct (Hconv i Hi) as (x & y & Hx & Hy & ->).
      apply convertIntegral_Ok in Hy as [-> _].
      rewrite lookup_app_l by (rewrite length_take; lia).
      rewrite lookup_take_lt by done. done.
    + rewrite Hrest by lia. rewrite lookup_app_r by (rewrite length_take; lia).
      rewrite length_take, lookup_drop. f_equal. lia.
  - apply list.Forall_forall. intros x Hin.
    apply list_elem_of_lookup in Hin as [i Hi].
    pose proof (lookup_lt_Some _ _ _ Hi) as Hlt. rewrite length_take in Hlt.
    rewrite lookup_take_lt in Hi by lia.
    destruct (Hconv i ltac:(lia)) as (x' & y & Hx & Hy & _).
    apply convertIntegral_Ok in Hy as [_ Hy]. congruence.
Qed.

Section GainValues.
Context `{Headers}.

(** X13. The gain values are copied, not transformed.  A converted wire gain
    config holds the wire values, each of which fits an [int], at the start
    of the array, followed by what the array of the uninitialised local
    held; a converted legacy gain config holds the first [numValues]
    entries of the array, [numValues] being 1 in joint mode and the channel
    count of the mask otherwise. *)
Theorem gain_values_copied :
  (forall aidl role type legacy,
     aidl2legacy_AudioGainConfig_audio_gain_config aidl role type = Ok legacy ->
     audio_gain_config.values legacy =
       media.AudioGainConfig.values aidl ++
       drop (length (media.AudioGainConfig.values aidl))
         (audio_gain_config.values local_init) /\
     Forall (fun x => representable int x = true) (media.AudioGainConfig.values aidl)) /\
  (forall legacy role type aidl,
     legacy2aidl_audio_gain_config_AudioGainConfig legacy role type = Ok aidl ->
     exists dir,
       direction_legacy role type = Ok dir /\
       let numValues :=
         gain_numValues
           (negb (Z.land (audio_gain_config.mode legacy) AUDIO_GAIN_MODE_JOINT =? 0))
           (isInputDirection dir) (audio_gain_config.channel_mask legacy) in
       media.AudioGainConfig.values aidl =
         take (Z.to_nat numValues) (audio_gain_config.values legacy) /\
       size (media.AudioGainConfig.values aidl) = Z.max 0 numValues).
Proof.
  split.
  - intros aidl role type legacy Hok.
    unfold aidl2legacy_AudioGainConfig_audio_gain_config in Hok. cbv zeta in Hok.
    apply bind_Ok in Hok as (legacy_index & _ & Hok).
    apply bind_Ok in Hok as (legacy_mode & _ & Hok).
    apply bind_Ok in Hok as (legacy_channel_mask & _ & Hok).
    apply bind_Ok in Hok as (dir & _ & Hok).
    set (numValues := gain_numValues _ _ _) in *.
    destruct (decide _) as [|Hsize]; [discriminate|].
    apply bind_Ok in Hok as (legacy_values & Hloop & Hok).
    apply bind_Ok in Hok as (legacy_ramp & _ & Hok).
    inversion Hok; subst legacy; simpl.
    assert (Z.to_nat numValues = length (media.AudioGainConfig.values aidl)) as Hn
      by (unfold size in Hsize; lia).
    rewrite Hn in Hloop. apply array_loop_Ok, converted_into_convertIntegral in Hloop.
    rewrite firstn_all in Hloop. exact Hloop.
  - intros legacy role type aidl Hok.
    unfold legacy2aidl_audio_gain_config_AudioGainConfig in Hok. cbv zeta in Hok.
    apply bind_Ok in Hok as (aidl_index & _ & Hok).
    apply bind_Ok in Hok as (aidl_mode & _ & Hok).
    apply bind_Ok in Hok as (aidl_channelMask & _ & Hok).
    apply bind_Ok in Hok as (dir & Hdir & Hok).
    exists dir. split; [exact Hdir|]. cbv zeta.
    set (numValues := gain_numValues _ _ _) in *.
    apply bind_Ok in Hok as (aidl_values & Hloop & Hok).
    apply bind_Ok in Hok as (aidl_ramp & _ & Hok).
    inversion Hok; subst aidl; simpl.
    apply array_loop_Ok in Hloop.
    pose proof (converted_into_length _ _ _ _ _ Hloop) as [Hsrc _].
    apply converted_into_convertIntegral in Hloop as [-> _].
    rewrite drop_replicate, Nat.sub_diag. simpl. rewrite app_nil_r.
    split; [reflexivity|]. unfold size. rewrite length_take. lia.
Qed.
End GainValues.

(** ** convertBitmask, both ways *)

Section ConvertBitmaskExact.
Context {DestEnum SrcEnum : Type}.
Variables DestMask SrcMask : IntegralType.
Variable enumConversion : SrcEnum -> ConversionResult DestEnum.
Variable srcIndexToEnum : Z -> SrcEnum.
Variable destEnumToMask : DestEnum -> Z.

Local Abbreviation convert src :=
  (convertBitmask DestMask SrcMask src enumConversion srcIndexToEnum destEnumToMask).

(** X14. [convertBitmask] succeeds exactly on the masks all of whose set bits
    the enum conversion accepts; a bit of the result is set exactly when it
    is set in the mask of one of the converted enumerators, so the result is
    their union; and the empty mask converts to the empty mask, whatever
    the enum conversion does. *)
Theorem convertBitmask_exact :
  (forall src,
     is_Ok (convert src) <->
     forall i, 0 <= i < bits SrcMask -> Z.testbit src i = true ->
       is_Ok (enumConversion (srcIndexToEnum i))) /\
  (forall src dest, convert src = Ok dest ->
     forall k, 0 <= k < bits DestMask ->
       (Z.testbit dest k = true <->
        exists i destEnum, 0 <= i < bits SrcMask /\ Z.testbit src i = true /\
          enumConversion (srcIndexToEnum i) = Ok destEnum /\
          Z.testbit (destEnumToMask destEnum) k = true)) /\
  convert 0 = Ok 0.
Proof.
  split; [|split].
  - intros src. split.
    + intros Hok. apply is_Ok_exists in Hok as [dest Hok].
      exact (proj1 (convertBitmask_Ok _ _ _ _ _ _ _ Hok)).
    + apply convertBitmask_total.
  - intros src dest Hok. exact (proj2 (convertBitmask_Ok _ _ _ _ _ _ _ Hok)).
  - unfold convertBitmask. cbv zeta. rewrite !static_cast_0.
    destruct (Z.to_nat (bits SrcMask)); simpl; rewrite ?static_cast_0; reflexivity.
Qed.
End ConvertBitmaskExact.

(** ** Fields that the config mask does not select *)

Section UnselectedFields.
Context `{Headers}.

(** X15. A field of a port config whose bit is not set in the config mask is
    not read: two wire port configs with the same id, role, type, config
    mask and extension, and the same value in every field the mask selects,
    convert to the same result, and likewise two legacy port configs. *)
Theorem unselected_fields_are_ignored :
  (forall aidl aidl',
     let selects := bitmaskIsSet int32_t (media.AudioPortConfig.configMask aidl) in
     media.AudioPortConfig.id aidl = media.AudioPortConfig.id aidl' ->
     media.AudioPortConfig.role aidl = media.AudioPortConfig.role aidl' ->
     media.AudioPortConfig.type aidl = media.AudioPortConfig.type aidl' ->
     media.AudioPortConfig.configMask aidl = media.AudioPortConfig.configMask aidl' ->
     media.AudioPortConfig.ext aidl = media.AudioPortConfig.ext aidl' ->
     (selects media.AudioPortConfigType.SAMPLE_RATE = true ->
      media.AudioPortConfig.sampleRate aidl = media.AudioPortConfig.sampleRate aidl') ->
     (selects media.AudioPortConfigType.CHANNEL_MASK = true ->
      media.AudioPortConfig.channelMask aidl = media.AudioPortConfig.channelMask aidl') ->
     (selects media.AudioPortConfigType.FORMAT = true ->
      media.AudioPortConfig.format aidl = media.AudioPortConfig.format aidl') ->
     (selects media.AudioPortConfigType.GAIN = true ->
      media.AudioPortConfig.gain aidl = media.AudioPortConfig.gain aidl') ->
     (selects media.AudioPortConfigType.FLAGS = true ->
      media.AudioPortConfig.flags aidl = media.AudioPortConfig.flags aidl') ->
     aidl2legacy_AudioPortConfig_audio_port_config aidl =
     aidl2legacy_AudioPortConfig_audio_port_config aidl') /\
  (forall legacy legacy',
     let selects := config_mask_has (audio_port_config.config_mask legacy) in
     audio_port_config.id legacy = audio_port_config.id legacy' ->
     audio_port_config.role legacy = audio_port_config.role legacy' ->
     audio_port_config.type legacy = audio_port_config.type legacy' ->
     audio_port_config.config_mask legacy = audio_port_config.config_mask legacy' ->
     audio_port_config.ext legacy = audio_port_config.ext legacy' ->
     (selects AUDIO_PORT_CONFIG_SAMPLE_RATE = true ->
      audio_port_config.sample_rate legacy = audio_port_config.sample_rate legacy') ->
     (selects AUDIO_PORT_CONFIG_CHANNEL_MASK = true ->
      audio_port_config.channel_mask legacy = audio_port_config.channel_mask legacy') ->
     (selects AUDIO_PORT_CONFIG_FORMAT = true ->
      audio_port_config.format legacy = audio_port_config.format legacy') ->
     (selects AUDIO_PORT_CONFIG_GAIN = true ->
      audio_port_config.gain legacy = audio_port_config.gain legacy') ->
     (selects AUDIO_PORT_CONFIG_FLAGS = true ->
      audio_port_config.flags legacy = audio_port_config.flags legacy') ->
     legacy2aidl_audio_port_config_AudioPortConfig legacy =
     legacy2aidl_audio_port_config_AudioPortConfig legacy').
Proof.
  split.
  - intros aidl aidl' selects Hid Hrole Htype Hmask Hext Hrate Hchannel Hformat Hgain
      Hflags.
    unfold aidl2legacy_AudioPortConfig_audio_port_config. cbv zeta.
    subst selects. cbv beta in *.
    rewrite <- Hid, <- Hrole, <- Htype, <- Hmask, <- Hext.
    destruct (bitmaskIsSet _ _ media.AudioPortConfigType.SAMPLE_RATE);
      [rewrite <- (Hrate eq_refl)|];
      (destruct (bitmaskIsSet _ _ media.AudioPortConfigType.CHANNEL_MASK);
       [rewrite <- (Hchannel eq_refl)|]);
      (destruct (bitmaskIsSet _ _ media.AudioPortConfigType.FORMAT);
       [rewrite <- (Hformat eq_refl)|]);
      (destruct (bitmaskIsSet _ _ media.AudioPortConfigType.GAIN);
       [rewrite <- (Hgain eq_refl)|]);
      (destruct (bitmaskIsSet _ _ media.AudioPortConfigType.FLAGS);
       [rewrite <- (Hflags eq_refl)|]);
      reflexivity.
  - intros legacy legacy' selects Hid Hrole Htype Hmask Hext Hrate Hchannel Hformat Hgain
      Hflags.
    unfold legacy2aidl_audio_port_config_AudioPortConfig. cbv zeta.
    subst selects. cbv beta in *.
    rewrite <- Hid, <- Hrole, <- Htype, <- Hmask, <- Hext.
    destruct (config_mask_has _ AUDIO_PORT_CONFIG_SAMPLE_RATE);
      [rewrite <- (Hrate eq_refl)|];
      (destruct (config_mask_has _ AUDIO_PORT_CONFIG_CHANNEL_MASK);
       [rewrite <- (Hchannel eq_refl)|]);
      (destruct (config_mask_has _ AUDIO_PORT_CONFIG_FORMAT);
       [rewrite <- (Hformat eq_refl)|]);
      (destruct (config_mask_has _ AUDIO_PORT_CONFIG_GAIN);
       [rewrite <- (Hgain eq_refl)|]);
      (destruct (config_mask_has _ AUDIO_PORT_CONFIG_FLAGS);
       [rewrite <- (Hflags eq_refl)|]);
      reflexivity.
Qed.
End UnselectedFields.

(** ** Configurations and offload info *)

Lemma convertIntegral_representable (To : IntegralType) (from : Z) :
  representable To from = true -> convertIntegral To from = Ok from.
Proof. unfold convertIntegral. intros ->. reflexivity. Qed.

Lemma convertIntegral_rejects (To : IntegralType) (from : Z) :
  representable To from = false -> convertIntegral To from = unexpected BAD_VALUE.
Proof. unfold convertIntegral. intros ->. reflexivity. Qed.

Lemma int32_fields_cons (x : Z) (fields : list Z) :
  int32_fields (x :: fields) <-> representable int32_t x = true /\ int32_fields fields.
Proof. exact (list.Forall_cons (fun x => representable int32_t x = true) x fields). Qed.

Lemma unsigned_fits_int32_t (T : IntegralType) (x : Z) :
  is_signed T = false -> representable T x = true -> representable int32_t x = true ->
  0 <= x < 2 ^ 31.
Proof.
  unfold representable, min_value, max_value. intros ->. simpl. intros HT H32.
  apply andb_true_iff in HT as [HT _]. apply andb_true_iff in H32 as [_ H32].
  apply Z.leb_le in HT. apply Z.leb_le in H32. lia.
Qed.

Lemma reinterpret_back (T : IntegralType) (x : Z) :
  bits T = bits int32_t -> representable int32_t x = true ->
  static_cast int32_t (static_cast T x) = x.
Proof.
  intros Hw Hr. rewrite static_cast_static_cast by (simpl in *; lia).
  apply static_cast_representable; [simpl; lia|done].
Qed.

Section Configurations.
Context `{Headers} `{offload_attributes_h}.
Hypothesis labels : distinct_case_labels.
Hypothesis asserts : static_asserts.

Lemma config_base_back aidl legacy :
  int32_fields [media_more.AudioConfigBase.sampleRate aidl;
                media_more.AudioConfigBase.channelMask aidl] ->
  representable media.AudioFormat.underlying (media_more.AudioConfigBase.format aidl)
    = true ->
  aidl2legacy_AudioConfigBase_audio_config_base_t aidl = Ok legacy ->
  legacy2aidl_audio_config_base_t_AudioConfigBase legacy = Ok aidl.
Proof.
  rewrite !int32_fields_cons. intros (Hrate & Hmask & _) Hformat Hok.
  unfold aidl2legacy_AudioConfigBase_audio_config_base_t in Hok.
  apply bind_Ok in Hok as (sample_rate & Hsr & Hok).
  apply convertIntegral_Ok in Hsr as [-> _].
  apply bind_Ok in Hok as (channel_mask & Hcm & Hok). inversion Hcm; subst channel_mask.
  apply bind_Ok in Hok as (format & Hf & Hok). inversion Hok; subst legacy.
  unfold legacy2aidl_audio_config_base_t_AudioConfigBase.
  cbn [audio_config_base_t.sample_rate audio_config_base_t.channel_mask
       audio_config_base_t.format].
  rewrite convertIntegral_representable by done.
  rewrite (aidl_roundtrip_AudioFormat asserts _ _ Hformat Hf).
  unfold legacy2aidl_audio_channel_mask_t_int32_t, convertReinterpret. cbn [bind].
  rewrite reinterpret_back by (done || apply asserts).
  destruct aidl; reflexivity.
Qed.

(** X16. A wire [AudioConfigBase] that converts comes back from the legacy
    one.  A negative wire sample rate is rejected, and so is a legacy
    sample rate that exceeds [INT32_MAX]: the legacy field is unsigned,
    the wire field is not. *)
Theorem config_base_roundtrip :
  (forall aidl legacy,
     int32_fields [media_more.AudioConfigBase.sampleRate aidl;
                   media_more.AudioConfigBase.channelMask aidl] ->
     representable media.AudioFormat.underlying (media_more.AudioConfigBase.format aidl)
       = true ->
     aidl2legacy_AudioConfigBase_audio_config_base_t aidl = Ok legacy ->
     legacy2aidl_audio_config_base_t_AudioConfigBase legacy = Ok aidl) /\
  (forall aidl,
     media_more.AudioConfigBase.sampleRate aidl < 0 ->
     aidl2legacy_AudioConfigBase_audio_config_base_t aidl = unexpected BAD_VALUE) /\
  (forall legacy,
     2 ^ 31 <= audio_config_base_t.sample_rate legacy ->
     legacy2aidl_audio_config_base_t_AudioConfigBase legacy = unexpected BAD_VALUE).
Proof.
  split; [exact config_base_back|]. split.
  - intros aidl Hneg. unfold aidl2legacy_AudioConfigBase_audio_config_base_t.
    rewrite convertIntegral_rejects; [reflexivity|].
    apply andb_false_iff. left. apply Z.leb_gt. exact Hneg.
  - intros legacy Hbig. unfold legacy2aidl_audio_config_base_t_AudioConfigBase.
    rewrite convertIntegral_rejects; [reflexivity|].
    apply andb_false_iff. right. apply Z.leb_gt.
    change (max_value int32_t) with (2 ^ 31 - 1). lia.
Qed.

(** X17. [legacy2aidl_audio_offload_info_t_AudioOffloadInfo] looks at the size
    the legacy struct declares before it reads the fields of a version:
    a struct too short for the fields of version 0.1 is rejected, and so
    is one of version 0.2 or later that is too short for the fields of
    version 0.2.  For an earlier version these three fields are not read:
    the wire object has the ones of a default-constructed object. *)
Theorem offload_info_gates :
  (forall legacy,
     audio_offload_info_t.size legacy < offload_info_size_0_1 ->
     legacy2aidl_audio_offload_info_t_AudioOffloadInfo legacy = unexpected BAD_VALUE) /\
  (forall legacy,
     audio_offload_info_t.version legacy >= AUDIO_OFFLOAD_INFO_VERSION_0_2 ->
     audio_offload_info_t.size legacy < offload_info_size_0_2 ->
     failed (legacy2aidl_audio_offload_info_t_AudioOffloadInfo legacy)) /\
  (forall legacy aidl,
     audio_offload_info_t.version legacy < AUDIO_OFFLOAD_INFO_VERSION_0_2 ->
     legacy2aidl_audio_offload_info_t_AudioOffloadInfo legacy = Ok aidl ->
     without_version_0_2_fields aidl = aidl).
Proof.
  unfold legacy2aidl_audio_offload_info_t_AudioOffloadInfo. cbv zeta.
  split; [|split].
  - intros legacy Hsize. destruct (decide _); [reflexivity|lia].
  - intros legacy Hversion Hsize Hok. apply is_Ok_exists in Hok as [aidl Hok].
    destruct (decide (_ < offload_info_size_0_1)); [discriminate|].
    do 10 (apply bind_Ok in Hok as (? & _ & Hok)).
    apply bind_Ok in Hok as (version_0_2 & Hgate & _).
    destruct (decide (_ >= _)); [|lia].
    destruct (decide (_ < offload_info_size_0_2)); [discriminate|lia].
  - intros legacy aidl Hversion Hok.
    destruct (decide (_ < offload_info_size_0_1)); [discriminate|].
    do 10 (apply bind_Ok in Hok as (? & _ & Hok)).
    destruct (decide (_ >= _)); [lia|]. simpl in Hok.
    inversion Hok; subst aidl. reflexivity.
Qed.
End Configurations.

Lemma representable_uint16_t_int32_t (x : Z) :
  representable uint16_t x = true -> representable int32_t x = true.
Proof.
  unfold representable, min_value, max_value. simpl. intros Hr.
  apply andb_true_iff in Hr as [Hmin Hmax]. apply Z.leb_le in Hmin. apply Z.leb_le in Hmax.
  apply andb_true_iff. rewrite !Z.leb_le. lia.
Qed.

Section OffloadRoundTrip.
Context `{Headers} `{offload_attributes_h}.
Hypothesis labels : distinct_case_labels.
Hypothesis asserts : static_asserts.
Hypothesis version_sizes :
  offload_info_size_0_1 <= offload_info_size_0_2 <= sizeof_audio_offload_info_t.
Hypothesis sizeof_fits : representable uint16_t sizeof_audio_offload_info_t = true.

Lemma offload_info_back aidl legacy :
  int32_fields
    [media_more.AudioConfigBase.sampleRate (media_more.AudioOffloadInfo.config aidl);
     media_more.AudioConfigBase.channelMask (media_more.AudioOffloadInfo.config aidl);
     media_more.AudioOffloadInfo.bitRate aidl;
     media_more.AudioOffloadInfo.bitWidth aidl;
     media_more.AudioOffloadInfo.offloadBufferSize aidl;
     media_more.AudioOffloadInfo.contentId aidl;
     media_more.AudioOffloadInfo.syncId aidl] ->
  representable media.AudioFormat.underlying
    (media_more.AudioConfigBase.format (media_more.AudioOffloadInfo.config aidl)) = true ->
  aidl2legacy_AudioOffloadInfo_audio_offload_info_t aidl = Ok legacy ->
  legacy2aidl_audio_offload_info_t_AudioOffloadInfo legacy =
  Ok (if decide (media_more.AudioOffloadInfo.version aidl >= AUDIO_OFFLOAD_INFO_VERSION_0_2)
      then aidl else without_version_0_2_fields aidl).
Proof.
  rewrite !int32_fields_cons.
  intros (Hrate & Hmask & Hbit_rate & Hbit_width & Hbuffer & Hcontent & Hsync & _)
    Hformat Hok.
  unfold aidl2legacy_AudioOffloadInfo_audio_offload_info_t in Hok. cbv zeta in Hok.
  apply bind_Ok in Hok as (version & Hversion & Hok).
  apply convertIntegral_Ok in Hversion as [-> Hversion].
  apply bind_Ok in Hok as (config & Hconfig & Hok).
  unfold aidl2legacy_AudioConfigBase_audio_config_base_t in Hconfig.
  apply bind_Ok in Hconfig as (sample_rate & Hsr & Hconfig).
  apply convertIntegral_Ok in Hsr as [-> _].
  apply bind_Ok in Hconfig as (channel_mask & Hcm & Hconfig).
  inversion Hcm; subst channel_mask.
  apply bind_Ok in Hconfig as (format & Hf & Hconfig). inversion Hconfig; subst config.
  apply bind_Ok in Hok as (stream_type & Hstream & Hok).
  apply bind_Ok in Hok as (bit_rate & Hbr & Hok).
  apply convertIntegral_Ok in Hbr as [-> _].
  apply bind_Ok in Hok as (duration_us & Hdur & Hok).
  apply convertIntegral_Ok in Hdur as [-> Hdur].
  apply bind_Ok in Hok as (bit_width & Hbw & Hok).
  apply convertIntegral_Ok in Hbw as [-> _].
  apply bind_Ok in Hok as (offload_buffer_size & Hbs & Hok).
  apply convertIntegral_Ok in Hbs as [-> _].
  apply bind_Ok in Hok as (usage & Husage & Hok).
  apply bind_Ok in Hok as (encapsulation_mode & Hmode & Hok).
  apply bind_Ok in Hok as (content_id & Hcid & Hok). inversion Hcid; subst content_id.
  apply bind_Ok in Hok as (sync_id & Hsid & Hok). inversion Hsid; subst sync_id.
  inversion Hok; subst legacy. clear Hok Hcm Hconfig Hcid Hsid.
  unfold legacy2aidl_audio_offload_info_t_AudioOffloadInfo. cbv zeta.
  cbn [audio_offload_info_t.size audio_offload_info_t.version
       audio_offload_info_t.sample_rate audio_offload_info_t.channel_mask
       audio_offload_info_t.format audio_offload_info_t.stream_type
       audio_offload_info_t.bit_rate audio_offload_info_t.duration_us
       audio_offload_info_t.has_video audio_offload_info_t.is_streaming
       audio_offload_info_t.bit_width audio_offload_info_t.offload_buffer_size
       audio_offload_info_t.usage audio_offload_info_t.encapsulation_mode
       audio_offload_info_t.content_id audio_offload_info_t.sync_id
       audio_config_base_t.sample_rate audio_config_base_t.channel_mask
       audio_config_base_t.format].
  rewrite (static_cast_representable uint16_t) by (done || reflexivity).
  destruct (decide (_ < offload_info_size_0_1)); [lia|].
  rewrite (convertIntegral_representable int32_t (media_more.AudioOffloadInfo.version aidl))
    by (apply representable_uint16_t_int32_t; done).
  rewrite !convertIntegral_representable by done.
  rewrite (aidl_roundtrip_AudioFormat asserts _ _ Hformat Hf).
  rewrite (aidl_roundtrip_AudioStreamType labels _ _ Hstream).
  rewrite (aidl_roundtrip_AudioUsage labels _ _ Husage).
  unfold legacy2aidl_audio_channel_mask_t_int32_t, convertReinterpret. cbn [bind].
  rewrite (reinterpret_back audio_channel_mask_t) by (done || apply asserts).
  destruct (decide (_ >= _)) as [Hnew|Hold].
  - destruct (decide (_ < offload_info_size_0_2)); [lia|].
    rewrite (aidl_roundtrip_AudioEncapsulationMode labels _ _ Hmode). cbn [bind fst snd].
    rewrite !(reinterpret_back int32_t) by done.
    destruct aidl as [? [? ? ?] ? ? ? ? ? ? ? ? ? ? ?]; reflexivity.
  - cbn [bind fst snd]. destruct aidl as [? [? ? ?] ? ? ? ? ? ? ? ? ? ? ?]; reflexivity.
Qed.

(** X18. A wire offload info that converts comes back from the legacy struct,
    whose [size] the converter sets to [sizeof(audio_offload_info_t)], if
    its version is 0.2 or later.  With an earlier version it comes back
    without its encapsulation mode, content id and sync id: they are
    written to the legacy struct and not read from it. *)
Theorem offload_info_roundtrip aidl legacy :
  int32_fields
    [media_more.AudioConfigBase.sampleRate (media_more.AudioOffloadInfo.config aidl);
     media_more.AudioConfigBase.channelMask (media_more.AudioOffloadInfo.config aidl);
     media_more.AudioOffloadInfo.bitRate aidl;
     media_more.AudioOffloadInfo.bitWidth aidl;
     media_more.AudioOffloadInfo.offloadBufferSize aidl;
     media_more.AudioOffloadInfo.contentId aidl;
     media_more.AudioOffloadInfo.syncId aidl] ->
  representable media.AudioFormat.underlying
    (media_more.AudioConfigBase.format (media_more.AudioOffloadInfo.config aidl)) = true ->
  aidl2legacy_AudioOffloadInfo_audio_offload_info_t aidl = Ok legacy ->
  legacy2aidl_audio_offload_info_t_AudioOffloadInfo legacy =
  Ok (if decide (media_more.AudioOffloadInfo.version aidl >= AUDIO_OFFLOAD_INFO_VERSION_0_2)
      then aidl else without_version_0_2_fields aidl).
Proof. exact (offload_info_back aidl legacy). Qed.
End OffloadRoundTrip.

(** ** Masks, from the wire side *)

Lemma pow2_representable (T : IntegralType) (j : Z) :
  bits T = 32 -> 0 <= j < 31 -> representable T (2 ^ j) = true.
Proof.
  intros Hw Hj. unfold representable, min_value, max_value. rewrite Hw.
  assert (2 ^ j < 2 ^ 31) by (apply Z.pow_lt_mono_r; lia).
  assert (0 < 2 ^ j) by (apply Z.pow_pos_nonneg; lia).
  change (2 ^ (32 - 1)) with (2 ^ 31). change (2 ^ 32) with (2 * 2 ^ 31).
  apply andb_true_iff. rewrite !Z.leb_le. destruct (is_signed T); lia.
Qed.

Lemma index2enum_bitmask_pow2 (Enum : IntegralType) (j : Z) :
  bits Enum = 32 -> 0 <= j < 31 -> index2enum_bitmask Enum j = 2 ^ j.
Proof.
  intros Hw Hj. unfold index2enum_bitmask, shl. rewrite Z.shiftl_1_l.
  rewrite (static_cast_representable int) by (reflexivity || apply pow2_representable; done).
  apply static_cast_representable; [lia|apply pow2_representable; done].
Qed.

Lemma enumToMask_bitmask_pow2 (Mask : IntegralType) (j k : Z) :
  bits Mask = 32 -> 0 <= j -> 0 <= k < 32 ->
  Z.testbit (enumToMask_bitmask Mask (2 ^ j)) k = bool_decide (k = j).
Proof.
  intros Hw Hj Hk. unfold enumToMask_bitmask.
  rewrite static_cast_testbit, Z.pow2_bits_eqb by lia.
  destruct (Z.eqb_spec j k); case_bool_decide; congruence.
Qed.

Section WireMaskRoundTrip.
Variable LegacyMask : IntegralType.
Variable AidlEnum : IntegralType.
Variables aidl2legacy_enum legacy2aidl_enum : Z -> ConversionResult Z.
Variable legacyIndexToEnum : Z -> Z.

Hypothesis width_LegacyMask : bits LegacyMask = 32.
Hypothesis width_AidlEnum : 6 <= bits AidlEnum.
Hypothesis roundtrip_enum : enum_roundtrip aidl2legacy_enum legacy2aidl_enum.
Hypothesis legacy_single_bits :
  forall aidl legacy, aidl2legacy_enum aidl = Ok legacy ->
    exists j, 0 <= j < 32 /\ legacyIndexToEnum j = legacy /\
      forall k, 0 <= k < 32 ->
        Z.testbit (enumToMask_bitmask LegacyMask legacy) k = bool_decide (k = j).

Variables aidl2legacy legacy2aidl : Z -> ConversionResult Z.
Hypothesis aidl2legacy_transcodes :
  forall aidl legacy, aidl2legacy aidl = Ok legacy ->
    convertBitmask LegacyMask int32_t aidl aidl2legacy_enum (index2enum_index AidlEnum)
      (enumToMask_bitmask LegacyMask) = Ok legacy.
Hypothesis legacy2aidl_transcodes :
  forall legacy, representable LegacyMask legacy = true ->
    legacy2aidl legacy =
    convertBitmask int32_t LegacyMask legacy legacy2aidl_enum legacyIndexToEnum
      (enumToMask_index int32_t).

Lemma wire_roundtrip_generic : wire_roundtrip aidl2legacy legacy2aidl.
Proof.
  intros aidl legacy Hrep Hfwd. apply aidl2legacy_transcodes in Hfwd.
  assert (representable LegacyMask legacy = true) as Hlegacy
    by (eapply convertBitmask_representable; [|exact Hfwd]; lia).
  rewrite (legacy2aidl_transcodes legacy Hlegacy).
  apply convertBitmask_Ok in Hfwd as [Hconv Hbits].
  change (bits int32_t) with 32 in Hconv. rewrite width_LegacyMask in Hbits.
  (* each set bit of [legacy] is the bit of a converted wire index *)
  assert (forall j, 0 <= j < 32 -> Z.testbit legacy j = true ->
            exists i, 0 <= i < 32 /\ Z.testbit aidl i = true /\
                      legacy2aidl_enum (legacyIndexToEnum j) = Ok i) as Hback.
  { intros j Hj Hbit. apply Hbits in Hbit as (i & e & Hi & Hbit & He & Hej); [|done].
    rewrite index2enum_index_small in He by done.
    destruct (legacy_single_bits _ _ He) as (j' & Hj' & Hto & Hsingle).
    rewrite Hsingle in Hej by done. apply bool_decide_eq_true in Hej. subst j'.
    exists i. rewrite Hto. split; [exact Hi|]. split; [done|].
    apply roundtrip_enum, He. }
  assert (is_Ok (convertBitmask int32_t LegacyMask legacy legacy2aidl_enum
                   legacyIndexToEnum (enumToMask_index int32_t))) as Hbwd.
  { apply convertBitmask_total. rewrite width_LegacyMask. intros j Hj Hbit.
    destruct (Hback j Hj Hbit) as (i & _ & _ & ->). exact I. }
  apply is_Ok_exists in Hbwd as [aidl' Hbwd]. rewrite Hbwd. f_equal.
  apply (representable_bits_inj int32_t); [reflexivity| |done|].
  { eapply convertBitmask_representable; [|exact Hbwd]. reflexivity. }
  change (bits int32_t) with 32. intros k Hk.
  apply convertBitmask_Ok in Hbwd as [_ Hbits'].
  change (bits int32_t) with 32 in Hbits'. rewrite width_LegacyMask in Hbits'.
  apply eq_true_iff_eq. rewrite Hbits' by done. split.
  - intros (j & d & Hj & Hbit & Hd & Hdk).
    destruct (Hback j Hj Hbit) as (i & Hi & Hai & Hji).
    rewrite Hji in Hd. inversion Hd; subst d.
    rewrite enumToMask_index_testbit in Hdk by done.
    apply bool_decide_eq_true in Hdk. subst k. exact Hai.
  - intros Hbit. pose proof (Hconv k Hk Hbit) as He.
    rewrite index2enum_index_small in He by done.
    apply is_Ok_exists in He as [e He].
    destruct (legacy_single_bits _ _ He) as (j & Hj & Hto & Hsingle).
    exists j, k. split; [done|]. split.
    { apply Hbits; [done|]. exists k, e. rewrite index2enum_index_small by done.
      split; [done|]. split; [done|]. split; [done|].
      rewrite Hsingle by done. apply bool_decide_eq_true. reflexivity. }
    split; [rewrite Hto; apply roundtrip_enum, He|].
    rewrite enumToMask_index_testbit by done. apply bool_decide_eq_true. reflexivity.
Qed.
End WireMaskRoundTrip.

Ltac prove_single_bits Hbits legacyIndex :=
  let aidl := fresh "aidl" in
  let legacy := fresh "legacy" in
  let Hl := fresh "Hl" in
  let Heq := fresh "Heq" in
  let Hall := fresh "Hall" in
  let j := fresh "j" in
  let Hj := fresh "Hj" in
  let Hpow := fresh "Hpow" in
  intros aidl legacy Hl;
  apply switch_inv in Hl as [Hl|Hl]; [|discriminate];
  pose proof (proj1 (list.Forall_forall _ _) Hbits) as Hall;
  assert (exists j, 0 <= j < 31 /\ legacy = 2 ^ j) as (j & Hj & Hpow)
    by (repeat (apply elem_of_cons in Hl as [Heq|Hl];
                [inversion Heq; subst; apply Hall; prove_elem_of|]);
        apply elem_of_nil in Hl; destruct Hl);
  exists j; split; [lia|]; split;
  [rewrite Hpow; legacyIndex j Hj
  |intros ? ?; rewrite Hpow; apply enumToMask_bitmask_pow2; (done || lia)].

Section WireMasks.
Context `{Headers}.
Hypothesis labels : distinct_case_labels.
Hypothesis masks : mask_declarations.
Hypothesis flags : flag_declarations.

Lemma wire_roundtrip_config_mask :
  wire_roundtrip aidl2legacy_int32_t_config_mask legacy2aidl_config_mask_int32_t.
Proof.
  refine (wire_roundtrip_generic unsigned media.AudioPortConfigType.underlying
            aidl2legacy_AudioPortConfigType legacy2aidl_AudioPortConfigType
            (fun index => static_cast int (index2enum_bitmask unsigned index)) _ _ _ _
            aidl2legacy_int32_t_config_mask legacy2aidl_config_mask_int32_t _ _).
  - reflexivity.
  - apply (indices_AudioPortConfigType masks).
  - apply aidl_roundtrip_AudioPortConfigType, labels.
  - prove_single_bits (bits_audio_port_config flags)
      ltac:(fun j Hj =>
              rewrite index2enum_bitmask_pow2 by (reflexivity || done);
              apply static_cast_representable;
              [reflexivity|apply pow2_representable; (reflexivity || done)]).
  - intros aidl legacy Hok. exact Hok.
  - intros legacy _. reflexivity.
Qed.

Lemma wire_roundtrip_gain_mode :
  wire_roundtrip aidl2legacy_int32_t_audio_gain_mode_t
    legacy2aidl_audio_gain_mode_t_int32_t.
Proof.
  pose proof (width_audio_gain_mode_t masks) as Hw.
  refine (wire_roundtrip_generic audio_gain_mode_t media.AudioGainMode.underlying
            aidl2legacy_AudioGainMode_int legacy2aidl_int_AudioGainMode
            (index2enum_bitmask int) _ _ _ _
            aidl2legacy_int32_t_audio_gain_mode_t legacy2aidl_audio_gain_mode_t_int32_t
            _ _).
  - exact Hw.
  - apply (indices_AudioGainMode masks).
  - apply aidl_roundtrip_AudioGainMode, labels.
  - prove_single_bits (bits_audio_gain_mode_t flags)
      ltac:(fun j Hj => apply index2enum_bitmask_pow2; (reflexivity || done)).
  - intros aidl legacy Hok. exact Hok.
  - intros legacy _. reflexivity.
Qed.

Lemma wire_roundtrip_input_flags :
  wire_roundtrip aidl2legacy_audio_input_flags_mask legacy2aidl_audio_input_flags_mask.
Proof.
  pose proof (width_audio_input_flags_t masks) as Hw.
  refine (wire_roundtrip_generic audio_input_flags_t media.AudioInputFlags.underlying
            aidl2legacy_AudioInputFlags_audio_input_flags_t
            legacy2aidl_audio_input_flags_t_AudioInputFlags
            (index2enum_bitmask audio_input_flags_t) _ _ _ _
            aidl2legacy_audio_input_flags_mask legacy2aidl_audio_input_flags_mask _ _).
  - exact Hw.
  - apply (indices_AudioInputFlags masks).
  - apply aidl_roundtrip_AudioInputFlags, labels.
  - prove_single_bits (bits_audio_input_flags_t flags)
      ltac:(fun j Hj => apply index2enum_bitmask_pow2; done).
  - intros aidl legacy Hok. unfold aidl2legacy_audio_input_flags_mask in Hok.
    cbv zeta in Hok. apply bind_Ok in Hok as (converted & Hconv & Hok).
    inversion Hok. rewrite Hconv. f_equal. symmetry.
    apply static_cast_representable; [lia|].
    eapply convertBitmask_representable; [|exact Hconv]. lia.
  - intros legacy Hrep. unfold legacy2aidl_audio_input_flags_mask. cbv zeta.
    rewrite (static_cast_representable _ legacy) by (done || lia). reflexivity.
Qed.

Lemma wire_roundtrip_output_flags :
  wire_roundtrip aidl2legacy_audio_output_flags_mask legacy2aidl_audio_output_flags_mask.
Proof.
  pose proof (width_audio_output_flags_t masks) as Hw.
  refine (wire_roundtrip_generic audio_output_flags_t media.AudioOutputFlags.underlying
            aidl2legacy_AudioOutputFlags_audio_output_flags_t
            legacy2aidl_audio_output_flags_t_AudioOutputFlags
            (index2enum_bitmask audio_output_flags_t) _ _ _ _
            aidl2legacy_audio_output_flags_mask legacy2aidl_audio_output_flags_mask _ _).
  - exact Hw.
  - apply (indices_AudioOutputFlags masks).
  - apply aidl_roundtrip_AudioOutputFlags, labels.
  - prove_single_bits (bits_audio_output_flags_t flags)
      ltac:(fun j Hj => apply index2enum_bitmask_pow2; done).
  - intros aidl legacy Hok. exact Hok.
  - intros legacy Hrep. unfold legacy2aidl_audio_output_flags_mask. cbv zeta.
    rewrite (static_cast_representable _ legacy) by (done || lia). reflexivity.
Qed.

Lemma wire_roundtrip_audio_flags :
  wire_roundtrip aidl2legacy_int32_t_audio_flags_mask_t_mask
    legacy2aidl_audio_flags_mask_t_int32_t_mask.
Proof.
  pose proof (width_audio_flags_mask_t masks) as Hw.
  refine (wire_roundtrip_generic audio_flags_mask_t media.AudioFlag.underlying
            aidl2legacy_AudioFlag_audio_flags_mask_t
            legacy2aidl_audio_flags_mask_t_AudioFlag
            (index2enum_bitmask audio_flags_mask_t) _ _ _ _
            aidl2legacy_int32_t_audio_flags_mask_t_mask
            legacy2aidl_audio_flags_mask_t_int32_t_mask _ _).
  - exact Hw.
  - apply (indices_AudioFlag masks).
  - apply aidl_roundtrip_AudioFlag, labels.
  - prove_single_bits (bits_audio_flags_mask_t flags)
      ltac:(fun j Hj => apply index2enum_bitmask_pow2; done).
  - intros aidl legacy Hok. exact Hok.
  - intros legacy _. reflexivity.
Qed.

(** X19. For each of the five mask pairs, a 32-bit wire mask that
    [aidl2legacy] accepts comes back from [legacy2aidl] applied to the
    converted mask, the legacy enumerators being single bits. *)
Theorem wire_masks_roundtrip :
  wire_roundtrip aidl2legacy_int32_t_config_mask legacy2aidl_config_mask_int32_t /\
  wire_roundtrip aidl2legacy_int32_t_audio_gain_mode_t
    legacy2aidl_audio_gain_mode_t_int32_t /\
  wire_roundtrip aidl2legacy_audio_input_flags_mask legacy2aidl_audio_input_flags_mask /\
  wire_roundtrip aidl2legacy_audio_output_flags_mask legacy2aidl_audio_output_flags_mask /\
  wire_roundtrip aidl2legacy_int32_t_audio_flags_mask_t_mask
    legacy2aidl_audio_flags_mask_t_int32_t_mask.
Proof.
  split; [exact wire_roundtrip_config_mask|].
  split; [exact wire_roundtrip_gain_mode|].
  split; [exact wire_roundtrip_input_flags|].
  split; [exact wire_roundtrip_output_flags|].
  exact wire_roundtrip_audio_flags.
Qed.
End WireMasks.

(** ** Extensions, from the wire side *)

(** *** What a member reads back from the storage it was assigned to *)

Lemma low_byte_value (b : byte) : low_byte (byte_value b) = b.
Proof.
  unfold low_byte, byte_value.
  pose proof (Byte.to_N_bounded b) as Hb.
  rewrite Z.mod_small by lia.
  rewrite N2Z.id, Byte.of_to_N. reflexivity.
Qed.

Lemma byte_value_range (b : byte) : 0 <= byte_value b < 256.
Proof. unfold byte_value. pose proof (Byte.to_N_bounded b). lia. Qed.

Lemma bytes_of_int_of_values (b0 b1 b2 b3 : Z) :
  0 <= b0 < 256 -> 0 <= b1 < 256 -> 0 <= b2 < 256 -> 0 <= b3 < 256 ->
  bytes_of_int (static_cast int (b0 + 2 ^ 8 * b1 + 2 ^ 16 * b2 + 2 ^ 24 * b3)) =
  [low_byte b0; low_byte b1; low_byte b2; low_byte b3].
Proof.
  intros H0 H1 H2 H3. unfold bytes_of_int, low_byte, static_cast. cbn [is_signed bits int].
  change (2 ^ 8) with 256. change (2 ^ 16) with 65536. change (2 ^ 24) with 16777216.
  change (2 ^ (32 - 1)) with 2147483648. change (2 ^ 32) with 4294967296.
  set (s := b0 + 256 * b1 + 65536 * b2 + 16777216 * b3).
  set (w := (s + 2147483648) mod 4294967296 - 2147483648).
  assert (w mod 256 = b0 mod 256 /\ (w / 256) mod 256 = b1 mod 256 /\
          (w / 65536) mod 256 = b2 mod 256 /\ (w / 16777216) mod 256 = b3 mod 256)
    as (-> & -> & -> & ->); [|reflexivity].
  subst w s. Z.div_mod_to_equations. lia.
Qed.

(** The bytes of a [char] array come back from the storage; an array of
    fewer than four bytes comes back followed by zeroes. *)
Lemma bytes_of_int_of_bytes (bs : list byte) :
  bytes_of_int (int_of_bytes (take 4 bs)) ++ drop 4 bs =
  bs ++ replicate (4 - length bs) x00.
Proof.
  unfold int_of_bytes.
  rewrite bytes_of_int_of_values by apply byte_value_range.
  rewrite !low_byte_value.
  destruct bs as [|b0 [|b1 [|b2 [|b3 rest]]]]; cbn; rewrite ?app_nil_r; reflexivity.
Qed.

Lemma strnlen_zeroes (s : list byte) (k maxlen : nat) :
  strnlen (s ++ replicate k x00) maxlen = strnlen s maxlen.
Proof.
  revert maxlen. induction s as [|c s IH]; intros [|maxlen]; cbn; try reflexivity.
  - destruct k; reflexivity.
  - destruct k; reflexivity.
  - destruct (Byte.eqb c x00); [reflexivity|]. rewrite IH. reflexivity.
Qed.

Lemma c_string_zeroes (s : list byte) (k : nat) :
  c_string (s ++ replicate k x00) = c_string s.
Proof.
  induction s as [|c s IH]; cbn.
  - destruct k; reflexivity.
  - destruct (Byte.eqb c x00); [reflexivity|]. rewrite IH. reflexivity.
Qed.

Lemma reinterpret_stored (T : IntegralType) (x : Z) :
  bits T = bits int32_t ->
  convertReinterpret int32_t (static_cast T x) = convertReinterpret int32_t x.
Proof.
  intros Hw. unfold convertReinterpret.
  rewrite static_cast_static_cast by (simpl in *; lia). reflexivity.
Qed.

Section ExtRoundTrip.
Context `{Headers}.
Hypothesis labels : distinct_case_labels.
Hypothesis asserts : static_asserts.
Hypothesis width_size_t : 0 < bits size_t.
Hypothesis address_len :
  1 <= AUDIO_DEVICE_MAX_ADDRESS_LEN /\
  representable size_t (AUDIO_DEVICE_MAX_ADDRESS_LEN - 1) = true.

Lemma legacy2aidl_string_stored (chars : list byte) (maxSize : Z) :
  legacy2aidl_string (Some (bytes_of_int (int_of_bytes (take 4 chars)) ++ drop 4 chars))
    maxSize
  = legacy2aidl_string (Some chars) maxSize.
Proof.
  unfold legacy2aidl_string.
  rewrite bytes_of_int_of_bytes, strnlen_zeroes, c_string_zeroes. reflexivity.
Qed.

(** A member of the extension that was assigned converts, read from the
    union, as the struct that was assigned. *)
Lemma ext_device_stored (d : audio_port_config_device_ext.t) :
  legacy2aidl_AudioPortConfigDeviceExt (ext_device (audio_port_config_ext.device d)) =
  legacy2aidl_AudioPortConfigDeviceExt d.
Proof.
  unfold legacy2aidl_AudioPortConfigDeviceExt, ext_device, audio_port_config_ext.device,
    legacy2aidl_audio_module_handle_t_int32_t, legacy2aidl_audio_devices_t_int32_t.
  cbn [audio_port_config_device_ext.hw_module audio_port_config_device_ext.type
       audio_port_config_device_ext.address audio_port_config_ext.word_0
       audio_port_config_ext.word_4 audio_port_config_ext.word_8
       audio_port_config_ext.bytes_12].
  rewrite (reinterpret_stored audio_module_handle_t) by apply asserts.
  rewrite (reinterpret_stored audio_devices_t) by apply asserts.
  rewrite legacy2aidl_string_stored. reflexivity.
Qed.

Lemma ext_mix_stored (m : audio_port_config_mix_ext.t) (u : audio_port_config_ext.t) role :
  legacy2aidl_AudioPortConfigMixExt (ext_mix (audio_port_config_ext.mix m u)) role =
  legacy2aidl_AudioPortConfigMixExt m role.
Proof.
  unfold legacy2aidl_AudioPortConfigMixExt, ext_mix, audio_port_config_ext.mix,
    legacy2aidl_audio_module_handle_t_int32_t, legacy2aidl_audio_io_handle_t_int32_t.
  cbn [audio_port_config_mix_ext.hw_module audio_port_config_mix_ext.handle
       audio_port_config_mix_ext.usecase audio_port_config_ext.word_0
       audio_port_config_ext.word_4 audio_port_config_ext.word_8
       audio_port_config_ext.bytes_12].
  rewrite (reinterpret_stored audio_module_handle_t) by apply asserts.
  rewrite (reinterpret_stored audio_io_handle_t) by apply asserts.
  destruct m as [hw handle [storage]]. reflexivity.
Qed.

Lemma ext_session_stored (s : audio_port_config_session_ext.t)
    (u : audio_port_config_ext.t) :
  legacy2aidl_AudioPortConfigSessionExt (ext_session (audio_port_config_ext.session s u)) =
  legacy2aidl_AudioPortConfigSessionExt s.
Proof.
  unfold legacy2aidl_AudioPortConfigSessionExt, ext_session, audio_port_config_ext.session,
    legacy2aidl_audio_session_t_int32_t.
  cbn [audio_port_config_session_ext.session audio_port_config_ext.word_0].
  rewrite (reinterpret_stored audio_session_t) by apply asserts. reflexivity.
Qed.

Lemma device_ext_back aidl legacy :
  int32_fields [media.AudioPortConfigDeviceExt.hwModule aidl;
                media.AudioPortConfigDeviceExt.type aidl] ->
  x00 ∉ media.AudioPortConfigDeviceExt.address aidl ->
  aidl2legacy_AudioPortConfigDeviceExt aidl = Ok legacy ->
  legacy2aidl_AudioPortConfigDeviceExt legacy = Ok aidl.
Proof.
  rewrite !int32_fields_cons. intros (Hhw & Htype & _) Hnul Hok.
  unfold aidl2legacy_AudioPortConfigDeviceExt in Hok. cbv zeta in Hok.
  apply bind_Ok in Hok as (hw & Hhw' & Hok). inversion Hhw'; subst hw.
  apply bind_Ok in Hok as (type & Htype' & Hok). inversion Htype'; subst type.
  destruct (aidl2legacy_string _ _ _) as [[|] address] eqn:Hstring; [|discriminate].
  inversion Hok; subst legacy.
  unfold legacy2aidl_AudioPortConfigDeviceExt.
  cbn [audio_port_config_device_ext.hw_module audio_port_config_device_ext.type
       audio_port_config_device_ext.address].
  rewrite (legacy2aidl_string_written width_size_t _ _ _ _ (proj1 address_len)
             (proj2 address_len) Hstring).
  rewrite c_string_no_NUL by done.
  unfold legacy2aidl_audio_module_handle_t_int32_t, legacy2aidl_audio_devices_t_int32_t,
    convertReinterpret. cbn [bind].
  rewrite (reinterpret_back audio_module_handle_t) by (done || apply asserts).
  rewrite (reinterpret_back audio_devices_t) by (done || apply asserts).
  destruct aidl; reflexivity.
Qed.

Lemma session_ext_back aidl legacy :
  int32_fields [media.AudioPortConfigSessionExt.session aidl] ->
  aidl2legacy_AudioPortConfigSessionExt aidl = Ok legacy ->
  legacy2aidl_AudioPortConfigSessionExt legacy = Ok aidl.
Proof.
  rewrite !int32_fields_cons. intros (Hsession & _) Hok.
  unfold aidl2legacy_AudioPortConfigSessionExt in Hok.
  apply bind_Ok in Hok as (session & Hs & Hok). inversion Hs; subst session.
  inversion Hok; subst legacy.
  unfold legacy2aidl_AudioPortConfigSessionExt, legacy2aidl_audio_session_t_int32_t,
    convertReinterpret.
  cbn [bind audio_port_config_session_ext.session].
  rewrite (reinterpret_back audio_session_t) by (done || apply asserts).
  destruct aidl; reflexivity.
Qed.

Lemma usecase_back aidl role legacy_role legacy :
  aidl2legacy_AudioPortRole_audio_port_role_t role = Ok legacy_role ->
  aidl2legacy_AudioPortConfigMixExtUseCase aidl role = Ok legacy ->
  legacy2aidl_AudioPortConfigMixExtUseCase legacy legacy_role = Ok (usecase_image aidl).
Proof.
  intros Hrole Hok.
  pose proof (labels_aidl2legacy_AudioPortRole_audio_port_role_t labels) as Haidl.
  pose proof (labels_legacy2aidl_audio_port_role_t_AudioPortRole labels) as Hlegacy.
  unfold aidl2legacy_AudioPortConfigMixExtUseCase in Hok. cbv zeta in Hok.
  unfold legacy2aidl_AudioPortConfigMixExtUseCase.
  apply switch_inv in Hrole as [Hrole|Hrole]; [|discriminate].
  repeat (apply elem_of_cons in Hrole as [Hrole|Hrole];
          [inversion Hrole; subst; clear Hrole;
           erewrite switch_elem_of in Hok; [|exact Haidl|prove_elem_of];
           erewrite switch_elem_of; [|exact Hlegacy|prove_elem_of]|]);
    [..|apply elem_of_nil in Hrole; destruct Hrole].
  - apply bind_Ok in Hok as (b & Hget & Hok). destruct aidl; try discriminate.
    reflexivity.
  - apply bind_Ok in Hok as (v & Hget & Hok). destruct aidl; try discriminate.
    inversion Hget; subst v. apply bind_Ok in Hok as (v' & Hconv & Hok).
    inversion Hok; subst legacy.
    unfold usecase_stream, audio_port_config_mix_ext_usecase.stream.
    cbn [audio_port_config_mix_ext_usecase.storage].
    rewrite (aidl_roundtrip_AudioStreamType labels _ _ Hconv). reflexivity.
  - apply bind_Ok in Hok as (v & Hget & Hok). destruct aidl; try discriminate.
    inversion Hget; subst v. apply bind_Ok in Hok as (v' & Hconv & Hok).
    inversion Hok; subst legacy.
    unfold usecase_source, audio_port_config_mix_ext_usecase.source.
    cbn [audio_port_config_mix_ext_usecase.storage].
    rewrite (aidl_roundtrip_AudioSourceType labels _ _ Hconv). reflexivity.
Qed.

Lemma mix_ext_back aidl role legacy_role legacy :
  int32_fields [media.AudioPortConfigMixExt.hwModule aidl;
                media.AudioPortConfigMixExt.handle aidl] ->
  aidl2legacy_AudioPortRole_audio_port_role_t role = Ok legacy_role ->
  aidl2legacy_AudioPortConfigMixExt aidl role = Ok legacy ->
  legacy2aidl_AudioPortConfigMixExt legacy legacy_role =
  Ok {| media.AudioPortConfigMixExt.hwModule := media.AudioPortConfigMixExt.hwModule aidl;
        media.AudioPortConfigMixExt.handle := media.AudioPortConfigMixExt.handle aidl;
        media.AudioPortConfigMixExt.usecase :=
          usecase_image (media.AudioPortConfigMixExt.usecase aidl) |}.
Proof.
  rewrite !int32_fields_cons. intros (Hhw & Hhandle & _) Hrole Hok.
  unfold aidl2legacy_AudioPortConfigMixExt in Hok.
  apply bind_Ok in Hok as (hw & Hhw' & Hok). inversion Hhw'; subst hw.
  apply bind_Ok in Hok as (handle & Hhandle' & Hok). inversion Hhandle'; subst handle.
  apply bind_Ok in Hok as (usecase & Husecase & Hok). inversion Hok; subst legacy.
  unfold legacy2aidl_AudioPortConfigMixExt.
  cbn [audio_port_config_mix_ext.hw_module audio_port_config_mix_ext.handle
       audio_port_config_mix_ext.usecase].
  rewrite (usecase_back _ _ _ _ Hrole Husecase).
  unfold legacy2aidl_audio_module_handle_t_int32_t, legacy2aidl_audio_io_handle_t_int32_t,
    convertReinterpret. cbn [bind].
  rewrite (reinterpret_back audio_module_handle_t) by (done || apply asserts).
  rewrite (reinterpret_back audio_io_handle_t) by (done || apply asserts).
  reflexivity.
Qed.

Lemma ext_back aidl type role legacy_type legacy_role legacy :
  ext_wire_values aidl ->
  aidl2legacy_AudioPortType_audio_port_type_t type = Ok legacy_type ->
  aidl2legacy_AudioPortRole_audio_port_role_t role = Ok legacy_role ->
  aidl2legacy_AudioPortConfigExt aidl type role = Ok legacy ->
  legacy2aidl_AudioPortConfigExt legacy legacy_type legacy_role = Ok (ext_image aidl).
Proof.
  intros Hwire Htype Hrole Hok.
  pose proof (labels_aidl2legacy_AudioPortType_audio_port_type_t labels) as Haidl.
  pose proof (labels_legacy2aidl_audio_port_type_t_AudioPortType labels) as Hlegacy.
  unfold aidl2legacy_AudioPortConfigExt in Hok. cbv zeta in Hok.
  unfold legacy2aidl_AudioPortConfigExt.
  apply switch_inv in Htype as [Htype|Htype]; [|discriminate].
  repeat (apply elem_of_cons in Htype as [Htype|Htype];
          [inversion Htype; subst; clear Htype;
           erewrite switch_elem_of in Hok; [|exact Haidl|prove_elem_of];
           erewrite switch_elem_of; [|exact Hlegacy|prove_elem_of]|]);
    [..|apply elem_of_nil in Htype; destruct Htype].
  - apply bind_Ok in Hok as (b & Hget & Hok). destruct aidl; try discriminate.
    reflexivity.
  - apply bind_Ok in Hok as (d & Hget & Hok). destruct aidl; try discriminate.
    inversion Hget; subst d. apply bind_Ok in Hok as (d' & Hconv & Hok).
    inversion Hok; subst legacy. rewrite ext_device_stored.
    destruct Hwire as [Hfields Hnul].
    rewrite (device_ext_back _ _ Hfields Hnul Hconv). reflexivity.
  - apply bind_Ok in Hok as (m & Hget & Hok). destruct aidl; try discriminate.
    inversion Hget; subst m. apply bind_Ok in Hok as (m' & Hconv & Hok).
    inversion Hok; subst legacy. rewrite ext_mix_stored.
    rewrite (mix_ext_back _ _ _ _ Hwire Hrole Hconv). reflexivity.
  - apply bind_Ok in Hok as (s & Hget & Hok). destruct aidl; try discriminate.
    inversion Hget; subst s. apply bind_Ok in Hok as (s' & Hconv & Hok).
    inversion Hok; subst legacy. rewrite ext_session_stored.
    rewrite (session_ext_back _ _ Hwire Hconv). reflexivity.
Qed.

(** X20. The extension of a wire port config that converts, with the role and
    the type it was converted under, comes back from the legacy extension
    under the converted role and type: the same member with the same
    contents, except that a [nothing] member comes back as [false]. *)
Theorem port_config_ext_roundtrip aidl type role legacy_type legacy_role legacy :
  ext_wire_values aidl ->
  aidl2legacy_AudioPortType_audio_port_type_t type = Ok legacy_type ->
  aidl2legacy_AudioPortRole_audio_port_role_t role = Ok legacy_role ->
  aidl2legacy_AudioPortConfigExt aidl type role = Ok legacy ->
  legacy2aidl_AudioPortConfigExt legacy legacy_type legacy_role = Ok (ext_image aidl).
Proof. exact (ext_back aidl type role legacy_type legacy_role legacy). Qed.
End ExtRoundTrip.

(** ** Port configs, from the wire side *)

Lemma land_pow2_testbit (mask j : Z) :
  0 <= j -> negb (Z.land mask (2 ^ j) =? 0) = Z.testbit mask j.
Proof.
  intros Hj. destruct (Z.testbit mask j) eqn:Hbit.
  - apply negb_true_iff, Z.eqb_neq. intros Hz.
    assert (Z.testbit (Z.land mask (2 ^ j)) j = true) as Hl
      by (rewrite Z.land_spec, Hbit, Z.pow2_bits_true; done).
    rewrite Hz, Z.bits_0 in Hl. discriminate.
  - apply negb_false_iff, Z.eqb_eq, Z.bits_inj'. intros k Hk.
    rewrite Z.bits_0, Z.land_spec, Z.pow2_bits_eqb by done.
    destruct (Z.eqb_spec j k); [subst k; rewrite Hbit|]; auto using andb_false_r.
Qed.

Section PortConfigRoundTrip.
Context `{Headers}.
Hypothesis labels : distinct_case_labels.
Hypothesis asserts : static_asserts.
Hypothesis masks : mask_declarations.
Hypothesis flags : flag_declarations.
Hypothesis width_size_t : 0 < bits size_t.
Hypothesis address_len :
  1 <= AUDIO_DEVICE_MAX_ADDRESS_LEN /\
  representable size_t (AUDIO_DEVICE_MAX_ADDRESS_LEN - 1) = true.
Hypothesis legacy_GAIN : single_bits [AUDIO_PORT_CONFIG_GAIN].
Hypothesis legacy_GAIN_distinct :
  AUDIO_PORT_CONFIG_GAIN ∉
    [AUDIO_PORT_CONFIG_SAMPLE_RATE; AUDIO_PORT_CONFIG_CHANNEL_MASK;
     AUDIO_PORT_CONFIG_FORMAT; AUDIO_PORT_CONFIG_FLAGS].

(** The bits of a converted config mask: bit [j] is set when a set wire
    bit converts to the enumerator [1 << j]. *)
Lemma legacy_config_mask_bit aidl legacy j :
  aidl2legacy_int32_t_config_mask aidl = Ok legacy -> 0 <= j < 31 ->
  config_mask_has legacy (2 ^ j) = true <->
  exists i, 0 <= i < 32 /\ Z.testbit aidl i = true /\
            aidl2legacy_AudioPortConfigType i = Ok (2 ^ j).
Proof.
  intros Hok Hj. unfold config_mask_has. rewrite land_pow2_testbit by lia.
  apply convertBitmask_Ok in Hok as [_ Hbits].
  rewrite (Hbits j) by (change (bits unsigned) with 32; lia).
  change (bits int32_t) with 32. split.
  - intros (i & e & Hi & Hbit & He & Hej). exists i. split; [done|]. split; [done|].
    rewrite index2enum_index_small in He
      by (done || exact (proj1 (indices_AudioPortConfigType masks))).
    rewrite He. f_equal.
    assert (exists j', 0 <= j' < 31 /\ e = 2 ^ j') as (j' & Hj' & ->).
    { pose proof (proj1 (list.Forall_forall _ _) (bits_audio_port_config flags)) as Hall.
      apply switch_inv in He as [He|He]; [|discriminate].
      repeat (apply elem_of_cons in He as [Heq|He];
              [inversion Heq; subst; apply Hall; prove_elem_of|]).
      apply elem_of_nil in He. destruct He. }
    rewrite enumToMask_bitmask_pow2 in Hej by (reflexivity || lia).
    apply bool_decide_eq_true in Hej. congruence.
  - intros (i & Hi & Hbit & He). exists i, (2 ^ j).
    rewrite index2enum_index_small
      by (done || exact (proj1 (indices_AudioPortConfigType masks))).
    split; [done|]. split; [done|]. split; [done|].
    rewrite enumToMask_bitmask_pow2 by (reflexivity || lia).
    apply bool_decide_eq_true. reflexivity.
Qed.

Lemma legacy_config_mask_selects aidl legacy index enumerator :
  representable int32_t aidl = true ->
  aidl2legacy_int32_t_config_mask aidl = Ok legacy ->
  aidl2legacy_AudioPortConfigType index = Ok enumerator ->
  config_mask_has legacy enumerator = bitmaskIsSet int32_t aidl index.
Proof.
  intros Hrep Hok Hindex.
  assert (0 <= index < 32) as Hrange.
  { pose proof (proj1 (list.Forall_forall _ _)
                  (proj2 (indices_AudioPortConfigType masks))) as Hall.
    apply switch_inv in Hindex as [Hin|Hin]; [|discriminate].
    repeat (apply elem_of_cons in Hin as [Heq|Hin];
            [inversion Heq; subst; apply Hall; prove_elem_of|]).
    apply elem_of_nil in Hin. destruct Hin. }
  assert (exists j, 0 <= j < 31 /\ enumerator = 2 ^ j) as (j & Hj & ->).
  { pose proof (proj1 (list.Forall_forall _ _) (bits_audio_port_config flags)) as Hall.
    pose proof Hindex as Hin. apply switch_inv in Hin as [Hin|Hin]; [|discriminate].
    repeat (apply elem_of_cons in Hin as [Heq|Hin];
            [inversion Heq; subst; apply Hall; prove_elem_of|]).
    apply elem_of_nil in Hin. destruct Hin. }
  rewrite bitmaskIsSet_testbit by done.
  apply eq_true_iff_eq. rewrite (legacy_config_mask_bit _ _ _ Hok Hj). split.
  - intros (i & Hi & Hbit & He).
    pose proof (aidl_roundtrip_AudioPortConfigType labels _ _ He) as Hback.
    rewrite (aidl_roundtrip_AudioPortConfigType labels _ _ Hindex) in Hback.
    inversion Hback; subst i. exact Hbit.
  - intros Hbit. exists index. done.
Qed.

Lemma legacy_config_mask_GAIN aidl legacy :
  aidl2legacy_int32_t_config_mask aidl = Ok legacy ->
  config_mask_has legacy AUDIO_PORT_CONFIG_GAIN = false.
Proof.
  intros Hok.
  apply list.Forall_cons in legacy_GAIN as [(g & Hg & Hpow) _].
  apply not_true_is_false. rewrite Hpow, (legacy_config_mask_bit _ _ _ Hok Hg).
  intros (i & _ & _ & He). apply legacy_GAIN_distinct. rewrite Hpow.
  apply switch_inv in He as [He|He]; [|discriminate].
  repeat (apply elem_of_cons in He as [Heq|He];
          [injection Heq as _ Hvalue; rewrite Hvalue; prove_elem_of|]).
  apply elem_of_nil in He. destruct He.
Qed.

Lemma aidl2legacy_AudioPortConfigType_cases :
  aidl2legacy_AudioPortConfigType media.AudioPortConfigType.SAMPLE_RATE
    = Ok AUDIO_PORT_CONFIG_SAMPLE_RATE /\
  aidl2legacy_AudioPortConfigType media.AudioPortConfigType.CHANNEL_MASK
    = Ok AUDIO_PORT_CONFIG_CHANNEL_MASK /\
  aidl2legacy_AudioPortConfigType media.AudioPortConfigType.FORMAT
    = Ok AUDIO_PORT_CONFIG_FORMAT /\
  aidl2legacy_AudioPortConfigType media.AudioPortConfigType.FLAGS
    = Ok AUDIO_PORT_CONFIG_FLAGS.
Proof.
  repeat split; apply switch_elem_of;
    first [exact (labels_aidl2legacy_AudioPortConfigType labels)|prove_elem_of].
Qed.

Lemma io_flags_back aidl role type legacy_role legacy_type legacy :
  io_flags_wire_values aidl ->
  aidl2legacy_AudioPortRole_audio_port_role_t role = Ok legacy_role ->
  aidl2legacy_AudioPortType_audio_port_type_t type = Ok legacy_type ->
  aidl2legacy_AudioIoFlags_audio_io_flags aidl role type = Ok legacy ->
  legacy2aidl_audio_io_flags_AudioIoFlags legacy legacy_role legacy_type = Ok aidl.
Proof.
  intros Hwire Hrole Htype Hok.
  unfold aidl2legacy_AudioIoFlags_audio_io_flags in Hok. cbv zeta in Hok.
  unfold legacy2aidl_audio_io_flags_AudioIoFlags.
  rewrite (direction_legacy_converted labels _ _ _ _ Hrole Htype).
  apply bind_Ok in Hok as (dir & -> & Hok). cbn [bind].
  destruct dir; apply bind_Ok in Hok as (v & Hget & Hok);
    destruct aidl; try discriminate; inversion Hget; subst v;
    apply bind_Ok in Hok as (v' & Hconv & Hok); inversion Hok; subst legacy;
    apply int32_fields_cons in Hwire as [Hv _].
  - unfold audio_io_flags_input, audio_io_flags.input. cbn [audio_io_flags.storage].
    rewrite legacy2aidl_audio_input_flags_mask_cast.
    rewrite (wire_roundtrip_input_flags labels masks flags _ _ Hv Hconv). reflexivity.
  - unfold audio_io_flags_output, audio_io_flags.output. cbn [audio_io_flags.storage].
    rewrite legacy2aidl_audio_output_flags_mask_cast.
    rewrite (wire_roundtrip_output_flags labels masks flags _ _ Hv Hconv). reflexivity.
Qed.

Lemma port_config_back aidl legacy :
  port_config_wire_values aidl ->
  aidl2legacy_AudioPortConfig_audio_port_config aidl = Ok legacy ->
  legacy2aidl_audio_port_config_AudioPortConfig legacy = Ok (port_config_image aidl).
Proof.
  intros (Hfields & Hformat & Hflags & Hext) Hok.
  rewrite !int32_fields_cons in Hfields.
  destruct Hfields as (Hid & Hmask & Hrate & Hchannel & _).
  destruct aidl2legacy_AudioPortConfigType_cases as (Hcase1 & Hcase2 & Hcase3 & Hcase4).
  unfold aidl2legacy_AudioPortConfig_audio_port_config in Hok. cbv zeta in Hok.
  apply bind_Ok in Hok as (legacy_id & Hlid & Hok). inversion Hlid; subst legacy_id.
  apply bind_Ok in Hok as (legacy_role & Hrole & Hok).
  apply bind_Ok in Hok as (legacy_type & Htype & Hok).
  apply bind_Ok in Hok as (legacy_config_mask & Hcm & Hok).
  apply bind_Ok in Hok as (legacy_sample_rate & Hsr & Hok).
  apply bind_Ok in Hok as (legacy_channel_mask & Hch & Hok).
  apply bind_Ok in Hok as (legacy_format & Hfmt & Hok).
  apply bind_Ok in Hok as (legacy_gain & Hgain & Hok).
  apply bind_Ok in Hok as (legacy_flags & Hfl & Hok).
  apply bind_Ok in Hok as (legacy_ext & Hlext & Hok).
  inversion Hok; subst legacy. clear Hok Hlid.
  unfold legacy2aidl_audio_port_config_AudioPortConfig, port_config_image. cbv zeta.
  cbn [audio_port_config.id audio_port_config.role audio_port_config.type
       audio_port_config.config_mask audio_port_config.sample_rate
       audio_port_config.channel_mask audio_port_config.format audio_port_config.gain
       audio_port_config.flags audio_port_config.ext].
  rewrite (legacy_config_mask_selects _ _ _ _ Hmask Hcm Hcase1).
  rewrite (legacy_config_mask_selects _ _ _ _ Hmask Hcm Hcase2).
  rewrite (legacy_config_mask_selects _ _ _ _ Hmask Hcm Hcase3).
  rewrite (legacy_config_mask_selects _ _ _ _ Hmask Hcm Hcase4).
  rewrite (legacy_config_mask_GAIN _ _ Hcm).
  unfold legacy2aidl_audio_port_handle_t_int32_t, convertReinterpret. cbn [bind].
  rewrite (reinterpret_back audio_port_handle_t) by (done || apply asserts).
  rewrite (aidl_roundtrip_AudioPortRole labels _ _ Hrole). cbn [bind].
  rewrite (aidl_roundtrip_AudioPortType labels _ _ Htype). cbn [bind].
  rewrite (wire_roundtrip_config_mask labels masks flags _ _ Hmask Hcm). cbn [bind].
  rewrite (ext_back labels asserts width_size_t address_len _ _ _ _ _ _
             Hext Htype Hrole Hlext).
  destruct (bitmaskIsSet int32_t _ media.AudioPortConfigType.SAMPLE_RATE);
    [apply convertIntegral_Ok in Hsr as [-> _];
     rewrite (convertIntegral_representable int32_t) by done|];
    cbn [bind];
    (destruct (bitmaskIsSet int32_t _ media.AudioPortConfigType.CHANNEL_MASK);
     [inversion Hch; subst legacy_channel_mask;
      unfold legacy2aidl_audio_channel_mask_t_int32_t, convertReinterpret;
      rewrite (reinterpret_back audio_channel_mask_t) by (done || apply asserts)|]);
    cbn [bind];
    (destruct (bitmaskIsSet int32_t _ media.AudioPortConfigType.FORMAT);
     [rewrite (aidl_roundtrip_AudioFormat asserts _ _ Hformat Hfmt)|]);
    cbn [bind];
    (destruct (bitmaskIsSet int32_t _ media.AudioPortConfigType.FLAGS);
     [rewrite (io_flags_back _ _ _ _ _ _ Hflags Hrole Htype Hfl)|]);
    cbn [bind]; reflexivity.
Qed.

(** X21. A wire port config that converts comes back from the legacy one with
    its id, role, type and config mask, the fields that the mask selects,
    and its extension (a [nothing] member as [false]); the fields that the
    mask does not select, and the gain, come back as those of a
    default-constructed [media::AudioPortConfig]. *)
Theorem port_config_roundtrip aidl legacy :
  port_config_wire_values aidl ->
  aidl2legacy_AudioPortConfig_audio_port_config aidl = Ok legacy ->
  legacy2aidl_audio_port_config_AudioPortConfig legacy = Ok (port_config_image aidl).
Proof. exact (port_config_back aidl legacy). Qed.
End PortConfigRoundTrip.

(** ** Patches, from the wire side *)

Lemma vector_loop_complete {A B} (convert : A -> ConversionResult B) (n : nat)
    (src : list A) (dest : list B) :
  converted_prefix convert n src dest ->
  for_loop n 0
    (fun i dest =>
       VALUE_OR_RETURN x <- at_index src i;
       VALUE_OR_RETURN y <- convert x;
       Ok (dest ++ [y])) [] = Ok dest.
Proof.
  intros [Hlen Hconv].
  assert (forall m k, (k + m = n)%nat ->
            for_loop m (Z.of_nat k)
              (fun i dest =>
                 VALUE_OR_RETURN x <- at_index src i;
                 VALUE_OR_RETURN y <- convert x;
                 Ok (dest ++ [y])) (take k dest) = Ok dest) as Hloop.
  { induction m as [|m IH]; intros k Hk; simpl for_loop.
    - rewrite firstn_all2 by lia. reflexivity.
    - destruct (Hconv k ltac:(lia)) as (x & y & Hx & Hy & Hdest).
      unfold at_index. rewrite Nat2Z.id, Hx.
      destruct (decide (0 <= Z.of_nat k)); [|lia]. cbn [bind]. rewrite Hy. cbn [bind].
      rewrite <- (take_S_r _ _ _ Hdest).
      replace (Z.of_nat k + 1) with (Z.of_nat (S k)) by lia. apply IH. lia. }
  exact (Hloop n 0%nat eq_refl).
Qed.

Section PatchRoundTrip.
Context `{Headers}.
Hypothesis labels : distinct_case_labels.
Hypothesis asserts : static_asserts.
Hypothesis masks : mask_declarations.
Hypothesis flags : flag_declarations.
Hypothesis width_size_t : 0 < bits size_t.
Hypothesis address_len :
  1 <= AUDIO_DEVICE_MAX_ADDRESS_LEN /\
  representable size_t (AUDIO_DEVICE_MAX_ADDRESS_LEN - 1) = true.
Hypothesis legacy_GAIN : single_bits [AUDIO_PORT_CONFIG_GAIN].
Hypothesis legacy_GAIN_distinct :
  AUDIO_PORT_CONFIG_GAIN ∉
    [AUDIO_PORT_CONFIG_SAMPLE_RATE; AUDIO_PORT_CONFIG_CHANNEL_MASK;
     AUDIO_PORT_CONFIG_FORMAT; AUDIO_PORT_CONFIG_FLAGS].

Lemma ports_back (ports : list media.AudioPortConfig.t)
    (init array : list audio_port_config.t) :
  Forall port_config_wire_values ports ->
  converted_into aidl2legacy_AudioPortConfig_audio_port_config (length ports) ports
    init array ->
  converted_prefix legacy2aidl_audio_port_config_AudioPortConfig (length ports) array
    (port_config_image <$> ports).
Proof.
  intros Hwire (_ & Hconv & _). split; [apply length_fmap|].
  intros i Hi. destruct (Hconv i Hi) as (p & q & Hp & Hq & Harray).
  exists q, (port_config_image p). split; [exact Harray|]. split.
  - apply (port_config_back labels asserts masks flags width_size_t address_len
             legacy_GAIN legacy_GAIN_distinct); [|exact Hq].
    rewrite list.Forall_forall in Hwire. apply Hwire.
    apply list_elem_of_lookup. eauto.
  - rewrite list_lookup_fmap, Hp. reflexivity.
Qed.

Lemma patch_back aidl legacy :
  representable int32_t (media.AudioPatch.id aidl) = true ->
  Forall port_config_wire_values (media.AudioPatch.sinks aidl) ->
  Forall port_config_wire_values (media.AudioPatch.sources aidl) ->
  aidl2legacy_AudioPatch_audio_patch aidl = Ok legacy ->
  legacy2aidl_audio_patch_AudioPatch legacy =
  Ok {| media.AudioPatch.id := media.AudioPatch.id aidl;
        media.AudioPatch.sinks := port_config_image <$> media.AudioPatch.sinks aidl;
        media.AudioPatch.sources := port_config_image <$> media.AudioPatch.sources aidl |}.
Proof.
  intros Hid Hsinks Hsources Hok.
  unfold aidl2legacy_AudioPatch_audio_patch in Hok. cbv zeta in Hok.
  apply bind_Ok in Hok as (legacy_id & Hlid & Hok). inversion Hlid; subst legacy_id.
  apply bind_Ok in Hok as (num_sinks & Hnum_sinks & Hok).
  apply convertIntegral_Ok in Hnum_sinks as [-> _].
  destruct (decide _) as [|Hmax_sinks]; [discriminate|].
  apply bind_Ok in Hok as (legacy_sinks & Hloop_sinks & Hok).
  apply bind_Ok in Hok as (num_sources & Hnum_sources & Hok).
  apply convertIntegral_Ok in Hnum_sources as [-> _].
  destruct (decide _) as [|Hmax_sources]; [discriminate|].
  apply bind_Ok in Hok as (legacy_sources & Hloop_sources & Hok).
  inversion Hok; subst legacy. clear Hok Hlid.
  unfold size in *. rewrite Nat2Z.id in Hloop_sinks, Hloop_sources.
  apply array_loop_Ok, (ports_back _ _ _ Hsinks) in Hloop_sinks.
  apply array_loop_Ok, (ports_back _ _ _ Hsources) in Hloop_sources.
  unfold legacy2aidl_audio_patch_AudioPatch.
  cbn [audio_patch.id audio_patch.num_sinks audio_patch.sinks audio_patch.num_sources
       audio_patch.sources].
  unfold legacy2aidl_audio_patch_handle_t_int32_t, convertReinterpret. cbn [bind].
  rewrite (reinterpret_back audio_patch_handle_t) by (done || apply asserts).
  destruct (decide _); [done|]. rewrite Nat2Z.id.
  rewrite (vector_loop_complete _ _ _ _ Hloop_sinks). cbn [bind].
  destruct (decide _); [done|]. rewrite Nat2Z.id.
  rewrite (vector_loop_complete _ _ _ _ Hloop_sources). reflexivity.
Qed.

(** X22. A wire patch that converts comes back from the legacy patch with its
    id and, in the same order, what comes back of each of its sinks and
    sources; the entries of the legacy arrays after them are not read. *)
Theorem patch_roundtrip aidl legacy :
  representable int32_t (media.AudioPatch.id aidl) = true ->
  Forall port_config_wire_values (media.AudioPatch.sinks aidl) ->
  Forall port_config_wire_values (media.AudioPatch.sources aidl) ->
  aidl2legacy_AudioPatch_audio_patch aidl = Ok legacy ->
  legacy2aidl_audio_patch_AudioPatch legacy =
  Ok {| media.AudioPatch.id := media.AudioPatch.id aidl;
        media.AudioPatch.sinks := port_config_image <$> media.AudioPatch.sinks aidl;
        media.AudioPatch.sources := port_config_image <$> media.AudioPatch.sources aidl |}.
Proof. exact (patch_back aidl legacy). Qed.
End PatchRoundTrip.

(** ** Attributes, configurations and I/O descriptors, from the wire side *)

Section AttributesRoundTrip.
Context `{Headers} `{offload_attributes_h}.
Hypothesis labels : distinct_case_labels.
Hypothesis masks : mask_declarations.
Hypothesis flags : flag_declarations.
Hypothesis width_size_t : 0 < bits size_t.
Hypothesis tags_len :
  1 <= sizeof_audio_attributes_tags /\
  representable size_t (sizeof_audio_attributes_tags - 1) = true.

(** X23. Wire attributes that convert come back from the legacy attributes,
    the tags being a string without NUL byte; tags that do not fit the
    array of the legacy struct together with their terminator are
    rejected. *)
Theorem attributes_roundtrip :
  (forall aidl legacy,
     representable int32_t (media_more.AudioAttributesInternal.flags aidl) = true ->
     x00 ∉ media_more.AudioAttributesInternal.tags aidl ->
     aidl2legacy_AudioAttributesInternal_audio_attributes_t aidl = Ok legacy ->
     legacy2aidl_audio_attributes_t_AudioAttributesInternal legacy = Ok aidl) /\
  (forall aidl,
     sizeof_audio_attributes_tags <= size (media_more.AudioAttributesInternal.tags aidl) ->
     failed (aidl2legacy_AudioAttributesInternal_audio_attributes_t aidl)).
Proof.
  destruct tags_len as [Hlen Hfits]. split.
  - intros aidl legacy Hflags Hnul Hok.
    unfold aidl2legacy_AudioAttributesInternal_audio_attributes_t in Hok.
    cbv zeta in Hok.
    apply bind_Ok in Hok as (content_type & Hcontent & Hok).
    apply bind_Ok in Hok as (usage & Husage & Hok).
    apply bind_Ok in Hok as (source & Hsource & Hok).
    apply bind_Ok in Hok as (legacy_flags & Hlf & Hok).
    destruct (aidl2legacy_string _ _ _) as [[|] tags] eqn:Hstring; [|discriminate].
    inversion Hok; subst legacy.
    unfold legacy2aidl_audio_attributes_t_AudioAttributesInternal.
    cbn [audio_attributes_t.content_type audio_attributes_t.usage
         audio_attributes_t.source audio_attributes_t.flags audio_attributes_t.tags].
    rewrite (aidl_roundtrip_AudioContentType labels _ _ Hcontent).
    rewrite (aidl_roundtrip_AudioUsage labels _ _ Husage).
    rewrite (aidl_roundtrip_AudioSourceType labels _ _ Hsource).
    rewrite (wire_roundtrip_audio_flags labels masks flags _ _ Hflags Hlf).
    rewrite (legacy2aidl_string_written width_size_t _ _ _ _ Hlen Hfits Hstring).
    rewrite c_string_no_NUL by done. cbn [bind]. destruct aidl; reflexivity.
  - intros aidl Hlong Hok. apply is_Ok_exists in Hok as [legacy Hok].
    unfold aidl2legacy_AudioAttributesInternal_audio_attributes_t in Hok.
    cbv zeta in Hok.
    do 4 (apply bind_Ok in Hok as (? & _ & Hok)).
    unfold aidl2legacy_string in Hok.
    rewrite static_cast_representable in Hok by done.
    destruct (decide _); [discriminate|lia].
Qed.
End AttributesRoundTrip.

Section ConfigRoundTrip.
Context `{Headers} `{offload_attributes_h}.
Hypothesis labels : distinct_case_labels.
Hypothesis asserts : static_asserts.
Hypothesis version_sizes :
  offload_info_size_0_1 <= offload_info_size_0_2 <= sizeof_audio_offload_info_t.
Hypothesis sizeof_fits : representable uint16_t sizeof_audio_offload_info_t = true.

(** X24. A wire [AudioConfig] that converts comes back from the legacy one,
    with what comes back of its offload info. *)
Theorem audio_config_roundtrip aidl legacy :
  let offloadInfo := media_more.AudioConfig.offloadInfo aidl in
  int32_fields
    [media_more.AudioConfig.sampleRate aidl; media_more.AudioConfig.channelMask aidl;
     media_more.AudioConfigBase.sampleRate (media_more.AudioOffloadInfo.config offloadInfo);
     media_more.AudioConfigBase.channelMask (media_more.AudioOffloadInfo.config offloadInfo);
     media_more.AudioOffloadInfo.bitRate offloadInfo;
     media_more.AudioOffloadInfo.bitWidth offloadInfo;
     media_more.AudioOffloadInfo.offloadBufferSize offloadInfo;
     media_more.AudioOffloadInfo.contentId offloadInfo;
     media_more.AudioOffloadInfo.syncId offloadInfo] ->
  representable media.AudioFormat.underlying (media_more.AudioConfig.format aidl) = true ->
  representable media.AudioFormat.underlying
    (media_more.AudioConfigBase.format (media_more.AudioOffloadInfo.config offloadInfo))
    = true ->
  aidl2legacy_AudioConfig_audio_config_t aidl = Ok legacy ->
  legacy2aidl_audio_config_t_AudioConfig legacy =
  Ok {| media_more.AudioConfig.sampleRate := media_more.AudioConfig.sampleRate aidl;
        media_more.AudioConfig.channelMask := media_more.AudioConfig.channelMask aidl;
        media_more.AudioConfig.format := media_more.AudioConfig.format aidl;
        media_more.AudioConfig.offloadInfo :=
          if decide (media_more.AudioOffloadInfo.version offloadInfo
                     >= AUDIO_OFFLOAD_INFO_VERSION_0_2)
          then offloadInfo else without_version_0_2_fields offloadInfo;
        media_more.AudioConfig.frameCount := media_more.AudioConfig.frameCount aidl |}.
Proof.
  cbv zeta. rewrite int32_fields_cons, int32_fields_cons.
  intros (Hrate & Hmask & Hoffload) Hformat Hoffload_format Hok.
  unfold aidl2legacy_AudioConfig_audio_config_t in Hok.
  apply bind_Ok in Hok as (sample_rate & Hsr & Hok).
  apply convertIntegral_Ok in Hsr as [-> _].
  apply bind_Ok in Hok as (channel_mask & Hcm & Hok). inversion Hcm; subst channel_mask.
  apply bind_Ok in Hok as (format & Hf & Hok).
  apply bind_Ok in Hok as (offload_info & Hinfo & Hok).
  apply bind_Ok in Hok as (frame_count & Hfc & Hok).
  apply convertIntegral_Ok in Hfc as [-> Hfc].
  inversion Hok; subst legacy. clear Hok Hcm.
  unfold legacy2aidl_audio_config_t_AudioConfig.
  cbn [audio_config_t.sample_rate audio_config_t.channel_mask audio_config_t.format
       audio_config_t.offload_info audio_config_t.frame_count].
  rewrite (convertIntegral_representable int32_t) by done.
  rewrite (aidl_roundtrip_AudioFormat asserts _ _ Hformat Hf).
  rewrite (offload_info_back labels asserts version_sizes sizeof_fits _ _
             Hoffload Hoffload_format Hinfo).
  rewrite (convertIntegral_representable int64_t).
  - unfold legacy2aidl_audio_channel_mask_t_int32_t, convertReinterpret. cbn [bind].
    rewrite (reinterpret_back audio_channel_mask_t) by (done || apply asserts).
    reflexivity.
  - unfold representable, min_value, max_value in *. simpl in *.
    apply andb_true_iff in Hfc as [Hmin Hmax].
    apply Z.leb_le in Hmin. apply Z.leb_le in Hmax.
    apply andb_true_iff. rewrite !Z.leb_le. lia.
Qed.
End ConfigRoundTrip.

Section IoDescriptorRoundTrip.
Context `{Headers} `{offload_attributes_h}.
Hypothesis labels : distinct_case_labels.
Hypothesis asserts : static_asserts.
Hypothesis masks : mask_declarations.
Hypothesis flags : flag_declarations.
Hypothesis width_size_t : 0 < bits size_t.
Hypothesis address_len :
  1 <= AUDIO_DEVICE_MAX_ADDRESS_LEN /\
  representable size_t (AUDIO_DEVICE_MAX_ADDRESS_LEN - 1) = true.
Hypothesis legacy_GAIN : single_bits [AUDIO_PORT_CONFIG_GAIN].
Hypothesis legacy_GAIN_distinct :
  AUDIO_PORT_CONFIG_GAIN ∉
    [AUDIO_PORT_CONFIG_SAMPLE_RATE; AUDIO_PORT_CONFIG_CHANNEL_MASK;
     AUDIO_PORT_CONFIG_FORMAT; AUDIO_PORT_CONFIG_FLAGS].

(** X25. A wire I/O descriptor that converts comes back from the legacy
    descriptor, with what comes back of its patch. *)
Theorem io_descriptor_roundtrip aidl legacy :
  let patch := media_more.AudioIoDescriptor.patch aidl in
  int32_fields
    [media_more.AudioIoDescriptor.ioHandle aidl;
     media_more.AudioIoDescriptor.samplingRate aidl;
     media_more.AudioIoDescriptor.channelMask aidl;
     media_more.AudioIoDescriptor.latency aidl;
     media_more.AudioIoDescriptor.portId aidl;
     media.AudioPatch.id patch] ->
  representable int64_t (media_more.AudioIoDescriptor.frameCount aidl) = true ->
  representable int64_t (media_more.AudioIoDescriptor.frameCountHAL aidl) = true ->
  representable media.AudioFormat.underlying (media_more.AudioIoDescriptor.format aidl)
    = true ->
  Forall port_config_wire_values (media.AudioPatch.sinks patch) ->
  Forall port_config_wire_values (media.AudioPatch.sources patch) ->
  aidl2legacy_AudioIoDescriptor_AudioIoDescriptor aidl = Ok legacy ->
  legacy2aidl_AudioIoDescriptor_AudioIoDescriptor legacy =
  Ok {| media_more.AudioIoDescriptor.ioHandle := media_more.AudioIoDescriptor.ioHandle aidl;
        media_more.AudioIoDescriptor.patch :=
          {| media.AudioPatch.id := media.AudioPatch.id patch;
             media.AudioPatch.sinks := port_config_image <$> media.AudioPatch.sinks patch;
             media.AudioPatch.sources :=
               port_config_image <$> media.AudioPatch.sources patch |};
        media_more.AudioIoDescriptor.samplingRate :=
          media_more.AudioIoDescriptor.samplingRate aidl;
        media_more.AudioIoDescriptor.format := media_more.AudioIoDescriptor.format aidl;
        media_more.AudioIoDescriptor.channelMask :=
          media_more.AudioIoDescriptor.channelMask aidl;
        media_more.AudioIoDescriptor.frameCount :=
          media_more.AudioIoDescriptor.frameCount aidl;
        media_more.AudioIoDescriptor.frameCountHAL :=
          media_more.AudioIoDescriptor.frameCountHAL aidl;
        media_more.AudioIoDescriptor.latency := media_more.AudioIoDescriptor.latency aidl;
        media_more.AudioIoDescriptor.portId := media_more.AudioIoDescriptor.portId aidl |}.
Proof.
  cbv zeta. rewrite !int32_fields_cons.
  intros (Hio & Hrate & Hmask & Hlatency & Hport & Hid & _) Hfc Hfch Hformat
    Hsinks Hsources Hok.
  unfold aidl2legacy_AudioIoDescriptor_AudioIoDescriptor in Hok.
  apply bind_Ok in Hok as (mIoHandle & Hh & Hok). inversion Hh; subst mIoHandle.
  apply bind_Ok in Hok as (mPatch & Hpatch & Hok).
  apply bind_Ok in Hok as (mSamplingRate & Hsr & Hok).
  apply convertIntegral_Ok in Hsr as [-> _].
  apply bind_Ok in Hok as (mFormat & Hf & Hok).
  apply bind_Ok in Hok as (mChannelMask & Hcm & Hok). inversion Hcm; subst mChannelMask.
  apply bind_Ok in Hok as (mFrameCount & Hc & Hok).
  apply convertIntegral_Ok in Hc as [-> _].
  apply bind_Ok in Hok as (mFrameCountHAL & Hch & Hok).
  apply convertIntegral_Ok in Hch as [-> _].
  apply bind_Ok in Hok as (mLatency & Hl & Hok).
  apply convertIntegral_Ok in Hl as [-> _].
  apply bind_Ok in Hok as (mPortId & Hp & Hok). inversion Hp; subst mPortId.
  inversion Hok; subst legacy. clear Hok Hh Hcm Hp.
  unfold legacy2aidl_AudioIoDescriptor_AudioIoDescriptor.
  cbn [AudioIoDescriptor.mIoHandle AudioIoDescriptor.mPatch
       AudioIoDescriptor.mSamplingRate AudioIoDescriptor.mFormat
       AudioIoDescriptor.mChannelMask AudioIoDescriptor.mFrameCount
       AudioIoDescriptor.mFrameCountHAL AudioIoDescriptor.mLatency
       AudioIoDescriptor.mPortId].
  rewrite (patch_back labels asserts masks flags width_size_t address_len legacy_GAIN
             legacy_GAIN_distinct _ _ Hid Hsinks Hsources Hpatch).
  rewrite !convertIntegral_representable by done.
  rewrite (aidl_roundtrip_AudioFormat asserts _ _ Hformat Hf).
  unfold legacy2aidl_audio_io_handle_t_int32_t, legacy2aidl_audio_channel_mask_t_int32_t,
    legacy2aidl_audio_port_handle_t_int32_t, convertReinterpret. cbn [bind].
  rewrite (reinterpret_back audio_io_handle_t) by (done || apply asserts).
  rewrite (reinterpret_back audio_channel_mask_t) by (done || apply asserts).
  rewrite (reinterpret_back audio_port_handle_t) by (done || apply asserts).
  reflexivity.
Qed.
End IoDescriptorRoundTrip.

(** ** Descriptors whose conversion returns *)

Section DescriptorsReturn.
Context `{Headers} `{offload_attributes_h}.
Hypothesis labels : distinct_case_labels.
Hypothesis gain_values_array :
  size (audio_gain_config.values local_init) = audio_gain_config_values_size.
Hypothesis sinks_array : size (audio_patch.sinks local_init) = AUDIO_PATCH_PORTS_MAX.
Hypothesis sources_array : size (audio_patch.sources local_init) = AUDIO_PATCH_PORTS_MAX.

Ltac returns_enum :=
  apply returns_switch;
  [repeat (apply List.Forall_cons;
           [first [apply returns_Ok | apply returns_BAD_VALUE]|]);
   apply List.Forall_nil
  |first [apply returns_BAD_VALUE | apply returns_Ok]].

Ltac returns_call :=
  first
    [ apply returns_Ok
    | apply returns_BAD_VALUE
    | apply returns_convertIntegral
    | apply returns_convertBitmask; intros ?; returns_enum
    | returns_enum ].

Lemma returns_aidl2legacy_AudioConfigBase aidl :
  returns_normally (aidl2legacy_AudioConfigBase_audio_config_base_t aidl).
Proof.
  unfold aidl2legacy_AudioConfigBase_audio_config_base_t.
  repeat (apply returns_bind; [returns_call|intros ? _]). apply returns_Ok.
Qed.

Lemma returns_aidl2legacy_AudioOffloadInfo aidl :
  returns_normally (aidl2legacy_AudioOffloadInfo_audio_offload_info_t aidl).
Proof.
  unfold aidl2legacy_AudioOffloadInfo_audio_offload_info_t. cbv zeta.
  apply returns_bind; [returns_call|intros ? _].
  apply returns_bind; [apply returns_aidl2legacy_AudioConfigBase|intros ? _].
  repeat (apply returns_bind; [returns_call|intros ? _]). apply returns_Ok.
Qed.

(** X26. The converters of a wire I/O descriptor, of wire attributes, and of
    the three wire configurations return on every input, with a value or
    with BAD_VALUE; the converters of the legacy attributes and
    configurations, which read no union, do so too. *)
Theorem descriptor_conversions_return :
  (forall aidl,
     returns_normally (aidl2legacy_AudioIoDescriptor_AudioIoDescriptor aidl)) /\
  (forall aidl,
     returns_normally (aidl2legacy_AudioAttributesInternal_audio_attributes_t aidl)) /\
  (forall aidl, returns_normally (aidl2legacy_AudioConfigBase_audio_config_base_t aidl)) /\
  (forall aidl,
     returns_normally (aidl2legacy_AudioOffloadInfo_audio_offload_info_t aidl)) /\
  (forall aidl, returns_normally (aidl2legacy_AudioConfig_audio_config_t aidl)) /\
  (forall legacy,
     returns_normally (legacy2aidl_audio_attributes_t_AudioAttributesInternal legacy)) /\
  (forall legacy,
     returns_normally (legacy2aidl_audio_config_base_t_AudioConfigBase legacy)) /\
  (forall legacy,
     returns_normally (legacy2aidl_audio_offload_info_t_AudioOffloadInfo legacy)) /\
  (forall legacy, returns_normally (legacy2aidl_audio_config_t_AudioConfig legacy)).
Proof.
  assert (forall legacy,
            returns_normally (legacy2aidl_audio_offload_info_t_AudioOffloadInfo legacy))
    as Hoffload.
  { intros legacy. unfold legacy2aidl_audio_offload_info_t_AudioOffloadInfo. cbv zeta.
    destruct (decide _); [apply returns_BAD_VALUE|].
    do 10 (apply returns_bind; [returns_call|intros ? _]).
    apply returns_bind; [|intros; apply returns_Ok].
    destruct (decide _); [|apply returns_Ok].
    destruct (decide _); [apply returns_BAD_VALUE|].
    repeat (apply returns_bind; [returns_call|intros ? _]). apply returns_Ok. }
  repeat split.
  - intros aidl. unfold aidl2legacy_AudioIoDescriptor_AudioIoDescriptor.
    apply returns_bind; [returns_call|intros ? _].
    apply returns_bind;
      [apply (patch_conversion_returns_lemma labels gain_values_array sinks_array
                sources_array)|intros ? _].
    repeat (apply returns_bind; [returns_call|intros ? _]). apply returns_Ok.
  - intros aidl. unfold aidl2legacy_AudioAttributesInternal_audio_attributes_t.
    cbv zeta. do 4 (apply returns_bind; [returns_call|intros ? _]).
    destruct (aidl2legacy_string _ _ _) as [[|] tags];
      [apply returns_Ok|apply returns_BAD_VALUE].
  - apply returns_aidl2legacy_AudioConfigBase.
  - apply returns_aidl2legacy_AudioOffloadInfo.
  - intros aidl. unfold aidl2legacy_AudioConfig_audio_config_t.
    do 3 (apply returns_bind; [returns_call|intros ? _]).
    apply returns_bind; [apply returns_aidl2legacy_AudioOffloadInfo|intros ? _].
    repeat (apply returns_bind; [returns_call|intros ? _]). apply returns_Ok.
  - intros legacy. unfold legacy2aidl_audio_attributes_t_AudioAttributesInternal.
    do 4 (apply returns_bind; [returns_call|intros ? _]).
    apply returns_bind; [|intros; apply returns_Ok].
    unfold legacy2aidl_string. destruct (decide _);
      [apply returns_BAD_VALUE|apply returns_Ok].
  - intros legacy. unfold legacy2aidl_audio_config_base_t_AudioConfigBase.
    repeat (apply returns_bind; [returns_call|intros ? _]). apply returns_Ok.
  - exact Hoffload.
  - intros legacy. unfold legacy2aidl_audio_config_t_AudioConfig.
    do 3 (apply returns_bind; [returns_call|intros ? _]).
    apply returns_bind; [apply Hoffload|intros ? _].
    repeat (apply returns_bind; [returns_call|intros ? _]). apply returns_Ok.
Qed.
End DescriptorsReturn.

(** ** Unique ids, process ids and user ids *)

Section IdHandles.
Context `{offload_attributes_h}.
Hypothesis sizeof_audio_unique_id_t : bits audio_unique_id_t = bits int32_t.
Hypothesis sizeof_pid_t : bits pid_t = bits int32_t.
Hypothesis sizeof_uid_t : bits uid_t = bits int32_t.

(** X27. The three [convertReinterpret] pairs on unique ids, process ids and
    user ids are lossless in both directions, like the pairs on handles:
    a 32-bit wire value comes back from the legacy type, whether that type
    is signed or (as [uid_t]) unsigned, and a value of the legacy type comes
    back from [int32_t]. *)
Theorem id_handles_roundtrip :
  let pair (legacy_t : IntegralType)
           (aidl2legacy legacy2aidl : Z -> ConversionResult Z) :=
    (forall aidl, representable int32_t aidl = true ->
       (VALUE_OR_RETURN legacy <- aidl2legacy aidl; legacy2aidl legacy) = Ok aidl) /\
    (forall legacy, representable legacy_t legacy = true ->
       (VALUE_OR_RETURN aidl <- legacy2aidl legacy; aidl2legacy aidl) = Ok legacy) in
  pair audio_unique_id_t aidl2legacy_int32_t_audio_unique_id_t
    legacy2aidl_audio_unique_id_t_int32_t /\
  pair pid_t aidl2legacy_int32_t_pid_t legacy2aidl_pid_t_int32_t /\
  pair uid_t aidl2legacy_int32_t_uid_t legacy2aidl_uid_t_int32_t.
Proof.
  cbv zeta.
  repeat split; intros v Hv;
    apply convertReinterpret_roundtrip; simpl in *; (lia || done).
Qed.
End IdHandles.

(** * The further properties on concrete inputs *)

Ltac prove_int32_fields :=
  repeat (apply List.Forall_cons; [reflexivity|]); apply List.Forall_nil.

Ltac prove_no_NUL :=
  repeat (apply not_elem_of_cons; split; [discriminate|]); apply not_elem_of_nil.

Ltac prove_single_bit :=
  match goal with
  | |- exists j, _ /\ ?e = _ =>
      let j := eval vm_compute in (Z.log2 e) in
      exists j; split; [lia|reflexivity]
  end.

Section FurtherInstance.
#[local] Existing Instance aosp.headers.
#[local] Existing Instance aosp_more.declarations.

Lemma aosp_flag_declarations : flag_declarations.
Proof.
  split; repeat (apply List.Forall_cons; [prove_single_bit|]); apply List.Forall_nil.
Qed.

Lemma aosp_size_t : 0 < bits size_t.
Proof. reflexivity. Qed.

Lemma aosp_address_len :
  1 <= AUDIO_DEVICE_MAX_ADDRESS_LEN /\
  representable size_t (AUDIO_DEVICE_MAX_ADDRESS_LEN - 1) = true.
Proof. split; [vm_compute; discriminate|reflexivity]. Qed.

Lemma aosp_tags_len :
  1 <= sizeof_audio_attributes_tags /\
  representable size_t (sizeof_audio_attributes_tags - 1) = true.
Proof. split; [vm_compute; discriminate|reflexivity]. Qed.

Lemma aosp_version_sizes :
  offload_info_size_0_1 <= offload_info_size_0_2 <= sizeof_audio_offload_info_t.
Proof. split; vm_compute; discriminate. Qed.

Lemma aosp_legacy_GAIN : single_bits [AUDIO_PORT_CONFIG_GAIN].
Proof. apply List.Forall_cons; [prove_single_bit|apply List.Forall_nil]. Qed.

Lemma aosp_legacy_GAIN_distinct :
  AUDIO_PORT_CONFIG_GAIN ∉
    [AUDIO_PORT_CONFIG_SAMPLE_RATE; AUDIO_PORT_CONFIG_CHANNEL_MASK;
     AUDIO_PORT_CONFIG_FORMAT; AUDIO_PORT_CONFIG_FLAGS].
Proof. apply (bool_decide_unpack _). vm_compute. exact I. Qed.

Lemma aosp_GAIN_distinct :
  media.AudioPortConfigType.GAIN ∉
    [media.AudioPortConfigType.SAMPLE_RATE; media.AudioPortConfigType.CHANNEL_MASK;
     media.AudioPortConfigType.FORMAT; media.AudioPortConfigType.FLAGS].
Proof. apply (bool_decide_unpack _). vm_compute. exact I. Qed.

Lemma mic_port_wire_values : port_config_wire_values mic_port.
Proof.
  split; [prove_int32_fields|]. split; [reflexivity|]. split; [prove_int32_fields|].
  split; [prove_int32_fields|prove_no_NUL].
Qed.

Lemma record_mix_port_wire_values : port_config_wire_values record_mix_port.
Proof.
  split; [prove_int32_fields|]. split; [reflexivity|]. split; prove_int32_fields.
Qed.
End FurtherInstance.

Section FurtherWitnesses.
#[local] Existing Instance aosp.headers.
#[local] Existing Instance aosp_more.declarations.

Lemma aidl_enums_roundtrip_witness :
  distinct_case_labels /\ static_asserts /\
  (aidl2legacy_AudioUsage_audio_usage_t media.AudioUsage.ALARM = Ok AUDIO_USAGE_ALARM ->
   legacy2aidl_audio_usage_t_AudioUsage AUDIO_USAGE_ALARM = Ok media.AudioUsage.ALARM).
Proof.
  split; [exact aosp_distinct_case_labels|]. split; [exact aosp_static_asserts|].
  pose proof (aidl_enums_roundtrip aosp_distinct_case_labels aosp_static_asserts)
    as (_ & _ & _ & _ & _ & _ & _ & _ & _ & _ & Husage & _).
  exact (Husage media.AudioUsage.ALARM AUDIO_USAGE_ALARM).
Defined.

Lemma direction_overloads_agree_witness :
  distinct_case_labels /\
  direction_legacy AUDIO_PORT_ROLE_SINK AUDIO_PORT_TYPE_MIX
  = direction media.AudioPortRole.SINK media.AudioPortType.MIX.
Proof.
  split; [exact aosp_distinct_case_labels|].
  apply (proj1 (direction_overloads_agree aosp_distinct_case_labels)); reflexivity.
Defined.

(** "mic" written into a buffer of 32 bytes. *)
Lemma aidl2legacy_string_bounds_witness :
  exists dest',
    aidl2legacy_string mic_address stale_buffer 32 = (OK, dest') /\
    length dest' = length stale_buffer /\
    take (length mic_address) dest' = mic_address /\
    dest' !! length mic_address = Some x00 /\
    drop (S (length mic_address)) dest' = drop (S (length mic_address)) stale_buffer.
Proof.
  apply (aidl2legacy_string_bounds aosp_size_t mic_address stale_buffer 32);
    first [reflexivity | vm_compute; discriminate].
Defined.

Lemma string_roundtrip_witness :
  legacy2aidl_string
    (Some (snd (aidl2legacy_string mic_address stale_buffer 32))) 32 = Ok mic_address.
Proof.
  apply (string_roundtrip aosp_size_t mic_address stale_buffer 32);
    first [reflexivity | vm_compute; discriminate | prove_no_NUL].
Defined.

(** A device type with the top bit set is a negative wire value. *)
Lemma handles_roundtrip_witness :
  (VALUE_OR_RETURN legacy <- aidl2legacy_int32_t_audio_devices_t (-2147483644);
   legacy2aidl_audio_devices_t_int32_t legacy) = Ok (-2147483644).
Proof.
  pose proof (handles_roundtrip aosp_static_asserts) as (_ & _ & _ & _ & _ & _ & Hdevices).
  apply (proj1 Hdevices). reflexivity.
Defined.

Lemma bitmaskIsSet_reads_bit_witness :
  bitmaskIsSet int32_t (-2147483648) 31 = Z.testbit (-2147483648) 31.
Proof. apply bitmaskIsSet_reads_bit; [reflexivity|lia]. Defined.

Lemma gain_bit_never_converts_witness :
  failed (aidl2legacy_AudioPortConfig_audio_port_config (device_port 8 joint_gain)).
Proof.
  apply (proj1 (gain_bit_never_converts aosp_mask_declarations) aosp_GAIN_distinct);
    reflexivity.
Defined.

(** For a device source port (INPUT) the wire [output] member is
    BAD_VALUE; the legacy union assigned through [output]
    (AUDIO_OUTPUT_FLAG_PRIMARY, 2) is read through [input] and converts as
    the input flag of that value (AUDIO_INPUT_FLAG_HW_HOTWORD, wire bit
    1). *)
Lemma io_flags_member_follows_direction_witness :
  aidl2legacy_AudioIoFlags_audio_io_flags (media.AudioIoFlags.output 1)
    media.AudioPortRole.SOURCE media.AudioPortType.DEVICE
  = unexpected BAD_VALUE /\
  legacy2aidl_audio_io_flags_AudioIoFlags (audio_io_flags.output AUDIO_OUTPUT_FLAG_PRIMARY)
    AUDIO_PORT_ROLE_SOURCE AUDIO_PORT_TYPE_DEVICE
  = Ok (media.AudioIoFlags.input 2).
Proof.
  pose proof io_flags_member_follows_direction as (_ & Hmismatch & _ & Hlegacy).
  split.
  - apply (proj1 (Hmismatch media.AudioPortRole.SOURCE media.AudioPortType.DEVICE 1)).
    reflexivity.
  - assert (direction_legacy AUDIO_PORT_ROLE_SOURCE AUDIO_PORT_TYPE_DEVICE = Ok INPUT)
      as Hdir by reflexivity.
    rewrite (proj1 (Hlegacy AUDIO_PORT_ROLE_SOURCE AUDIO_PORT_TYPE_DEVICE
                      AUDIO_OUTPUT_FLAG_PRIMARY) Hdir).
    reflexivity.
Defined.

Lemma ext_member_follows_type_witness :
  aidl2legacy_AudioPortConfigExt (media.AudioPortConfigExt.nothing false) 7
    media.AudioPortRole.NONE
  = Abnormal LOG_ALWAYS_FATAL.
Proof.
  pose proof (ext_member_follows_type aosp_distinct_case_labels
                (media.AudioPortConfigExt.nothing false) media.AudioPortRole.NONE)
    as (_ & _ & _ & _ & Hfatal).
  apply Hfatal. apply (bool_decide_unpack _). vm_compute. exact I.
Defined.

Lemma port_config_conversion_returns_witness :
  returns_normally
    (aidl2legacy_AudioPortConfig_audio_port_config (device_port 8 gain_33_values)).
Proof.
  apply (proj1 (port_config_conversion_returns aosp_distinct_case_labels eq_refl)).
Defined.

Lemma patch_converts_elementwise_witness :
  exists legacy,
    aidl2legacy_AudioPatch_audio_patch recording_patch = Ok legacy /\
    audio_patch.num_sinks legacy = size (media.AudioPatch.sinks recording_patch) /\
    audio_patch.num_sources legacy = size (media.AudioPatch.sources recording_patch) /\
    converted_into aidl2legacy_AudioPortConfig_audio_port_config
      (length (media.AudioPatch.sinks recording_patch))
      (media.AudioPatch.sinks recording_patch) (audio_patch.sinks local_init)
      (audio_patch.sinks legacy) /\
    converted_into aidl2legacy_AudioPortConfig_audio_port_config
      (length (media.AudioPatch.sources recording_patch))
      (media.AudioPatch.sources recording_patch) (audio_patch.sources local_init)
      (audio_patch.sources legacy).
Proof.
  eexists. split; [vm_compute; reflexivity|].
  apply (proj1 patch_converts_elementwise recording_patch). vm_compute. reflexivity.
Defined.

Lemma patch_conversion_returns_witness :
  returns_normally (aidl2legacy_AudioPatch_audio_patch patch_17_sinks).
Proof.
  apply (patch_conversion_returns aosp_distinct_case_labels eq_refl eq_refl eq_refl).
Defined.

Lemma gain_values_copied_witness :
  exists legacy,
    aidl2legacy_AudioGainConfig_audio_gain_config joint_gain
      media.AudioPortRole.SOURCE media.AudioPortType.DEVICE = Ok legacy /\
    audio_gain_config.values legacy =
      media.AudioGainConfig.values joint_gain ++
      drop (length (media.AudioGainConfig.values joint_gain))
        (audio_gain_config.values local_init) /\
    Forall (fun x => representable int x = true) (media.AudioGainConfig.values joint_gain).
Proof.
  eexists. split; [vm_compute; reflexivity|].
  apply (proj1 gain_values_copied joint_gain media.AudioPortRole.SOURCE
           media.AudioPortType.DEVICE).
  vm_compute. reflexivity.
Defined.

Lemma convertBitmask_exact_witness : aidl2legacy_int32_t_config_mask 0 = Ok 0.
Proof.
  exact (proj2 (proj2 (convertBitmask_exact unsigned int32_t
                         aidl2legacy_AudioPortConfigType
                         (index2enum_index media.AudioPortConfigType.underlying)
                         (enumToMask_bitmask unsigned)))).
Defined.

(** With the sample-rate bit alone, the gain is not looked at. *)
Lemma unselected_fields_are_ignored_witness :
  aidl2legacy_AudioPortConfig_audio_port_config (device_port 1 gain_33_values) =
  aidl2legacy_AudioPortConfig_audio_port_config (device_port 1 joint_gain).
Proof.
  apply (proj1 unselected_fields_are_ignored (device_port 1 gain_33_values)
           (device_port 1 joint_gain));
    first [reflexivity | intros Hselected; vm_compute in Hselected; discriminate].
Defined.

Lemma config_base_roundtrip_witness :
  exists legacy,
    aidl2legacy_AudioConfigBase_audio_config_base_t music_config_base = Ok legacy /\
    legacy2aidl_audio_config_base_t_AudioConfigBase legacy = Ok music_config_base.
Proof.
  eexists. split; [vm_compute; reflexivity|].
  apply (proj1 (config_base_roundtrip aosp_static_asserts) music_config_base);
    first [prove_int32_fields | reflexivity | vm_compute; reflexivity].
Defined.

Lemma offload_info_gates_witness :
  legacy2aidl_audio_offload_info_t_AudioOffloadInfo short_offload_info
  = unexpected BAD_VALUE.
Proof.
  apply (proj1 offload_info_gates short_offload_info). vm_compute. reflexivity.
Defined.

(** Version 1: the encapsulation mode, the content id and the sync id do
    not come back. *)
Lemma offload_info_roundtrip_witness :
  exists legacy,
    aidl2legacy_AudioOffloadInfo_audio_offload_info_t (music_offload_info 1) = Ok legacy /\
    legacy2aidl_audio_offload_info_t_AudioOffloadInfo legacy
    = Ok (without_version_0_2_fields (music_offload_info 1)).
Proof.
  eexists. split; [vm_compute; reflexivity|].
  apply (offload_info_roundtrip aosp_distinct_case_labels aosp_static_asserts
           aosp_version_sizes eq_refl (music_offload_info 1));
    first [prove_int32_fields | reflexivity | vm_compute; reflexivity].
Defined.

Lemma wire_masks_roundtrip_witness :
  exists legacy,
    aidl2legacy_audio_output_flags_mask 5 = Ok legacy /\
    legacy2aidl_audio_output_flags_mask legacy = Ok 5.
Proof.
  eexists. split; [vm_compute; reflexivity|].
  pose proof (wire_masks_roundtrip aosp_distinct_case_labels aosp_mask_declarations
                aosp_flag_declarations) as (_ & _ & _ & Houtput & _).
  apply (Houtput 5); [reflexivity|vm_compute; reflexivity].
Defined.

Lemma port_config_ext_roundtrip_witness :
  exists legacy,
    aidl2legacy_AudioPortConfigExt (media.AudioPortConfig.ext mic_port)
      media.AudioPortType.DEVICE media.AudioPortRole.SOURCE = Ok legacy /\
    legacy2aidl_AudioPortConfigExt legacy AUDIO_PORT_TYPE_DEVICE AUDIO_PORT_ROLE_SOURCE
    = Ok (ext_image (media.AudioPortConfig.ext mic_port)).
Proof.
  eexists. split; [vm_compute; reflexivity|].
  apply (port_config_ext_roundtrip aosp_distinct_case_labels aosp_static_asserts
           aosp_size_t aosp_address_len (media.AudioPortConfig.ext mic_port)
           media.AudioPortType.DEVICE media.AudioPortRole.SOURCE);
    first [exact (proj2 (proj2 (proj2 mic_port_wire_values)))
          | reflexivity | vm_compute; reflexivity].
Defined.

Lemma port_config_roundtrip_witness :
  exists legacy,
    aidl2legacy_AudioPortConfig_audio_port_config mic_port = Ok legacy /\
    legacy2aidl_audio_port_config_AudioPortConfig legacy = Ok (port_config_image mic_port).
Proof.
  eexists. split; [vm_compute; reflexivity|].
  apply (port_config_roundtrip aosp_distinct_case_labels aosp_static_asserts
           aosp_mask_declarations aosp_flag_declarations aosp_size_t aosp_address_len
           aosp_legacy_GAIN aosp_legacy_GAIN_distinct mic_port);
    [exact mic_port_wire_values|vm_compute; reflexivity].
Defined.

Lemma patch_roundtrip_witness :
  exists legacy,
    aidl2legacy_AudioPatch_audio_patch recording_patch = Ok legacy /\
    legacy2aidl_audio_patch_AudioPatch legacy =
    Ok {| media.AudioPatch.id := 7;
          media.AudioPatch.sinks := [port_config_image record_mix_port];
          media.AudioPatch.sources := [port_config_image mic_port] |}.
Proof.
  eexists. split; [vm_compute; reflexivity|].
  apply (patch_roundtrip aosp_distinct_case_labels aosp_static_asserts
           aosp_mask_declarations aosp_flag_declarations aosp_size_t aosp_address_len
           aosp_legacy_GAIN aosp_legacy_GAIN_distinct recording_patch).
  - reflexivity.
  - apply List.Forall_cons; [exact record_mix_port_wire_values|apply List.Forall_nil].
  - apply List.Forall_cons; [exact mic_port_wire_values|apply List.Forall_nil].
  - vm_compute. reflexivity.
Defined.

Lemma attributes_roundtrip_witness :
  exists legacy,
    aidl2legacy_AudioAttributesInternal_audio_attributes_t media_attributes = Ok legacy /\
    legacy2aidl_audio_attributes_t_AudioAttributesInternal legacy = Ok media_attributes.
Proof.
  eexists. split; [vm_compute; reflexivity|].
  apply (proj1 (attributes_roundtrip aosp_distinct_case_labels aosp_mask_declarations
                  aosp_flag_declarations aosp_size_t aosp_tags_len) media_attributes);
    first [reflexivity | prove_no_NUL | vm_compute; reflexivity].
Defined.

Lemma audio_config_roundtrip_witness :
  exists legacy,
    aidl2legacy_AudioConfig_audio_config_t (music_config 2) = Ok legacy /\
    legacy2aidl_audio_config_t_AudioConfig legacy = Ok (music_config 2).
Proof.
  eexists. split; [vm_compute; reflexivity|].
  apply (audio_config_roundtrip aosp_distinct_case_labels aosp_static_asserts
           aosp_version_sizes eq_refl (music_config 2));
    first [prove_int32_fields | reflexivity | vm_compute; reflexivity].
Defined.

Lemma io_descriptor_roundtrip_witness :
  exists legacy,
    aidl2legacy_AudioIoDescriptor_AudioIoDescriptor recording_descriptor = Ok legacy /\
    legacy2aidl_AudioIoDescriptor_AudioIoDescriptor legacy =
    Ok {| media_more.AudioIoDescriptor.ioHandle := 13;
          media_more.AudioIoDescriptor.patch :=
            {| media.AudioPatch.id := 7;
               media.AudioPatch.sinks := [port_config_image record_mix_port];
               media.AudioPatch.sources := [port_config_image mic_port] |};
          media_more.AudioIoDescriptor.samplingRate := 16000;
          media_more.AudioIoDescriptor.format := 1;
          media_more.AudioIoDescriptor.channelMask := 16;
          media_more.AudioIoDescriptor.frameCount := 960;
          media_more.AudioIoDescriptor.frameCountHAL := 320;
          media_more.AudioIoDescriptor.latency := 20;
          media_more.AudioIoDescriptor.portId := 12 |}.
Proof.
  eexists. split; [vm_compute; reflexivity|].
  apply (io_descriptor_roundtrip aosp_distinct_case_labels aosp_static_asserts
           aosp_mask_declarations aosp_flag_declarations aosp_size_t aosp_address_len
           aosp_legacy_GAIN aosp_legacy_GAIN_distinct recording_descriptor).
  - prove_int32_fields.
  - reflexivity.
  - reflexivity.
  - reflexivity.
  - apply List.Forall_cons; [exact record_mix_port_wire_values|apply List.Forall_nil].
  - apply List.Forall_cons; [exact mic_port_wire_values|apply List.Forall_nil].
  - vm_compute. reflexivity.
Defined.

(** The user id 4294967295 is the wire value -1. *)
Lemma id_handles_roundtrip_witness :
  (VALUE_OR_RETURN aidl <- legacy2aidl_uid_t_int32_t 4294967295;
   aidl2legacy_int32_t_uid_t aidl) = Ok 4294967295.
Proof.
  pose proof (id_handles_roundtrip eq_refl eq_refl eq_refl) as (_ & _ & Huid).
  apply (proj2 Huid). reflexivity.
Defined.

Lemma descriptor_conversions_return_witness :
  returns_normally (aidl2legacy_AudioIoDescriptor_AudioIoDescriptor recording_descriptor).
Proof.
  apply (proj1 (descriptor_conversions_return aosp_distinct_case_labels
                  eq_refl eq_refl eq_refl)).
Defined.
End FurtherWitnesses.
